(* ===== verification/_CoqProject ===== *)
-Q . S2P
Prelude.v
Regex.v
Keywords.v
Store.v
Auth.v
Forms.v
Listings.v
Search.v
Matching.v
Ledger.v
Browse.v
Provider.v
Details.v
Recruiter.v
Student.v
Admin.v
Messages.v
Navigation.v
Stats.v
Home.v
Persist.v
EditProfile.v
Static.v
Theme.v
Adzuna.v
