(* ===== verification/Prelude.v ===== *)
(** * SkillBridge: a verification development of the React client

    The repository is a browser internship marketplace written in React,
    with no server: every piece of state lives in two providers and in
    [localStorage].
    - [src/src/context/AuthContext.jsx]: the identity store (roster,
      session, [login], [signup], [logout], [updateUser]);
    - [src/src/context/DataContext.jsx]: the data provider (storage
      adapter, listings merged with an external job API, applications,
      saved items, search, recommendations, profile checklist);
    - [src/src/data/keywordRelationships.js]: the search's synonym table;
    - the pages ([src/src/pages]) and components ([src/src/components]),
      which read the providers through [useAuth()] / [useData()], keep
      their own [useState] state, run effects after a commit and call the
      providers' operations from event handlers.

    ** How the program is modelled

    Each operation is a Rocq function from the state it reads to the state
    it writes (and its result); fallible code returns a sum whose left
    side is the exception ([js_exn], [auth_error]).  React is modelled as
    the code relies on it: setters enqueue updaters applied at the next
    render ([Ledger.react_state]); a render is a function of the state
    that may throw ([resolve] for an identifier a file does not import,
    [TypeErr] for a property read on [undefined]), and a throwing render
    unmounts the tree (there is no error boundary); an effect runs after
    a commit when its recorded dependencies changed (each page state keeps
    them); an event fires only on an element the last render produced.
    A page is a step relation over (page state, provider state): its
    effects and its controls, each guarded by the render.  Properties of
    runs are proved by rule induction ([star_inv]).  A page that reads a
    key the provider's [value] does not have reads [undefined]
    ([Provider.context_field]).

    ** Files (dependency order, as in [_CoqProject])

    - [Prelude] (this file): JavaScript primitives over ASCII strings and
      integers: [toLowerCase], [includes], [split]/[join] on one
      character, [trim], [Set] and [Map] as insertion-ordered lists,
      [Array.prototype.sort] as a stable insertion sort, a JavaScript
      number ([js_number]: an integer, [NaN] or [Infinity]) and
      [Math.round] of a percentage with its division by zero, the decimal text of an integer ([js_int_string]) and
      [parseInt] ([js_parseInt]) with their round trip, identifiers and
      exceptions of a render, the closure [star]; the hint database [sb]
      and tactic [sb_bool].
    - [Regex]: regular expressions with their inductive semantics and a
      derivative matcher proved equivalent to it; [emailRegex].
    - [Keywords]: the synonym table entry by entry, and property access
      falling through to [Object.prototype].
    - [Store]: [getStorage]/[setStorage]/[getStoredUsers] over a
      [localStorage] class ([Storage], [StorageLaws]) with a
      quota-bounded instance.
    - [Auth]: the identity store; accounts with optional fields,
      [QuotaExceededError] paths.
    - [Forms]: [Signup.jsx] and [Login.jsx]: form state, validation
      effect, submit, render, as step relations.
    - [Listings]: listing records and the merge of local and external
      listings, refining an abstract finite map.
    - [Search]: [getFilteredInternships] with keyword expansion and
      [getSearchableTerms].
    - [Matching]: match percentage, recommendations, profile checklist.
    - [Ledger]: the provider's mutations ([applyForInternship],
      [updateApplicationStatus], [toggleSaveInternship], [addInternship])
      over the React queue, and the derived views.
    - [Browse]: [BrowseInternships.jsx], with array identity (an
      allocation counter) so the re-render loop of its suggestion effect
      is visible.
    - [Provider]: the context values' keys, [getInternship]/[getCompany],
      the profiles, and the external API's guard and record mapping.
    - [Details]: [InternshipCard.jsx], [ApplyModal.jsx],
      [InternshipDetails.jsx].
    - [Recruiter]: [PostInternship.jsx], [RecruiterDashboard.jsx],
      [RecruiterActivityStream.jsx].
    - [Student]: [StudentProfile.jsx], [StudentDashboard.jsx],
      [ProfileImpactMeter.jsx].
    - [Admin]: [AdminPanel.jsx], its local company table and copy of
      [mockInternships], its handlers and role guard, composed with the
      sign-up page of [Forms].
    - [Messages]: [Messages.jsx], its local inbox, filter and selection.
    - [Navigation]: the route table of [App.jsx] with react-router's
      matching (a library: written from its documented rules; escapes in
      parameters are not decoded), and [Navbar.jsx] with its menus by
      session, mobile menu and logout buttons; composed with the redirects
      of [Forms] and the card links of [Details].
    - [Stats]: [DynamicStats.jsx] on the home page: its figures, what it
      reads from the provider's value (with destructuring defaults) and
      the re-render cycle of its effect, with references as in [Browse].
    - [Home]: [Home.jsx]: its links, split into pathname and query as
      react-router does, and the featured cards of the seed with the
      fields they read.
    - [Persist]: [DataProvider]'s five persisted arrays with their
      references: the initialisers reading the store in order
      ([hydrate], [mount]), the setters, and the persistence effects that
      write an array back when its reference changed ([commit]); the
      lifecycle [provider_step] is any interleaving of setters and
      commits, over any [Storage] with its laws.
    - [EditProfile]: [EditProfileForm.jsx] (form state, the effect that
      re-reads the session object, inputs, submit through
      [Auth.updateUser] with its caught error, cancel) as a step relation,
      [EditProfileModal.jsx] (render, click bubbling with
      [stopPropagation]) and [StatusBadge.jsx] (style lookup falling
      through to [Object.prototype]); no page renders the form or the
      badge.
    - [Static]: the anchors of [Footer.jsx], [About.jsx] and
      [Contact.jsx] (full document loads, placeholder fragments, new tabs,
      the mail client), and the contact page as a step function over what
      the browser keeps (control values, open FAQ entries): its form is
      submitted natively by the browser, with no named control.
    - [Theme]: [tailwind.config.js] (the theme extension: spacing, radii,
      font sizes, colours) and Tailwind's colour resolution (a library,
      written from its documented merge, flattening and class lookup)
      over a default palette given as an argument; composed with the
      class names of [StudentDashboard.jsx]'s stat cards,
      [PostInternship.jsx]'s choice buttons and [Contact.jsx]'s
      controls.
    - [Adzuna]: the request of [fetchAdzunaInternships] (its
      [URLSearchParams], written from the WHATWG urlencoded serialiser
      and parser, and its URL), every exit of its [try]/[catch] over a
      network given as a function from URLs to answers, and the
      provider's effect that loads the external listings.

    ** What the theorems show

    Functional specifications of the provider's operations (merge, search,
    matching, recommendations, storage, identity store); invariants of
    their runs (unique applications, unique emails and ids, valid
    accounts from the signup page, approved companies kept by the admin
    panel, an open message always in the inbox, a location always on a
    route, the store mirroring the provider's arrays after each commit,
    the credentials the edit-profile form cannot change); the shape
    [getStorage] guarantees its callers; a refinement of the merged
    listings into a finite map (an abstraction function, one entry per
    key, [addInternship] simulating the abstract insertion); equivalences (the regex matcher with the
    regex's language, the first matching route with the only matching
    route); round trips ([parseInt] of an id's text, the details URL, a
    reload after a commit, a saved form read back, the external
    request's parameters read back from its URL); bounds (percentages,
    the activity stream's size); the error paths of storage (the first
    commit overwriting text [getStorage] kept to prevent data loss, a
    failed write reloading stale data, a failed save leaving the session
    ahead of the store); and the behaviour of whole pages: which renders
    throw (the apply modal, the recruiter dashboard, a profile with a
    LinkedIn link), what no run can do (record an application, show a
    shortlisting to a student, leave the recruiter dashboard's skeleton
    without listings), the endless re-renders of the browse page and of
    the home page's figures, and what concrete runs reach (a 200% match
    through the profile page); which class names of the sources the
    theme styles (no [primary] shade but [600] exists).

    ** Bounds and fuel

    [browse_settle] and [stats_settle] take fuel: the theorems hold for
    every fuel.  The activity stream's loop is bounded by [limit * 5] as
    in the code.  [dec_digits] takes [log2 n] as fuel, proved enough.
    References of arrays and objects come from an allocation counter
    ([Browse], [Stats], [Persist]; the session object in
    [EditProfile]).  Random values ([Math.random]), the clock
    ([Date.now], [new Date]), the host's date parser and the external
    API's response are arguments.

    ** Not modelled

    The network and the JSON decoder behind [fetch] (an argument: the
    answer to each URL); [JSON.parse]/[stringify] are section parameters;
    non-ASCII strings (the urlencoded round trip is proved for 7-bit
    text);
    the bytes a [FileReader] reads (the photo's data URL is an argument
    of the photo step); the registration of the browse page's
    click-outside listener on [document] (a click outside is an event of
    the page); timers except as explicit steps; the text of [About.jsx] and
    the three skeletons (markup with no state, handler or condition);
    CSS beyond which colour a class name resolves to, and Tailwind's
    default palette (an argument); the [alert]s of buttons whose feature
    is pending.
    [mockData.js] is not in the repository: seeds are parameters. *)

From stdpp Require Export base list strings gmap.
From Stdlib Require Export ZArith Ascii String Lia Sorted.
Export ListNotations.

Declare Scope js_scope.
Delimit Scope js_scope with js.
Open Scope string_scope.

(** ** Record ids

    Local listings carry numeric ids ([Date.now()] or the numbers of the
    mock data); listings of the external API carry strings
    ([`adzuna-${job.id}`]).  [===] on two ids is equality of the tagged
    values: a number is never [===] to a string. *)
Inductive jsid : Type :=
| JNum (n : Z)
| JStr (s : string).

#[export] Instance jsid_eq_dec : EqDecision jsid.
Proof. solve_decision. Defined.

(** [a === b] on ids. *)
Definition id_eqb (a b : jsid) : bool := bool_decide (a = b).
Notation "a '===' b" := (id_eqb a b) (at level 70, no associativity) : js_scope.
Open Scope js_scope.

(** ** Characters and strings *)

Definition is_upper (c : ascii) : bool :=
  let n := nat_of_ascii c in (65 <=? n)%nat && (n <=? 90)%nat.
Definition is_lower (c : ascii) : bool :=
  let n := nat_of_ascii c in (97 <=? n)%nat && (n <=? 122)%nat.

(** [toLowerCase] / [toUpperCase] on one ASCII character. *)
Definition js_lower_char (c : ascii) : ascii :=
  if is_upper c then ascii_of_nat (nat_of_ascii c + 32) else c.
Definition js_upper_char (c : ascii) : ascii :=
  if is_lower c then ascii_of_nat (nat_of_ascii c - 32) else c.

(** [s.toLowerCase()] *)
Fixpoint js_lower (s : string) : string :=
  match s with
  | EmptyString => EmptyString
  | String c s' => String (js_lower_char c) (js_lower s')
  end.

(** [term.charAt(0).toUpperCase() + term.slice(1)] *)
Definition js_capitalize (s : string) : string :=
  match s with
  | EmptyString => EmptyString
  | String c s' => String (js_upper_char c) s'
  end.

(** [s.includes(t)]: [t] occurs in [s] at some position. *)
Fixpoint js_includes (s t : string) : bool :=
  String.prefix t s ||
  match s with
  | EmptyString => false
  | String _ s' => js_includes s' t
  end.

(** [s.split(sep)] for a one-character separator: the maximal pieces
    between separators, empty pieces included ([" a".split(' ')] is
    [["", "a"]], [ "".split(' ')] is [[""]]). *)
Fixpoint js_split (sep : ascii) (s : string) : list string :=
  match s with
  | EmptyString => [EmptyString]
  | String c s' =>
      let rest := js_split sep s' in
      if Ascii.eqb c sep then EmptyString :: rest
      else match rest with
           | [] => [String c EmptyString]
           | w :: ws => String c w :: ws
           end
  end.

(** [arr.join(sep)] for a one-character separator. *)
Fixpoint js_join (sep : ascii) (l : list string) : string :=
  match l with
  | [] => EmptyString
  | [w] => w
  | w :: ws => w ++ String sep (js_join sep ws)
  end.

Definition space : ascii := " "%char.

(** [!s] on a string: only the empty string is falsy. *)
Definition js_falsy (s : string) : bool := String.eqb s "".

(** [arr.filter(Boolean)] on an array of strings drops the empty ones. *)
Definition js_nonempty (s : string) : bool := negb (String.eqb s "").

(** The ASCII part of ECMAScript's WhiteSpace and LineTerminator: tab,
    line feed, vertical tab, form feed, carriage return and space.  The
    class [\s] of a regular expression and [String.prototype.trim] both
    use it. *)
Definition js_is_space (c : ascii) : bool :=
  let n := nat_of_ascii c in ((9 <=? n) && (n <=? 13))%nat || (n =? 32)%nat.

Fixpoint js_trim_start (s : string) : string :=
  match s with
  | EmptyString => EmptyString
  | String c s' => if js_is_space c then js_trim_start s' else s
  end.

Fixpoint js_trim_end (s : string) : string :=
  match s with
  | EmptyString => EmptyString
  | String c s' =>
      let r := js_trim_end s' in
      if String.eqb r "" && js_is_space c then EmptyString else String c r
  end.

(** [s.trim()] *)
Definition js_trim (s : string) : string := js_trim_end (js_trim_start s).

(** Whether [s] contains the character [c]. *)
Fixpoint js_has_char (c : ascii) (s : string) : bool :=
  match s with
  | EmptyString => false
  | String d s' => Ascii.eqb d c || js_has_char c s'
  end.

(** Every character of [s] is 7-bit ASCII. *)
Fixpoint js_ascii7 (s : string) : bool :=
  match s with
  | EmptyString => true
  | String c s' => (nat_of_ascii c <? 128)%nat && js_ascii7 s'
  end.

(** ** Numbers and their decimal text

    [Number.prototype.toString] of an integer below [10^21] in absolute
    value (every id the code creates) is its decimal digits, with a minus
    sign when negative; [parseInt(s)] with no radix skips leading white
    space, reads a sign, switches to base 16 on a [0x] or [0X] prefix,
    and reads the longest prefix of digits of the base ([None] is
    [NaN]). *)

Definition js_digit_char (d : Z) : ascii := ascii_of_nat (48 + Z.to_nat d).

(** The decimal digits of [n >= 0], most significant first; [fuel] bounds
    their number. *)
Fixpoint dec_digits (fuel : nat) (n : Z) : list Z :=
  match fuel with
  | O => [n]
  | S f => if (n <? 10)%Z then [n] else (dec_digits f (n / 10) ++ [n mod 10])%list%Z
  end.

(** [`${n}`] for an integer [n]. *)
Definition js_int_string (n : Z) : string :=
  let m := Z.abs n in
  let ds := string_of_list_ascii (map js_digit_char (dec_digits (Z.to_nat (Z.log2 m)) m)) in
  if (n <? 0)%Z then String "-" ds else ds.

(** [`${n}`] for a count. *)
Definition js_number_string (n : nat) : string := js_int_string (Z.of_nat n).

(** The value of a digit character in bases up to 36. *)
Definition js_digit_value (c : ascii) : option Z :=
  let n := Z.of_nat (nat_of_ascii c) in
  if ((48 <=? n) && (n <=? 57))%Z then Some (n - 48)%Z
  else if ((97 <=? n) && (n <=? 122))%Z then Some (n - 87)%Z
  else if ((65 <=? n) && (n <=? 90))%Z then Some (n - 55)%Z
  else None.

(** The longest prefix of base-[radix] digits, read after [acc]; [seen]
    records that a digit was read. *)
Fixpoint parse_digits (radix : Z) (s : string) (acc : Z) (seen : bool) : option Z :=
  match s with
  | EmptyString => if seen then Some acc else None
  | String c s' =>
      match js_digit_value c with
      | Some d => if (d <? radix)%Z then parse_digits radix s' (acc * radix + d) true
                  else if seen then Some acc else None
      | None => if seen then Some acc else None
      end
  end.

(** [parseInt(s)] *)
Definition js_parseInt (s : string) : option Z :=
  let s1 := js_trim_start s in
  let '(sign, s2) := match s1 with
                     | String c r =>
                         if Ascii.eqb c "-" then ((-1)%Z, r)
                         else if Ascii.eqb c "+" then (1%Z, r) else (1%Z, s1)
                     | EmptyString => (1%Z, s1)
                     end in
  let '(radix, s3) := if String.prefix "0x" s2 || String.prefix "0X" s2
                      then (16%Z, substring 2 (String.length s2 - 2) s2)
                      else (10%Z, s2) in
  option_map (Z.mul sign) (parse_digits radix s3 0 false).

(** [set.add(x)] on a [Set] kept as its insertion-ordered list. *)
Definition js_set_add `{EqDecision A} (x : A) (l : list A) : list A :=
  if decide (x ∈ l) then l else l ++ [x].

(** [new Set(l)] *)
Definition js_set_of `{EqDecision A} (l : list A) : list A :=
  fold_left (fun acc x => js_set_add x acc) l [].

(** A number as the percentage code computes it: an integer, [NaN]
    ([0 / 0]) or [Infinity] ([m / 0] for [m > 0]). *)
Inductive js_number : Type :=
| JsNum (z : Z)
| JsNaN
| JsInfinity.

#[export] Instance js_number_eq_dec : EqDecision js_number.
Proof. solve_decision. Defined.

(** [Math.round((m / n) * 100)] for [0 <= m] and [0 < n], computed on the
    exact rational: [floor(100 m / n + 1/2)]. *)
Definition round_pct (m n : Z) : Z := ((200 * m + n) / (2 * n))%Z.

(** [Math.round((m / n) * 100)] for counts [m, n >= 0]: for [n = 0] the
    quotient is [NaN] or [Infinity], which [Math.round] returns. *)
Definition js_round_pct (m n : Z) : js_number :=
  if (n =? 0)%Z then (if (m =? 0)%Z then JsNaN else JsInfinity) else JsNum (round_pct m n).

(** ** Automation shared by the components *)

Create HintDb sb.
Create Rewrite HintDb sb_rw.

(** Settles a closed decidable goal (a membership, a [NoDup] of a concrete
    list) by evaluating its decision procedure. *)
Ltac decide_goal := apply (bool_decide_unpack _); vm_compute; first [exact I | reflexivity].

(** Turns the boolean tests of the code into propositions. *)
Ltac sb_bool :=
  repeat match goal with
  | H : (_ && _)%bool = true |- _ => apply andb_true_iff in H as [? ?]
  | H : (_ || _)%bool = true |- _ => apply orb_true_iff in H
  | H : negb _ = true |- _ => apply negb_true_iff in H
  | H : bool_decide _ = true |- _ => apply bool_decide_eq_true in H
  | H : bool_decide _ = false |- _ => apply bool_decide_eq_false in H
  | H : String.eqb _ _ = true |- _ => apply String.eqb_eq in H
  | H : Ascii.eqb _ _ = true |- _ => apply Ascii.eqb_eq in H
  | |- (_ && _)%bool = true => apply andb_true_iff; split
  | |- negb _ = true => apply negb_true_iff
  | |- bool_decide _ = true => apply bool_decide_eq_true
  end.

(** ** Lemmas on the string primitives *)

Lemma prefix_spec (t s : string) :
  String.prefix t s = true <-> exists q, s = (t ++ q)%string.
Proof.
  revert s; induction t as [|c t IH]; intros s; simpl.
  - split; [intros _; by exists s | intros _; by destruct s].
  - destruct s as [|d s]; simpl.
    + split; [done | intros [q Hq]; discriminate].
    + destruct (ascii_dec c d) as [->|Hne].
      * rewrite IH. split; intros [q Hq]; exists q; [by subst | by injection Hq].
      * split; [done | intros [q Hq]; injection Hq; congruence].
Qed.

(** stdpp declares [String.append] [simpl never]; these equations
    unfold it by one step. *)
Lemma js_append_nil_l (b : string) : ("" ++ b)%string = b.
Proof. reflexivity. Qed.
Lemma js_append_cons (x : ascii) (a b : string) : (String x a ++ b)%string = String x (a ++ b).
Proof. reflexivity. Qed.
Lemma js_append_nil_r (a : string) : (a ++ "")%string = a.
Proof. induction a as [|c a IH]; [reflexivity | by rewrite js_append_cons, IH]. Qed.

Lemma js_append_assoc (a b c : string) : (a ++ (b ++ c))%string = ((a ++ b) ++ c)%string.
Proof. induction a as [|x a IH]; [done | by rewrite !js_append_cons, IH]. Qed.

Lemma js_append_inj_l (p a b : string) : (p ++ a)%string = (p ++ b)%string -> a = b.
Proof. induction p as [|x p IH]; [done | rewrite !js_append_cons; intros [= ?]; by apply IH]. Qed.

(** [s.includes(t)] holds exactly when [t] is a factor of [s]. *)
Lemma js_includes_spec (s t : string) :
  js_includes s t = true <-> exists p q, s = (p ++ t ++ q)%string.
Proof.
  induction s as [|c s IH]; cbn [js_includes]; rewrite orb_true_iff, prefix_spec.
  - split.
    + intros [[q Hq]|]; [exists "", q; exact Hq | done].
    + intros [[|d p] [q Hq]]; [left; exists q; exact Hq | discriminate].
  - rewrite IH. split.
    + intros [[q Hq]|[p [q Hq]]]; [exists "", q; exact Hq | exists (String c p), q; by subst].
    + intros [[|d p] [q Hq]]; [left; exists q; exact Hq | right; exists p, q; by injection Hq].
Qed.

Lemma js_includes_empty (s : string) : js_includes s "" = true.
Proof. apply js_includes_spec. by exists "", s. Qed.

Lemma js_includes_app_l (s1 s2 t : string) :
  js_includes s1 t = true -> js_includes (s1 ++ s2) t = true.
Proof.
  rewrite !js_includes_spec. intros (p & q & ->).
  exists p, (q ++ s2)%string. by rewrite <- !js_append_assoc.
Qed.

Lemma js_includes_app_r (s1 s2 t : string) :
  js_includes s2 t = true -> js_includes (s1 ++ s2) t = true.
Proof.
  rewrite !js_includes_spec. intros (p & q & ->).
  exists (s1 ++ p)%string, q. by rewrite <- !js_append_assoc.
Qed.

Lemma js_lower_char_idem (c : ascii) : js_lower_char (js_lower_char c) = js_lower_char c.
Proof. destruct c as [[] [] [] [] [] [] [] []]; reflexivity. Qed.

Lemma js_lower_idem (s : string) : js_lower (js_lower s) = js_lower s.
Proof. induction s; simpl; [done | by rewrite js_lower_char_idem, IHs]. Qed.

Lemma js_lower_app (s1 s2 : string) :
  js_lower (s1 ++ s2) = (js_lower s1 ++ js_lower s2)%string.
Proof. induction s1 as [|x s1 IH]; [done | rewrite js_append_cons; simpl; by rewrite IH]. Qed.

Lemma js_split_not_nil (sep : ascii) (s : string) : js_split sep s <> [].
Proof.
  induction s as [|c s IH]; simpl; [done |].
  destruct (Ascii.eqb c sep); [done |]. by destruct (js_split sep s).
Qed.

(** [s.split(sep).join(sep)] gives back [s]. *)
Lemma js_join_split (sep : ascii) (s : string) : js_join sep (js_split sep s) = s.
Proof.
  induction s as [|c s IH]; [done |]. cbn [js_split].
  destruct (js_split sep s) as [|w ws] eqn:Es; [by destruct (js_split_not_nil sep s) |].
  destruct (Ascii.eqb c sep) eqn:E.
  - apply Ascii.eqb_eq in E as ->.
    change (js_join sep ("" :: w :: ws)) with (String sep (js_join sep (w :: ws))).
    by rewrite IH.
  - destruct ws as [|w' ws]; [simpl in *; by subst |].
    change (js_join sep (String c w :: w' :: ws))
      with (String c w ++ String sep (js_join sep (w' :: ws)))%string.
    rewrite js_append_cons. f_equal. exact IH.
Qed.

Lemma js_trim_end_empty (s : string) :
  js_trim_end s = "" <-> Forall (fun c => js_is_space c = true) (list_ascii_of_string s).
Proof.
  induction s as [|c s IH]; simpl; [split; [constructor | done] |].
  rewrite Forall_cons, <- IH.
  destruct (String.eqb (js_trim_end s) "") eqn:E; sb_bool;
    destruct (js_is_space c); simpl; split; try naive_solver.
  - intros [_ Hr]. apply String.eqb_neq in E. naive_solver.
Qed.

(** [s.trim()] is empty exactly when [s] is blank: [!s.trim()] is the
    test "only whitespace". *)
Lemma js_trim_empty (s : string) :
  js_trim s = "" <-> Forall (fun c => js_is_space c = true) (list_ascii_of_string s).
Proof.
  unfold js_trim. rewrite js_trim_end_empty.
  induction s as [|c s IH]; simpl; [done |].
  destruct (js_is_space c) eqn:E; simpl; rewrite ?Forall_cons, ?E; naive_solver.
Qed.

(** ** Decimal text and [parseInt] *)

Section Decimal.
Local Open Scope Z_scope.

Lemma js_digit_value_char (d : Z) : 0 <= d < 10 -> js_digit_value (js_digit_char d) = Some d.
Proof.
  intros Hd. assert (d = 0 \/ d = 1 \/ d = 2 \/ d = 3 \/ d = 4 \/ d = 5 \/ d = 6 \/ d = 7 \/
                     d = 8 \/ d = 9) as H by lia.
  repeat destruct H as [->|H]; try reflexivity. subst. reflexivity.
Qed.

Lemma js_digit_char_not_space (d : Z) : 0 <= d < 10 -> js_is_space (js_digit_char d) = false.
Proof.
  intros Hd. assert (d = 0 \/ d = 1 \/ d = 2 \/ d = 3 \/ d = 4 \/ d = 5 \/ d = 6 \/ d = 7 \/
                     d = 8 \/ d = 9) as H by lia.
  repeat destruct H as [->|H]; try reflexivity. subst. reflexivity.
Qed.

Lemma dec_digits_spec (fuel : nat) (n : Z) :
  0 <= n < 10 ^ Z.of_nat (S fuel) ->
  dec_digits fuel n <> [] /\ Forall (fun d => 0 <= d < 10) (dec_digits fuel n) /\
  fold_left (fun a d => a * 10 + d) (dec_digits fuel n) 0 = n.
Proof.
  revert n. induction fuel as [|f IH]; intros n Hn; simpl.
  - split_and!; [done | apply Forall_singleton; lia | lia].
  - destruct (Z.ltb_spec n 10); simpl; [split_and!; [done | apply Forall_singleton; lia | lia] |].
    assert (Hq : 0 <= n / 10 < 10 ^ Z.of_nat (S f)).
    { split; [apply Z.div_pos; lia |]. apply Z.div_lt_upper_bound; [lia |].
      rewrite <- Z.pow_succ_r by lia. replace (Z.succ (Z.of_nat (S f))) with (Z.of_nat (S (S f))) by lia.
      lia. }
    destruct (IH _ Hq) as (Hne & Hall & Hfold). split_and!.
    + by destruct (dec_digits f (n / 10)).
    + apply Forall_app. split; [done | apply Forall_singleton; pose proof (Z.mod_pos_bound n 10); lia].
    + rewrite fold_left_app. simpl. rewrite Hfold. pose proof (Z.div_mod n 10). lia.
Qed.

Lemma dec_digits_enough (m : Z) : 0 <= m -> 0 <= m < 10 ^ Z.of_nat (S (Z.to_nat (Z.log2 m))).
Proof.
  intros Hm. split; [done |]. rewrite Nat2Z.inj_succ, Z2Nat.id by apply Z.log2_nonneg.
  destruct (Z.eq_dec m 0) as [->|Hm0]; [simpl; lia |].
  destruct (Z.log2_spec m) as [_ Hlt]; [lia |].
  eapply Z.lt_le_trans; [exact Hlt |]. apply Z.pow_le_mono_l. lia.
Qed.

Lemma parse_digit_string (ds : list Z) (acc : Z) (seen : bool) :
  Forall (fun d => 0 <= d < 10) ds -> (ds <> [] \/ seen = true) ->
  parse_digits 10 (string_of_list_ascii (map js_digit_char ds)) acc seen =
  Some (fold_left (fun a d => a * 10 + d) ds acc).
Proof.
  revert acc seen. induction ds as [|d ds IH]; intros acc seen Hall Hne;
    cbn [map string_of_list_ascii parse_digits fold_left].
  - destruct Hne as [[] | ->]; done.
  - apply Forall_cons in Hall as [Hd Hall]. rewrite js_digit_value_char by done.
    destruct (Z.ltb_spec d 10); [| lia]. apply IH; [done | by right].
Qed.

(** A digit string does not start with a [0x] or [0X] prefix. *)
Lemma digit_string_no_hex (ds : list Z) :
  Forall (fun d => 0 <= d < 10) ds ->
  (String.prefix "0x" (string_of_list_ascii (map js_digit_char ds)) ||
   String.prefix "0X" (string_of_list_ascii (map js_digit_char ds)))%bool = false.
Proof.
  intros Hall. destruct ds as [|d1 [|d2 ds]]; cbn [map string_of_list_ascii]; [done | |].
  - generalize (js_digit_char d1). intros c. cbn [String.prefix].
    by destruct (ascii_dec "0" c).
  - apply Forall_cons in Hall as [_ Hall]. apply Forall_cons in Hall as [Hd2 _].
    assert (Hx : js_digit_char d2 <> "x"%char /\ js_digit_char d2 <> "X"%char).
    { pose proof (js_digit_value_char d2 Hd2) as Hv.
      split; intros E; rewrite E in Hv; vm_compute in Hv; injection Hv; lia. }
    revert Hx. generalize (string_of_list_ascii (map js_digit_char ds)).
    generalize (js_digit_char d2). generalize (js_digit_char d1). intros c1 c2 r [Hx HX].
    cbn [String.prefix].
    destruct (ascii_dec "0" c1); [|done].
    destruct (ascii_dec "x" c2); [congruence |]. destruct (ascii_dec "X" c2); [congruence | done].
Qed.
End Decimal.

(** [parseInt(`${n}`)] gives back the integer [n]. *)
Lemma parseInt_int_string (n : Z) : js_parseInt (js_int_string n) = Some n.
Proof.
  unfold js_int_string. cbv zeta.
  destruct (dec_digits_spec _ _ (dec_digits_enough (Z.abs n) (Z.abs_nonneg n))) as (Hne & Hall & Hfold).
  remember (dec_digits (Z.to_nat (Z.log2 (Z.abs n))) (Z.abs n)) as ds eqn:Eds. clear Eds.
  set (m := Z.abs n) in *.
  assert (Hparse : parse_digits 10 (string_of_list_ascii (map js_digit_char ds)) 0 false = Some m)
    by (rewrite parse_digit_string by (auto; by left); by rewrite Hfold).
  pose proof (digit_string_no_hex ds Hall) as Hhex.
  destruct ds as [|d ds']; [done |]. apply Forall_cons in Hall as [Hd _].
  assert (Hc : js_is_space (js_digit_char d) = false /\
               Ascii.eqb (js_digit_char d) "-" = false /\ Ascii.eqb (js_digit_char d) "+" = false).
  { split; [by apply js_digit_char_not_space |].
    split; apply Ascii.eqb_neq; intros E; pose proof (js_digit_value_char d Hd) as Hv;
      rewrite E in Hv; vm_compute in Hv; discriminate. }
  revert Hparse Hhex Hc. cbn [map string_of_list_ascii].
  generalize (string_of_list_ascii (map js_digit_char ds')). generalize (js_digit_char d).
  intros c t Hparse Hhex (Hsp & Hminus & Hplus).
  unfold js_parseInt. destruct (Z.ltb_spec n 0).
  - cbn [js_trim_start]. change (js_is_space "-") with false. cbn iota.
    change (Ascii.eqb "-" "-") with true. cbn iota. rewrite Hhex, Hparse. simpl. f_equal. lia.
  - cbn [js_trim_start]. rewrite Hsp. cbn iota. rewrite Hminus, Hplus. cbn iota.
    rewrite Hhex, Hparse. simpl. f_equal. lia.
Qed.

(** The decimal text of an integer id, as a template literal prints it,
    parses back with [parseInt] to the same integer, and two integers
    never print the same text: [`${id}`] and [parseInt] are a round trip. *)
Theorem js_parseInt_int_string (n : Z) :
  js_parseInt (js_int_string n) = Some n /\ (forall m, js_int_string m = js_int_string n -> m = n).
Proof.
  split; [apply parseInt_int_string |]. intros m Hm.
  pose proof (parseInt_int_string m) as Hp. rewrite Hm, parseInt_int_string in Hp. congruence.
Qed.

(** No piece of [s.split(sep)] contains [sep]. *)
Lemma js_split_no_sep (sep : ascii) (s w : string) :
  w ∈ js_split sep s -> ~ exists p q, w = (p ++ String sep q)%string.
Proof.
  revert w. induction s as [|c s IH]; intros w; cbn [js_split].
  - intros ->%list_elem_of_singleton [[|??] [q Hq]]; discriminate.
  - destruct (Ascii.eqb c sep) eqn:E.
    + intros [->|Hw]%elem_of_cons; [intros [[|??] [q Hq]]; discriminate | exact (IH w Hw)].
    + destruct (js_split sep s) as [|w' ws] eqn:Es; [by destruct (js_split_not_nil sep s) |].
      intros [->|Hw]%elem_of_cons; [| apply (IH w); by right].
      intros [[|d p] [q Hq]].
      * injection Hq as -> _. by rewrite Ascii.eqb_refl in E.
      * injection Hq as -> Hq. apply (IH w'); [by left | by exists p, q].
Qed.

Lemma js_has_char_app (c : ascii) (a b : string) :
  js_has_char c (a ++ b) = js_has_char c a || js_has_char c b.
Proof. induction a as [|d a IH]; [done |]. rewrite js_append_cons. cbn [js_has_char]. by rewrite IH, orb_assoc. Qed.

Lemma js_ascii7_app (a b : string) : js_ascii7 (a ++ b) = js_ascii7 a && js_ascii7 b.
Proof. induction a as [|d a IH]; [done |]. rewrite js_append_cons. cbn [js_ascii7]. by rewrite IH, andb_assoc. Qed.

(** A string without [sep] splits to itself. *)
Lemma js_split_free (sep : ascii) (w : string) : js_has_char sep w = false -> js_split sep w = [w].
Proof.
  induction w as [|c w IH]; [done |]. cbn. intros [Hc Hw]%orb_false_iff.
  by rewrite Hc, IH.
Qed.

Lemma js_split_app_sep (sep : ascii) (w rest : string) :
  js_has_char sep w = false -> js_split sep (w ++ String sep rest) = w :: js_split sep rest.
Proof.
  induction w as [|c w IH]; cbn [js_has_char];
    [intros _; rewrite js_append_nil_l; cbn [js_split]; by rewrite Ascii.eqb_refl |].
  intros [Hc Hw]%orb_false_iff. rewrite js_append_cons. cbn [js_split]. by rewrite Hc, IH.
Qed.

(** [arr.join(sep).split(sep)] gives back a non-empty array whose strings
    do not contain [sep]. *)
Lemma js_split_join (sep : ascii) (l : list string) :
  l <> [] -> Forall (fun w => js_has_char sep w = false) l -> js_split sep (js_join sep l) = l.
Proof.
  intros Hne Hl. induction Hl as [| w l Hw Hl IH]; [done |].
  destruct l as [| w' l]; [by apply js_split_free |].
  cbn [js_join]. rewrite js_split_app_sep by done. f_equal. by apply IH.
Qed.

(** The decimal text of an integer is ASCII. *)
Lemma js_int_string_ascii7 (n : Z) : js_ascii7 (js_int_string n) = true.
Proof.
  assert (Hds : forall ds : list Z, Forall (fun d => 0 <= d < 10)%Z ds ->
                  js_ascii7 (string_of_list_ascii (map js_digit_char ds)) = true).
  { induction 1 as [| d ds Hd _ IH]; [done |]. cbn. rewrite IH, andb_true_r.
    unfold js_digit_char. rewrite Ascii.nat_ascii_embedding by lia. apply Nat.ltb_lt. lia. }
  destruct (dec_digits_spec (Z.to_nat (Z.log2 (Z.abs n))) (Z.abs n)) as (_ & Hall & _);
    [apply dec_digits_enough; lia |].
  unfold js_int_string. destruct (n <? 0)%Z; cbn [js_ascii7]; rewrite Hds by done; reflexivity.
Qed.

Lemma elem_of_js_set_add `{EqDecision A} (x y : A) (l : list A) :
  y ∈ js_set_add x l <-> y = x \/ y ∈ l.
Proof.
  unfold js_set_add. case_decide; rewrite ?elem_of_app, ?list_elem_of_singleton;
    naive_solver.
Qed.

Lemma js_set_add_NoDup `{EqDecision A} (x : A) (l : list A) :
  NoDup l -> NoDup (js_set_add x l).
Proof.
  unfold js_set_add. case_decide; [done |].
  intros Hl. apply NoDup_app; split_and!; [done | | apply NoDup_singleton].
  intros y Hy ->%list_elem_of_singleton. done.
Qed.

Lemma elem_of_js_set_of `{EqDecision A} (x : A) (l : list A) :
  x ∈ js_set_of l <-> x ∈ l.
Proof.
  unfold js_set_of. cut (forall acc, x ∈ fold_left (fun a y => js_set_add y a) l acc
                                     <-> x ∈ acc \/ x ∈ l).
  { intros ->. set_solver. }
  induction l as [|y l IH]; intros acc; simpl; [set_solver |].
  rewrite IH, elem_of_js_set_add. set_solver.
Qed.

Lemma js_set_of_NoDup `{EqDecision A} (l : list A) : NoDup (js_set_of l).
Proof.
  unfold js_set_of. cut (forall acc, NoDup acc -> NoDup (fold_left (fun a y => js_set_add y a) l acc)).
  { intros H. apply H, NoDup_nil_2. }
  induction l as [|y l IH]; intros acc Hacc; simpl; [done |].
  by apply IH, js_set_add_NoDup.
Qed.

Local Open Scope Z_scope.

(** [Math.round((m / n) * 100)] stays within [0, 100] when [m <= n]. *)
Lemma round_pct_bounds (m n : Z) :
  0 <= m <= n -> 0 < n -> 0 <= round_pct m n <= 100.
Proof.
  intros Hm Hn. unfold round_pct. split.
  - apply Z.div_pos; lia.
  - enough ((200 * m + n) / (2 * n) < 101) by lia.
    apply Z.div_lt_upper_bound; lia.
Qed.

Lemma round_pct_full (n : Z) : 0 < n -> round_pct n n = 100.
Proof.
  intros Hn. unfold round_pct.
  replace (200 * n + n) with (100 * (2 * n) + n) by lia.
  rewrite Z.div_add_l by lia. rewrite Z.div_small by lia. lia.
Qed.

Lemma js_round_pct_pos (m n : Z) : 0 < n -> js_round_pct m n = JsNum (round_pct m n).
Proof. intros Hn. unfold js_round_pct. by rewrite (proj2 (Z.eqb_neq n 0)) by lia. Qed.

#[export] Hint Resolve js_includes_empty js_includes_app_l js_includes_app_r
  js_set_add_NoDup js_set_of_NoDup js_split_not_nil : sb.
#[export] Hint Rewrite js_lower_idem js_lower_app js_join_split : sb_rw.

(** ** A JavaScript [Map]

    A [Map] keeps its entries in first-insertion order; [m.set(k, v)] on a
    present key replaces the value in place, on an absent key appends the
    entry.  [Array.from(m.values())] is [map snd]. *)
Section JsMap.
Context {K V : Type} `{EqDecision K}.

Fixpoint jsmap_set (k : K) (v : V) (m : list (K * V)) : list (K * V) :=
  match m with
  | [] => [(k, v)]
  | (k', v') :: m' => if decide (k = k') then (k, v) :: m' else (k', v') :: jsmap_set k v m'
  end.

(** [m.get(k)] *)
Fixpoint jsmap_get (k : K) (m : list (K * V)) : option V :=
  match m with
  | [] => None
  | (k', v') :: m' => if decide (k = k') then Some v' else jsmap_get k m'
  end.



Lemma jsmap_get_set (k j : K) (v : V) (m : list (K * V)) :
  jsmap_get j (jsmap_set k v m) = if decide (j = k) then Some v else jsmap_get j m.
Proof.
  induction m as [|[k' v'] m IH]; simpl.
  - repeat case_decide; congruence.
  - repeat (case_decide; simpl); subst; try congruence; done.
Qed.

(** [m.set(k, v)] on an absent key appends the entry. *)
Lemma jsmap_set_absent (k : K) (v : V) (m : list (K * V)) :
  jsmap_get k m = None -> jsmap_set k v m = (m ++ [(k, v)])%list.
Proof.
  induction m as [|[k' v'] m IH]; simpl; [done |].
  case_decide; [discriminate |]. intros Hg. by rewrite IH.
Qed.

Lemma elem_of_jsmap_set_keys (k j : K) (v : V) (m : list (K * V)) :
  j ∈ map fst (jsmap_set k v m) <-> j = k \/ j ∈ map fst m.
Proof.
  induction m as [|[k' v'] m IH]; simpl.
  - set_solver.
  - case_decide; subst; simpl; rewrite ?elem_of_cons, ?IH; naive_solver.
Qed.

Lemma jsmap_set_keys_NoDup (k : K) (v : V) (m : list (K * V)) :
  NoDup (map fst m) -> NoDup (map fst (jsmap_set k v m)).
Proof.
  induction m as [|[k' v'] m IH]; simpl; intros Hnd.
  - constructor; [set_solver | constructor].
  - apply NoDup_cons in Hnd as [Hn Hnd]. case_decide; subst; simpl.
    + by constructor.
    + constructor; [rewrite elem_of_jsmap_set_keys; naive_solver | by apply IH].
Qed.
End JsMap.

(** ** Exceptions

    Code that can throw returns [inl] of the error, [inr] of its value;
    [x <- c ;; k] propagates the first exception, as [throw] does through
    the callers. *)
Notation "x <- c ;; k" := (match c with inl e => inl e | inr x => k end)
  (at level 60, c at next level, right associativity) : js_scope.

(** [arr.filter(cb)] with a callback that may throw: the callback runs on
    the elements in order and the first exception escapes. *)
Fixpoint js_filter_throw {E A : Type} (cb : A -> E + bool) (l : list A) : E + list A :=
  match l with
  | [] => inr []
  | x :: l' =>
      b <- cb x ;;
      r <- js_filter_throw cb l' ;;
      inr (if b then x :: r else r)
  end.

Lemma js_filter_throw_pure {E A : Type} (cb : A -> E + bool) (p : A -> bool) (l : list A) :
  (forall x, x ∈ l -> cb x = inr (p x)) -> js_filter_throw cb l = inr (List.filter p l).
Proof.
  induction l as [|x l IH]; simpl; intros Hcb; [done |].
  rewrite Hcb by (left; done). rewrite IH by (intros y Hy; apply Hcb; by right).
  simpl. by destruct (p x).
Qed.

Lemma js_filter_throw_inl {E A : Type} (cb : A -> E + bool) (l : list A) (e : E) :
  js_filter_throw cb l = inl e -> exists x, x ∈ l /\ cb x = inl e.
Proof.
  induction l as [|x l IH]; simpl; [done |].
  destruct (cb x) eqn:Hx; [intros [= ->]; exists x; split; [left | done] |].
  destruct (js_filter_throw cb l); [|done]. intros [= ->].
  destruct (IH eq_refl) as (y & Hy & Hcb). exists y; split; [by right | done].
Qed.

Lemma elem_of_list_filter_bool {A : Type} (p : A -> bool) (l : list A) (x : A) :
  x ∈ List.filter p l <-> x ∈ l /\ p x = true.
Proof. rewrite !list_elem_of_In. apply filter_In. Qed.

Lemma list_filter_bool_id {A : Type} (p : A -> bool) (l : list A) :
  (forall x, x ∈ l -> p x = true) -> List.filter p l = l.
Proof.
  induction l as [|x l IH]; simpl; intros Hp; [done |].
  rewrite Hp by (left; done). f_equal. apply IH. intros y Hy. apply Hp. by right.
Qed.

(** ** [Array.prototype.sort]

    [arr.sort(cmp)] is a stable sort (ECMAScript 2019 on): [js_sort] is an
    insertion sort that processes the array left to right and inserts each
    element after every element that does not compare greater, so that
    elements comparing equal keep their order.  For a consistent
    comparator the stable sorted permutation is unique, so any stable sort
    is a faithful model. *)
Fixpoint js_insert {A : Type} (cmp : A -> A -> Z) (x : A) (l : list A) : list A :=
  match l with
  | [] => [x]
  | y :: l' => if (0 <? cmp y x)%Z then x :: l else y :: js_insert cmp x l'
  end.

Definition js_sort {A : Type} (cmp : A -> A -> Z) (l : list A) : list A :=
  fold_left (fun acc x => js_insert cmp x acc) l [].

(** The default comparison of [sort()] on ASCII strings. *)
Definition js_string_cmp (a b : string) : Z :=
  match String.compare a b with Lt => -1 | Eq => 0 | Gt => 1 end.

Lemma js_string_cmp_antisym (a b : string) :
  (0 < js_string_cmp a b)%Z -> (js_string_cmp b a < 0)%Z.
Proof.
  unfold js_string_cmp. rewrite (String.compare_antisym b a).
  by destruct (String.compare a b).
Qed.

Section JsSort.
Context {A : Type} (cmp : A -> A -> Z).

Lemma js_insert_perm (x : A) (l : list A) : js_insert cmp x l ≡ₚ x :: l.
Proof.
  induction l as [|y l IH]; simpl; [done |].
  destruct (0 <? cmp y x)%Z; [done |]. rewrite IH. apply Permutation_swap.
Qed.

Lemma js_sort_perm (l : list A) : js_sort cmp l ≡ₚ l.
Proof.
  unfold js_sort. cut (forall acc, fold_left (fun acc x => js_insert cmp x acc) l acc ≡ₚ acc ++ l).
  { intros H. apply H. }
  induction l as [|x l IH]; intros acc; simpl; [by rewrite app_nil_r |].
  rewrite IH, js_insert_perm. apply Permutation_middle.
Qed.

(** A comparator whose sign is antisymmetric, as [b.k - a.k] and the
    string order are. *)
Hypothesis cmp_antisym : forall a b, (0 < cmp a b)%Z -> (cmp b a < 0)%Z.

Lemma js_insert_sorted (x : A) (l : list A) :
  Sorted (fun a b => cmp a b <= 0)%Z l -> Sorted (fun a b => cmp a b <= 0)%Z (js_insert cmp x l).
Proof.
  induction l as [|y l IH]; simpl; intros Hs; [by repeat constructor |].
  destruct (Z.ltb_spec 0 (cmp y x)) as [Hlt|Hge].
  - constructor; [done | constructor]. specialize (cmp_antisym _ _ Hlt). lia.
  - apply Sorted_inv in Hs as [Hs Hhd]. constructor; [by apply IH |].
    destruct l as [|z l]; simpl; [by constructor |].
    inversion Hhd; subst. destruct (0 <? cmp z x)%Z; by constructor.
Qed.

Lemma js_sort_sorted (l : list A) : Sorted (fun a b => cmp a b <= 0)%Z (js_sort cmp l).
Proof.
  unfold js_sort. cut (forall acc, Sorted (fun a b => cmp a b <= 0)%Z acc ->
    Sorted (fun a b => cmp a b <= 0)%Z (fold_left (fun acc x => js_insert cmp x acc) l acc)).
  { intros H. apply H. constructor. }
  induction l as [|x l IH]; intros acc Hacc; simpl; [done |].
  by apply IH, js_insert_sorted.
Qed.
End JsSort.

Lemma Sorted_weaken {A : Type} (R R' : A -> A -> Prop) (l : list A) :
  (forall a b, R a b -> R' a b) -> Sorted R l -> Sorted R' l.
Proof.
  intros HR Hs. induction Hs as [|a l Hs IH Hhd]; constructor; [done |].
  destruct Hhd; constructor; auto.
Qed.

Lemma Sorted_app_l {A : Type} (R : A -> A -> Prop) (l1 l2 : list A) :
  Sorted R (l1 ++ l2) -> Sorted R l1.
Proof.
  induction l1 as [|a l1 IH]; simpl; intros Hs; [constructor |].
  apply Sorted_inv in Hs as [Hs Hhd]. constructor; [by apply IH |].
  destruct l1; [constructor | inversion Hhd; by constructor].
Qed.

(** In a list sorted by a transitive relation, every element of a prefix
    is related to every element of the rest. *)
Lemma Sorted_app_across {A : Type} (R : A -> A -> Prop) (Htr : Transitive R) (l1 l2 : list A) :
  Sorted R (l1 ++ l2) -> forall x y, x ∈ l1 -> y ∈ l2 -> R x y.
Proof.
  intros Hs. apply Sorted_StronglySorted in Hs; [|exact Htr].
  induction l1 as [|a l1 IH]; simpl in *; intros x y Hx Hy; [set_solver |].
  apply StronglySorted_inv in Hs as [Hs Hall]. rewrite Forall_forall in Hall.
  apply elem_of_cons in Hx as [->|Hx]; [|by apply IH].
  apply Hall, elem_of_app. by right.
Qed.

(** A sorted list whose elements all satisfy [P] is sorted by any
    relation that follows from the first one on elements of [P]. *)
Lemma Sorted_weaken_on {A : Type} (P : A -> Prop) (R R' : A -> A -> Prop) (l : list A) :
  Forall P l -> (forall a b, P a -> P b -> R a b -> R' a b) -> Sorted R l -> Sorted R' l.
Proof.
  intros Hl Himp Hs. induction Hs as [|a l Hs IH Hhd]; [constructor |].
  apply Forall_cons in Hl as [Ha Hl]. constructor; [by apply IH |].
  destruct Hhd as [|b l' Hab]; constructor.
  apply Forall_cons in Hl as [Hb _]. by apply Himp.
Qed.

(** ** Exceptions of a render

    A render that throws (an unbound identifier, a property read on
    [undefined]) unmounts the whole React tree when no error boundary
    catches it; the code has none.  The render models return [inl]. *)
Inductive js_exn : Type :=
| TypeErr (msg : string)
| ReferenceErr (msg : string).

(** Evaluating an identifier of a module: [ReferenceError] when the module
    neither imports nor declares it. *)
Definition resolve (scope : list string) (x : string) : js_exn + unit :=
  if decide (x ∈ scope) then inr tt else inl (ReferenceErr (x ++ " is not defined")).

(** [arr.find(p)] returns the only element satisfying [p]. *)
Lemma list_find_unique {A : Type} (p : A -> bool) (l : list A) (x : A) :
  x ∈ l -> p x = true -> (forall y, y ∈ l -> p y = true -> y = x) -> List.find p l = Some x.
Proof.
  induction l as [|y l IH]; intros Hx Hp Hu; [by apply not_elem_of_nil in Hx |]. simpl.
  destruct (p y) eqn:Hy; [f_equal; apply Hu; [left | done] |].
  apply elem_of_cons in Hx as [->|Hx]; [congruence |].
  apply IH; [done | done | intros z Hz; apply Hu; by right].
Qed.

(** ** Reachability

    [star R a b]: [b] is reached from [a] by zero or more [R] steps.
    [star_ind_inv] is the rule-induction principle for invariants. *)
Inductive star {A : Type} (R : A -> A -> Prop) : A -> A -> Prop :=
| star_refl a : star R a a
| star_step a b c : star R a b -> R b c -> star R a c.

Lemma star_inv {A : Type} (R : A -> A -> Prop) (P : A -> Prop) (a b : A) :
  (forall x y, P x -> R x y -> P y) -> P a -> star R a b -> P b.
Proof. intros Hstep Ha Hs. induction Hs; eauto. Qed.

(** A run is built forwards, one step at a time. *)
Lemma star_left {A : Type} (R : A -> A -> Prop) (a b c : A) :
  R a b -> star R b c -> star R a c.
Proof.
  intros Hab Hbc. induction Hbc as [|b' c' d Hs IH Hcd]; [econstructor; [constructor | done] |].
  econstructor; [by apply IH | done].
Qed.

(** ** Lists updated by [map] and [filter] by id

    The handlers that rewrite a row by id ([arr.map(x => x.id === id ? ... : x)])
    or drop it ([arr.filter(x => x.id !== id)]) share these. *)
Section ById.
Context {A B : Type}.

Lemma map_filter_sublist (f : A -> B) (p : A -> bool) (l : list A) :
  map f (List.filter p l) `sublist_of` map f l.
Proof.
  induction l as [|x l IH]; simpl; [done |].
  destruct (p x); simpl; [by apply sublist_skip | by apply sublist_cons].
Qed.

Lemma NoDup_map_filter (f : A -> B) (p : A -> bool) (l : list A) :
  NoDup (map f l) -> NoDup (map f (List.filter p l)).
Proof. intros Hnd. eapply sublist_NoDup; [exact Hnd | apply map_filter_sublist]. Qed.

(** Two elements of a list with distinct keys and the same key are equal. *)
Lemma NoDup_map_inj (f : A -> B) (l : list A) (x y : A) :
  NoDup (map f l) -> x ∈ l -> y ∈ l -> f x = f y -> x = y.
Proof.
  induction l as [|z l IH]; simpl; intros Hnd Hx Hy Hf; [by apply not_elem_of_nil in Hx |].
  apply NoDup_cons in Hnd as [Hz Hnd].
  apply elem_of_cons in Hx as [->|Hx]; apply elem_of_cons in Hy as [->|Hy]; auto;
    exfalso; apply Hz; [rewrite Hf | rewrite <- Hf]; by apply list_elem_of_fmap_2.
Qed.

(** A [map] that keeps the key of every element keeps the keys. *)
Lemma map_keys_map (f : A -> B) (g : A -> A) (l : list A) :
  (forall x, f (g x) = f x) -> map f (map g l) = map f l.
Proof. intros Hg. rewrite map_map. apply map_ext, Hg. Qed.
End ById.

#[export] Hint Resolve map_filter_sublist NoDup_map_filter : sb.
