(* ===== verification/Regex.v ===== *)
(** * Regular expressions: the [emailRegex] of the sign-in forms

    [Signup.jsx] (line 28) and [Login.jsx] (line 17) validate an address
    with [/^[^\s@]+@[^\s@]+\.[^\s@]+$/.test(email)].  The literal is
    translated into the syntax [re] below; [RegExp.prototype.test] on an
    expression anchored at both ends is whole-string matching, computed
    here by Brzozowski derivatives ([re_matches]).  The matcher is proved
    equivalent to the inductive semantics [in_re], and the email
    expression is characterised as "one [@], a non-empty local part, a
    domain with a dot that is neither its first nor its last character,
    and no whitespace".

    [\s] on ASCII is [js_is_space] of the prelude: the tab, line feed,
    vertical tab, form feed, carriage return and space. *)

From S2P Require Import Prelude.

Module Regex.

Open Scope list_scope.

(** A character class is a boolean test on a character. *)
Inductive re : Type :=
| RNone
| REps
| RClass (p : ascii -> bool)
| RSeq (r1 r2 : re)
| RAlt (r1 r2 : re)
| RStar (r : re).

(** [r+] *)
Definition RPlus (r : re) : re := RSeq r (RStar r).

(** A literal character. *)
Definition RChr (c : ascii) : re := RClass (fun d => Ascii.eqb d c).

Inductive in_re : re -> list ascii -> Prop :=
| MEps : in_re REps []
| MClass p c : p c = true -> in_re (RClass p) [c]
| MSeq r1 r2 w1 w2 : in_re r1 w1 -> in_re r2 w2 -> in_re (RSeq r1 r2) (w1 ++ w2)
| MAltL r1 r2 w : in_re r1 w -> in_re (RAlt r1 r2) w
| MAltR r1 r2 w : in_re r2 w -> in_re (RAlt r1 r2) w
| MStar0 r : in_re (RStar r) []
| MStarApp r w1 w2 : in_re r w1 -> in_re (RStar r) w2 -> in_re (RStar r) (w1 ++ w2).

Fixpoint nullable (r : re) : bool :=
  match r with
  | RNone | RClass _ => false
  | REps | RStar _ => true
  | RSeq r1 r2 => nullable r1 && nullable r2
  | RAlt r1 r2 => nullable r1 || nullable r2
  end.

Fixpoint deriv (c : ascii) (r : re) : re :=
  match r with
  | RNone | REps => RNone
  | RClass p => if p c then REps else RNone
  | RSeq r1 r2 =>
      if nullable r1 then RAlt (RSeq (deriv c r1) r2) (deriv c r2)
      else RSeq (deriv c r1) r2
  | RAlt r1 r2 => RAlt (deriv c r1) (deriv c r2)
  | RStar r1 => RSeq (deriv c r1) (RStar r1)
  end.

Fixpoint derivs (w : list ascii) (r : re) : re :=
  match w with [] => r | c :: w' => derivs w' (deriv c r) end.

(** [/^r$/.test(s)] *)
Definition re_matches (r : re) (s : string) : bool :=
  nullable (derivs (list_ascii_of_string s) r).

(** [[^\s@]] *)
Definition not_space_at (c : ascii) : bool :=
  negb (js_is_space c) && negb (Ascii.eqb c "@"%char).

(** [/^[^\s@]+@[^\s@]+\.[^\s@]+$/] *)
Definition emailRegex : re :=
  RSeq (RPlus (RClass not_space_at))
    (RSeq (RChr "@"%char)
       (RSeq (RPlus (RClass not_space_at))
          (RSeq (RChr "."%char) (RPlus (RClass not_space_at))))).

(** ** The matcher against the semantics *)

Lemma nullable_spec (r : re) : nullable r = true <-> in_re r [].
Proof.
  induction r as [| |p|r1 IH1 r2 IH2|r1 IH1 r2 IH2|r1 IH1]; simpl; split; intros H;
    try done; try (inversion H; done).
  - constructor.
  - apply andb_true_iff in H as [H1 H2]. apply (MSeq _ _ [] []); naive_solver.
  - inversion H; subst.
    match goal with Hw : _ ++ _ = [] |- _ => apply app_eq_nil in Hw as [-> ->] end.
    apply andb_true_iff. naive_solver.
  - apply orb_true_iff in H as [H|H]; [apply MAltL | apply MAltR]; naive_solver.
  - apply orb_true_iff. inversion H; subst; naive_solver.
  - constructor.
Qed.

(** A non-empty word of [r*] starts with a non-empty word of [r]. *)
Lemma in_star_cons (r : re) (c : ascii) (w : list ascii) :
  in_re (RStar r) (c :: w) ->
  exists w1 w2, w = w1 ++ w2 /\ in_re r (c :: w1) /\ in_re (RStar r) w2.
Proof.
  intros H. remember (RStar r) as rs eqn:Er. remember (c :: w) as cw eqn:Ew.
  revert c w Ew. induction H; intros c0 w0 Ew; try discriminate.
  injection Er as ->. destruct w1 as [|c1 w1].
  - by apply IHin_re2.
  - injection Ew as -> <-. by exists w1, w2.
Qed.

Lemma deriv_spec (c : ascii) (r : re) (w : list ascii) :
  in_re (deriv c r) w <-> in_re r (c :: w).
Proof.
  revert w. induction r as [| |p|r1 IH1 r2 IH2|r1 IH1 r2 IH2|r1 IH1]; intros w; simpl.
  - split; intros H; inversion H.
  - split; intros H; inversion H.
  - destruct (p c) eqn:Hp; split; intros H; inversion H; subst; try constructor; congruence.
  - split.
    + destruct (nullable r1) eqn:Hn.
      * intros H. inversion H; subst.
        -- match goal with Hs : in_re (RSeq _ _) _ |- _ => inversion Hs; subst end.
           rewrite app_comm_cons. constructor; [by apply IH1 | done].
        -- apply (MSeq _ _ [] (c :: w)); [by apply nullable_spec | by apply IH2].
      * intros H. inversion H; subst. rewrite app_comm_cons. constructor; [by apply IH1 | done].
    + intros H. inversion H as [| |? ? w1 w2 H1 H2| | | |]; subst.
      match goal with Hw : w1 ++ w2 = _ |- _ => revert Hw end.
      destruct w1 as [|c1 w1]; simpl; intros Hw.
      * subst. assert (nullable r1 = true) as -> by (by apply nullable_spec).
        apply MAltR. by apply IH2.
      * injection Hw as -> <-. assert (Hs : in_re (RSeq (deriv c r1) r2) (w1 ++ w2))
          by (constructor; [by apply IH1 | done]).
        destruct (nullable r1); [by apply MAltL | done].
  - split; intros H; inversion H; subst;
      [apply MAltL; by apply IH1 | apply MAltR; by apply IH2
      |apply MAltL; by apply IH1 | apply MAltR; by apply IH2].
  - split.
    + intros H. inversion H; subst. rewrite app_comm_cons. constructor; [by apply IH1 | done].
    + intros (w1 & w2 & -> & H1 & H2)%in_star_cons. constructor; [by apply IH1 | done].
Qed.

Lemma derivs_spec (w v : list ascii) (r : re) : in_re (derivs w r) v <-> in_re r (w ++ v).
Proof.
  revert r. induction w as [|c w IH]; intros r; simpl; [done |].
  rewrite IH. apply deriv_spec.
Qed.

(** The derivative matcher decides the semantics. *)
Lemma re_matches_spec (r : re) (s : string) :
  re_matches r s = true <-> in_re r (list_ascii_of_string s).
Proof.
  unfold re_matches. rewrite nullable_spec, derivs_spec. by rewrite app_nil_r.
Qed.

(** ** Inversion lemmas of the semantics *)

Lemma in_seq (r1 r2 : re) (w : list ascii) :
  in_re (RSeq r1 r2) w <-> exists w1 w2, w = w1 ++ w2 /\ in_re r1 w1 /\ in_re r2 w2.
Proof.
  split; [intros H; inversion H; subst; eauto | intros (w1 & w2 & -> & ? & ?); by constructor].
Qed.

Lemma in_chr (c : ascii) (w : list ascii) : in_re (RChr c) w <-> w = [c].
Proof.
  split; [intros H; inversion H; subst; sb_bool; congruence
         | intros ->; constructor; apply Ascii.eqb_refl].
Qed.

Lemma in_star_class (p : ascii -> bool) (w : list ascii) :
  in_re (RStar (RClass p)) w <-> Forall (fun c => p c = true) w.
Proof.
  split.
  - intros H. remember (RStar (RClass p)) as r eqn:Er. induction H; try discriminate; [done |].
    injection Er as ->. apply Forall_app. split; [|auto].
    match goal with Hc : in_re (RClass p) _ |- _ => inversion Hc; subst end. by constructor.
  - induction 1 as [|c w Hc _ IH]; [constructor |].
    apply (MStarApp _ [c] w); [by constructor | done].
Qed.

Lemma in_plus_class (p : ascii -> bool) (w : list ascii) :
  in_re (RPlus (RClass p)) w <-> w <> [] /\ Forall (fun c => p c = true) w.
Proof.
  unfold RPlus. rewrite in_seq. split.
  - intros (w1 & w2 & -> & H1 & H2%in_star_class). inversion H1; subst.
    split; [done | by constructor].
  - intros [Hne Hall]. destruct w as [|c w]; [done |]. apply Forall_cons in Hall as [Hc Hall].
    exists [c], w. split; [done |]. split; [by constructor | by apply in_star_class].
Qed.

(** A word of [[^\s@]+]. *)
Definition email_part (w : list ascii) : Prop :=
  w <> [] /\ Forall (fun c => not_space_at c = true) w.

(** C32: The email expression accepts exactly the strings [a@b.c] with [a],
    [b] and [c] non-empty and free of whitespace and [@] ([b] and [c] may
    contain dots). *)
Lemma emailRegex_spec (s : string) :
  re_matches emailRegex s = true <->
  exists a b c, list_ascii_of_string s = a ++ "@"%char :: b ++ "."%char :: c /\
    email_part a /\ email_part b /\ email_part c.
Proof.
  rewrite re_matches_spec. unfold emailRegex, email_part. split.
  - intros (a & w1 & -> & Ha%in_plus_class & H1)%in_seq.
    apply in_seq in H1 as (w2 & w3 & -> & ->%in_chr & H2).
    apply in_seq in H2 as (b & w4 & -> & Hb%in_plus_class & H3).
    apply in_seq in H3 as (w5 & c & -> & ->%in_chr & Hc%in_plus_class).
    by exists a, b, c.
  - intros (a & b & c & -> & Ha & Hb & Hc).
    apply in_seq. exists a, ("@"%char :: b ++ "."%char :: c).
    split; [done |]. split; [by apply in_plus_class |].
    apply (in_seq _ _ (["@"%char] ++ _)). eexists _, _. split; [done |]. split; [by apply in_chr |].
    apply in_seq. exists b, ("."%char :: c). split; [done |]. split; [by apply in_plus_class |].
    apply (in_seq _ _ (["."%char] ++ _)). eexists _, _. split; [done |].
    split; [by apply in_chr | by apply in_plus_class].
Qed.

End Regex.
