(* ===== verification/Keywords.v ===== *)
(** * The synonym table [keywordRelationships] and JavaScript property lookup

    [src/src/data/keywordRelationships.js] exports a plain object literal
    mapping a lower-case keyword to the related keywords the search adds
    for it.  [keywordRelationships] is that literal, key by key, in source
    order.  The search reads it with [keywordRelationships[keyword]], an
    ordinary property access: a key that is not an own property falls
    through to [Object.prototype], whose members are functions (and the
    [__proto__] accessor, which yields [Object.prototype] itself).
    [kw_get] models that access, prototype included. *)

From S2P Require Import Prelude.

Module Keywords.

Definition keywordRelationships : list (string * list string) := [
  ("ai", ["artificial intelligence"; "ml"; "machine learning"; "deep learning"; "data science"; "nlp"; "computer vision"; "python"]);
  ("ml", ["machine learning"; "ai"; "data science"; "deep learning"; "python"; "tensorflow"; "pytorch"]);
  ("machine learning", ["ml"; "ai"; "data science"; "deep learning"; "python"; "tensorflow"; "pytorch"]);
  ("deep learning", ["neural networks"; "ai"; "ml"; "tensorflow"; "pytorch"]);
  ("data science", ["data analysis"; "analytics"; "statistics"; "python"; "sql"; "r"; "machine learning"]);
  ("data analyst", ["analytics"; "sql"; "tableau"; "power bi"; "excel"; "statistics"]);
  ("nlp", ["natural language processing"; "ai"; "ml"; "text analysis"; "spacy"; "nltk"]);
  ("computer vision", ["opencv"; "image processing"; "ai"; "ml"; "deep learning"]);
  ("web", ["frontend"; "backend"; "full stack"; "javascript"; "html"; "css"; "react"; "angular"; "vue"]);
  ("frontend", ["web development"; "ui"; "ux"; "javascript"; "react"; "angular"; "vue"; "html"; "css"; "tailwind"]);
  ("backend", ["server-side"; "database"; "api"; "nodejs"; "python"; "java"; "go"; "ruby"; "php"]);
  ("full stack", ["frontend"; "backend"; "web development"; "javascript"; "nodejs"; "react"; "database"]);
  ("javascript", ["js"; "react"; "node.js"; "vue"; "angular"; "typescript"; "es6"]);
  ("react", ["react.js"; "frontend"; "javascript"; "redux"; "next.js"; "ui"]);
  ("angular", ["angular.js"; "frontend"; "javascript"; "typescript"; "rxjs"]);
  ("vue", ["vue.js"; "frontend"; "javascript"; "vuex"]);
  ("node.js", ["nodejs"; "backend"; "javascript"; "express"; "api"]);
  ("python", ["django"; "flask"; "backend"; "scripting"; "ai"; "data science"]);
  ("java", ["spring boot"; "backend"; "enterprise"; "android"]);
  ("php", ["laravel"; "wordpress"; "backend"; "web"]);
  ("ruby", ["ruby on rails"; "backend"; "web"]);
  ("database", ["sql"; "nosql"; "mongodb"; "postgresql"; "mysql"; "database administration"]);
  ("design", ["graphic design"; "ui"; "ux"; "user experience"; "user interface"; "figma"; "sketch"; "adobe xd"; "photoshop"; "illustrator"]);
  ("graphic design", ["design"; "photoshop"; "illustrator"; "creative suite"; "visuals"]);
  ("ui", ["user interface"; "design"; "frontend"; "figma"; "sketch"]);
  ("ux", ["user experience"; "design"; "research"; "usability"; "prototyping"]);
  ("ui/ux", ["design"; "user experience"; "user interface"; "figma"; "sketch"]);
  ("figma", ["design"; "ui"; "ux"; "prototyping"; "wireframing"]);
  ("mobile", ["ios"; "android"; "swift"; "kotlin"; "react native"; "flutter"; "mobile development"]);
  ("ios", ["swift"; "swiftui"; "xcode"; "apple"; "mobile"]);
  ("android", ["kotlin"; "java"; "android sdk"; "jetpack"; "mobile"]);
  ("react native", ["mobile"; "javascript"; "ios"; "android"; "cross-platform"]);
  ("flutter", ["mobile"; "dart"; "ios"; "android"; "cross-platform"]);
  ("cloud", ["aws"; "azure"; "gcp"; "devops"; "docker"; "kubernetes"; "serverless"; "cloud computing"]);
  ("devops", ["ci/cd"; "automation"; "docker"; "kubernetes"; "jenkins"; "ansible"; "terraform"; "cloud"]);
  ("aws", ["amazon web services"; "cloud"; "s3"; "ec2"; "lambda"; "dynamodb"]);
  ("azure", ["microsoft azure"; "cloud"; "cloud computing"]);
  ("gcp", ["google cloud platform"; "cloud"; "bigquery"; "kubernetes engine"]);
  ("docker", ["containerization"; "devops"; "microservices"]);
  ("kubernetes", ["k8s"; "container orchestration"; "devops"; "docker"]);
  ("cybersecurity", ["security"; "infosec"; "networking"; "hacking"; "penetration testing"; "digital forensics"]);
  ("security", ["cybersecurity"; "infosec"; "encryption"; "vulnerability"]);
  ("penetration testing", ["pentesting"; "ethical hacking"; "cybersecurity"; "kali linux"]);
  ("marketing", ["digital marketing"; "seo"; "social media"; "content marketing"; "analytics"; "growth hacking"]);
  ("seo", ["search engine optimization"; "marketing"; "google analytics"; "keywords"]);
  ("social media", ["marketing"; "content creation"; "community management"]);
  ("game development", ["gaming"; "unity"; "unreal engine"; "c++"; "c#"]);
  ("robotics", ["ros"; "c++"; "robot operating system"; "automation"]);
  ("finance", ["quantitative analysis"; "fintech"; "investment banking"; "excel"]);
  ("business", ["analysis"; "sales"; "product management"; "strategy"]);
  ("product management", ["pm"; "product strategy"; "agile"; "roadmap"])
].

(** What a property access on the object can return. *)
Inductive js_prop : Type :=
| PArray (l : list string)   (** an own property: an array of strings *)
| PFunction                  (** a method inherited from [Object.prototype] *)
| PObject                    (** [__proto__]: the object [Object.prototype] *)
| PUndefined.                (** no such property *)

(** The members of [Object.prototype] that are functions. *)
Definition object_prototype_methods : list string :=
  ["constructor"; "__defineGetter__"; "__defineSetter__"; "hasOwnProperty";
   "__lookupGetter__"; "__lookupSetter__"; "isPrototypeOf";
   "propertyIsEnumerable"; "toString"; "valueOf"; "toLocaleString"].

(** The own property [k] of the literal: the last entry with that key, as
    for an object literal with a repeated key. *)
Definition kw_own (k : string) : option (list string) :=
  fold_left (fun acc '(k', v) => if String.eqb k k' then Some v else acc)
    keywordRelationships None.

(** [keywordRelationships[k]] *)
Definition kw_get (k : string) : js_prop :=
  match kw_own k with
  | Some l => PArray l
  | None =>
      if bool_decide (k ∈ object_prototype_methods) then PFunction
      else if String.eqb k "__proto__" then PObject
      else PUndefined
  end.

(** JavaScript truthiness of the access, the test of
    [if (keywordRelationships[keyword])]. *)
Definition js_prop_truthy (p : js_prop) : bool :=
  match p with PUndefined => false | _ => true end.

(** The keys, [Object.keys(keywordRelationships)]. *)
Definition kw_keys : list string := map fst keywordRelationships.

(** The values flattened, [Object.values(keywordRelationships).flat()]. *)
Definition kw_values : list string := List.concat (map snd keywordRelationships).

End Keywords.
