(* ===== verification/Store.v ===== *)
(** * Persistent store adapter: [localStorage], [getStorage], [setStorage]

    [localStorage] is the browser's string-to-string store.  The class
    [Storage] states what the code uses of it ([getItem], [setItem], which
    may throw [QuotaExceededError], [removeItem]); [StorageLaws] states
    what the adapter relies on, and [web_storage], a [gmap] with a quota,
    implements both.

    [JSON.parse] and [JSON.stringify] are library functions the code only
    calls: the adapter is modelled for any [parse : string -> option json]
    ([None] when [JSON.parse] throws) and any [stringify], as [Context]
    variables of the section [Adapter].

    - [setStorage]: DataContext.jsx lines 53-59;
    - [getStorage]: DataContext.jsx lines 27-50;
    - [getStoredUsers]: AuthContext.jsx lines 14-35, the roster's own
      reader, which on a parse error returns [[]] rather than the
      fallback. *)

From S2P Require Import Prelude.

Module Store.

(** A JSON value, as [JSON.parse] returns it (numbers are integers here). *)
Inductive json : Type :=
| JSNull
| JSBool (b : bool)
| JSNumber (n : Z)
| JSString (s : string)
| JSArray (l : list json)
| JSObject (fields : list (string * json)).

(** [Array.isArray(v)] *)
Definition is_array (v : json) : bool :=
  match v with JSArray _ => true | _ => false end.

(** [typeof v === 'object'] ([typeof null] is ['object'] too). *)
Definition typeof_object (v : json) : bool :=
  match v with JSNull | JSArray _ | JSObject _ => true | _ => false end.

Definition is_null (v : json) : bool :=
  match v with JSNull => true | _ => false end.

(** ** The [localStorage] interface *)

Class Storage (S : Type) := {
  getItem : S -> string -> option string;
  setItem : S -> string -> string -> option S;
  removeItem : S -> string -> S
}.

Class StorageLaws (S : Type) `{Storage S} := {
  getItem_setItem_eq s s' k v : setItem s k v = Some s' -> getItem s' k = Some v;
  getItem_setItem_ne s s' k k' v : setItem s k v = Some s' -> k <> k' -> getItem s' k' = getItem s k';
  getItem_removeItem_eq s k : getItem (removeItem s k) k = None;
  getItem_removeItem_ne s k k' : k <> k' -> getItem (removeItem s k) k' = getItem s k'
}.

(** The browser's store: its items and its quota in characters. *)
Record web_storage : Type := mkWebStorage {
  items : gmap string string;
  quota : nat
}.

Definition used_space (m : gmap string string) : nat :=
  map_fold (fun k v acc => (String.length k + String.length v + acc)%nat) 0%nat m.

#[export] Instance web_storage_ops : Storage web_storage := {
  getItem s k := items s !! k;
  setItem s k v :=
    let m := <[k := v]> (items s) in
    if bool_decide (used_space m <= quota s)%nat then Some (mkWebStorage m (quota s)) else None;
  removeItem s k := mkWebStorage (delete k (items s)) (quota s)
}.

#[export] Instance web_storage_laws : StorageLaws web_storage.
Proof.
  split; simpl.
  - intros s s' k v. case_bool_decide; intros; simplify_eq/=. apply lookup_insert_eq.
  - intros s s' k k' v. case_bool_decide; intros; simplify_eq/=. by apply lookup_insert_ne.
  - intros s k. apply lookup_delete_eq.
  - intros s k k' Hne. by apply lookup_delete_ne.
Qed.

(** A store without quota, in which every write succeeds. *)
#[export] Instance mem_storage_ops : Storage (gmap string string) := {
  getItem s k := s !! k;
  setItem s k v := Some (<[k := v]> s);
  removeItem s k := delete k s
}.

#[export] Instance mem_storage_laws : StorageLaws (gmap string string).
Proof.
  split; simpl.
  - intros s s' k v [= <-]. apply lookup_insert_eq.
  - intros s s' k k' v [= <-] Hne. by apply lookup_insert_ne.
  - intros s k. apply lookup_delete_eq.
  - intros s k k' Hne. by apply lookup_delete_ne.
Qed.

(** Writes to [mem_storage] always succeed. *)
Lemma mem_setItem_some (s : gmap string string) (k v : string) : is_Some (setItem s k v).
Proof. by eexists. Qed.

(** ** The adapter *)

Section Adapter.
Context {S : Type} `{StorageLaws S}.
Context (parse : string -> option json) (stringify : json -> string).

(** [setStorage(key, value)]: a failed write is caught and logged. *)
Definition setStorage (s : S) (key : string) (value : json) : S :=
  match setItem s key (stringify value) with
  | Some s' => s'
  | None => s
  end.

(** The test of line 38: the parsed value is unusable. *)
Definition invalid_shape (fallback parsed : json) : bool :=
  is_null parsed ||
  (is_array fallback && negb (is_array parsed)) ||
  (typeof_object fallback && negb (is_null fallback) &&
     (negb (typeof_object parsed) || is_null parsed)).

(** [getStorage(key, fallback)]: the value read and the store after. *)
Definition getStorage (s : S) (key : string) (fallback : json) : json * S :=
  match getItem s key with
  | None => (fallback, setStorage s key fallback)
  | Some stored =>
      if String.eqb stored "" then (fallback, setStorage s key fallback)
      else match parse stored with
           | None => (fallback, s)
           | Some parsed =>
               if invalid_shape fallback parsed
               then (fallback, setStorage s key fallback)
               else (parsed, s)
           end
  end.

(** [getStoredUsers()] with the seed roster [initialUsers]. *)
Definition getStoredUsers (s : S) (initialUsers : json) : json * S :=
  let seed := match setItem s "skillbridge_users" (stringify initialUsers) with
              | Some s' => (initialUsers, s')
              | None => (JSArray [], s)
              end in
  match getItem s "skillbridge_users" with
  | None => seed
  | Some stored =>
      if String.eqb stored "" then seed
      else match parse stored with
           | None => (JSArray [], s)
           | Some parsed => if is_array parsed then (parsed, s) else seed
           end
  end.

Lemma setStorage_other (s : S) (key k : string) (v : json) :
  key <> k -> getItem (setStorage s key v) k = getItem s k.
Proof.
  unfold setStorage. destruct (setItem s key _) eqn:E; [|done].
  by eapply getItem_setItem_ne.
Qed.

Lemma setStorage_same (s s' : S) (key : string) (v : json) :
  setItem s key (stringify v) = Some s' ->
  setStorage s key v = s' /\ getItem s' key = Some (stringify v).
Proof. unfold setStorage. intros E. rewrite E. split; [done | by eapply getItem_setItem_eq]. Qed.

(** C9: P6, first half: an unparseable stored value yields the fallback and
    the store is left as it was (the corrupt text is not overwritten). *)
Theorem getStorage_unparseable (s : S) (key stored : string) (fallback : json) :
  getItem s key = Some stored -> stored <> "" -> parse stored = None ->
  getStorage s key fallback = (fallback, s).
Proof.
  intros Hget Hne Hparse. unfold getStorage. rewrite Hget, Hparse.
  by rewrite (proj2 (String.eqb_neq _ _) Hne).
Qed.

(** C10: P6, second half: a parseable value of the wrong shape yields the
    fallback and is overwritten with it, when the write succeeds. *)
Theorem getStorage_wrong_shape (s s' : S) (key stored : string) (fallback parsed : json) :
  getItem s key = Some stored -> stored <> "" -> parse stored = Some parsed ->
  invalid_shape fallback parsed = true ->
  setItem s key (stringify fallback) = Some s' ->
  getStorage s key fallback = (fallback, s') /\ getItem s' key = Some (stringify fallback).
Proof.
  intros Hget Hne Hparse Hinv Hset. unfold getStorage. rewrite Hget, Hparse, Hinv.
  rewrite (proj2 (String.eqb_neq _ _) Hne).
  destruct (setStorage_same _ _ _ _ Hset) as [-> ->]. done.
Qed.

(** The read is either the fallback or the parsed stored text, and no key
    other than [key] changes. *)
Theorem getStorage_frame (s : S) (key k : string) (fallback : json) :
  key <> k ->
  getItem (getStorage s key fallback).2 k = getItem s k /\
  ((getStorage s key fallback).1 = fallback \/
   exists stored, getItem s key = Some stored /\ parse stored = Some (getStorage s key fallback).1).
Proof.
  intros Hne. unfold getStorage.
  destruct (getItem s key) as [stored|] eqn:Hget; [|split; [by apply setStorage_other | by left]].
  destruct (String.eqb stored ""); [split; [by apply setStorage_other | by left] |].
  destruct (parse stored) as [parsed|] eqn:Hp; [|by split; [|left]].
  destruct (invalid_shape fallback parsed); simpl;
    [split; [by apply setStorage_other | by left] | split; [done | right; eauto]].
Qed.

(** C29: The shape guarantee the callers rely on: with an array fallback the
    value read is an array, and with an object fallback a non-null
    object. *)
Theorem getStorage_shape (s : S) (key : string) (fallback : json) :
  (is_array fallback = true -> is_array (getStorage s key fallback).1 = true) /\
  (typeof_object fallback = true -> is_null fallback = false ->
     typeof_object (getStorage s key fallback).1 = true /\
     is_null (getStorage s key fallback).1 = false).
Proof.
  unfold getStorage.
  destruct (getItem s key) as [stored|]; [|done].
  destruct (String.eqb stored ""); [done |].
  destruct (parse stored) as [parsed|]; [|done].
  destruct fallback, parsed; simpl; intuition congruence.
Qed.

(** On a parse error the roster reader returns an empty roster, not the
    seed roster, and leaves the store untouched. *)
Theorem getStoredUsers_unparseable (s : S) (stored : string) (initialUsers : json) :
  getItem s "skillbridge_users" = Some stored -> stored <> "" -> parse stored = None ->
  getStoredUsers s initialUsers = (JSArray [], s).
Proof.
  intros Hget Hne Hp. unfold getStoredUsers. rewrite Hget, Hp.
  by rewrite (proj2 (String.eqb_neq _ _) Hne).
Qed.
End Adapter.

(** ** Concrete instances for the witnesses *)

Definition demo_parse (s : string) : option json :=
  if String.eqb s "[]" then Some (JSArray [])
  else if String.eqb s "{}" then Some (JSObject []) else None.

Definition demo_stringify (v : json) : string :=
  match v with JSArray _ => "[]" | JSObject _ => "{}" | _ => "null" end.

Definition demo_store : web_storage :=
  mkWebStorage (<["internships" := "{oops"]> (<["companies" := "{}"]> ∅)) 100.

Lemma getStorage_unparseable_witness :
  getStorage demo_parse demo_stringify demo_store "internships" (JSArray []) =
  (JSArray [], demo_store).
Proof. apply getStorage_unparseable with (stored := "{oops"); [reflexivity | discriminate | reflexivity]. Defined.

Lemma getStorage_wrong_shape_witness :
  exists s', getStorage demo_parse demo_stringify demo_store "companies" (JSArray []) =
             (JSArray [], s') /\ getItem s' "companies" = Some "[]".
Proof.
  eexists. apply getStorage_wrong_shape with (stored := "{}") (parsed := JSObject []);
    [reflexivity | discriminate | reflexivity | reflexivity | vm_compute; reflexivity].
Defined.

Lemma getStorage_frame_witness :
  getItem (getStorage demo_parse demo_stringify demo_store "companies" (JSArray [])).2 "internships" =
  Some "{oops".
Proof. rewrite (proj1 (getStorage_frame demo_parse demo_stringify demo_store "companies" "internships" (JSArray []) ltac:(discriminate))). reflexivity. Defined.

Lemma getStorage_shape_witness :
  is_array (getStorage demo_parse demo_stringify demo_store "companies" (JSArray [])).1 = true.
Proof. apply (proj1 (getStorage_shape demo_parse demo_stringify demo_store "companies" (JSArray []))). reflexivity. Defined.

Lemma getStoredUsers_unparseable_witness :
  getStoredUsers demo_parse demo_stringify
    (mkWebStorage (<["skillbridge_users" := "oops"]> ∅) 100) (JSArray []) =
  (JSArray [], mkWebStorage (<["skillbridge_users" := "oops"]> ∅) 100).
Proof. apply getStoredUsers_unparseable with (stored := "oops"); [reflexivity | discriminate | reflexivity]. Defined.

End Store.
