(* ===== verification/Auth.v ===== *)
(** * Identity store: [AuthContext.jsx]

    The provider keeps the roster [users], the active account [user] and
    mirrors both into [localStorage] (keys ["skillbridge_users"] and
    ["skillbridge_user"]).  [auth_state] holds the two React states and
    the store; each operation is one function from a state to the next
    state and its result:
    - [login] (lines 63-74), [signup] (lines 76-103), [logout] (104-107),
      [updateUser] (109-118), [restore_session] (the mount effect, 43-61).

    The writes call [localStorage.setItem] directly: a [QuotaExceededError]
    escapes the operation (the pages catch it).  React state set before
    the failing write is kept, so a failed operation can leave memory and
    store apart; the model returns the state reached at the throw with
    [inl QuotaExceeded].

    Accounts are JavaScript objects whose optional fields may be absent
    ([None]).  Account fields whose names clash with listing fields are
    prefixed ([uid], [ucompanyId], [ulocation]).  Education and project
    entries are the objects the profile page builds ([edu_entry],
    [project_entry]); [links] is an object with optional string fields,
    kept as an association list.  [JSON.stringify] of an
    account is the library's: [enc] and [stringify] are [Context]
    variables. *)

From S2P Require Import Prelude Store.
Import Store.
Open Scope list_scope.

Module Auth.

Inductive role : Type := Student | Recruiter | Admin.

#[export] Instance role_eq_dec : EqDecision role.
Proof. solve_decision. Defined.

(** [{ degree, school, year }] and [{ name, description, link }] of the
    profile page. *)
Record edu_entry : Type := mkEdu { degree : string; school : string; year : string }.
Record project_entry : Type := mkProject {
  proj_name : string; proj_description : string; proj_link : string
}.

#[export] Instance edu_entry_eq_dec : EqDecision edu_entry.
Proof. solve_decision. Defined.
#[export] Instance project_entry_eq_dec : EqDecision project_entry.
Proof. solve_decision. Defined.

Record account : Type := mkAccount {
  uid : Z;
  name : string;
  email : string;
  password : string;
  role_of : role;
  ucompanyId : option Z;
  education : option (list edu_entry);
  skills : option (list string);
  resume : option string;
  phone : option string;
  ulocation : option string;
  links : option (list (string * string));
  about : option string;
  bio : option string;
  projects : option (list project_entry);
  profileImage : option string
}.

#[export] Instance account_eq_dec : EqDecision account.
Proof. solve_decision. Defined.

(** The object [Signup.jsx] passes to [signup] (lines 123-128). *)
Record signup_data : Type := mkSignupData {
  sd_name : string;
  sd_email : string;
  sd_password : string;
  sd_role : role
}.

(** The [updates] of [updateUser]: [Some v] for a key the object has.
    The pages pass the form's fields ([EditProfileForm.jsx]) or the whole
    account object ([StudentProfile.jsx]), whose [id] and [role] are the
    account's own: those two keys are left out. *)
Record patch : Type := mkPatch {
  p_name : option string;
  p_email : option string;
  p_password : option string;
  p_companyId : option Z;
  p_education : option (list edu_entry);
  p_skills : option (list string);
  p_resume : option string;
  p_phone : option string;
  p_location : option string;
  p_links : option (list (string * string));
  p_about : option string;
  p_bio : option string;
  p_projects : option (list project_entry);
  p_profileImage : option string
}.

Inductive auth_error : Type :=
| EmailTaken        (** [new Error("User with this email already exists.")] *)
| QuotaExceeded.    (** [localStorage.setItem] threw *)

(** [value || fallback] on a field that may be absent. *)
Definition or_default {A : Type} (o : option A) (d : A) : option A :=
  Some (default d o).

(** A key of [updates] overrides the field: [{ ...user, ...updates }]. *)
Definition override {A : Type} (p : option A) (old : A) : A := default old p.
Definition override_opt {A : Type} (p : option A) (old : option A) : option A :=
  match p with Some v => Some v | None => old end.

Definition apply_patch (u : account) (p : patch) : account :=
  mkAccount (uid u) (override (p_name p) (name u)) (override (p_email p) (email u))
    (override (p_password p) (password u)) (role_of u)
    (override_opt (p_companyId p) (ucompanyId u))
    (override_opt (p_education p) (education u)) (override_opt (p_skills p) (skills u))
    (override_opt (p_resume p) (resume u)) (override_opt (p_phone p) (phone u))
    (override_opt (p_location p) (ulocation u)) (override_opt (p_links p) (links u))
    (override_opt (p_about p) (about u)) (override_opt (p_bio p) (bio u))
    (override_opt (p_projects p) (projects u)) (override_opt (p_profileImage p) (profileImage u)).

(** [{ ...userData, id: Date.now() }] *)
Definition new_account (d : signup_data) (now : Z) : account :=
  mkAccount now (sd_name d) (sd_email d) (sd_password d) (sd_role d)
    None None None None None None None None None None None.

(** The student defaults of lines 83-94. *)
Definition student_defaults (u : account) : account :=
  mkAccount (uid u) (name u) (email u) (password u) (role_of u) (ucompanyId u)
    (or_default (education u) []) (or_default (skills u) [])
    (or_default (resume u) "") (or_default (phone u) "")
    (or_default (ulocation u) "") (or_default (links u) [])
    (or_default (about u) "") (bio u) (or_default (projects u) []) (profileImage u).

(** [users.map(u => u.id === user.id ? updatedUser : u)] *)
Definition replace_by_id (u uu : account) (us : list account) : list account :=
  map (fun v => if Z.eqb (uid v) (uid u) then uu else v) us.

Lemma uid_unique_eq (l : list account) (u v : account) :
  NoDup (map uid l) -> u ∈ l -> v ∈ l -> uid u = uid v -> u = v.
Proof.
  induction l as [|w l IH]; simpl; intros Hnd Hu Hv Heq; [set_solver |].
  apply NoDup_cons in Hnd as [Hw Hnd].
  assert (Hmap : forall x, x ∈ l -> uid x ∈ map uid l)
    by (intros x Hx; apply list_elem_of_In, in_map, list_elem_of_In, Hx).
  apply elem_of_cons in Hu as [->|Hu]; apply elem_of_cons in Hv as [->|Hv]; auto.
  - exfalso. apply Hw. rewrite Heq. by apply Hmap.
  - exfalso. apply Hw. rewrite <- Heq. by apply Hmap.
Qed.

Lemma replace_by_id_uids (u uu : account) (l : list account) :
  uid uu = uid u -> map uid (replace_by_id u uu l) = map uid l.
Proof.
  intros Hid. unfold replace_by_id. rewrite map_map. apply map_ext. intros v.
  destruct (Z.eqb_spec (uid v) (uid u)); congruence.
Qed.

Lemma replace_by_id_emails (u uu : account) (l : list account) :
  NoDup (map uid l) -> u ∈ l -> email uu = email u ->
  map email (replace_by_id u uu l) = map email l.
Proof.
  intros Hnd Hu He. unfold replace_by_id. rewrite map_map. apply map_ext_in. intros v Hv.
  destruct (Z.eqb_spec (uid v) (uid u)) as [Heq|]; [|done].
  apply list_elem_of_In in Hv.
  assert (v = u) by (apply (uid_unique_eq l); [exact Hnd | exact Hv | exact Hu | exact Heq]).
  subst v. exact He.
Qed.

Lemma replace_by_id_in (u uu : account) (l : list account) :
  u ∈ l -> uu ∈ replace_by_id u uu l.
Proof.
  intros Hu. apply list_elem_of_In, in_map_iff. exists u.
  rewrite Z.eqb_refl. split; [done | by apply list_elem_of_In].
Qed.

Section Provider.
Context {S : Type} `{Storage S}.
Context (enc : account -> json) (stringify : json -> string).

Record auth_state : Type := mkAuthState {
  users : list account;
  user : option account;
  store : S
}.

Definition users_json (us : list account) : string := stringify (JSArray (map enc us)).
Definition user_json (u : account) : string := stringify (enc u).

Definition login (st : auth_state) (e pw : string)
    : auth_state * (auth_error + option account) :=
  match List.find (fun u => String.eqb (email u) e && String.eqb (password u) pw) (users st) with
  | Some u =>
      let st1 := mkAuthState (users st) (Some u) (store st) in
      match setItem (store st) "skillbridge_user" (user_json u) with
      | Some s1 => (mkAuthState (users st) (Some u) s1, inr (Some u))
      | None => (st1, inl QuotaExceeded)
      end
  | None => (st, inr None)
  end.

Definition signup (st : auth_state) (d : signup_data) (now : Z)
    : auth_state * (auth_error + account) :=
  if existsb (fun u => String.eqb (email u) (sd_email d)) (users st)
  then (st, inl EmailTaken)
  else
    let nu0 := new_account d now in
    let nu := if decide (role_of nu0 = Student) then student_defaults nu0 else nu0 in
    let updated := users st ++ [nu] in
    match setItem (store st) "skillbridge_users" (users_json updated) with
    | None => (mkAuthState updated (user st) (store st), inl QuotaExceeded)
    | Some s1 =>
        match setItem s1 "skillbridge_user" (user_json nu) with
        | None => (mkAuthState updated (Some nu) s1, inl QuotaExceeded)
        | Some s2 => (mkAuthState updated (Some nu) s2, inr nu)
        end
    end.

Definition logout (st : auth_state) : auth_state :=
  mkAuthState (users st) None (removeItem (store st) "skillbridge_user").

Definition updateUser (st : auth_state) (updates : patch) : auth_state * (auth_error + unit) :=
  match user st with
  | None => (st, inr tt)
  | Some u =>
      let uu := apply_patch u updates in
      match setItem (store st) "skillbridge_user" (user_json uu) with
      | None => (mkAuthState (users st) (Some uu) (store st), inl QuotaExceeded)
      | Some s1 =>
          let updated := replace_by_id u uu (users st) in
          match setItem s1 "skillbridge_users" (users_json updated) with
          | None => (mkAuthState updated (Some uu) s1, inl QuotaExceeded)
          | Some s2 => (mkAuthState updated (Some uu) s2, inr tt)
          end
      end
  end.

(** The mount effect: [decode] is [JSON.parse] of the stored account
    ([None] when it throws). *)
Definition restore_session (decode : string -> option account) (st : auth_state) : auth_state :=
  match getItem (store st) "skillbridge_user" with
  | Some stored =>
      if String.eqb stored "" then st
      else match decode stored with
           | Some u => mkAuthState (users st) (Some u) (store st)
           | None => mkAuthState (users st) (user st) (removeItem (store st) "skillbridge_user")
           end
  | None => st
  end.
(** ** Properties of the operations *)

(** Every [setItem] succeeds (a store with room to spare). *)
Definition writes_succeed : Prop := forall (s : S) k v, exists s', setItem s k v = Some s'.

(** C11: Scenario A: a student's signup with a fresh email succeeds, fills in
    the empty profile fields, becomes the session and is appended to the
    roster.  The field [bio], which the completeness score reads, is not
    among the defaults ([about] is). *)
Theorem signup_student_defaults (st : auth_state) (d : signup_data) (now : Z) :
  writes_succeed -> sd_role d = Student ->
  existsb (fun u => String.eqb (email u) (sd_email d)) (users st) = false ->
  exists nu st', signup st d now = (st', inr nu) /\
    user st' = Some nu /\ users st' = users st ++ [nu] /\
    uid nu = now /\ email nu = sd_email d /\ role_of nu = Student /\
    education nu = Some [] /\ skills nu = Some [] /\ projects nu = Some [] /\
    resume nu = Some "" /\ phone nu = Some "" /\ ulocation nu = Some "" /\
    links nu = Some [] /\ about nu = Some "" /\ bio nu = None.
Proof.
  intros Hw Hrole Hfresh. unfold signup. rewrite Hfresh. cbv zeta.
  change (role_of (new_account d now)) with (sd_role d). rewrite Hrole, decide_True by done.
  set (nu := student_defaults (new_account d now)).
  destruct (Hw (store st) "skillbridge_users" (users_json (users st ++ [nu]))) as [s1 ->].
  destruct (Hw s1 "skillbridge_user" (user_json nu)) as [s2 ->].
  do 2 eexists. split; [reflexivity |]. subst nu; simpl. rewrite Hrole. by repeat split.
Qed.

(** Signing up with an email already in the roster throws and changes
    nothing. *)
Theorem signup_email_taken (st : auth_state) (d : signup_data) (now : Z) :
  existsb (fun u => String.eqb (email u) (sd_email d)) (users st) = true ->
  signup st d now = (st, inl EmailTaken).
Proof. intros Htaken. unfold signup. by rewrite Htaken. Qed.

(** [login] succeeds exactly for the credentials of an account of the
    roster, and returns such an account. *)
Theorem login_exact_match (st : auth_state) (e pw : string) :
  writes_succeed ->
  (exists u, (login st e pw).2 = inr (Some u) /\ u ∈ users st /\ email u = e /\ password u = pw) \/
  ((login st e pw) = (st, inr None) /\ ~ exists u, u ∈ users st /\ email u = e /\ password u = pw).
Proof.
  intros Hw. unfold login.
  destruct (List.find _ (users st)) as [u|] eqn:Hf.
  - left. apply find_some in Hf as [Hin Hp]. sb_bool.
    destruct (Hw (store st) "skillbridge_user" (user_json u)) as [s1 ->].
    exists u. rewrite list_elem_of_In. by repeat split.
  - right. split; [done |]. intros (u & Hin & He & Hp).
    apply list_elem_of_In in Hin. apply (find_none _ _ Hf) in Hin.
    rewrite He, Hp, !String.eqb_refl in Hin. discriminate.
Qed.
(** ** The roster invariant *)

(** Emails are unique, ids are unique, and the session account is an
    account of the roster. *)
Definition auth_inv (st : auth_state) : Prop :=
  NoDup (map email (users st)) /\ NoDup (map uid (users st)) /\
  (forall u, user st = Some u -> u ∈ users st).

(** The operations as the pages run them, when they return normally:
    [signup] gets a fresh [Date.now()], and the [updates] of
    [updateUser] keep the account's email (the edit forms either omit
    it or resend it). *)
Inductive auth_step : auth_state -> auth_state -> Prop :=
| step_login st st' e pw r :
    login st e pw = (st', inr r) -> auth_step st st'
| step_signup st st' d now nu :
    now ∉ map uid (users st) -> signup st d now = (st', inr nu) -> auth_step st st'
| step_logout st :
    auth_step st (logout st)
| step_update st st' p :
    (forall u, user st = Some u -> override (p_email p) (email u) = email u) ->
    updateUser st p = (st', inr tt) -> auth_step st st'.

Lemma auth_inv_step (st st' : auth_state) : auth_inv st -> auth_step st st' -> auth_inv st'.
Proof.
  intros (He & Hi & Hs) Hstep. unfold auth_inv. destruct Hstep as [st st' e pw r Hl|st st' d now nu Hnow Hsg|st|st st' p Hp Hu].
  - unfold login in Hl. destruct (List.find _ _) as [u|] eqn:Hf; [|by simplify_eq].
    destruct (setItem _ _ _); simplify_eq/=. split_and!; [done | done |].
    intros v [= <-]. apply find_some in Hf as [Hin _]. by apply list_elem_of_In.
  - unfold signup in Hsg. destruct (existsb _ _) eqn:Hx; [done |]. cbv zeta in Hsg.
    set (nu0 := if decide _ then _ else _) in Hsg.
    assert (Hem : email nu0 = sd_email d) by (subst nu0; by case_decide).
    assert (Hid : uid nu0 = now) by (subst nu0; by case_decide).
    destruct (setItem _ _ _); [|done]. destruct (setItem _ _ _); simplify_eq/=.
    simpl. rewrite !List.map_app. split_and!.
    + apply NoDup_app. split_and!; [done | | apply NoDup_singleton].
      intros x Hx1 ->%list_elem_of_singleton. rewrite Hem in Hx1.
      apply list_elem_of_In, in_map_iff in Hx1 as (v & Hv & Hin).
      enough (existsb (fun u => String.eqb (email u) (sd_email d)) (users st) = true) by congruence.
      apply existsb_exists. exists v. by rewrite Hv, String.eqb_refl.
    + apply NoDup_app. split_and!; [done | | apply NoDup_singleton].
      intros x Hx1 ->%list_elem_of_singleton. by rewrite Hid in Hx1.
    + intros v [= <-]. apply elem_of_app. right. by left.
  - simpl. split_and!; [done | done | discriminate].
  - unfold updateUser in Hu. destruct (user st) as [u|] eqn:Hus; [|injection Hu as <-; split_and!; [done | done | intros ? ?; congruence]].
    destruct (setItem _ _ _); [|done]. destruct (setItem _ _ _); simplify_eq/=.
    assert (Hin : u ∈ users st) by auto.
    split_and!.
    + rewrite replace_by_id_emails by (try apply Hp; done). done.
    + by rewrite replace_by_id_uids.
    + intros v [= <-]. by apply replace_by_id_in.
Qed.

(** C12: Every state the successful operations reach from a state satisfying
    the invariant satisfies it. *)
Theorem auth_inv_reachable (st0 st : auth_state) :
  auth_inv st0 -> star auth_step st0 st -> auth_inv st.
Proof. apply star_inv, auth_inv_step. Qed.

(** Whether the writes succeed or not, the session holds the patched
    account after [updateUser]. *)
Lemma updateUser_user (st : auth_state) (u : account) (p : patch) :
  user st = Some u -> user (updateUser st p).1 = Some (apply_patch u p).
Proof.
  intros Hu. unfold updateUser. rewrite Hu. cbv zeta.
  destruct (setItem _ _ _) as [s1|]; [destruct (setItem s1 _ _)|]; done.
Qed.

(** C40: A failed second write of [updateUser] leaves the session holding an
    account that is not in the roster. *)
Theorem updateUser_quota_desync (st : auth_state) (u : account) (p : patch) :
  user st = Some u -> apply_patch u p ∉ users st ->
  setItem (store st) "skillbridge_user" (user_json (apply_patch u p)) = None ->
  exists st', updateUser st p = (st', inl QuotaExceeded) /\
    user st' = Some (apply_patch u p) /\ apply_patch u p ∉ users st'.
Proof.
  intros Hu Hn Hq. unfold updateUser. rewrite Hu. cbv zeta. rewrite Hq. by eexists.
Qed.
End Provider.

(** ** Witnesses *)

Definition demo_enc (u : account) : json := JSString (email u).
Definition demo_str (v : json) : string := match v with JSString s => s | _ => "" end.

Definition demo_student : account :=
  mkAccount 1 "Ali" "ali@x.com" "secret" Student None (Some []) (Some ["react"])
    (Some "") (Some "") (Some "") (Some []) (Some "") None (Some []) None.

Definition demo_auth : auth_state (S := gmap string string) := mkAuthState [demo_student] None ∅.

Definition scenario_A_data : signup_data := mkSignupData "A" "a@x.com" "pw" Student.

Lemma mem_writes_succeed : writes_succeed (S := gmap string string).
Proof. intros s k v. apply mem_setItem_some. Qed.

Lemma signup_student_defaults_witness :
  exists nu st', signup demo_enc demo_str demo_auth scenario_A_data 42 = (st', inr nu) /\
    user st' = Some nu /\ users st' = users demo_auth ++ [nu] /\
    uid nu = 42%Z /\ email nu = sd_email scenario_A_data /\ role_of nu = Student /\
    education nu = Some [] /\ skills nu = Some [] /\ projects nu = Some [] /\
    resume nu = Some "" /\ phone nu = Some "" /\ ulocation nu = Some "" /\
    links nu = Some [] /\ about nu = Some "" /\ bio nu = None.
Proof. apply signup_student_defaults; [apply mem_writes_succeed | reflexivity | reflexivity]. Defined.

Lemma signup_email_taken_witness :
  signup demo_enc demo_str demo_auth (mkSignupData "B" "ali@x.com" "pw" Recruiter) 43 =
  (demo_auth, inl EmailTaken).
Proof. apply signup_email_taken. reflexivity. Defined.

Lemma login_exact_match_witness :
  (exists u, (login demo_enc demo_str demo_auth "ali@x.com" "secret").2 = inr (Some u) /\
     u ∈ users demo_auth /\ email u = "ali@x.com" /\ password u = "secret") \/
  ((login demo_enc demo_str demo_auth "ali@x.com" "secret") = (demo_auth, inr None) /\
     ~ exists u, u ∈ users demo_auth /\ email u = "ali@x.com" /\ password u = "secret").
Proof. apply login_exact_match, mem_writes_succeed. Defined.

Lemma auth_inv_reachable_witness :
  auth_inv (signup demo_enc demo_str demo_auth scenario_A_data 42).1.
Proof.
  apply (auth_inv_reachable demo_enc demo_str demo_auth).
  - split_and!; [repeat constructor; set_solver | repeat constructor; set_solver | discriminate].
  - eapply star_step; [apply star_refl |].
    eapply step_signup with (now := 42%Z) (d := scenario_A_data); [simpl; set_solver | reflexivity].
Defined.

(** A store whose quota is already used up: every write throws. *)
Definition full_store : web_storage := mkWebStorage ∅ 0.

Lemma updateUser_quota_desync_witness :
  exists st', updateUser demo_enc demo_str (mkAuthState [] (Some demo_student) full_store)
                (mkPatch None None None None None None None None None None (Some "hi") None None None) =
              (st', inl QuotaExceeded) /\
    user st' = Some (apply_patch demo_student
                (mkPatch None None None None None None None None None None (Some "hi") None None None)) /\
    apply_patch demo_student (mkPatch None None None None None None None None None None (Some "hi") None None None)
      ∉ users st'.
Proof. apply updateUser_quota_desync; [reflexivity | set_solver | vm_compute; reflexivity]. Defined.

End Auth.
