(* ===== verification/Forms.v ===== *)
(** * The sign-up and sign-in pages: [Signup.jsx], [Login.jsx]

    Each page is a React component with its own state (the form fields,
    the error messages, [isFormValid], [submitted]); the model keeps that
    state as a record and translates each piece of the component:
    - the validation of [validateForm] ([Signup.jsx] lines 31-83) and of
      the validity effects ([Signup.jsx] 93-102, [Login.jsx] 21-47),
      with [emailRegex] of [Regex];
    - the handlers ([handleChange], the role buttons, the [role] query
      parameter effect, [handleSubmit]), the latter calling [Auth.signup]
      and [Auth.login] and returning the route [navigate] is given;
    - what the page renders (error banner, field messages, the disabled
      submit button) as a record [*_view].

    A passive effect runs after the render that changed its dependencies
    and before the next user event is handled; [settle] applies it after
    every event.  A form whose submit button is disabled cannot be
    submitted (the HTML rule for the default button of a form), which is
    the guard of the [Submit] rules of the step relations.

    The message of a [QuotaExceededError] is the browser's; it is the
    section variable [quota_message]. *)

From S2P Require Import Prelude Store Auth Regex.
Import Store Auth Regex.
Open Scope list_scope.

Module SignIn.

(** [PASSWORD_MIN_LENGTH] *)
Definition PASSWORD_MIN_LENGTH : nat := 6.

(** [err.message || fallback] for the errors [Auth] throws. *)
Definition error_message (quota_message fallback : string) (e : auth_error) : string :=
  let msg := match e with
             | EmailTaken => "User with this email already exists."
             | QuotaExceeded => quota_message
             end in
  if js_falsy msg then fallback else msg.

(** ** [Signup.jsx] *)

Record signup_form : Type := mkSignupForm {
  f_name : string;
  f_email : string;
  f_password : string;
  f_confirm : string;
  f_role : role;
  f_terms : bool
}.

Definition initial_form : signup_form := mkSignupForm "" "" "" "" Student false.

Record signup_errors : Type := mkSignupErrors {
  nameError : string;
  emailError : string;
  passwordError : string;
  confirmPasswordError : string;
  termsError : string
}.

(** [validateForm(data)]: its result and the five messages it sets. *)
Definition validateForm (data : signup_form) : bool * signup_errors :=
  let valid := true in
  let '(valid, ne) := if js_falsy (js_trim (f_name data))
                      then (false, "Full Name is required.") else (valid, "") in
  let '(valid, ee) := if js_falsy (f_email data) then (false, "Email is required.")
                      else if negb (re_matches emailRegex (f_email data))
                      then (false, "Invalid email format.") else (valid, "") in
  let '(valid, pe) := if js_falsy (f_password data) then (false, "Password is required.")
                      else if (String.length (f_password data) <? PASSWORD_MIN_LENGTH)%nat
                      then (false, "Password must be at least 6 characters.") else (valid, "") in
  let '(valid, ce) := if js_falsy (f_confirm data) then (false, "Confirm Password is required.")
                      else if negb (String.eqb (f_password data) (f_confirm data))
                      then (false, "Passwords do not match.") else (valid, "") in
  let '(valid, te) := if f_terms data then (valid, "")
                      else (false, "You must agree to the terms.") in
  (valid, mkSignupErrors ne ee pe ce te).

(** The validity effect of lines 93-102. *)
Definition form_valid (fd : signup_form) : bool :=
  negb (js_falsy (js_trim (f_name fd))) &&
  re_matches emailRegex (f_email fd) &&
  (PASSWORD_MIN_LENGTH <=? String.length (f_password fd))%nat &&
  String.eqb (f_password fd) (f_confirm fd) &&
  f_terms fd.

Record signup_page : Type := mkSignupPage {
  formData : signup_form;
  errors : signup_errors;
  generalError : string;
  isFormValid : bool;
  submitted : bool
}.

Definition set_form (p : signup_page) (fd : signup_form) : signup_page :=
  mkSignupPage fd (errors p) (generalError p) (isFormValid p) (submitted p).

(** The validity effect, run after a render whose [formData] changed. *)
Definition settle (p : signup_page) : signup_page :=
  mkSignupPage (formData p) (errors p) (generalError p) (form_valid (formData p)) (submitted p).

(** The first render followed by its effects. *)
Definition initial_page : signup_page :=
  settle (mkSignupPage initial_form (mkSignupErrors "" "" "" "" "") "" false false).

(** The inputs of the form, by their [name] attribute. *)
Inductive signup_input : Type :=
| InName (v : string)
| InEmail (v : string)
| InPassword (v : string)
| InConfirm (v : string)
| InTerms (checked : bool).

(** [handleChange]: [{ ...formData, [e.target.name]: value }]. *)
Definition handleChange (fd : signup_form) (i : signup_input) : signup_form :=
  match i with
  | InName v => mkSignupForm v (f_email fd) (f_password fd) (f_confirm fd) (f_role fd) (f_terms fd)
  | InEmail v => mkSignupForm (f_name fd) v (f_password fd) (f_confirm fd) (f_role fd) (f_terms fd)
  | InPassword v => mkSignupForm (f_name fd) (f_email fd) v (f_confirm fd) (f_role fd) (f_terms fd)
  | InConfirm v => mkSignupForm (f_name fd) (f_email fd) (f_password fd) v (f_role fd) (f_terms fd)
  | InTerms b => mkSignupForm (f_name fd) (f_email fd) (f_password fd) (f_confirm fd) (f_role fd) b
  end.

(** [setFormData(prev => ({ ...prev, role }))] of the two role buttons. *)
Definition set_role (fd : signup_form) (r : role) : signup_form :=
  mkSignupForm (f_name fd) (f_email fd) (f_password fd) (f_confirm fd) r (f_terms fd).

(** The effect on [searchParams.get('role')] (lines 85-90). *)
Definition role_param_effect (roleParam : option string) (fd : signup_form) : signup_form :=
  match roleParam with
  | Some r =>
      if String.eqb r "student" then set_role fd Student
      else if String.eqb r "recruiter" then set_role fd Recruiter
      else fd
  | None => fd
  end.

(** [navigate] after a successful sign-up (lines 130-136). *)
Definition signup_route (nu : account) : string :=
  if decide (role_of nu = Student) then "/student/profile" else "/recruiter/dashboard".

Section SignupSubmit.
Context {S : Type} `{Storage S}.
Context (enc : account -> json) (stringify : json -> string) (quota_message : string).

(** [handleSubmit] (lines 110-140): the page, the identity store and the
    route navigated to. *)
Definition handleSubmit (p : signup_page) (st : auth_state (S := S)) (now : Z)
    : signup_page * auth_state (S := S) * option string :=
  let '(isValid, errs) := validateForm (formData p) in
  let p1 := mkSignupPage (formData p) errs "" (isFormValid p) true in
  if negb isValid then
    (mkSignupPage (formData p) errs "Please correct the errors in the form." (isFormValid p) true,
     st, None)
  else
    let fd := formData p in
    let '(st', r) := signup enc stringify st
                       (mkSignupData (f_name fd) (f_email fd) (f_password fd) (f_role fd)) now in
    match r with
    | inr nu => (p1, st', Some (signup_route nu))
    | inl e =>
        (mkSignupPage fd errs (error_message quota_message "An error occurred during sign up." e)
           (isFormValid p) true, st', None)
    end.

(** The user's actions on the page.  [Submit] needs an enabled button. *)
Inductive signup_step : signup_page * auth_state (S := S) -> signup_page * auth_state (S := S) -> Prop :=
| SInput p st i : signup_step (p, st) (settle (set_form p (handleChange (formData p) i)), st)
| SFindInternships p st : signup_step (p, st) (settle (set_form p (set_role (formData p) Student)), st)
| SPostInternships p st : signup_step (p, st) (settle (set_form p (set_role (formData p) Recruiter)), st)
| SRoleParam p st param : signup_step (p, st) (settle (set_form p (role_param_effect param (formData p))), st)
| SSubmit p st now p' st' nav :
    isFormValid p = true -> handleSubmit p st now = (p', st', nav) ->
    signup_step (p, st) (settle p', st').
End SignupSubmit.

(** What the form renders (lines 142-311). *)
Record signup_view : Type := mkSignupView {
  sv_banner : option string;
  sv_student_selected : bool;
  sv_recruiter_selected : bool;
  sv_nameError : option string;
  sv_emailError : option string;
  sv_passwordError : option string;
  sv_confirmPasswordError : option string;
  sv_termsError : option string;
  sv_submit_disabled : bool
}.

(** [{submitted && err && <p>{err}</p>}] *)
Definition field_message (p : signup_page) (err : string) : option string :=
  if submitted p && negb (js_falsy err) then Some err else None.

Definition render_signup (p : signup_page) : signup_view :=
  let e := errors p in
  mkSignupView
    (if submitted p &&
        negb (js_falsy (generalError p) && js_falsy (nameError e) && js_falsy (emailError e) &&
              js_falsy (passwordError e) && js_falsy (confirmPasswordError e) &&
              js_falsy (termsError e))
     then Some (if js_falsy (generalError p) then "Please correct the errors in the form."
                else generalError p)
     else None)
    (bool_decide (f_role (formData p) = Student))
    (bool_decide (f_role (formData p) = Recruiter))
    (field_message p (nameError e)) (field_message p (emailError e))
    (field_message p (passwordError e)) (field_message p (confirmPasswordError e))
    (field_message p (termsError e))
    (negb (isFormValid p)).

(** ** [Login.jsx] *)

Record login_page : Type := mkLoginPage {
  l_email : string;
  l_password : string;
  l_emailError : string;
  l_passwordError : string;
  l_generalError : string;
  l_isFormValid : bool
}.

(** The validation effect on [[email, password]] (lines 21-47). *)
Definition login_effect (p : login_page) : login_page :=
  let valid := true in
  let '(valid, ee) := if js_falsy (l_email p) then (false, "Email is required.")
                      else if negb (re_matches emailRegex (l_email p))
                      then (false, "Invalid email format.") else (valid, "") in
  let '(valid, pe) := if js_falsy (l_password p) then (false, "Password is required.")
                      else if (String.length (l_password p) <? PASSWORD_MIN_LENGTH)%nat
                      then (false, "Password must be at least 6 characters.") else (valid, "") in
  mkLoginPage (l_email p) (l_password p) ee pe (l_generalError p)
    (valid && negb (js_falsy (l_email p)) && negb (js_falsy (l_password p))).

(** The first render and its effect. *)
Definition initial_login : login_page := login_effect (mkLoginPage "" "" "" "" "" false).

Definition set_general (p : login_page) (g : string) : login_page :=
  mkLoginPage (l_email p) (l_password p) (l_emailError p) (l_passwordError p) g (l_isFormValid p).

(** [navigate] after a successful sign-in (lines 62-71). *)
Definition login_route (u : account) : string :=
  match role_of u with
  | Student => "/student/dashboard"
  | Recruiter => "/recruiter/dashboard"
  | Admin => "/admin"
  end.

Section LoginSubmit.
Context {S : Type} `{Storage S}.
Context (enc : account -> json) (stringify : json -> string) (quota_message : string).

(** [handleSubmit] (lines 50-78). *)
Definition login_submit (p : login_page) (st : auth_state (S := S))
    : login_page * auth_state (S := S) * option string :=
  if negb (l_isFormValid p) then (set_general p "Please correct the errors in the form.", st, None)
  else
    let '(st', r) := login enc stringify st (l_email p) (l_password p) in
    match r with
    | inr (Some u) => (set_general p "", st', Some (login_route u))
    | inr None => (set_general p "Invalid email or password", st', None)
    | inl e => (set_general p (error_message quota_message "An error occurred during login." e), st', None)
    end.

Inductive login_step : login_page * auth_state (S := S) -> login_page * auth_state (S := S) -> Prop :=
| LEmail p st v :
    login_step (p, st) (login_effect (mkLoginPage v (l_password p) (l_emailError p)
                          (l_passwordError p) (l_generalError p) (l_isFormValid p)), st)
| LPassword p st v :
    login_step (p, st) (login_effect (mkLoginPage (l_email p) v (l_emailError p)
                          (l_passwordError p) (l_generalError p) (l_isFormValid p)), st)
| LSubmit p st p' st' nav :
    l_isFormValid p = true -> login_submit p st = (p', st', nav) -> login_step (p, st) (p', st').
End LoginSubmit.

Record login_view : Type := mkLoginView {
  lv_banner : option string;
  lv_emailError : option string;
  lv_passwordError : option string;
  lv_submit_disabled : bool
}.

(** What the form renders (lines 80-172). *)
Definition render_login (p : login_page) : login_view :=
  let msg e := if js_falsy e then None else Some e in
  mkLoginView
    (if js_falsy (l_generalError p) && js_falsy (l_emailError p) && js_falsy (l_passwordError p)
     then None
     else Some (if js_falsy (l_generalError p) then "Please check your input." else l_generalError p))
    (msg (l_emailError p)) (msg (l_passwordError p)) (negb (l_isFormValid p)).

(** ** Validation *)

(** Turns the tests of the validation code into hypotheses. *)
Local Ltac forms_cleanup :=
  repeat match goal with
  | H : String.eqb _ _ = true |- _ => apply String.eqb_eq in H; subst
  | H : String.eqb _ _ = false |- _ => apply String.eqb_neq in H
  | H : (_ <? _)%nat = true |- _ => apply Nat.ltb_lt in H
  | H : (_ <? _)%nat = false |- _ => apply Nat.ltb_ge in H
  | H : re_matches ?r ?x = _ |- context [re_matches ?r ?x] => rewrite H
  | |- context [String.eqb ?a ?b] => destruct (String.eqb_spec a b); subst
  | |- context [(?a <=? ?b)%nat] => destruct (Nat.leb_spec a b)
  | H : (_ && _)%bool = true |- _ => apply andb_true_iff in H as [? ?]
  | H : negb _ = true |- _ => apply negb_true_iff in H
  | H : negb _ = false |- _ => apply negb_false_iff in H
  end.

Lemma email_regex_empty : re_matches emailRegex "" = false.
Proof. reflexivity. Qed.

(** [validateForm] and the validity effect agree on every form: the
    submit button is enabled exactly when [validateForm] would pass, and
    then every message is empty. *)
Lemma validateForm_spec (fd : signup_form) :
  (validateForm fd).1 = form_valid fd /\
  (form_valid fd = true -> (validateForm fd).2 = mkSignupErrors "" "" "" "" "").
Proof.
  destruct fd as [n e pw c r t]. unfold validateForm, form_valid, js_falsy; simpl.
  split; [| intros Hv]; repeat case_match; simplify_eq/=; try done; forms_cleanup;
    try (rewrite ?email_regex_empty, ?String.eqb_refl in *; simpl in *; forms_cleanup);
    unfold PASSWORD_MIN_LENGTH in *; try done; try lia; try congruence.
Qed.

(** An account the sign-up form lets through. *)
Definition valid_account (u : account) : Prop :=
  js_trim (name u) <> "" /\ re_matches emailRegex (email u) = true /\
  (PASSWORD_MIN_LENGTH <= String.length (password u))%nat /\ role_of u <> Admin.

(** The state every user event leaves the page in: the validity effect has
    run, and the role is one of the two the buttons offer. *)
Definition signup_page_inv (p : signup_page) : Prop :=
  isFormValid p = form_valid (formData p) /\ f_role (formData p) <> Admin.

Lemma form_valid_account (fd : signup_form) (u : account) :
  form_valid fd = true -> f_role fd <> Admin ->
  name u = f_name fd -> email u = f_email fd -> password u = f_password fd -> role_of u = f_role fd ->
  valid_account u.
Proof.
  unfold form_valid, valid_account, js_falsy. intros Hv Hr -> -> -> ->. sb_bool.
  split_and!; [by apply String.eqb_neq | done | by apply Nat.leb_le | done].
Qed.

Lemma settle_inv (p : signup_page) : f_role (formData p) <> Admin -> signup_page_inv (settle p).
Proof. done. Qed.

Lemma role_param_effect_role (param : option string) (fd : signup_form) :
  f_role fd <> Admin -> f_role (role_param_effect param fd) <> Admin.
Proof. destruct param as [r|]; simpl; [repeat case_match |]; done. Qed.

Section SubmitLemmas.
Context {S : Type} `{Storage S}.
Context (enc : account -> json) (stringify : json -> string).

(** The roster after [signup]: the old accounts and the new one, built
    from the data passed. *)
Lemma signup_new_accounts (st : auth_state (S := S)) (d : signup_data) (now : Z) (u : account) :
  u ∈ users (signup enc stringify st d now).1 ->
  u ∈ users st \/
  (name u = sd_name d /\ email u = sd_email d /\ password u = sd_password d /\ role_of u = sd_role d).
Proof.
  unfold signup. destruct (existsb _ _); [by left |]. cbv zeta.
  assert (Hnu : forall v, v = (if decide (role_of (new_account d now) = Student)
                             then student_defaults (new_account d now) else new_account d now) ->
            name v = sd_name d /\ email v = sd_email d /\ password v = sd_password d /\ role_of v = sd_role d)
    by (intros v ->; by case_decide).
  repeat case_match; simpl; intros [Hu | ->%list_elem_of_singleton]%elem_of_app; auto.
Qed.

(** [handleSubmit] keeps the form, and reaches [signup] exactly when
    [validateForm] passes. *)
Lemma handleSubmit_parts (qm : string) (p : signup_page) (st : auth_state (S := S)) (now : Z) :
  formData (handleSubmit enc stringify qm p st now).1.1 = formData p /\
  (handleSubmit enc stringify qm p st now).1.2 =
    if (validateForm (formData p)).1
    then (signup enc stringify st (mkSignupData (f_name (formData p)) (f_email (formData p))
            (f_password (formData p)) (f_role (formData p))) now).1
    else st.
Proof.
  unfold handleSubmit. destruct (validateForm (formData p)) as [[|] errs]; simpl; [|done].
  destruct (signup _ _ _ _ _) as [st' [e|nu]]; done.
Qed.

(** The sign-in call: the roster is unchanged, and the session is either
    unchanged or an account with exactly the email and password given. *)
Lemma login_session (st : auth_state (S := S)) (e pw : string) :
  users (login enc stringify st e pw).1 = users st /\
  (user (login enc stringify st e pw).1 = user st \/
   exists u, user (login enc stringify st e pw).1 = Some u /\ email u = e /\ password u = pw).
Proof.
  unfold login. destruct (List.find _ _) as [u|] eqn:Hf; [|by split; [|left]].
  apply find_some in Hf as [_ Hm]. sb_bool.
  split; [by case_match |]. right. exists u. by case_match.
Qed.
End SubmitLemmas.

Section PageRuns.
Context {S : Type} `{Storage S}.
Context (enc : account -> json) (stringify : json -> string) (quota_message : string).

Lemma signup_step_inv (st0 : auth_state (S := S)) (x y : signup_page * auth_state (S := S)) :
  signup_page_inv x.1 /\ (forall u, u ∈ users x.2 -> u ∈ users st0 \/ valid_account u) ->
  signup_step enc stringify quota_message x y ->
  signup_page_inv y.1 /\ (forall u, u ∈ users y.2 -> u ∈ users st0 \/ valid_account u).
Proof.
  intros [[Hv Hr] Hroster] Hstep. destruct Hstep as [p st i|p st|p st|p st param|p st now p' st' nav Hen Hs]; simpl in *.
  - split; [apply settle_inv; by destruct i | done].
  - split; [apply settle_inv; by destruct (formData p) | done].
  - split; [apply settle_inv; by destruct (formData p) | done].
  - split; [apply settle_inv; by apply role_param_effect_role | done].
  - destruct (handleSubmit_parts enc stringify quota_message p st now) as [Hfd Hst].
    rewrite Hs in Hfd, Hst. simpl in Hfd, Hst. split; [apply settle_inv; by rewrite Hfd |].
    destruct (validateForm_spec (formData p)) as [Hval _]. rewrite Hval, <- Hv, Hen in Hst. subst st'.
    intros u [Hu | (Hn & He & Hp & Hro)]%signup_new_accounts; [by apply Hroster |].
    right. eapply form_valid_account; [by rewrite <- Hv | done | done | done | done | done].
Qed.

(** C33: Every account in the roster after any sequence of actions on the
    sign-up page either was there before or passed the page's
    validation: a non-blank name, an address matching [emailRegex], a
    password of at least six characters, and a role other than [admin]
    (the validation happens at the UI boundary, before [signup]). *)
Theorem signup_page_accounts_valid (st0 st : auth_state (S := S)) (p : signup_page) :
  star (signup_step enc stringify quota_message) (initial_page, st0) (p, st) ->
  forall u, u ∈ users st -> u ∈ users st0 \/ valid_account u.
Proof.
  intros Hrun. refine (proj2 (star_inv _ _ (initial_page, st0) (p, st) (signup_step_inv st0) _ Hrun)).
  split; [split; [done | discriminate] | by left].
Qed.

(** With its submit button enabled, [handleSubmit] always passes
    validation and calls [signup]: the branch "Please correct the errors
    in the form." of lines 117-120 is never taken from the page. *)
Theorem submit_reaches_signup (p : signup_page) (st : auth_state (S := S)) (now : Z) :
  signup_page_inv p -> isFormValid p = true ->
  errors (handleSubmit enc stringify quota_message p st now).1.1 = mkSignupErrors "" "" "" "" "" /\
  (handleSubmit enc stringify quota_message p st now).1.2 =
    (signup enc stringify st (mkSignupData (f_name (formData p)) (f_email (formData p))
       (f_password (formData p)) (f_role (formData p))) now).1.
Proof.
  intros [Hv _] Hen. rewrite Hv in Hen.
  destruct (validateForm_spec (formData p)) as [Hval Herr]. pose proof (Herr Hen) as Herrs.
  unfold handleSubmit. destruct (validateForm (formData p)) as [b errs]. simpl in Hval, Herrs.
  subst b errs. rewrite Hen. simpl. by destruct (signup _ _ _ _ _) as [? [?|?]].
Qed.

(** What the page lets through to [login]. *)
Definition login_inv (p : login_page) : Prop :=
  l_isFormValid p = true ->
  re_matches emailRegex (l_email p) = true /\ (PASSWORD_MIN_LENGTH <= String.length (l_password p))%nat.

Lemma login_effect_inv (p : login_page) : login_inv (login_effect p).
Proof.
  unfold login_inv, login_effect, js_falsy. simpl. repeat case_match; simplify_eq/=; try done.
  intros _. forms_cleanup. split; [by destruct (re_matches _ _) | unfold PASSWORD_MIN_LENGTH in *; lia].
Qed.

Lemma login_step_inv (x y : login_page * auth_state (S := S)) :
  login_inv x.1 /\
  (forall u, user x.2 = Some u -> re_matches emailRegex (email u) = true /\
                                 (PASSWORD_MIN_LENGTH <= String.length (password u))%nat) ->
  login_step enc stringify quota_message x y ->
  login_inv y.1 /\
  (forall u, user y.2 = Some u -> re_matches emailRegex (email u) = true /\
                                 (PASSWORD_MIN_LENGTH <= String.length (password u))%nat).
Proof.
  intros [Hinv Hsess] Hstep. destruct Hstep as [p st v|p st v|p st p' st' nav Hen Hs]; simpl in *;
    [split; [apply login_effect_inv | done] .. |].
  unfold login_submit in Hs. rewrite Hen in Hs. simpl in Hs.
  destruct (Hinv Hen) as [He Hp].
  destruct (login_session enc stringify st (l_email p) (l_password p)) as [_ [Hu | (u & Hu & Heu & Hpu)]];
  destruct (login _ _ _ _ _) as [st1 [e|[v|]]]; simpl in Hu; simplify_eq/=;
    (split; [intros ?; simpl; by split |]); try done; intros w Hw; rewrite Hw in Hu; simplify_eq; first [by auto | by rewrite Heu, Hpu].
Qed.

(** A session opened through the sign-in page belongs to an account whose
    email matches [emailRegex] and whose password has at least six
    characters: an account with a shorter password cannot sign in. *)
Theorem login_page_sessions (st0 st : auth_state (S := S)) (p : login_page) :
  user st0 = None ->
  star (login_step enc stringify quota_message) (initial_login, st0) (p, st) ->
  forall u, user st = Some u ->
    re_matches emailRegex (email u) = true /\ (PASSWORD_MIN_LENGTH <= String.length (password u))%nat.
Proof.
  intros H0 Hrun. refine (proj2 (star_inv _ _ (initial_login, st0) (p, st) login_step_inv _ Hrun)).
  split; [apply login_effect_inv | simpl; by rewrite H0].
Qed.
End PageRuns.

(** The sign-in page shows "Email is required.", "Password is
    required." and the banner "Please check your input." on its first
    render, before any input; the sign-up page shows no message until a
    submission. *)
Theorem untouched_forms_messages :
  render_login initial_login =
    mkLoginView (Some "Please check your input.") (Some "Email is required.")
      (Some "Password is required.") true /\
  render_signup initial_page =
    mkSignupView None true false None None None None None true.
Proof. split; reflexivity. Qed.

(** ** Concrete runs *)

Definition bo_filled : signup_page :=
  fold_left (fun p i => settle (set_form p (handleChange (formData p) i)))
    [InName "Bo"; InEmail "bo@x.io"; InPassword "secret"; InConfirm "secret"; InTerms true]
    initial_page.

Definition bo_submit := handleSubmit (S := gmap string string) demo_enc demo_str "quota" bo_filled demo_auth 7.

Definition bo_account : account :=
  student_defaults (new_account (mkSignupData "Bo" "bo@x.io" "secret" Student) 7).

Lemma bo_run :
  star (signup_step demo_enc demo_str "quota") (initial_page, demo_auth) (settle bo_submit.1.1, bo_submit.1.2).
Proof.
  eapply star_left; [apply SInput with (i := InName "Bo") |].
  eapply star_left; [apply SInput with (i := InEmail "bo@x.io") |].
  eapply star_left; [apply SInput with (i := InPassword "secret") |].
  eapply star_left; [apply SInput with (i := InConfirm "secret") |].
  eapply star_left; [apply SInput with (i := InTerms true) |].
  eapply star_left; [eapply SSubmit with (now := 7%Z); reflexivity |]. apply star_refl.
Qed.

Lemma signup_page_accounts_valid_witness :
  bo_account ∈ users demo_auth \/ valid_account bo_account.
Proof.
  apply (signup_page_accounts_valid demo_enc demo_str "quota" demo_auth bo_submit.1.2
           (settle bo_submit.1.1) bo_run).
  change (users bo_submit.1.2) with (users demo_auth ++ [bo_account]). apply elem_of_app. right. by left.
Defined.

Lemma submit_reaches_signup_witness :
  errors (handleSubmit (S := gmap string string) demo_enc demo_str "quota" bo_filled demo_auth 7).1.1 =
    mkSignupErrors "" "" "" "" "" /\
  (handleSubmit (S := gmap string string) demo_enc demo_str "quota" bo_filled demo_auth 7).1.2 =
    (signup demo_enc demo_str demo_auth (mkSignupData "Bo" "bo@x.io" "secret" Student) 7).1.
Proof. apply submit_reaches_signup; [split; [reflexivity | discriminate] | reflexivity]. Defined.

Lemma login_page_sessions_witness :
  re_matches emailRegex (email demo_student) = true /\
  (PASSWORD_MIN_LENGTH <= String.length (password demo_student))%nat.
Proof.
  apply (login_page_sessions (S := gmap string string) demo_enc demo_str "quota" demo_auth
    (login demo_enc demo_str demo_auth "ali@x.com" "secret").1
    (set_general (login_effect (mkLoginPage "ali@x.com" "secret" "" "" "" false)) "")); [reflexivity | | reflexivity].
  eapply star_left; [apply LEmail with (v := "ali@x.com") |].
  eapply star_left; [apply LPassword with (v := "secret") |].
  eapply star_left; [eapply LSubmit; reflexivity |]. apply star_refl.
Defined.

End SignIn.
