(* ===== verification/Listings.v ===== *)
(** * Listing repository: listings, companies and the merged view

    Models the listing data of [src/src/context/DataContext.jsx]:
    - [listing]: the shape of an internship record, as built by
      [addInternship] (lines 262-270), by the mapping of the external API
      results in [fetchAdzunaInternships] (lines 97-114) and as read by
      every view ([id] is [lid], [type] is [ltype]; [companyId] is
      [None] when the field is [undefined], as for a recruiter account
      without a company);
    - [merge_internships]: [allInternships] (lines 198-204), the merge of
      the local listings and the external ones through a [Map] keyed by
      id, external entries set last;
    - [merged_spec]: the abstract view the merge promises, a finite map
      from id to listing in which a later entry overrides an earlier one;
    - [abs_listings]: the abstraction function from a listing array to
      that map, and [spec_add_local], the abstract [addInternship];
      [merge_refines_spec] proves that the merge refines the view: one
      entry per key, and appending a local listing simulates the
      abstract insertion. *)

From S2P Require Import Prelude.

Module Listings.

Record listing : Type := mkListing {
  lid : jsid;
  title : string;
  company : string;
  companyId : option jsid;
  logo : string;
  location : string;
  ltype : string;
  isPaid : bool;
  stipend : string;
  duration : string;
  domain : string;
  posted : string;
  applicants : Z;
  requirements : list string;
  description : string;
  redirect_url : option string
}.

#[export] Instance listing_eq_dec : EqDecision listing.
Proof. solve_decision. Defined.

Record companyRec : Type := mkCompany {
  cid : Z;
  cname : string;
  clogo : string
}.

#[export] Instance companyRec_eq_dec : EqDecision companyRec.
Proof. solve_decision. Defined.

(** One [uniqueInternships.set(int.id, int)]. *)
Definition map_put (m : list (jsid * listing)) (i : listing) : list (jsid * listing) :=
  jsmap_set (lid i) i m.

(** [allInternships]: local listings first, then the external ones, then
    [Array.from(uniqueInternships.values())]. *)
Definition merge_internships (localInternships externalInternships : list listing)
    : list listing :=
  let m1 := fold_left map_put localInternships [] in
  let m2 := fold_left map_put externalInternships m1 in
  map snd m2.

(** ** Abstract view *)

#[export] Instance jsid_countable : Countable jsid.
Proof.
  refine (inj_countable' (fun i => match i with JNum n => inl n | JStr s => inr s end)
            (fun x => match x with inl n => JNum n | inr s => JStr s end) _).
  by intros [].
Qed.

(** The merged view as a finite map: every listing, in the order local
    then external, inserted at its id. *)
Definition merged_spec (localInternships externalInternships : list listing)
    : gmap jsid listing :=
  foldl (fun m i => <[lid i := i]> m) ∅ (localInternships ++ externalInternships).

(** The listing a [find] by id returns from a list. *)
Definition find_by_id (k : jsid) (l : list listing) : option listing :=
  List.find (fun i => lid i === k) l.

(** The last listing of [l] with id [k]. *)
Definition last_with_id (k : jsid) (l : list listing) : option listing :=
  foldl (fun acc i => if decide (lid i = k) then Some i else acc) None l.

(** The abstraction function: the finite map a listing array stands for,
    each id bound to the first listing with it, as [find] sees it. *)
Definition abs_listings (l : list listing) : gmap jsid listing :=
  list_to_map ((fun j => (lid j, j)) <$> l).

(** The abstract effect of appending a local listing ([addInternship]):
    it binds its id unless an external listing already holds it. *)
Definition spec_add_local (e : list listing) (i : listing) (m : gmap jsid listing) : gmap jsid listing :=
  if decide (lid i ∈ lid <$> e) then m else <[lid i := i]> m.

(** ** The map built by [map_put] *)

(** Every entry of the map is keyed by the id of its value. *)
Definition keyed (m : list (jsid * listing)) : Prop :=
  Forall (fun kv => kv.1 = lid kv.2) m.

Lemma keyed_put (m : list (jsid * listing)) (i : listing) :
  keyed m -> keyed (map_put m i).
Proof.
  unfold keyed, map_put. induction m as [|[k v] m IH]; simpl; intros Hk.
  - by constructor.
  - apply Forall_cons in Hk as [Hkv Hk]. case_decide; constructor; auto.
Qed.

Lemma keyed_fold (m : list (jsid * listing)) (l : list listing) :
  keyed m -> keyed (fold_left map_put l m).
Proof. revert m; induction l; simpl; auto using keyed_put. Qed.

Lemma NoDup_fold (m : list (jsid * listing)) (l : list listing) :
  NoDup (map fst m) -> NoDup (map fst (fold_left map_put l m)).
Proof. revert m; induction l as [|i l IH]; simpl; intros m Hm; [done | apply IH, jsmap_set_keys_NoDup, Hm]. Qed.

(** On a keyed map, finding a value by its id is [Map.get]. *)
Lemma find_by_id_keyed (k : jsid) (m : list (jsid * listing)) :
  keyed m -> find_by_id k (map snd m) = jsmap_get k m.
Proof.
  unfold find_by_id, id_eqb. induction m as [|[k' v] m IH]; simpl; intros Hk; [done |].
  apply Forall_cons in Hk as [Hkv Hk]. simpl in Hkv. subst k'.
  rewrite (decide_ext (k = lid v) (lid v = k)) by done.
  case_bool_decide; case_decide; subst; try congruence; auto.
Qed.

Lemma get_fold (k : jsid) (m : list (jsid * listing)) (l : list listing) :
  jsmap_get k (fold_left map_put l m) =
  match last_with_id k l with Some i => Some i | None => jsmap_get k m end.
Proof.
  unfold last_with_id. revert m. induction l as [|i l IH] using rev_ind; intros m; [done |].
  rewrite fold_left_app, foldl_app. simpl. unfold map_put. rewrite jsmap_get_set, IH.
  repeat case_decide; subst; try congruence; by destruct (foldl _ None l).

Qed.

Lemma spec_lookup (k : jsid) (g : gmap jsid listing) (l : list listing) :
  foldl (fun m i => <[lid i := i]> m) g l !! k =
  match last_with_id k l with Some i => Some i | None => g !! k end.
Proof.
  unfold last_with_id. revert g. induction l as [|i l IH] using rev_ind; intros g; [done |].
  rewrite !foldl_app. simpl. rewrite lookup_insert, IH.
  repeat case_decide; subst; try congruence; by destruct (foldl _ None l).

Qed.

Lemma last_with_id_acc (k : jsid) (a : option listing) (l : list listing) :
  foldl (fun acc i => if decide (lid i = k) then Some i else acc) a l =
  match last_with_id k l with Some i => Some i | None => a end.
Proof.
  unfold last_with_id. revert a. induction l as [|i l IH]; intros a; simpl; [done |].
  rewrite IH, (IH (if decide (lid i = k) then Some i else None)).
  case_decide; by destruct (foldl _ None l).
Qed.

Lemma last_with_id_app (k : jsid) (l1 l2 : list listing) :
  last_with_id k (l1 ++ l2) =
  match last_with_id k l2 with Some i => Some i | None => last_with_id k l1 end.
Proof. unfold last_with_id at 1. by rewrite foldl_app, last_with_id_acc. Qed.

Lemma keyed_ids (m : list (jsid * listing)) :
  keyed m -> map lid (map snd m) = map fst m.
Proof.
  unfold keyed. induction m as [|[k v] m IH]; simpl; intros Hk; [done |].
  apply Forall_cons in Hk as [Hkv Hk]. simpl in Hkv. by rewrite IH, Hkv.
Qed.

Lemma keys_fold (k : jsid) (m : list (jsid * listing)) (l : list listing) :
  k ∈ map fst (fold_left map_put l m) <-> k ∈ map fst m \/ k ∈ map lid l.
Proof.
  revert m. induction l as [|i l IH]; intros m; simpl; [set_solver |].
  rewrite IH. unfold map_put. rewrite elem_of_jsmap_set_keys, elem_of_cons. naive_solver.
Qed.

Lemma merge_keyed (localInternships externalInternships : list listing) :
  keyed (fold_left map_put externalInternships (fold_left map_put localInternships [])).
Proof. apply keyed_fold, keyed_fold. constructor. Qed.

#[export] Hint Resolve keyed_put keyed_fold merge_keyed : sb.

(** ** Properties of the merge *)

Lemma merge_lookup (localInternships externalInternships : list listing) (k : jsid) :
  find_by_id k (merge_internships localInternships externalInternships) =
  match last_with_id k externalInternships with
  | Some e => Some e
  | None => last_with_id k localInternships
  end.
Proof.
  unfold merge_internships. rewrite find_by_id_keyed by auto with sb.
  rewrite get_fold, get_fold. simpl.
  by destruct (last_with_id k externalInternships), (last_with_id k localInternships).
Qed.

(** P1, first half: the merged view holds exactly one listing per id, and
    exactly the ids of the two sources. *)
Theorem merge_ids_unique (localInternships externalInternships : list listing) :
  NoDup (map lid (merge_internships localInternships externalInternships)) /\
  (forall k, k ∈ map lid (merge_internships localInternships externalInternships) <->
             k ∈ map lid (localInternships ++ externalInternships)).
Proof.
  unfold merge_internships. rewrite keyed_ids by auto with sb. split.
  - apply NoDup_fold, NoDup_fold. constructor.
  - intros k. rewrite keys_fold, keys_fold, map_app, elem_of_app. set_solver.
Qed.

Lemma merge_find_spec (localInternships externalInternships : list listing) (k : jsid) :
  find_by_id k (merge_internships localInternships externalInternships) =
  merged_spec localInternships externalInternships !! k.
Proof.
  rewrite merge_lookup. unfold merged_spec.
  rewrite spec_lookup, last_with_id_app, lookup_empty.
  by destruct (last_with_id k externalInternships), (last_with_id k localInternships).
Qed.

Lemma abs_lookup (k : jsid) (l : list listing) : abs_listings l !! k = find_by_id k l.
Proof.
  unfold abs_listings, find_by_id, id_eqb. induction l as [|i l IH]; [done |].
  rewrite fmap_cons, list_to_map_cons, lookup_insert, IH. cbn [List.find].
  case_decide; case_bool_decide; congruence.
Qed.

Lemma last_with_id_None (k : jsid) (l : list listing) :
  last_with_id k l = None <-> k ∉ lid <$> l.
Proof.
  induction l as [|i l IH]; [set_solver |].
  change (last_with_id k (i :: l)) with (last_with_id k ([i] ++ l)).
  rewrite last_with_id_app, fmap_cons, elem_of_cons. unfold last_with_id at 2. cbn [foldl].
  destruct (last_with_id k l), (decide (lid i = k)); naive_solver.
Qed.

Lemma last_with_id_single (k : jsid) (i : listing) :
  last_with_id k [i] = if decide (lid i = k) then Some i else None.
Proof. reflexivity. Qed.

Lemma merged_spec_add_local (l e : list listing) (i : listing) :
  merged_spec (l ++ [i]) e = spec_add_local e i (merged_spec l e).
Proof.
  apply map_eq. intros k. unfold merged_spec, spec_add_local. rewrite <- app_assoc.
  case_decide as Hin; [| rewrite lookup_insert];
    rewrite !spec_lookup, !last_with_id_app, last_with_id_single, lookup_empty;
    destruct (last_with_id k e) eqn:E; repeat case_decide; subst; try done;
    first [apply last_with_id_None in E; contradiction | apply last_with_id_None in Hin; congruence].
Qed.

(** C38: the merged list [allInternships] refines the abstract view
    [merged_spec]: through the abstraction function it is the finite map
    of all listings, later entries overriding earlier ones; it has exactly
    one entry per key of that map; and appending a listing with
    [addInternship] acts on it as the abstract insertion, which an
    external listing with the same id overrides. *)
Theorem merge_refines_spec (localInternships externalInternships : list listing) (i : listing) :
  abs_listings (merge_internships localInternships externalInternships) =
    merged_spec localInternships externalInternships /\
  List.length (merge_internships localInternships externalInternships) =
    size (merged_spec localInternships externalInternships) /\
  abs_listings (merge_internships (localInternships ++ [i]) externalInternships) =
    spec_add_local externalInternships i (abs_listings (merge_internships localInternships externalInternships)).
Proof.
  assert (Habs : forall l e, abs_listings (merge_internships l e) = merged_spec l e)
    by (intros l e; apply map_eq; intros k; by rewrite abs_lookup, merge_find_spec).
  split_and!; [apply Habs | | by rewrite !Habs, merged_spec_add_local].
  rewrite <- Habs. unfold abs_listings. rewrite map_size_list_to_map, length_fmap; [done |].
  rewrite <- list_fmap_compose. apply (merge_ids_unique localInternships externalInternships).
Qed.

(** C5: P1, second half: an id carried by an external listing resolves to the
    last external listing with it; otherwise to the last local one. *)
Theorem merge_external_wins (localInternships externalInternships : list listing) (k : jsid) :
  (forall e, last_with_id k externalInternships = Some e ->
     find_by_id k (merge_internships localInternships externalInternships) = Some e) /\
  (last_with_id k externalInternships = None ->
     find_by_id k (merge_internships localInternships externalInternships) =
     last_with_id k localInternships).
Proof. rewrite merge_lookup. split; [intros e -> | intros ->]; done. Qed.


(** ** Witnesses *)

(** A listing with a given id and title. *)
Definition demo_listing (k : jsid) (t : string) : listing :=
  mkListing k t "Acme" (Some (JNum 1)) "AC" "Remote" "Remote" true "500 / month" "3 months"
    "Web Development" "2024-05-01" 0 ["react"] "" None.

Lemma merge_external_wins_witness :
  find_by_id (JNum 1) (merge_internships [demo_listing (JNum 1) "local"; demo_listing (JNum 2) "other"]
                                         [demo_listing (JNum 1) "external"]) =
  Some (demo_listing (JNum 1) "external").
Proof. apply (proj1 (merge_external_wins _ _ (JNum 1))). reflexivity. Defined.

End Listings.
