(* ===== verification/Search.v ===== *)
(** * Matching engine, part 1: the search filter and the autocomplete terms

    Models [getFilteredInternships] (DataContext.jsx lines 346-382) and
    [getSearchableTerms] (lines 419-435).

    The callback passed to [internships.filter] recomputes, for every
    listing, the keywords of the query: [search.toLowerCase().split(' ')]
    without the empty pieces ([search_keywords]), put in a [Set] and
    extended with the related terms of each keyword found in the synonym
    table ([expand_keywords]).  A keyword that names a member of
    [Object.prototype] ([constructor], [__proto__]) makes
    [keywordRelationships[keyword].forEach] throw a [TypeError]; the
    model returns it as [inl], and [getFilteredInternships] propagates it
    through [js_filter_throw]. *)

From S2P Require Import Prelude Keywords Listings.
Import Keywords Listings.

Module Search.

(** The [filters] state of [BrowseInternships.jsx] (lines 10-16). *)
Record filters : Type := mkFilters {
  f_search : string;
  f_type : string;
  f_paid : string;
  f_domain : string;
  f_location : string
}.

Inductive search_error : Type :=
| TypeError (what : string).

(** [filters.search.toLowerCase().split(' ').filter(Boolean)] *)
Definition search_keywords (search : string) : list string :=
  List.filter js_nonempty (js_split space (js_lower search)).

(** The [forEach] over the keywords: each keyword found in the table adds
    its related terms to the set; a prototype member throws. *)
Fixpoint expand_keywords (ks : list string) (acc : list string)
    : search_error + list string :=
  match ks with
  | [] => inr acc
  | k :: ks' =>
      match kw_get k with
      | PArray related => expand_keywords ks' (fold_left (fun a r => js_set_add r a) related acc)
      | PUndefined => expand_keywords ks' acc
      | PFunction | PObject =>
          inl (TypeError "keywordRelationships[keyword].forEach is not a function")
      end
  end.

(** [expandedKeywords] *)
Definition expanded_keywords (search : string) : search_error + list string :=
  let ks := search_keywords search in
  expand_keywords ks (js_set_of ks).

(** [searchableText] *)
Definition searchable_text (i : listing) : string :=
  js_lower (js_join space ([title i; company i; domain i; description i] ++ requirements i)).

(** [matchesSearch] *)
Definition matches_search (kws : list string) (i : listing) : bool :=
  if bool_decide (0 < List.length kws)%nat
  then existsb (fun k => js_includes (searchable_text i) k) kws
  else true.

Definition matches_type (f : filters) (i : listing) : bool :=
  String.eqb (f_type f) "all" || String.eqb (ltype i) (f_type f).

Definition matches_paid (f : filters) (i : listing) : bool :=
  String.eqb (f_paid f) "all" ||
  (String.eqb (f_paid f) "paid" && isPaid i) ||
  (String.eqb (f_paid f) "unpaid" && negb (isPaid i)).

Definition matches_domain (f : filters) (i : listing) : bool :=
  String.eqb (f_domain f) "all" || String.eqb (domain i) (f_domain f).

(** [!filters.location || location.toLowerCase().includes(...)] *)
Definition matches_location (f : filters) (i : listing) : bool :=
  String.eqb (f_location f) "" ||
  js_includes (js_lower (location i)) (js_lower (f_location f)).

(** The value the callback returns once the keywords are known. *)
Definition keep (kws : list string) (f : filters) (i : listing) : bool :=
  matches_search kws i && matches_type f i && matches_paid f i &&
  matches_domain f i && matches_location f i.

(** The callback of [internships.filter]. *)
Definition filter_callback (f : filters) (i : listing) : search_error + bool :=
  kws <- expanded_keywords (f_search f) ;;
  inr (keep kws f i).

Definition getFilteredInternships (internships : list listing) (f : filters)
    : search_error + list listing :=
  js_filter_throw (filter_callback f) internships.

(** ** [getSearchableTerms] *)

(** The terms one listing contributes, in the order they are added. *)
Definition listing_terms (i : listing) : list string :=
  [title i] ++ requirements i ++
  (if String.eqb (domain i) "" then [] else [domain i]) ++
  (if String.eqb (company i) "" then [] else [company i]).

Definition getSearchableTerms (internships : list listing) : list string :=
  let terms := js_set_of (List.concat (map listing_terms internships) ++ kw_keys ++ kw_values) in
  js_sort js_string_cmp (map js_capitalize terms).

(** ** Keyword expansion *)

(** The keyword names a member of [Object.prototype]. *)
Definition proto_hit (k : string) : bool :=
  match kw_get k with PFunction | PObject => true | _ => false end.

Lemma expand_keywords_inl (ks acc : list string) (e : search_error) :
  expand_keywords ks acc = inl e -> exists k, k ∈ ks /\ proto_hit k = true.
Proof.
  revert acc. induction ks as [|k ks IH]; intros acc; simpl; [done |].
  unfold proto_hit. destruct (kw_get k) eqn:Hk;
    try (intros H; destruct (IH _ H) as (k' & ? & ?); exists k'; split; [by right | done]);
    intros _; exists k; rewrite Hk; split; by try left.
Qed.

Lemma expand_keywords_hit (ks acc : list string) (k : string) :
  k ∈ ks -> proto_hit k = true -> exists e, expand_keywords ks acc = inl e.
Proof.
  unfold proto_hit. revert acc. induction ks as [|k' ks IH]; intros acc; simpl;
    [set_solver |].
  intros [<-|Hin]%elem_of_cons Hhit.
  - destruct (kw_get k); by eauto.
  - destruct (kw_get k'); by eauto.
Qed.

Lemma search_keywords_no_space (search k : string) :
  k ∈ search_keywords search -> ~ exists p q, k = (p ++ String space q)%string.
Proof.
  unfold search_keywords. intros [Hk _]%elem_of_list_filter_bool. by apply js_split_no_sep in Hk.
Qed.

(** ** The filter *)

(** When the keywords expand without error, the filter keeps exactly the
    listings the callback's condition accepts, in their order. *)
Lemma getFilteredInternships_ok (internships : list listing) (f : filters) (kws : list string) :
  expanded_keywords (f_search f) = inr kws ->
  getFilteredInternships internships f = inr (List.filter (keep kws f) internships).
Proof.
  intros Hk. apply js_filter_throw_pure. intros i _. unfold filter_callback. by rewrite Hk.
Qed.

(** The search is an OR over the expanded keywords, AND-ed with the other
    criteria: with at least one keyword, a listing is kept iff its
    searchable text contains one of the keywords and it passes the type,
    paid, domain and location tests. *)
Theorem search_or_semantics (internships : list listing) (f : filters) (kws : list string) :
  expanded_keywords (f_search f) = inr kws -> kws <> [] ->
  exists r, getFilteredInternships internships f = inr r /\
  forall i, i ∈ r <->
    i ∈ internships /\
    (exists k, k ∈ kws /\ exists p q, searchable_text i = (p ++ k ++ q)%string) /\
    matches_type f i = true /\ matches_paid f i = true /\
    matches_domain f i = true /\ matches_location f i = true.
Proof.
  intros Hk Hne. eexists; split; [by apply getFilteredInternships_ok |].
  intros i. rewrite elem_of_list_filter_bool. unfold keep, matches_search.
  rewrite bool_decide_true by (destruct kws; simpl in *; [done | lia]).
  rewrite !andb_true_iff, existsb_exists.
  setoid_rewrite js_includes_spec. setoid_rewrite <- list_elem_of_In. naive_solver.
Qed.

(** The expansion of ["ai"] in the table. *)
Definition ai_terms : list string :=
  ["ai"; "artificial intelligence"; "ml"; "machine learning"; "deep learning";
   "data science"; "nlp"; "computer vision"; "python"].

(** C7: P3: searching ["ai"] with every other criterion open returns exactly
    the listings whose text contains one of the nine terms of [ai_terms],
    in their order. *)
Theorem search_ai (internships : list listing) :
  getFilteredInternships internships (mkFilters "ai" "all" "all" "all" "") =
  inr (List.filter (fun i => existsb (fun k => js_includes (searchable_text i) k) ai_terms) internships).
Proof.
  rewrite (getFilteredInternships_ok _ _ ai_terms) by reflexivity. f_equal.
  apply filter_ext. intros i. unfold keep, matches_search. simpl.
  by rewrite !andb_true_r.
Qed.

(** A query without keywords and open criteria returns every listing. *)
Theorem search_empty_query (internships : list listing) (search : string) :
  search_keywords search = [] ->
  getFilteredInternships internships (mkFilters search "all" "all" "all" "") = inr internships.
Proof.
  intros Hs. rewrite (getFilteredInternships_ok _ _ []).
  - f_equal. apply list_filter_bool_id. intros i _. reflexivity.
  - unfold expanded_keywords. simpl. by rewrite Hs.
Qed.

(** C36: A query containing the word [constructor] or [__proto__] makes the
    search throw as soon as there is a listing to filter. *)
Theorem search_prototype_key_throws (internships : list listing) (f : filters) (k : string) :
  k ∈ search_keywords (f_search f) -> proto_hit k = true -> internships <> [] ->
  exists e, getFilteredInternships internships f = inl e.
Proof.
  intros Hk Hhit Hne. unfold expanded_keywords in *.
  destruct (expand_keywords_hit _ (js_set_of (search_keywords (f_search f))) _ Hk Hhit) as [e He].
  exists e. destruct internships as [|i l]; [done |]. cbn [js_filter_throw getFilteredInternships].
  unfold filter_callback, expanded_keywords. by rewrite He.
Qed.

(** Conversely, the only exception of the search is a prototype hit. *)
Theorem search_throws_only_on_prototype (internships : list listing) (f : filters) (e : search_error) :
  getFilteredInternships internships f = inl e ->
  exists k, k ∈ search_keywords (f_search f) /\ proto_hit k = true.
Proof.
  intros H. apply js_filter_throw_inl in H as (i & _ & Hi).
  unfold filter_callback, expanded_keywords in Hi.
  destruct (expand_keywords _ _) eqn:He; [|done]. injection Hi as ->.
  by apply expand_keywords_inl in He.
Qed.

(** The entries of the table whose key has a space ([machine learning],
    [data science], ...) are never consulted: no keyword of any query
    contains a space. *)
Theorem multiword_keys_unreachable (search k : string) :
  k ∈ kw_keys -> (exists p q, k = (p ++ String space q)%string) ->
  k ∉ search_keywords search.
Proof. intros _ Hsp Hk. by apply (search_keywords_no_space search k). Qed.

(** ** Autocomplete terms *)

(** The terms of [getSearchableTerms]: sorted by the default string order,
    and exactly the capitalised titles, requirements, non-empty domains and
    companies of the listings and the keys and values of the table. *)
Theorem searchable_terms_sorted_complete (internships : list listing) :
  Sorted (fun a b => js_string_cmp a b <= 0)%Z (getSearchableTerms internships) /\
  forall x, x ∈ getSearchableTerms internships <->
    exists t, x = js_capitalize t /\
      t ∈ (List.concat (map listing_terms internships) ++ kw_keys ++ kw_values)%list.
Proof.
  unfold getSearchableTerms. split.
  - apply js_sort_sorted, js_string_cmp_antisym.
  - intros x. rewrite (js_sort_perm js_string_cmp _), list_elem_of_fmap.
    by setoid_rewrite elem_of_js_set_of.
Qed.

(** A listing used to exercise the theorems. *)
Definition sample_listing : listing :=
  mkListing (JNum 1) "Frontend Intern" "Acme" (Some (JNum 1)) "AC" "Remote" "Remote" true
    "500 / month" "3 months" "Web Development" "2024-05-01" 0 ["React"; "SQL"]
    "Build UI components" None.

(** The autocomplete list is not free of duplicates: the requirement
    ["React"] and the table key ["react"] are distinct in the [Set] and
    become the same string once capitalised. *)
Theorem searchable_terms_duplicate :
  ~ NoDup (getSearchableTerms [sample_listing]).
Proof.
  intros H. pose proof (bool_decide_eq_true_2 (NoDup (getSearchableTerms [sample_listing])) H) as Hb.
  vm_compute in Hb. discriminate.
Qed.

(** ** Witnesses *)

Definition ai_filters : filters := mkFilters "ai" "all" "all" "all" "".
Definition constructor_filters : filters := mkFilters "constructor" "all" "all" "all" "".

Lemma search_or_semantics_witness :
  exists r, getFilteredInternships [sample_listing] ai_filters = inr r /\
  forall i, i ∈ r <->
    i ∈ [sample_listing] /\
    (exists k, k ∈ ai_terms /\ exists p q, searchable_text i = (p ++ k ++ q)%string) /\
    matches_type ai_filters i = true /\ matches_paid ai_filters i = true /\
    matches_domain ai_filters i = true /\ matches_location ai_filters i = true.
Proof. apply search_or_semantics; [reflexivity | discriminate]. Defined.

Lemma search_empty_query_witness :
  getFilteredInternships [sample_listing] (mkFilters "   " "all" "all" "all" "") = inr [sample_listing].
Proof. apply search_empty_query. reflexivity. Defined.

Lemma search_prototype_key_throws_witness :
  exists e, getFilteredInternships [sample_listing] constructor_filters = inl e.
Proof.
  apply (search_prototype_key_throws _ _ "constructor");
    [apply list_elem_of_In; vm_compute; left; reflexivity | reflexivity | discriminate].
Defined.

Lemma search_throws_only_on_prototype_witness :
  exists k, k ∈ search_keywords (f_search constructor_filters) /\ proto_hit k = true.
Proof.
  apply (search_throws_only_on_prototype [sample_listing] _
           (TypeError "keywordRelationships[keyword].forEach is not a function")).
  reflexivity.
Defined.

Lemma multiword_keys_unreachable_witness :
  "machine learning" ∉ search_keywords "machine learning".
Proof.
  apply multiword_keys_unreachable.
  - apply list_elem_of_In. vm_compute. do 2 right. left. reflexivity.
  - exists "machine", "learning". reflexivity.
Defined.

End Search.
