(* ===== verification/Matching.v ===== *)
(** * Matching engine, part 2: match percentage, recommendations, profile score

    - [matchPercentage] and [getRecommendedInternships]: DataContext.jsx
      lines 385-417.  Each listing gets the share of its requirements
      that the student's skills cover; the listings are sorted by that
      percentage, then by posting date (newest first), and the first five
      are kept.
    - [profile_completion]: the [useMemo] of lines 135-184, the weighted
      checklist of a student profile.

    The comparator subtracts two [new Date(posted)] values.  [date_value]
    parses the [YYYY-MM-DD] strings the code stores (ISO date-only form,
    midnight UTC, in days; the factor to milliseconds does not change the
    order) and returns [None] for [NaN]; [Array.prototype.sort] treats a
    [NaN] comparison as [+0], which [date_diff] does.  Other date formats
    that engines accept are not modelled.

    [Math.round((matched / reqs) * 100)] is computed on the exact
    rational ([js_round_pct]); the floating-point quotient is not
    modelled.  A division by zero gives [NaN] or [Infinity]
    ([js_number]): the guard of line 401 is what keeps the percentage
    finite. *)

From S2P Require Import Prelude Auth Listings.
Import Auth Listings.
Open Scope list_scope.

Module Matching.

(** ** Match percentage *)

(** [studentSkills] *)
Definition student_skills (user : option account) : list string :=
  match user with
  | Some u => if decide (role_of u = Student) then map js_lower (default [] (skills u)) else []
  | None => []
  end.

Definition is_student (user : option account) : bool :=
  match user with Some u => bool_decide (role_of u = Student) | None => false end.

(** The percentage of one listing for lower-cased skills [sk]. *)
Definition match_percentage (sk : list string) (i : listing) : js_number :=
  let reqs := map js_lower (requirements i) in
  let matched := List.length (List.filter (fun s => bool_decide (s ∈ reqs)) sk) in
  if bool_decide (0 < List.length reqs)%nat
  then js_round_pct (Z.of_nat matched) (Z.of_nat (List.length reqs))
  else JsNum 0.

(** [matchPercentage] as the [map] callback computes it. *)
Definition matchPercentage (user : option account) (i : listing) : js_number :=
  let sk := student_skills user in
  if is_student user && bool_decide (0 < List.length sk)%nat
  then match_percentage sk i
  else JsNum 0.

(** ** Dates *)

(** Decimal digits of a string, most significant first. *)
Fixpoint digits_value (s : string) (acc : Z) : option Z :=
  match s with
  | EmptyString => Some acc
  | String c s' =>
      let n := nat_of_ascii c in
      if (48 <=? n)%nat && (n <=? 57)%nat
      then digits_value s' (acc * 10 + Z.of_nat (n - 48))%Z
      else None
  end.

(** Days from 1970-01-01 to a proleptic Gregorian date. *)
Definition days_from_civil (y m d : Z) : Z :=
  let y' := if (m <=? 2)%Z then (y - 1)%Z else y in
  let era := (y' / 400)%Z in
  let yoe := (y' - era * 400)%Z in
  let mp := if (m <=? 2)%Z then (m + 9)%Z else (m - 3)%Z in
  let doy := ((153 * mp + 2) / 5 + d - 1)%Z in
  let doe := (yoe * 365 + yoe / 4 - yoe / 100 + doy)%Z in
  (era * 146097 + doe - 719468)%Z.

(** [new Date(s)] for an ISO [YYYY-MM-DD] string, in days; [None] is
    [NaN]. *)
Definition date_value (s : string) : option Z :=
  if bool_decide (String.length s = 10%nat) &&
     String.eqb (String.substring 4 1 s) "-" && String.eqb (String.substring 7 1 s) "-"
  then match digits_value (String.substring 0 4 s) 0, digits_value (String.substring 5 2 s) 0,
             digits_value (String.substring 8 2 s) 0 with
       | Some y, Some m, Some d =>
           if bool_decide (1 <= m <= 12)%Z && bool_decide (1 <= d <= 31)%Z
           then Some (days_from_civil y m d) else None
       | _, _, _ => None
       end
  else None.

(** [new Date(b) - new Date(a)] as the sort reads it. *)
Definition date_diff (b a : string) : Z :=
  match date_value b, date_value a with
  | Some x, Some y => (x - y)%Z
  | _, _ => 0%Z
  end.

(** ** Recommendations *)

(** [{ ...internship, matchPercentage }] *)
Notation scored := (listing * js_number)%type.

(** [x !== y] on two percentages ([NaN] is different from itself). *)
Definition js_num_neq (x y : js_number) : bool :=
  match x, y with
  | JsNum a, JsNum b => negb (Z.eqb a b)
  | JsInfinity, JsInfinity => false
  | _, _ => true
  end.

(** The sign of [y - x] as the sort reads it: a [NaN] result counts as
    [+0]. *)
Definition js_num_sub_cmp (y x : js_number) : Z :=
  match y, x with
  | JsNum b, JsNum a => (b - a)%Z
  | JsInfinity, JsNum _ => 1%Z
  | JsNum _, JsInfinity => (-1)%Z
  | _, _ => 0%Z
  end.

(** The comparator of [.sort] (lines 407-413). *)
Definition recommend_cmp (a b : scored) : Z :=
  if js_num_neq b.2 a.2 then js_num_sub_cmp b.2 a.2 else date_diff (posted b.1) (posted a.1).

(** The integer of a finite percentage. *)
Definition pct_value (p : js_number) : Z := match p with JsNum z => z | _ => 0%Z end.

Definition getRecommendedInternships (user : option account) (internships : list listing)
    : list scored :=
  take 5 (js_sort recommend_cmp (map (fun i => (i, matchPercentage user i)) internships)).

(** ** Profile completeness *)

Record checklist_item : Type := mkItem {
  label : string;
  completed : bool;
  points : Z;
  action : string
}.

(** [!!value] of an optional string. *)
Definition truthy_string (o : option string) : bool :=
  match o with Some s => negb (String.eqb s "") | None => false end.

(** [(value?.length || 0)] of an optional array. *)
Definition opt_length {A : Type} (o : option (list A)) : nat := List.length (default [] o).

Definition hasResume (u : account) : bool := truthy_string (resume u).
Definition hasEnoughSkills (u : account) : bool := (3 <=? opt_length (skills u))%nat.
Definition hasEducation (u : account) : bool := (1 <=? opt_length (education u))%nat.
Definition hasBio (u : account) : bool := truthy_string (bio u).
Definition hasProjects (u : account) : bool := (1 <=? opt_length (projects u))%nat.

Definition profile_checklist (u : account) : list checklist_item :=
  [mkItem "Upload Resume" (hasResume u) 30 "Upload";
   mkItem "Add 3+ Skills" (hasEnoughSkills u) 20 "Add Skills";
   mkItem "Add Education Details" (hasEducation u) 15 "Add Education";
   mkItem "Write a Short Bio" (hasBio u) 15 "Add Bio";
   mkItem "Add 1+ Project/Experience" (hasProjects u) 20 "Add Project"].

(** The running [score] of lines 145-174: one [if (...) score += w] per
    criterion. *)
Definition profile_score (u : account) : Z :=
  let score := 0%Z in
  let score := if hasResume u then (score + 30)%Z else score in
  let score := if hasEnoughSkills u then (score + 20)%Z else score in
  let score := if hasEducation u then (score + 15)%Z else score in
  let score := if hasBio u then (score + 15)%Z else score in
  let score := if hasProjects u then (score + 20)%Z else score in
  score.

(** [{ profileImpactScore, profileCompletionPercentage,
    profileCompletionChecklist }]; [Math.round] of an integer is itself. *)
Definition profile_completion (user : option account) : Z * Z * list checklist_item :=
  match user with
  | Some u =>
      if decide (role_of u = Student)
      then (profile_score u, profile_score u, profile_checklist u)
      else (0%Z, 0%Z, [])
  | None => (0%Z, 0%Z, [])
  end.

(** ** Properties of the match percentage *)

(** The number of skills among the requirements. *)
Lemma matched_le (sk reqs : list string) :
  NoDup sk -> (List.length (List.filter (fun s => bool_decide (s ∈ reqs)) sk) <= List.length reqs)%nat.
Proof.
  intros Hnd. apply NoDup_incl_length.
  - apply List.NoDup_filter. by apply NoDup_ListNoDup.
  - intros s Hs. apply filter_In in Hs as [_ Hs]. sb_bool. by apply list_elem_of_In.
Qed.

Lemma match_percentage_bounds (sk : list string) (i : listing) :
  NoDup sk -> exists z, match_percentage sk i = JsNum z /\ (0 <= z <= 100)%Z.
Proof.
  intros Hnd. unfold match_percentage.
  case_bool_decide as Hlen; [| exists 0%Z; split; [done | lia]].
  rewrite js_round_pct_pos by lia. eexists. split; [reflexivity |].
  apply round_pct_bounds; [| lia]. split; [lia |]. apply Nat2Z.inj_le, matched_le, Hnd.
Qed.

(** Every requirement covered by distinct skills: all of them match. *)
Lemma matched_all (sk reqs : list string) :
  NoDup sk -> NoDup reqs -> (forall r, r ∈ reqs -> r ∈ sk) ->
  List.length (List.filter (fun s => bool_decide (s ∈ reqs)) sk) = List.length reqs.
Proof.
  intros Hsk Hr Hcov. apply Nat.le_antisymm; [by apply matched_le |].
  apply NoDup_incl_length; [by apply NoDup_ListNoDup |].
  intros r Hin. apply filter_In. rewrite <- list_elem_of_In in Hin |- *.
  split; [by apply Hcov | by apply bool_decide_eq_true].
Qed.

(** The percentage is a finite number for every user and listing. *)
Lemma matchPercentage_finite (user : option account) (i : listing) :
  exists z, matchPercentage user i = JsNum z.
Proof.
  unfold matchPercentage, match_percentage.
  destruct (_ && _); [| by eexists]. case_bool_decide; [| by eexists].
  rewrite js_round_pct_pos by lia. by eexists.
Qed.

(** C8: P4: for a student whose lower-cased skills have no duplicates, the
    percentage is a number in [0, 100]; a listing without requirements
    scores 0 for everybody (the guard of line 401: without it the
    quotient would be [NaN]); and a listing whose distinct requirements
    the student's skills all cover scores 100. *)
Theorem matchPercentage_bounds (user : option account) (i : listing) :
  NoDup (student_skills user) ->
  (exists z, matchPercentage user i = JsNum z /\ (0 <= z <= 100)%Z) /\
  (requirements i = [] -> matchPercentage user i = JsNum 0) /\
  (is_student user = true -> requirements i <> [] -> NoDup (map js_lower (requirements i)) ->
   (forall r, r ∈ map js_lower (requirements i) -> r ∈ student_skills user) ->
   matchPercentage user i = JsNum 100).
Proof.
  intros Hnd. unfold matchPercentage. split_and!.
  - destruct (_ && _); [by apply match_percentage_bounds | exists 0%Z; split; [done | lia]].
  - intros Hr. destruct (_ && _); [|done]. unfold match_percentage. by rewrite Hr.
  - intros Hs Hne Hrd Hcov.
    assert (Hlen : (0 < List.length (map js_lower (requirements i)))%nat)
      by (rewrite length_map; destruct (requirements i); [done | simpl; lia]).
    assert (Hsk : (0 < List.length (student_skills user))%nat).
    { destruct (map js_lower (requirements i)) as [|r rs] eqn:E; [simpl in Hlen; lia |].
      assert (Hin : r ∈ student_skills user) by (apply Hcov; left).
      destruct (student_skills user); [by apply elem_of_nil in Hin | simpl; lia]. }
    rewrite Hs, bool_decide_true by done. cbn [andb]. unfold match_percentage.
    rewrite bool_decide_true by done. rewrite matched_all by done.
    rewrite js_round_pct_pos by lia. by rewrite round_pct_full by lia.
Qed.

(** A student account with the given skills. *)
Definition student_with (sk : list string) : account :=
  mkAccount 7 "Sam" "sam@x.com" "pw" Student None (Some []) (Some sk)
    (Some "") (Some "") (Some "") (Some []) (Some "") None (Some []) None.

(** A listing with the given requirements. *)
Definition listing_with (reqs : list string) : listing :=
  mkListing (JNum 1) "Intern" "Acme" (Some (JNum 1)) "AC" "Remote" "Remote" true
    "500 / month" "3 months" "Web Development" "2024-05-01" 0 reqs "" None.

(** Scenario C: skills [react, sql] against requirements
    [react, python, sql] give round(2/3 * 100) = 67. *)
Theorem scenario_C :
  matchPercentage (Some (student_with ["react"; "sql"])) (listing_with ["react"; "python"; "sql"]) = JsNum 67.
Proof. reflexivity. Qed.

(** The bound needs distinct skills: the skills [React] and [react] both
    lower-case to [react] and are both counted, and the card shows a
    200% match. *)
Theorem matchPercentage_duplicate_skills :
  matchPercentage (Some (student_with ["React"; "react"])) (listing_with ["react"]) = JsNum 200.
Proof. reflexivity. Qed.

(** ** Properties of the recommendations *)

Lemma js_num_neq_sym (x y : js_number) : js_num_neq x y = js_num_neq y x.
Proof. destruct x, y; cbn; try rewrite Z.eqb_sym; reflexivity. Qed.

Lemma recommend_cmp_antisym (a b : scored) :
  (0 < recommend_cmp a b)%Z -> (recommend_cmp b a < 0)%Z.
Proof.
  unfold recommend_cmp. rewrite (js_num_neq_sym a.2 b.2).
  destruct (js_num_neq b.2 a.2) eqn:E.
  - destruct a as [ia []], b as [ib []]; cbn in *; try lia; discriminate.
  - unfold date_diff. destruct (date_value (posted b.1)), (date_value (posted a.1)); lia.
Qed.

(** On finite percentages, a listing sorted first has the higher one. *)
Lemma recommend_cmp_pct (a b : scored) (x y : Z) :
  a.2 = JsNum x -> b.2 = JsNum y -> (recommend_cmp a b <= 0)%Z -> (y <= x)%Z.
Proof.
  intros Ha Hb. unfold recommend_cmp. rewrite Ha, Hb. cbn.
  destruct (Z.eqb_spec y x); cbn; lia.
Qed.

(** The recommendations are the first five of the listings sorted by the
    comparator (percentage descending, then newest first), and no listing
    left out has a higher percentage than one kept. *)
Theorem recommendations_top5 (user : option account) (internships : list listing) :
  let scoredl := map (fun i => (i, matchPercentage user i)) internships in
  let r := getRecommendedInternships user internships in
  List.length r = Nat.min 5 (List.length internships) /\
  Sorted (fun a b => recommend_cmp a b <= 0)%Z r /\
  exists rest, r ++ rest ≡ₚ scoredl /\
    forall x y, x ∈ r -> y ∈ rest -> (pct_value y.2 <= pct_value x.2)%Z.
Proof.
  intros scoredl r. unfold r, getRecommendedInternships. fold scoredl.
  set (sorted := js_sort recommend_cmp scoredl).
  assert (Hs : Sorted (fun a b => recommend_cmp a b <= 0)%Z sorted)
    by apply js_sort_sorted, recommend_cmp_antisym.
  assert (Hfin : Forall (fun a : scored => exists z, a.2 = JsNum z) sorted).
  { unfold sorted. rewrite (js_sort_perm recommend_cmp scoredl). unfold scoredl.
    apply Forall_forall. intros a ([i p] & <- & _)%list_elem_of_In%in_map_iff.
    apply matchPercentage_finite. }
  pose proof (take_drop 5 sorted) as Htd.
  split_and!.
  - rewrite length_take. unfold sorted. rewrite (Permutation_length (js_sort_perm _ _)).
    unfold scoredl. rewrite length_map. lia.
  - apply (Sorted_app_l _ _ (drop 5 sorted)). by rewrite Htd.
  - exists (drop 5 sorted). split; [rewrite Htd; apply js_sort_perm |].
    intros x y Hx Hy.
    apply (Sorted_app_across (fun a b => pct_value b.2 <= pct_value a.2)%Z
             (fun a b c Hab Hbc => Z.le_trans _ _ _ Hbc Hab) (take 5 sorted) (drop 5 sorted));
      [| done | done].
    rewrite Htd. apply (Sorted_weaken_on _ (fun a b => recommend_cmp a b <= 0)%Z _ _ Hfin); [| exact Hs].
    intros a b [za Ha] [zb Hb] Hab. rewrite Ha, Hb. by apply (recommend_cmp_pct a b).
Qed.

(** ** Profile completeness *)

Definition sum_points (cl : list checklist_item) : Z :=
  fold_right (fun it acc => (points it + acc)%Z) 0%Z cl.

(** C14: P5: the weights sum to 100, the score is the sum of the points of the
    completed items, and it lies in [0, 100]. *)
Theorem profile_completion_spec (u : account) :
  role_of u = Student ->
  let '(score, pct, cl) := profile_completion (Some u) in
  sum_points cl = 100%Z /\
  score = sum_points (List.filter completed cl) /\
  pct = score /\ (0 <= score <= 100)%Z.
Proof.
  intros Hr. unfold profile_completion. rewrite decide_True by done.
  unfold profile_score, profile_checklist, sum_points. simpl.
  destruct (hasResume u), (hasEnoughSkills u), (hasEducation u), (hasBio u), (hasProjects u);
    simpl; lia.
Qed.

(** An account whose [bio] is absent never completes the item "Write a
    Short Bio", whatever the other fields: its score is at most 85.  The
    signup defaults and the edit forms set [about], never [bio]. *)
Theorem profile_without_bio (u : account) (ps : list patch) :
  bio u = None -> Forall (fun p => p_bio p = None) ps ->
  (profile_score (fold_left apply_patch ps u) <= 85)%Z.
Proof.
  intros Hb Hps. assert (Hb' : bio (fold_left apply_patch ps u) = None).
  { revert u Hb. induction Hps as [|p ps Hp Hps IH]; intros u Hb; simpl; [done |].
    apply IH. simpl. by rewrite Hp. }
  unfold profile_score, hasBio. rewrite Hb'. simpl.
  destruct (hasResume _), (hasEnoughSkills _), (hasEducation _), (hasProjects _); simpl; lia.
Qed.

(** ** Witnesses *)

Lemma matchPercentage_bounds_witness :
  matchPercentage (Some (student_with ["react"; "sql"; "python"])) (listing_with ["React"; "SQL"]) = JsNum 100.
Proof.
  assert (Hcov : forall r, r ∈ map js_lower (requirements (listing_with ["React"; "SQL"])) ->
                   r ∈ student_skills (Some (student_with ["react"; "sql"; "python"]))).
  { intros r Hr. change (r ∈ ["react"; "sql"]) in Hr.
    repeat (apply elem_of_cons in Hr as [-> | Hr]; [decide_goal |]). by apply elem_of_nil in Hr. }
  apply (matchPercentage_bounds (Some (student_with ["react"; "sql"; "python"]))
           (listing_with ["React"; "SQL"])); [decide_goal | reflexivity | discriminate | decide_goal | exact Hcov].
Defined.

Lemma profile_completion_spec_witness :
  let '(score, pct, cl) := profile_completion (Some (student_with ["react"; "sql"; "git"])) in
  sum_points cl = 100%Z /\ score = sum_points (List.filter completed cl) /\
  pct = score /\ (0 <= score <= 100)%Z.
Proof. apply profile_completion_spec. reflexivity. Defined.

(** The patch [EditProfileForm.jsx] sends: name, phone, location, about and
    links, never [bio]. *)
Definition edit_form_patch (about_text : string) : patch :=
  mkPatch (Some "Sam") None None None None None None (Some "555") (Some "Lahore")
    (Some [("github", "")]) (Some about_text) None None None.

Lemma profile_without_bio_witness :
  (profile_score (fold_left apply_patch [edit_form_patch "I build things"]
                   (student_with ["react"; "sql"; "git"])) <= 85)%Z.
Proof. apply profile_without_bio; [reflexivity | repeat constructor]. Defined.

End Matching.
