(* ===== verification/Ledger.v ===== *)
(** * Application ledger, saved items and posting: the [DataProvider] mutations

    Models the mutations of [src/src/context/DataContext.jsx] and the views
    derived from applications:
    - [applyForInternship] (lines 275-292), [updateApplicationStatus]
      (335-343), [toggleSaveInternship] (325-333), [addInternship]
      (259-273);
    - [getStudentApplications] (294-302), [getRecruiterApplicants]
      (304-323); [getInternship] is in [Provider].

    React state.  A callback created by [useCallback] reads the state of
    the render that created it ([applications], [user], [companies]); the
    setters enqueue updaters, which React applies in order at the next
    render.  [react_state] keeps the committed [ledger] and the queue
    [pending]; an operation reads [committed] and appends to [pending];
    [render] applies the queue.  Two operations run in one event handler
    see the same [committed] ledger; operations in two events are
    separated by a [render].

    [Date.now()] and [new Date().toISOString().split('T')[0]] are the
    arguments [now] and [today]. *)

From S2P Require Import Prelude Auth Listings.
Import Auth Listings.
Open Scope list_scope.

Module Ledger.

(** An application record.  Records created by [applyForInternship] have
    no [id] field ([app_id = None]). *)
Record application : Type := mkApplication {
  app_id : option Z;
  internshipId : jsid;
  studentId : Z;
  status : string;
  appliedDate : string
}.

#[export] Instance application_eq_dec : EqDecision application.
Proof. solve_decision. Defined.

(** The provider's state that the mutations change. *)
Record ledger : Type := mkLedger {
  localInternships : list listing;
  applications : list application;
  savedInternships : list jsid
}.

Definition updater : Type := ledger -> ledger.

Record react_state : Type := mkReact {
  committed : ledger;
  pending : list updater
}.

(** The next render: every queued updater, in order. *)
Definition render (st : react_state) : react_state :=
  mkReact (fold_left (fun s f => f s) (pending st) (committed st)) [].

Definition enqueue (st : react_state) (fs : list updater) : react_state :=
  mkReact (committed st) (pending st ++ fs).

Definition set_applications (f : list application -> list application) : updater :=
  fun s => mkLedger (localInternships s) (f (applications s)) (savedInternships s).
Definition set_local (f : list listing -> list listing) : updater :=
  fun s => mkLedger (f (localInternships s)) (applications s) (savedInternships s).
Definition set_saved (f : list jsid -> list jsid) : updater :=
  fun s => mkLedger (localInternships s) (applications s) (f (savedInternships s)).

Definition is_role (user : option account) (r : role) : bool :=
  match user with Some u => bool_decide (role_of u = r) | None => false end.

(** ** [applyForInternship] *)

Definition has_applied (apps : list application) (iid : jsid) (sid : Z) : bool :=
  existsb (fun a => (internshipId a === iid) && Z.eqb (studentId a) sid) apps.

(** [{ ...i, applicants: (i.applicants || 0) + 1 }] on the listing. *)
Definition bump_applicants (iid : jsid) (i : listing) : listing :=
  if lid i === iid
  then mkListing (lid i) (title i) (company i) (companyId i) (logo i) (location i) (ltype i)
         (isPaid i) (stipend i) (duration i) (domain i) (posted i) (applicants i + 1)
         (requirements i) (description i) (redirect_url i)
  else i.

Definition applyForInternship (user : option account) (st : react_state) (iid : jsid)
    (today : string) : react_state :=
  match user with
  | Some u =>
      if decide (role_of u = Student) then
        if has_applied (applications (committed st)) iid (uid u) then st
        else enqueue st
               [set_applications (fun prev => prev ++ [mkApplication None iid (uid u) "Applied" today]);
                set_local (map (bump_applicants iid))]
      else st
  | None => st
  end.

(** ** [updateApplicationStatus] *)

(** [app.id === applicationId], where [undefined === undefined]. *)
Definition app_id_eqb (a b : option Z) : bool := bool_decide (a = b).

Definition updateApplicationStatus (user : option account) (st : react_state)
    (applicationId : option Z) (newStatus : string) : react_state :=
  if is_role user Recruiter then
    enqueue st [set_applications (map (fun a =>
      if app_id_eqb (app_id a) applicationId
      then mkApplication (app_id a) (internshipId a) (studentId a) newStatus (appliedDate a)
      else a))]
  else st.

(** ** [toggleSaveInternship] *)

Definition toggle (iid : jsid) (prevSaved : list jsid) : list jsid :=
  if existsb (fun x => x === iid) prevSaved
  then List.filter (fun x => negb (x === iid)) prevSaved
  else prevSaved ++ [iid].

Definition toggleSaveInternship (st : react_state) (iid : jsid) : react_state :=
  enqueue st [set_saved (toggle iid)].

(** ** [addInternship] *)

(** [companies.find(c => c.id === user.companyId)] *)
Definition find_company (companies : list companyRec) (cid_opt : option Z) : option companyRec :=
  List.find (fun c => bool_decide (Some (cid c) = cid_opt)) companies.

Definition new_internship (u : account) (companies : list companyRec) (data : listing)
    (now : Z) (today : string) : listing :=
  let c := find_company companies (ucompanyId u) in
  mkListing (JNum now) (title data)
    (match c with Some c => cname c | None => "Unknown Company" end)
    (option_map JNum (ucompanyId u))
    (match c with Some c => clogo c | None => "??" end)
    (location data) (ltype data) (isPaid data) (stipend data) (duration data) (domain data)
    today 0 (requirements data) (description data) (redirect_url data).

Definition addInternship (user : option account) (companies : list companyRec)
    (st : react_state) (data : listing) (now : Z) (today : string)
    : react_state * option listing :=
  match user with
  | Some u =>
      if decide (role_of u = Recruiter) then
        let ni := new_internship u companies data now today in
        (enqueue st [set_local (fun prev => prev ++ [ni])], Some ni)
      else (st, None)
  | None => (st, None)
  end.

(** ** Derived views *)

(** [getStudentApplications]: the student's applications with their
    listing attached ([find] on the merged listings). *)
Definition getStudentApplications (user : option account) (apps : list application)
    (internships : list listing) : list (application * option listing) :=
  match user with
  | Some u =>
      if decide (role_of u = Student)
      then map (fun a => (a, find_by_id (internshipId a) internships))
             (List.filter (fun a => Z.eqb (studentId a) (uid u)) apps)
      else []
  | None => []
  end.

(** One applicant row: the application with the student's name and email. *)
Record applicant_row : Type := mkRow {
  row_app : application;
  studentName : string;
  studentEmail : string
}.

Definition getRecruiterApplicants (user : option account) (users : list account)
    (apps : list application) (internships : list listing) (iid : jsid) : list applicant_row :=
  match user with
  | Some u =>
      if decide (role_of u = Recruiter) then
        match find_by_id iid internships with
        | Some target =>
            if bool_decide (companyId target = option_map JNum (ucompanyId u)) then
              map (fun a =>
                     let s := List.find (fun v => Z.eqb (uid v) (studentId a)) users in
                     mkRow a (match s with Some v => name v | None => "Unknown Student" end)
                             (match s with Some v => email v | None => "Unknown Email" end))
                  (List.filter (fun a => internshipId a === iid) apps)
            else []
        | None => []
        end
      else []
  | None => []
  end.

(** ** Properties of [applyForInternship] *)

Lemma render_enqueue_nil (st : react_state) (fs : list updater) :
  pending st = [] -> committed (render (enqueue st fs)) = fold_left (fun s f => f s) fs (committed st).
Proof. intros Hp. unfold render, enqueue. simpl. by rewrite Hp. Qed.

Lemma has_applied_snoc (apps : list application) (a : application) (iid : jsid) (sid : Z) :
  has_applied (apps ++ [a]) iid sid =
  has_applied apps iid sid || ((internshipId a === iid) && Z.eqb (studentId a) sid).
Proof. unfold has_applied. rewrite existsb_app. simpl. by rewrite orb_false_r. Qed.

Lemma apply_noop (u : account) (st : react_state) (iid : jsid) (today : string) :
  has_applied (applications (committed st)) iid (uid u) = true ->
  applyForInternship (Some u) st iid today = st.
Proof. intros Hh. unfold applyForInternship. rewrite Hh. by case_decide. Qed.

Lemma render_idle (st : react_state) : pending st = [] -> render st = st.
Proof. destruct st as [c p]. simpl. intros ->. reflexivity. Qed.

Lemma render_pending (st : react_state) : pending (render st) = [].
Proof. reflexivity. Qed.

(** The application [applyForInternship] appends. *)
Definition applied_record (u : account) (iid : jsid) (today : string) : application :=
  mkApplication None iid (uid u) "Applied" today.

Lemma apply_render (u : account) (st : react_state) (iid : jsid) (today : string) :
  role_of u = Student -> pending st = [] ->
  has_applied (applications (committed st)) iid (uid u) = false ->
  committed (render (applyForInternship (Some u) st iid today)) =
  mkLedger (map (bump_applicants iid) (localInternships (committed st)))
           (applications (committed st) ++ [applied_record u iid today])
           (savedInternships (committed st)).
Proof.
  intros Hr Hp Hn. unfold applyForInternship. rewrite decide_True by done. rewrite Hn.
  by rewrite render_enqueue_nil.
Qed.

(** C6: P2: two applications of a student to a listing, in two events (a
    render between them), record one application and bump the applicant
    counter once; the second call changes nothing. *)
Theorem apply_twice_across_renders (u : account) (st : react_state) (iid : jsid) (d1 d2 : string) :
  role_of u = Student -> pending st = [] ->
  has_applied (applications (committed st)) iid (uid u) = false ->
  let st2 := render (applyForInternship (Some u)
                       (render (applyForInternship (Some u) st iid d1)) iid d2) in
  applications (committed st2) = applications (committed st) ++ [applied_record u iid d1] /\
  localInternships (committed st2) = map (bump_applicants iid) (localInternships (committed st)).
Proof.
  intros Hr Hp Hn st2. subst st2.
  set (st1 := render (applyForInternship (Some u) st iid d1)).
  assert (H1 : committed st1 = mkLedger (map (bump_applicants iid) (localInternships (committed st)))
           (applications (committed st) ++ [applied_record u iid d1]) (savedInternships (committed st)))
    by (by apply apply_render).
  assert (Hhas : has_applied (applications (committed st1)) iid (uid u) = true).
  { rewrite H1. simpl. rewrite has_applied_snoc. simpl. unfold id_eqb.
    rewrite bool_decide_true, Z.eqb_refl by done. apply orb_true_r. }
  rewrite apply_noop by done. rewrite render_idle by done. by rewrite H1.
Qed.

(** Within one event the duplicate check reads the same committed list:
    two calls record the application twice and bump the counter twice. *)
Theorem apply_twice_same_event (u : account) (st : react_state) (iid : jsid) (d1 d2 : string) :
  role_of u = Student -> pending st = [] ->
  has_applied (applications (committed st)) iid (uid u) = false ->
  let st2 := render (applyForInternship (Some u)
                       (applyForInternship (Some u) st iid d1) iid d2) in
  applications (committed st2) =
    applications (committed st) ++ [applied_record u iid d1; applied_record u iid d2] /\
  localInternships (committed st2) =
    map (bump_applicants iid) (map (bump_applicants iid) (localInternships (committed st))).
Proof.
  intros Hr Hp Hn st2. subst st2. unfold applyForInternship.
  rewrite !decide_True by done. rewrite Hn. simpl. rewrite Hn.
  unfold render. simpl. rewrite Hp. simpl. by rewrite <- app_assoc.
Qed.

(** ** Events and the ledger invariant *)

(** A user action: the handler runs one mutation. *)
Inductive event : Type :=
| EvApply (user : option account) (iid : jsid) (today : string)
| EvStatus (user : option account) (applicationId : option Z) (newStatus : string)
| EvToggle (iid : jsid)
| EvPost (user : option account) (companies : list companyRec) (data : listing) (now : Z) (today : string).

Definition run_event (st : react_state) (e : event) : react_state :=
  match e with
  | EvApply user iid today => applyForInternship user st iid today
  | EvStatus user aid ns => updateApplicationStatus user st aid ns
  | EvToggle iid => toggleSaveInternship st iid
  | EvPost user cs data now today => (addInternship user cs st data now today).1
  end.

(** One event handler runs on a rendered state, then React renders. *)
Inductive ledger_step : react_state -> react_state -> Prop :=
| step_event st e : pending st = [] -> ledger_step st (render (run_event st e)).

(** The (listing, student) pair of each application. *)
Definition app_pairs (apps : list application) : list (jsid * Z) :=
  map (fun a => (internshipId a, studentId a)) apps.

(** At most one application per (student, listing) pair, and the state is
    rendered. *)
Definition ledger_inv (st : react_state) : Prop :=
  NoDup (app_pairs (applications (committed st))) /\ pending st = [].

Lemma has_applied_false (apps : list application) (iid : jsid) (sid : Z) :
  has_applied apps iid sid = false -> (iid, sid) ∉ app_pairs apps.
Proof.
  unfold has_applied, app_pairs. intros Hf Hin.
  apply list_elem_of_In, in_map_iff in Hin as (a & [= Hi Hs] & Ha).
  enough (existsb (fun a => (internshipId a === iid) && Z.eqb (studentId a) sid) apps = true)
    by congruence.
  apply existsb_exists. exists a. split; [done |].
  unfold id_eqb. rewrite Hi, Hs, bool_decide_true, Z.eqb_refl by done. done.
Qed.

Lemma status_map_pairs (aid : option Z) (ns : string) (apps : list application) :
  app_pairs (map (fun a => if app_id_eqb (app_id a) aid
                           then mkApplication (app_id a) (internshipId a) (studentId a) ns (appliedDate a)
                           else a) apps) = app_pairs apps.
Proof. unfold app_pairs. rewrite map_map. apply map_ext. intros a. by destruct (app_id_eqb _ _). Qed.

Lemma ledger_inv_step (st st' : react_state) : ledger_inv st -> ledger_step st st' -> ledger_inv st'.
Proof.
  intros [Hnd Hp] Hstep. destruct Hstep as [st e Hp']. split; [|done].
  destruct e as [user iid today|user aid ns|iid|user cs data now today]; cbn [run_event].
  - destruct user as [u|]; [| cbn [applyForInternship]; by rewrite render_idle].
    destruct (decide (role_of u = Student)).
    + destruct (has_applied (applications (committed st)) iid (uid u)) eqn:Hh.
      * by rewrite apply_noop, render_idle.
      * rewrite apply_render by done. simpl. unfold app_pairs. rewrite List.map_app. simpl.
        apply NoDup_app. split_and!; [done | | apply NoDup_singleton].
        intros x Hx ->%list_elem_of_singleton. by apply has_applied_false in Hh.
    + unfold applyForInternship. rewrite decide_False by done. by rewrite render_idle.
  - unfold updateApplicationStatus. destruct (is_role user Recruiter); [|by rewrite render_idle].
    rewrite render_enqueue_nil by done. simpl. by rewrite status_map_pairs.
  - unfold toggleSaveInternship. by rewrite render_enqueue_nil.
  - unfold addInternship. destruct user as [u|]; [| cbn [fst]; by rewrite render_idle].
    destruct (decide (role_of u = Recruiter)); cbn [fst]; [|by rewrite render_idle].
    by rewrite render_enqueue_nil.
Qed.

(** C16: Whatever sequence of events the users trigger, one render apart, the
    ledger never holds two applications of a student to one listing. *)
Theorem ledger_inv_reachable (st0 st : react_state) :
  ledger_inv st0 -> star ledger_step st0 st -> ledger_inv st.
Proof. apply star_inv, ledger_inv_step. Qed.

(** ** [updateApplicationStatus] *)

(** C15: The dashboard passes [applicant.id], which is [undefined] for every
    application created by [applyForInternship]: the update then rewrites
    the status of all of them, whatever listing or company they belong
    to. *)
Theorem status_update_hits_all_unnumbered (r : account) (st : react_state) (ns : string) :
  role_of r = Recruiter -> pending st = [] ->
  forall a, a ∈ applications (committed st) -> app_id a = None ->
  mkApplication None (internshipId a) (studentId a) ns (appliedDate a) ∈
    applications (committed (render (updateApplicationStatus (Some r) st None ns))).
Proof.
  intros Hr Hp a Ha Hid. unfold updateApplicationStatus, is_role.
  rewrite bool_decide_true by done. rewrite render_enqueue_nil by done. simpl.
  apply list_elem_of_In, in_map_iff. exists a. split; [|by apply list_elem_of_In].
  unfold app_id_eqb. rewrite Hid, bool_decide_true by done. done.
Qed.

(** No transition table guards the status: a rejected application can be
    shortlisted again. *)
Theorem status_update_unrestricted (r : account) (st : react_state) (a : application) (k : Z) :
  role_of r = Recruiter -> pending st = [] -> a ∈ applications (committed st) ->
  app_id a = Some k -> status a = "Rejected" ->
  mkApplication (Some k) (internshipId a) (studentId a) "Shortlisted" (appliedDate a) ∈
    applications (committed (render (updateApplicationStatus (Some r) st (Some k) "Shortlisted"))).
Proof.
  intros Hr Hp Ha Hid _. unfold updateApplicationStatus, is_role.
  rewrite bool_decide_true by done. rewrite render_enqueue_nil by done. simpl.
  apply list_elem_of_In, in_map_iff. exists a. split; [|by apply list_elem_of_In].
  unfold app_id_eqb. rewrite Hid, bool_decide_true by done. done.
Qed.

(** ** Authorization of [getRecruiterApplicants] *)

(** C13: A recruiter sees applicants only for a listing whose [companyId] is
    the recruiter's own. *)
Theorem recruiter_applicants_scoped (r : account) (users : list account)
    (apps : list application) (internships : list listing) (iid : jsid) :
  getRecruiterApplicants (Some r) users apps internships iid <> [] ->
  role_of r = Recruiter /\
  exists target, find_by_id iid internships = Some target /\
                 companyId target = option_map JNum (ucompanyId r).
Proof.
  unfold getRecruiterApplicants. case_decide; [|done].
  destruct (find_by_id iid internships) as [target|]; [|done].
  case_bool_decide; [|done]. intros _. eauto.
Qed.

(** A recruiter account of a company. *)
Definition recruiter_of (id : Z) (company_id : option Z) : account :=
  mkAccount id "Rita" "rita@x.com" "pw" Recruiter company_id
    None None None None None None None None None None.

(** A listing of a company. *)
Definition posting (id : Z) (company_id : option jsid) : listing :=
  mkListing (JNum id) "Intern" "Acme" company_id "AC" "Remote" "Remote" true
    "500 / month" "3 months" "Web Development" "2024-05-01" 1 ["react"] "" None.

Definition one_application (id : Z) : application :=
  mkApplication None (JNum id) 7 "Applied" "2024-05-02".

(** Scenario B: listing 10 belongs to company 1 and has an applicant; the
    recruiter of company 2 gets no rows, the recruiter of company 1 gets
    the applicant. *)
Theorem scenario_B :
  getRecruiterApplicants (Some (recruiter_of 2 (Some 2%Z))) [] [one_application 10]
    [posting 10 (Some (JNum 1))] (JNum 10) = [] /\
  getRecruiterApplicants (Some (recruiter_of 1 (Some 1%Z))) [] [one_application 10]
    [posting 10 (Some (JNum 1))] (JNum 10) =
    [mkRow (one_application 10) "Unknown Student" "Unknown Email"].
Proof. split; reflexivity. Qed.

(** Recruiters created by [signup] have no [companyId].  A listing posted
    by one of them has none either, and [undefined === undefined] lets
    every other such recruiter read its applicants. *)
Theorem companyless_recruiters_share (data : listing) (now : Z) (today : string) :
  let ni := new_internship (recruiter_of 1 None) [] data now today in
  getRecruiterApplicants (Some (recruiter_of 2 None)) [] [one_application now] [ni] (JNum now) =
    [mkRow (one_application now) "Unknown Student" "Unknown Email"].
Proof.
  intros ni. unfold getRecruiterApplicants. rewrite decide_True by done.
  unfold find_by_id, id_eqb. simpl.
  repeat (case_bool_decide; [|congruence]). reflexivity.
Qed.

(** ** [toggleSaveInternship] *)

(** [toggle] flips the membership of the id, keeps every other id, and
    keeps the list free of duplicates. *)
Theorem toggle_spec (iid : jsid) (l : list jsid) :
  NoDup l ->
  NoDup (toggle iid l) /\ (iid ∈ toggle iid l <-> iid ∉ l) /\
  (forall x, x <> iid -> x ∈ toggle iid l <-> x ∈ l).
Proof.
  intros Hnd. unfold toggle. destruct (existsb _ l) eqn:He.
  - apply existsb_exists in He as (y & Hy & Hyi). unfold id_eqb in Hyi. sb_bool. subst y.
    split_and!.
    + apply NoDup_ListNoDup, List.NoDup_filter, NoDup_ListNoDup, Hnd.
    + rewrite elem_of_list_filter_bool. unfold id_eqb. rewrite bool_decide_true by done.
      split; [intros [_ ?]; discriminate | intros Hn; exfalso; apply Hn, list_elem_of_In, Hy].
    + intros x Hx. rewrite elem_of_list_filter_bool. unfold id_eqb.
      rewrite bool_decide_false by done. naive_solver.
  - assert (Hn : iid ∉ l).
    { intros Hin. apply list_elem_of_In in Hin.
      enough (existsb (fun x => x === iid) l = true) by congruence.
      apply existsb_exists. exists iid. unfold id_eqb. by rewrite bool_decide_true. }
    split_and!.
    + apply NoDup_app. split_and!; [done | | apply NoDup_singleton]. set_solver.
    + rewrite elem_of_app, list_elem_of_singleton. naive_solver.
    + intros x Hx. rewrite elem_of_app, list_elem_of_singleton. naive_solver.
Qed.

(** The setter takes an updater, so two toggles in one event compose:
    the id's membership is back to what it was. *)
Theorem toggle_twice_same_event (st : react_state) (iid : jsid) :
  pending st = [] -> NoDup (savedInternships (committed st)) ->
  forall x, x ∈ savedInternships (committed (render (toggleSaveInternship (toggleSaveInternship st iid) iid)))
            <-> x ∈ savedInternships (committed st).
Proof.
  intros Hp Hnd x. unfold toggleSaveInternship, render, enqueue. simpl. rewrite Hp. simpl.
  destruct (toggle_spec iid _ Hnd) as (Hnd1 & Hin1 & Hoth1).
  destruct (toggle_spec iid _ Hnd1) as (_ & Hin2 & Hoth2).
  destruct (decide (x = iid)) as [->|Hx].
  - rewrite Hin2, Hin1. destruct (decide (iid ∈ savedInternships (committed st))); naive_solver.
  - by rewrite Hoth2, Hoth1.
Qed.

(** ** [addInternship] *)

(** Two listings posted within the same millisecond get the same id, and
    the merged view keeps only the second one. *)
Theorem post_same_millisecond (r : account) (cs : list companyRec) (st : react_state)
    (d1 d2 : listing) (now : Z) (today : string) :
  role_of r = Recruiter -> pending st = [] -> localInternships (committed st) = [] ->
  title d1 <> title d2 ->
  let st1 := (addInternship (Some r) cs st d1 now today).1 in
  let st2 := render (addInternship (Some r) cs st1 d2 now today).1 in
  merge_internships (localInternships (committed st2)) [] = [new_internship r cs d2 now today].
Proof.
  intros Hr Hp Hl _ st1 st2. subst st1 st2. unfold addInternship.
  rewrite !decide_True by done. simpl. rewrite Hp. simpl. rewrite Hl. simpl.
  unfold merge_internships, map_put. simpl. rewrite decide_True by done. done.
Qed.

(** ** Witnesses *)

Definition demo_student : account :=
  mkAccount 7 "Sam" "sam@x.com" "pw" Student None (Some []) (Some ["react"])
    (Some "") (Some "") (Some "") (Some []) (Some "") None (Some []) None.

(** A rendered state: listing 10 posted, nothing applied or saved. *)
Definition demo_state : react_state :=
  mkReact (mkLedger [posting 10 (Some (JNum 1))] [] []) [].

Lemma apply_twice_across_renders_witness :
  let st2 := render (applyForInternship (Some demo_student)
                       (render (applyForInternship (Some demo_student) demo_state (JNum 10) "2024-05-02"))
                       (JNum 10) "2024-05-03") in
  applications (committed st2) =
    applications (committed demo_state) ++ [applied_record demo_student (JNum 10) "2024-05-02"] /\
  localInternships (committed st2) =
    map (bump_applicants (JNum 10)) (localInternships (committed demo_state)).
Proof. apply apply_twice_across_renders; reflexivity. Defined.

Lemma apply_twice_same_event_witness :
  let st2 := render (applyForInternship (Some demo_student)
                       (applyForInternship (Some demo_student) demo_state (JNum 10) "2024-05-02")
                       (JNum 10) "2024-05-02") in
  applications (committed st2) =
    applications (committed demo_state) ++
      [applied_record demo_student (JNum 10) "2024-05-02";
       applied_record demo_student (JNum 10) "2024-05-02"] /\
  localInternships (committed st2) =
    map (bump_applicants (JNum 10)) (map (bump_applicants (JNum 10)) (localInternships (committed demo_state))).
Proof. apply apply_twice_same_event; reflexivity. Defined.

Lemma ledger_inv_reachable_witness :
  ledger_inv (render (run_event (render (run_event demo_state (EvApply (Some demo_student) (JNum 10) "2024-05-02")))
                                (EvStatus (Some (recruiter_of 1 (Some 1%Z))) None "shortlisted"))).
Proof.
  apply (ledger_inv_reachable demo_state).
  - split; [constructor | reflexivity].
  - eapply star_step; [eapply star_step; [apply star_refl |] |]; apply step_event; reflexivity.
Defined.

Lemma recruiter_applicants_scoped_witness :
  role_of (recruiter_of 1 (Some 1%Z)) = Recruiter /\
  exists target, find_by_id (JNum 10) [posting 10 (Some (JNum 1))] = Some target /\
                 companyId target = option_map JNum (ucompanyId (recruiter_of 1 (Some 1%Z))).
Proof.
  apply (recruiter_applicants_scoped _ [] [one_application 10]).
  vm_compute. discriminate.
Defined.

(** Two applications by UI, to listings of two different companies. *)
Definition two_company_state : react_state :=
  mkReact (mkLedger [posting 10 (Some (JNum 1)); posting 20 (Some (JNum 2))]
                    [one_application 10; one_application 20] []) [].

Lemma status_update_hits_all_unnumbered_witness :
  mkApplication None (JNum 20) 7 "shortlisted" "2024-05-02" ∈
    applications (committed (render (updateApplicationStatus (Some (recruiter_of 1 (Some 1%Z)))
                                       two_company_state None "shortlisted"))).
Proof.
  apply (status_update_hits_all_unnumbered (recruiter_of 1 (Some 1%Z)) two_company_state
           "shortlisted" eq_refl eq_refl (one_application 20)); [right; left | reflexivity].
Defined.

Lemma status_update_unrestricted_witness :
  mkApplication (Some 5%Z) (JNum 10) 7 "Shortlisted" "2024-05-02" ∈
    applications (committed (render (updateApplicationStatus (Some (recruiter_of 1 (Some 1%Z)))
      (mkReact (mkLedger [] [mkApplication (Some 5%Z) (JNum 10) 7 "Rejected" "2024-05-02"] []) [])
      (Some 5%Z) "Shortlisted"))).
Proof.
  apply (status_update_unrestricted _ _ (mkApplication (Some 5%Z) (JNum 10) 7 "Rejected" "2024-05-02"));
    [reflexivity | reflexivity | left | reflexivity | reflexivity].
Defined.

Lemma toggle_spec_witness :
  NoDup (toggle (JNum 10) [JNum 3; JNum 10]) /\
  (JNum 10 ∈ toggle (JNum 10) [JNum 3; JNum 10] <-> JNum 10 ∉ [JNum 3; JNum 10]) /\
  (forall x, x <> JNum 10 -> x ∈ toggle (JNum 10) [JNum 3; JNum 10] <-> x ∈ [JNum 3; JNum 10]).
Proof. apply toggle_spec. repeat constructor; set_solver. Defined.

Lemma toggle_twice_same_event_witness :
  JNum 10 ∈ savedInternships (committed (render (toggleSaveInternship
               (toggleSaveInternship demo_state (JNum 10)) (JNum 10))))
  <-> JNum 10 ∈ savedInternships (committed demo_state).
Proof. apply toggle_twice_same_event; [reflexivity | constructor]. Defined.

Lemma post_same_millisecond_witness :
  let st1 := (addInternship (Some (recruiter_of 1 (Some 1%Z))) [] (mkReact (mkLedger [] [] []) [])
                (posting 0 None) 1700000000000 "2024-05-01").1 in
  let st2 := render (addInternship (Some (recruiter_of 1 (Some 1%Z))) [] st1
                       (demo_listing (JNum 0) "Second") 1700000000000 "2024-05-01").1 in
  merge_internships (localInternships (committed st2)) [] =
    [new_internship (recruiter_of 1 (Some 1%Z)) [] (demo_listing (JNum 0) "Second") 1700000000000 "2024-05-01"].
Proof. apply post_same_millisecond; [reflexivity | reflexivity | reflexivity | discriminate]. Defined.

End Ledger.
