(* ===== verification/Browse.v ===== *)
(** * The listing browser: [BrowseInternships.jsx]

    The page keeps the search [filters], the visibility of the advanced
    filters, the autocomplete [suggestions] and their visibility.  Each
    render calls [getFilteredInternships(filters)] and
    [getRecommendedInternships()] (lines 58-59), the derived [domains]
    (line 24) and [getSearchableTerms()] (line 27), and shows one of four
    screens ([render_browse]): skeleton cards while the only source is
    still loading, "No Internships Found" when there is no listing, and
    otherwise the search panel with either the result cards, the "no
    match" screen (recommendations and domain shortcuts), or the "No
    Internships Available Yet" screen.  An exception of the filter
    escapes the render ([inl]).

    The suggestion effect (lines 29-41) lists [allSearchableTerms] among
    its dependencies.  React compares dependencies and state with
    [Object.is], that is by reference for arrays, and
    [getSearchableTerms()] builds a new array on every call; the effect
    stores a new array with [setSuggestions] every time it runs.
    [browse_cycle] models one render and the effect after it with
    explicit references (an allocation counter), and the theorems show
    that the cycle never reaches a render after which nothing changes.

    The handlers ([browse_handle]) are those of the search box, the
    filter controls, the suggestion list, the domain shortcuts and the
    "Clear All Filters" buttons. *)

From S2P Require Import Prelude Keywords Listings Search Auth Matching.
Import Listings Search Auth Matching.
Open Scope list_scope.

Module Browse.

Definition initial_filters : filters := mkFilters "" "all" "all" "all" "".

(** [domains] (line 24). *)
Definition domains (internships : list listing) : list string :=
  if bool_decide (0 < List.length internships)%nat
  then js_set_of (map domain internships) else [].

Definition types : list string := ["Remote"; "Onsite"; "Hybrid"].

(** [allSearchableTerms.filter(term => term.toLowerCase().includes(q)).slice(0, 5)] *)
Definition suggest (terms : list string) (search : string) : list string :=
  take 5 (List.filter (fun t => js_includes (js_lower t) (js_lower search)) terms).

(** The component's state, with the identities React compares: the
    reference of the [suggestions] array, the dependencies of the last
    run of the suggestion effect, and the next fresh reference. *)
Record browse_state : Type := mkBrowse {
  b_filters : filters;
  showFilters : bool;
  suggestions : list string;
  showSuggestions : bool;
  suggestions_ref : nat;
  effect_deps : option (string * nat);
  next_ref : nat
}.

(** The first render's state: the [useState] initial values. *)
Definition initial_browse : browse_state :=
  mkBrowse initial_filters false [] false 0 None 1.

Definition set_filters (s : browse_state) (f : filters) : browse_state :=
  mkBrowse f (showFilters s) (suggestions s) (showSuggestions s)
    (suggestions_ref s) (effect_deps s) (next_ref s).

Definition set_show (s : browse_state) (b : bool) : browse_state :=
  mkBrowse (b_filters s) (showFilters s) (suggestions s) b
    (suggestions_ref s) (effect_deps s) (next_ref s).

(** One render followed by the suggestion effect: the state after it,
    and whether a state changed (so that React renders again).  The render
    allocates [allSearchableTerms]; the effect runs when a dependency
    differs from its last run and allocates the new suggestions. *)
Definition browse_cycle (internships : list listing) (s : browse_state) : browse_state * bool :=
  let terms_ref := next_ref s in
  let search := f_search (b_filters s) in
  let deps := (search, terms_ref) in
  if bool_decide (effect_deps s = Some deps)
  then (mkBrowse (b_filters s) (showFilters s) (suggestions s) (showSuggestions s)
          (suggestions_ref s) (effect_deps s) (S terms_ref), false)
  else
    let sugg := if js_falsy search then [] else suggest (getSearchableTerms internships) search in
    let sugg_ref := S terms_ref in
    let show := negb (js_falsy search) in
    let changed := negb (Nat.eqb sugg_ref (suggestions_ref s)) || negb (Bool.eqb show (showSuggestions s)) in
    (mkBrowse (b_filters s) (showFilters s) sugg show sugg_ref (Some deps) (S sugg_ref), changed).

(** React re-renders until a render changes no state; [None] when the
    fuel runs out first. *)
Fixpoint browse_settle (fuel : nat) (internships : list listing) (s : browse_state)
    : option browse_state :=
  match fuel with
  | O => None
  | S n =>
      let '(s', again) := browse_cycle internships s in
      if again then browse_settle n internships s' else Some s'
  end.

(** The user's actions on the page. *)
Inductive browse_event : Type :=
| BSearch (v : string)          (** the search box's [onChange] *)
| BFocus                        (** its [onFocus] *)
| BToggleFilters                (** "Show/Hide Advanced Filters" *)
| BType (v : string)
| BPaid (v : string)
| BDomain (v : string)
| BLocation (v : string)
| BSuggestion (sugg : string)   (** a click on a suggestion *)
| BClickOutside                 (** a mousedown outside the search box *)
| BClearAll                     (** "Clear All Filters" *)
| BDomainButton (d : string).   (** a domain shortcut *)

Definition browse_handle (s : browse_state) (e : browse_event) : browse_state :=
  let f := b_filters s in
  match e with
  | BSearch v => set_filters s (mkFilters v (f_type f) (f_paid f) (f_domain f) (f_location f))
  | BFocus => set_show s (true && negb (js_falsy (f_search f)))
  | BToggleFilters =>
      mkBrowse f (negb (showFilters s)) (suggestions s) (showSuggestions s)
        (suggestions_ref s) (effect_deps s) (next_ref s)
  | BType v => set_filters s (mkFilters (f_search f) v (f_paid f) (f_domain f) (f_location f))
  | BPaid v => set_filters s (mkFilters (f_search f) (f_type f) v (f_domain f) (f_location f))
  | BDomain v => set_filters s (mkFilters (f_search f) (f_type f) (f_paid f) v (f_location f))
  | BLocation v => set_filters s (mkFilters (f_search f) (f_type f) (f_paid f) (f_domain f) v)
  | BSuggestion v =>
      set_show (set_filters s (mkFilters v (f_type f) (f_paid f) (f_domain f) (f_location f))) false
  | BClickOutside => set_show s false
  | BClearAll => set_filters s initial_filters
  | BDomainButton d => set_filters s (mkFilters (f_search f) (f_type f) (f_paid f) d (f_location f))
  end.

(** [hasActiveSearch] (line 128). *)
Definition hasActiveSearch (f : filters) : bool :=
  negb (js_falsy (f_search f)) || negb (js_falsy (f_location f)) ||
  negb (String.eqb (f_type f) "all") || negb (String.eqb (f_paid f) "all") ||
  negb (String.eqb (f_domain f) "all").

(** The results area (lines 236-305). *)
Inductive browse_results : Type :=
| Cards (heading : string) (cards : list listing)
| NoMatch (recommended : list listing) (domain_buttons : list string)
| NoneYet (domain_buttons : list string).

Inductive browse_view : Type :=
| Skeletons (n : nat)
| NothingFound
| BrowsePage (suggestion_list : list string) (toggle_text : string)
    (filter_panel : option (list string * list string)) (results : browse_results).

(** [`${n} ${n === 1 ? 'internship' : 'internships'} found`] *)
Definition count_text (n : nat) : string :=
  js_number_string n ++ " " ++ (if Nat.eqb n 1 then "internship" else "internships") ++ " found".

Definition render_browse (user : option account) (internships : list listing)
    (isLoadingExternal : bool) (s : browse_state) : search_error + browse_view :=
  filtered <- getFilteredInternships internships (b_filters s) ;;
  let recommended := map fst (getRecommendedInternships user internships) in
  if bool_decide (internships = []) && isLoadingExternal then inr (Skeletons 6)
  else if bool_decide (internships = []) then inr NothingFound
  else
    let ds := domains internships in
    inr (BrowsePage
      (if showSuggestions s && bool_decide (0 < List.length (suggestions s))%nat
       then suggestions s else [])
      (if showFilters s then "Hide Advanced Filters" else "Show Advanced Filters")
      (if showFilters s then Some ("all" :: types, "all" :: ds) else None)
      (if bool_decide (0 < List.length filtered)%nat
       then Cards (count_text (List.length filtered)) filtered
       else if hasActiveSearch (b_filters s) then NoMatch recommended (take 5 ds)
       else NoneYet (take 5 ds))).

(** ** The render loop of the suggestion effect *)

(** Every reference the state holds was allocated before [next_ref]. *)
Definition refs_fresh (s : browse_state) : Prop :=
  (suggestions_ref s < next_ref s)%nat /\
  (forall q r, effect_deps s = Some (q, r) -> (r < next_ref s)%nat).

(** Each render allocates a new [allSearchableTerms], so the effect runs
    and stores a new suggestions array: a state change, hence another
    render. *)
Lemma browse_cycle_fresh (internships : list listing) (s : browse_state) :
  refs_fresh s ->
  refs_fresh (browse_cycle internships s).1 /\ (browse_cycle internships s).2 = true.
Proof.
  intros [Hs Hd]. unfold browse_cycle, refs_fresh.
  rewrite bool_decide_false by (intros Heq; specialize (Hd _ _ Heq); lia). simpl.
  split; [split; [lia | intros q r [= <- <-]; lia] |].
  destruct (suggestions_ref s) as [|m]; [done |]. rewrite (proj2 (Nat.eqb_neq _ _)) by lia. done.
Qed.

(** C4: The browsing page never settles: from any state whose references are
    fresh (the first render's among them), every render schedules
    another one, whatever the fuel. *)
Theorem browse_never_settles (fuel : nat) (internships : list listing) (s : browse_state) :
  refs_fresh s -> browse_settle fuel internships s = None.
Proof.
  revert s. induction fuel as [|n IH]; intros s Hf; [done |]. simpl.
  destruct (browse_cycle_fresh internships s Hf) as [Hf' Hagain].
  destruct (browse_cycle internships s) as [s' again]. simpl in *. subst again. by apply IH.
Qed.

(** The effect's suggestions: none for an empty query; otherwise at most
    five searchable terms, each containing the query case-insensitively. *)
Theorem suggestions_spec (internships : list listing) (s : browse_state) :
  refs_fresh s ->
  let s' := (browse_cycle internships s).1 in
  (js_falsy (f_search (b_filters s)) = true -> suggestions s' = [] /\ showSuggestions s' = false) /\
  (List.length (suggestions s') <= 5)%nat /\
  (forall t, t ∈ suggestions s' ->
     t ∈ getSearchableTerms internships /\
     js_includes (js_lower t) (js_lower (f_search (b_filters s))) = true).
Proof.
  intros [Hs Hd]. unfold browse_cycle.
  rewrite bool_decide_false by (intros Heq; specialize (Hd _ _ Heq); lia). simpl.
  destruct (js_falsy (f_search (b_filters s))); simpl.
  - split; [done |]. split; [lia | intros t Ht; by apply not_elem_of_nil in Ht].
  - split; [done |]. unfold suggest. split; [rewrite length_take; lia |].
    intros t Ht. apply (subseteq_take 5) in Ht. by apply elem_of_list_filter_bool in Ht.
Qed.

(** ** The results area *)

Lemma hasActiveSearch_false (f : filters) : hasActiveSearch f = false -> f = initial_filters.
Proof.
  destruct f as [q t pd d l]. unfold hasActiveSearch, js_falsy. simpl.
  intros H. repeat (apply orb_false_iff in H as [H ?]). sb_bool.
  repeat match goal with
  | H : negb _ = false |- _ => apply negb_false_iff, String.eqb_eq in H; subst
  end. done.
Qed.

Lemma filtered_initial (internships : list listing) :
  getFilteredInternships internships initial_filters = inr internships.
Proof.
  rewrite (getFilteredInternships_ok internships initial_filters []) by reflexivity.
  f_equal. by apply list_filter_bool_id.
Qed.

(** The screen "No Internships Available Yet." (lines 281-303) is never
    shown: without an active search the filter keeps every listing, and
    the page has at least one. *)
Theorem no_internships_yet_unreachable (user : option account) (internships : list listing)
    (loading : bool) (s : browse_state) (sugg : list string) (t : string)
    (p : option (list string * list string)) (ds : list string) :
  render_browse user internships loading s <> inr (BrowsePage sugg t p (NoneYet ds)).
Proof.
  unfold render_browse. destruct (getFilteredInternships _ _) as [e|filtered] eqn:E;
    [intros Heq; simplify_eq/= |].
  destruct internships as [|i rest]; [destruct loading; simpl; intros Heq; simplify_eq/= |]. simpl.
  destruct (bool_decide (0 < List.length filtered)%nat) eqn:Hlen; [intros Heq; simplify_eq/= |].
  destruct (hasActiveSearch (b_filters s)) eqn:Ha; [intros Heq; simplify_eq/= |]. intros _.
  apply hasActiveSearch_false in Ha. rewrite Ha, filtered_initial in E. injection E as <-.
  apply bool_decide_eq_false in Hlen. simpl in Hlen. lia.
Qed.

(** ** Concrete runs *)

Lemma initial_browse_fresh : refs_fresh initial_browse.
Proof. split; [simpl; lia | discriminate]. Qed.

Lemma browse_never_settles_witness : browse_settle 1000 [] initial_browse = None.
Proof. apply browse_never_settles, initial_browse_fresh. Defined.

Definition typed_rea : browse_state := browse_handle initial_browse (BSearch "rea").

Lemma suggestions_spec_witness :
  let s' := (browse_cycle [demo_listing (JNum 1) "React intern"] typed_rea).1 in
  (js_falsy (f_search (b_filters typed_rea)) = true -> suggestions s' = [] /\ showSuggestions s' = false) /\
  (List.length (suggestions s') <= 5)%nat /\
  (forall t, t ∈ suggestions s' ->
     t ∈ getSearchableTerms [demo_listing (JNum 1) "React intern"] /\
     js_includes (js_lower t) (js_lower (f_search (b_filters typed_rea))) = true).
Proof. apply suggestions_spec, initial_browse_fresh. Defined.

End Browse.
