(* ===== verification/Provider.v ===== *)
(** * The provider's interface and its read operations

    What the two context providers hand to the pages, and the reads of
    [DataContext.jsx] not modelled elsewhere:
    - [data_value_keys] and [auth_value_keys]: the keys of the [value]
      objects ([DataContext.jsx] lines 438-465, [AuthContext.jsx] line
      121).  A page that destructures a key the object lacks reads
      [undefined]: [context_field] returns [None] for it;
    - [getInternship] (line 216), the lookup of the details page, which
      compares each id with [parseInt(id)] and with the string itself,
      and [getCompany] (line 217);
    - [getStudentProfile] (219-238) and [getRecruiterProfile] (240-255);
    - the external source: the credential guard of
      [fetchAdzunaInternships] (lines 63-67) and the mapping of an API
      record to a listing (96-114), with the skill extraction by the
      regular expression [/\b(react|python|javascript|java|sql|aws|azure)\b/gi].

    The request, the answer's exits and the loading effect are in
    [Adzuna]; with the credentials the file ships, the guard returns
    [[]] before any request.  The date
    conversion [new Date(job.created).toISOString()] and [Math.random()]
    are section variables. *)

From S2P Require Import Prelude Auth Listings Ledger.
Import Auth Listings Ledger.
Open Scope list_scope.

Module Provider.

(** ** The context values *)

(** The keys of [DataContext]'s [value]. *)
Definition data_value_keys : list string :=
  ["internships"; "companies"; "notifications"; "getInternship"; "getCompany";
   "applyForInternship"; "addInternship"; "getStudentProfile"; "getRecruiterProfile";
   "getStudentApplications"; "getRecruiterApplicants"; "getFilteredInternships";
   "getRecommendedInternships"; "getSearchableTerms"; "isLoadingExternal";
   "savedInternships"; "toggleSaveInternship"; "updateApplicationStatus"; "adminStats";
   "skillSuggestions"; "users"; "profileImpactScore"; "profileCompletionPercentage";
   "profileCompletionChecklist"].

(** The keys of [AuthContext]'s [value]. *)
Definition auth_value_keys : list string :=
  ["user"; "initialAuthLoading"; "login"; "logout"; "signup"; "updateUser"; "users"].

(** [const { k } = useData()]: the value when the object has the key,
    [undefined] otherwise. *)
Definition context_field {A : Type} (keys : list string) (k : string) (v : A) : option A :=
  if decide (k ∈ keys) then Some v else None.

(** ** [getInternship] and [getCompany] *)

(** [i.id === parseInt(id) || i.id === id] *)
Definition id_matches (id : string) (i : listing) : bool :=
  match js_parseInt id with
  | Some n => lid i === JNum n
  | None => false
  end || (lid i === JStr id).

Definition getInternship (internships : list listing) (id : string) : option listing :=
  List.find (id_matches id) internships.

(** [companies.find(c => c.id === parseInt(id))] *)
Definition getCompany (companies : list companyRec) (id : string) : option companyRec :=
  List.find (fun c => match js_parseInt id with Some n => Z.eqb (cid c) n | None => false end)
    companies.

(** ** The profiles *)

Record student_profile : Type := mkStudentProfile {
  sp_id : Z;
  sp_name : string;
  sp_email : string;
  sp_role : role;
  sp_education : list edu_entry;
  sp_skills : list string;
  sp_resume : string;
  sp_bio : string;
  sp_projects : list project_entry;
  sp_applications : list (application * option listing)
}.

Definition getStudentProfile (user : option account) (apps : list application)
    (internships : list listing) : option student_profile :=
  match user with
  | Some u =>
      if decide (role_of u = Student) then
        Some (mkStudentProfile (uid u) (name u) (email u) (role_of u)
          (default [] (education u)) (default [] (skills u)) (default "" (resume u))
          (default "" (bio u)) (default [] (projects u))
          (map (fun a => (a, List.find (fun i => lid i === internshipId a) internships))
             (List.filter (fun a => Z.eqb (studentId a) (uid u)) apps)))
      else None
  | None => None
  end.

Record recruiter_profile : Type := mkRecruiterProfile {
  rp_id : Z;
  rp_name : string;
  rp_email : string;
  rp_role : role;
  rp_companyId : option Z;
  rp_companyName : string;
  rp_postedInternships : list jsid
}.

Definition getRecruiterProfile (user : option account) (internships : list listing)
    (companies : list companyRec) : option recruiter_profile :=
  match user with
  | Some u =>
      if decide (role_of u = Recruiter) then
        Some (mkRecruiterProfile (uid u) (name u) (email u) (role_of u) (ucompanyId u)
          (match List.find (fun c => bool_decide (Some (cid c) = ucompanyId u)) companies with
           | Some c => cname c | None => "Unknown Company" end)
          (map lid (List.filter (fun i => bool_decide (companyId i = option_map JNum (ucompanyId u)))
                      internships)))
      else None
  | None => None
  end.

(** ** The external source *)

Definition ADZUNA_APP_ID : string := "YOUR_ADZUNA_APP_ID".
Definition ADZUNA_APP_KEY : string := "YOUR_ADZUNA_APP_KEY".

(** A record of the API's [results], with the fields the mapping reads. *)
Record adzuna_job : Type := mkJob {
  job_id : string;
  job_title : string;
  job_company : string;
  job_location : string;
  salary_min : Z;
  salary_is_predicted : bool;
  job_category : string;
  job_created : string;
  job_description : string;
  job_redirect_url : string
}.

(** [\w] on ASCII. *)
Definition is_word_char (c : ascii) : bool :=
  let n := nat_of_ascii c in
  ((48 <=? n) && (n <=? 57))%nat || ((65 <=? n) && (n <=? 90))%nat ||
  ((97 <=? n) && (n <=? 122))%nat || (n =? 95)%nat.

Definition skill_alternatives : list string :=
  ["react"; "python"; "javascript"; "java"; "sql"; "aws"; "azure"].

(** The first alternative, in the order of the expression, that matches at
    the head of [s] case-insensitively and is followed by a word boundary
    (the alternatives start and end with a letter). *)
Fixpoint match_alternative (alts : list string) (s : string) : option string :=
  match alts with
  | [] => None
  | w :: alts' =>
      let m := substring 0 (String.length w) s in
      let rest := substring (String.length w) (String.length s - String.length w) s in
      if String.eqb (js_lower m) w &&
         match rest with EmptyString => true | String c _ => negb (is_word_char c) end
      then Some m else match_alternative alts' s
  end.

(** The global match: scan left to right; a match needs a boundary before
    it (no word character just before), and the scan resumes after it.
    [fuel] bounds the number of characters scanned. *)
Fixpoint scan_skills (fuel : nat) (prev_word : bool) (s : string) : list string :=
  match fuel, s with
  | O, _ | _, EmptyString => []
  | S f, String c s' =>
      match (if prev_word then None else match_alternative skill_alternatives s) with
      | Some m =>
          m :: scan_skills f true (substring (String.length m) (String.length s - String.length m) s)
      | None => scan_skills f (is_word_char c) s'
      end
  end.

(** [description.match(/\b(react|...|azure)\b/gi) || []] *)
Definition extract_skills (description : string) : list string :=
  scan_skills (String.length description) false description.

(** [str.replace(/\s/g, '')] *)
Definition remove_spaces (s : string) : string :=
  string_of_list_ascii (List.filter (fun c => negb (js_is_space c)) (list_ascii_of_string s)).

Section External.
Context (toISODate : string -> string) (random_applicants : adzuna_job -> Z).

(** The listing a record maps to. *)
Definition adzuna_listing (job : adzuna_job) : listing :=
  mkListing (JStr ("adzuna-" ++ job_id job)) (job_title job) (job_company job)
    (Some (JStr (remove_spaces (job_company job)))) "AZ" (job_location job) "Adzuna"
    (bool_decide (0 < salary_min job)%Z)
    (if salary_is_predicted job
     then "~" ++ js_int_string (salary_min job) ++ " / month"
     else js_int_string (salary_min job) ++ " / month")
    "Varies" (job_category job) (List.hd "" (js_split "T" (toISODate (job_created job))))
    (random_applicants job) (extract_skills (job_description job)) (job_description job)
    (Some (job_redirect_url job)).

(** [fetchAdzunaInternships()]: [response] is the API's answer, [None]
    when the request or its decoding fails. *)
Definition fetchAdzunaInternships (response : option (list adzuna_job)) : list listing :=
  if String.eqb ADZUNA_APP_ID "YOUR_ADZUNA_APP_ID" || String.eqb ADZUNA_APP_KEY "YOUR_ADZUNA_APP_KEY"
  then []
  else match response with
       | Some jobs => map adzuna_listing jobs
       | None => []
       end.
End External.

(** ** Properties *)

(** Two listings of a list with distinct ids and the same id are one. *)
Lemma lid_inj (l : list listing) (i j : listing) :
  NoDup (map lid l) -> i ∈ l -> j ∈ l -> lid i = lid j -> i = j.
Proof.
  induction l as [|x l IH]; intros Hnd Hi Hj Heq; [by apply not_elem_of_nil in Hi |].
  simpl in Hnd. apply NoDup_cons in Hnd as [Hx Hnd].
  apply elem_of_cons in Hi as [->|Hi]; apply elem_of_cons in Hj as [->|Hj]; try done.
  - destruct Hx. rewrite Heq. by apply list_elem_of_fmap_2.
  - destruct Hx. rewrite <- Heq. by apply list_elem_of_fmap_2.
  - by apply IH.
Qed.

(** The details page of a listing is reached by [/internship/${id}]: the
    lookup of the decimal text of a numeric id finds that listing, when
    ids are distinct and no listing has that text as a string id. *)
Theorem getInternship_url_roundtrip (internships : list listing) (i : listing) (n : Z) :
  NoDup (map lid internships) -> i ∈ internships -> lid i = JNum n ->
  JStr (js_int_string n) ∉ map lid internships ->
  getInternship internships (js_int_string n) = Some i.
Proof.
  intros Hnd Hi Hid Hstr. unfold getInternship. apply list_find_unique; [done | |].
  - unfold id_matches. rewrite parseInt_int_string, Hid. unfold id_eqb. by rewrite bool_decide_true.
  - intros j Hj. unfold id_matches. rewrite parseInt_int_string. unfold id_eqb.
    intros [Hn|Hs]%orb_true_iff; sb_bool.
    + apply (lid_inj internships); [done | done | done | congruence].
    + destruct Hstr. rewrite <- Hs. by apply list_elem_of_fmap_2.
Qed.

(** Every id of an external listing is a string. *)
Lemma adzuna_listing_id (toISO : string -> string) (rnd : adzuna_job -> Z) (job : adzuna_job) :
  lid (adzuna_listing toISO rnd job) = JStr ("adzuna-" ++ job_id job).
Proof. reflexivity. Qed.

(** External listings never shadow a local listing with a numeric id:
    the merged lookup of a number is the lookup among local listings. *)
Theorem external_never_shadows_local (toISO : string -> string) (rnd : adzuna_job -> Z)
    (localInternships : list listing) (jobs : list adzuna_job) (n : Z) :
  find_by_id (JNum n) (merge_internships localInternships (map (adzuna_listing toISO rnd) jobs)) =
  last_with_id (JNum n) localInternships.
Proof.
  rewrite merge_lookup. replace (last_with_id (JNum n) (map (adzuna_listing toISO rnd) jobs)) with (@None listing); [done |].
  unfold last_with_id. induction jobs as [|job jobs IH] using rev_ind; [done |].
  rewrite map_app, foldl_app. simpl. by rewrite <- IH.
Qed.

(** With the credentials the file ships, the external source is empty and
    the listings are the local ones, deduplicated by id. *)
Theorem shipped_credentials_local_only (toISO : string -> string) (rnd : adzuna_job -> Z)
    (response : option (list adzuna_job)) (localInternships : list listing) (k : jsid) :
  fetchAdzunaInternships toISO rnd response = [] /\
  find_by_id k (merge_internships localInternships (fetchAdzunaInternships toISO rnd response)) =
  last_with_id k localInternships.
Proof. split; [reflexivity |]. by rewrite merge_lookup. Qed.

Lemma match_alternative_sound (alts : list string) (s m : string) :
  match_alternative alts s = Some m -> js_lower m ∈ alts.
Proof.
  induction alts as [|w alts IH]; simpl; [done |].
  destruct (String.eqb_spec (js_lower (substring 0 (String.length w) s)) w) as [Hw|]; simpl;
    [case_match; [intros [= <-]; rewrite Hw; by left |] |];
    intros Hm; right; by apply IH.
Qed.

(** Each skill extracted from a description is, lower-cased, one of the
    seven words of the expression. *)
Theorem extract_skills_sound (description m : string) :
  m ∈ extract_skills description -> js_lower m ∈ skill_alternatives.
Proof.
  unfold extract_skills. generalize (String.length description) false.
  generalize description. clear description.
  intros description fuel. revert description. induction fuel as [|f IH]; intros s prev;
    [simpl; intros Hm; by apply not_elem_of_nil in Hm |].
  destruct s as [|c s']; [simpl; intros Hm; by apply not_elem_of_nil in Hm |]. cbn [scan_skills].
  destruct (if prev then None else match_alternative skill_alternatives (String c s')) as [m'|] eqn:E.
  - intros [->|Hm]%elem_of_cons; [| by apply IH in Hm].
    destruct prev; [done |]. by apply match_alternative_sound in E.
  - apply IH.
Qed.

(** ** Concrete instances *)

Definition two_listings : list listing :=
  [demo_listing (JNum 7) "Frontend intern"; demo_listing (JStr "adzuna-1") "Data intern"].

Lemma getInternship_url_roundtrip_witness :
  getInternship two_listings (js_int_string 7) = Some (demo_listing (JNum 7) "Frontend intern").
Proof.
  apply getInternship_url_roundtrip;
    [apply (bool_decide_unpack _); vm_compute; reflexivity | left | reflexivity
    | apply (bool_decide_unpack _); vm_compute; reflexivity].
Defined.

(** The text after the digits of the id is ignored: [/internship/7abc]
    shows the listing with id 7. *)
Theorem details_url_suffix_ignored :
  getInternship two_listings "7abc" = Some (demo_listing (JNum 7) "Frontend intern") /\
  getInternship two_listings "0x7" = Some (demo_listing (JNum 7) "Frontend intern").
Proof. split; vm_compute; reflexivity. Qed.

End Provider.
