(* ===== verification/Details.v ===== *)
(** * Listing views: [InternshipCard.jsx], [InternshipDetails.jsx], [ApplyModal.jsx]

    - The card ([InternshipCard.jsx]) shows one listing with a save
      button ([card_handleSave]) and a link to [/internship/${id}].
    - The details page ([InternshipDetails.jsx]) looks the listing up with
      [getInternship(id)] in an effect, derives [isSaved] and
      [hasApplied] in a second effect, and offers the action buttons:
      an external link, "Application Submitted", "Apply Now" (which opens
      the application modal), "Edit This Posting" or a link to the login.
      [handleModalSubmit] is the only call of [applyForInternship] in the
      pages.
    - The modal ([ApplyModal.jsx]) keeps its form, validates it
      ([modal_validate]) and after a simulated delay calls the page's
      [onSubmit].

    The effects run after a render whose dependencies changed; the state
    records the dependencies of their last run.  A render may throw
    ([js_exn]): the modal's form refers to the icons [Send] and [Loader2],
    which [ApplyModal.jsx] does not import (line 2), and [resolve] models
    the evaluation of those identifiers.  A page whose render throws is
    unmounted and receives no further event: the step relation of the
    page only fires on events of a rendered button or form. *)

From S2P Require Import Prelude Regex Auth Listings Ledger Provider.
Import Regex Auth Listings Ledger Provider.
Open Scope list_scope.

Module Details.

(** ** [InternshipCard.jsx] *)

(** The text of an id in a template literal. *)
Definition js_id_string (k : jsid) : string :=
  match k with JNum n => js_int_string n | JStr s => s end.

(** The card's link (line 111). *)
Definition card_link (i : listing) : string := "/internship/" ++ js_id_string (lid i).

(** The effect of lines 13-19: [isSaved] from the saved ids, for students. *)
Definition card_effect (user : option account) (savedInternships : list jsid) (i : listing) : bool :=
  match user with
  | Some u => if decide (role_of u = Student) then existsb (fun k => k === lid i) savedInternships
              else false
  | None => false
  end.

(** [handleSave] (lines 21-31): the route to navigate to, or the saved
    list toggled and the new local flag. *)
Definition card_handleSave (user : option account) (st : react_state) (i : listing) (isSaved : bool)
    : option string * react_state * bool :=
  match user with
  | None => (Some "/login", st, isSaved)
  | Some _ => (None, toggleSaveInternship st (lid i), negb isSaved)
  end.

Record card_view : Type := mkCardView {
  cv_logo : string;
  cv_title : string;
  cv_match_badge : option Z;
  cv_company : string;
  cv_saved : bool;
  cv_tags : list string;
  cv_more_tags : option nat;
  cv_pay : string;
  cv_applicants : Z;
  cv_link : string
}.

(** The first character of a string, [s.charAt(0)]. *)
Definition js_char_at0 (s : string) : string :=
  match s with EmptyString => "" | String c _ => String c "" end.

(** [a || b] on strings. *)
Definition js_or (a b : string) : string := if js_falsy a then b else a.

(** The card's render (lines 32-120); [pct] is the [matchPercentage] of
    a recommended listing. *)
Definition render_card (i : listing) (pct : option Z) (isSaved : bool) : card_view :=
  mkCardView (js_or (logo i) (js_or (js_char_at0 (company i)) "U"))
    (js_or (title i) "Untitled Internship")
    (match pct with Some p => if (0 <? p)%Z then Some p else None | None => None end)
    (js_or (company i) "Unknown Company") isSaved
    (take 3 (requirements i))
    (if (3 <? List.length (requirements i))%nat then Some (List.length (requirements i) - 3)%nat else None)
    (if isPaid i then js_or (stipend i) "Paid" else "Unpaid")
    (applicants i) (card_link i).

(** ** [ApplyModal.jsx] *)

(** The identifiers [ApplyModal.jsx] binds (lines 1-2). *)
Definition apply_modal_scope : list string :=
  ["React"; "useState"; "useEffect"; "X"; "Upload"; "CheckCircle"; "XCircleIcon"].

Record modal_form : Type := mkModalForm {
  fullName : string;
  m_email : string;
  phoneNumber : string;
  resume_file : option string   (** the chosen file's name *)
}.

Definition empty_modal_form : modal_form := mkModalForm "" "" "" None.

Record modal_state : Type := mkModal {
  m_form : modal_form;
  m_errors : list (string * string);
  isSubmitting : bool;
  submissionSuccess : bool
}.

Definition initial_modal : modal_state := mkModal empty_modal_form [] false false.

(** The effect of lines 15-28: closing the modal resets it. *)
Definition modal_effect (isOpen : bool) (ms : modal_state) : modal_state :=
  if isOpen then ms else initial_modal.

(** [/^\d{10,15}$/] *)
Definition phoneRegex : re :=
  let d := RClass (fun c => ((48 <=? nat_of_ascii c) && (nat_of_ascii c <=? 57))%nat) in
  fold_right RSeq (fold_right RSeq REps (repeat (RAlt REps d) 5)) (repeat d 10).

(** [validate] (lines 30-50): the errors it sets; the form is valid when
    there is none. *)
Definition modal_validate (f : modal_form) : list (string * string) :=
  (if js_falsy (fullName f) then [("fullName", "Full Name is required")] else []) ++
  (if js_falsy (m_email f) then [("email", "Email is required")]
   else if negb (re_matches emailRegex (m_email f)) then [("email", "Invalid email format")]
   else []) ++
  (if js_falsy (phoneNumber f) then [("phoneNumber", "Phone Number is required")]
   else if negb (re_matches phoneRegex (phoneNumber f))
   then [("phoneNumber", "Invalid phone number (10-15 digits)")] else []) ++
  (match resume_file f with Some _ => [] | None => [("resume", "Resume is required")] end).

Inductive modal_input : Type :=
| MFullName (v : string)
| MEmail (v : string)
| MPhone (v : string).

(** [handleChange] (lines 52-59): the field, and its error cleared. *)
Definition modal_handleChange (ms : modal_state) (i : modal_input) : modal_state :=
  let f := m_form ms in
  let '(f', key) := match i with
                    | MFullName v => (mkModalForm v (m_email f) (phoneNumber f) (resume_file f), "fullName")
                    | MEmail v => (mkModalForm (fullName f) v (phoneNumber f) (resume_file f), "email")
                    | MPhone v => (mkModalForm (fullName f) (m_email f) v (resume_file f), "phoneNumber")
                    end in
  mkModal f' (List.filter (fun e => negb (String.eqb e.1 key)) (m_errors ms))
    (isSubmitting ms) (submissionSuccess ms).

(** [handleFileChange] (lines 61-70). *)
Definition modal_handleFileChange (ms : modal_state) (file : option string) : modal_state :=
  match file with
  | Some fname =>
      let f := m_form ms in
      mkModal (mkModalForm (fullName f) (m_email f) (phoneNumber f) (Some fname))
        (List.filter (fun e => negb (String.eqb e.1 "resume")) (m_errors ms))
        (isSubmitting ms) (submissionSuccess ms)
  | None => ms
  end.

(** The first half of [handleSubmit] (lines 72-78): the validation, and
    [true] when the submission goes on after the delay. *)
Definition modal_handleSubmit (ms : modal_state) : modal_state * bool :=
  let errs := modal_validate (m_form ms) in
  if bool_decide (errs = []) then (mkModal (m_form ms) errs true (submissionSuccess ms), true)
  else (mkModal (m_form ms) errs (isSubmitting ms) (submissionSuccess ms), false).

(** Its second half, after the delay, once [onSubmit] has run (lines
    82-89). *)
Definition modal_after_delay (ms : modal_state) : modal_state :=
  mkModal (m_form ms) (m_errors ms) false true.

Inductive modal_view : Type :=
| ModalSuccess (title : string)
| ModalForm (title : string) (errors : list (string * string)) (submitting : bool).

(** The modal's render (lines 92-239): [None] when closed. *)
Definition render_apply_modal (isOpen : bool) (ms : modal_state) (internshipTitle : string)
    : js_exn + option modal_view :=
  if negb isOpen then inr None
  else
    _ <- (if submissionSuccess ms then inr tt else resolve apply_modal_scope "X") ;;
    if submissionSuccess ms then
      _ <- resolve apply_modal_scope "CheckCircle" ;;
      inr (Some (ModalSuccess internshipTitle))
    else
      _ <- (match resume_file (m_form ms) with
            | Some _ => resolve apply_modal_scope "CheckCircle"
            | None => resolve apply_modal_scope "Upload"
            end) ;;
      _ <- (if isSubmitting ms then resolve apply_modal_scope "Loader2"
            else resolve apply_modal_scope "Send") ;;
      inr (Some (ModalForm internshipTitle (m_errors ms) (isSubmitting ms))).

(** ** [InternshipDetails.jsx] *)

(** What the page reads from the URL and the providers.  [de_applications]
    is the [applications] the page destructures from [useData()]
    ([context_field data_value_keys "applications" ...], that is
    [undefined]). *)
Record details_env : Type := mkDetailsEnv {
  de_id : string;
  de_user : option account;
  de_internships : list listing;
  de_saved : list jsid;
  de_applications : option (list application);
  de_loading : bool
}.

Record details_state : Type := mkDetails {
  d_internship : option listing;
  d_isSaved : bool;
  d_hasApplied : bool;
  d_showApplyModal : bool;
  d_modal : modal_state;
  d_deps1 : option (string * list listing);
  d_deps2 : option (option account * option listing * list jsid * option (list application))
}.

Definition initial_details : details_state :=
  mkDetails None false false false initial_modal None None.

(** The lookup effect (lines 18-22). *)
Definition lookup_effect (env : details_env) (s : details_state) : details_state :=
  let deps := (de_id env, de_internships env) in
  if bool_decide (d_deps1 s = Some deps) then s
  else mkDetails (getInternship (de_internships env) (de_id env)) (d_isSaved s) (d_hasApplied s)
         (d_showApplyModal s) (d_modal s) (Some deps) (d_deps2 s).

(** The status effect (lines 24-30), run with the [internship] of the
    render. *)
Definition status_effect (env : details_env) (internship : option listing) (s : details_state)
    : details_state :=
  let deps := (de_user env, internship, de_saved env, de_applications env) in
  if bool_decide (d_deps2 s = Some deps) then s
  else
    match de_user env, internship with
    | Some u, Some i =>
        if decide (role_of u = Student) then
          mkDetails (d_internship s) (existsb (fun k => k === lid i) (de_saved env))
            (match de_applications env with
             | Some apps => existsb (fun a => (internshipId a === lid i) && Z.eqb (studentId a) (uid u)) apps
             | None => false
             end)
            (d_showApplyModal s) (d_modal s) (d_deps1 s) (Some deps)
        else mkDetails (d_internship s) (d_isSaved s) (d_hasApplied s) (d_showApplyModal s)
               (d_modal s) (d_deps1 s) (Some deps)
    | _, _ => mkDetails (d_internship s) (d_isSaved s) (d_hasApplied s) (d_showApplyModal s)
               (d_modal s) (d_deps1 s) (Some deps)
    end.

(** The effects after a commit, in their order, including the modal's
    reset effect. *)
Definition details_effects (env : details_env) (s : details_state) : details_state :=
  let s1 := lookup_effect env s in
  let s2 := status_effect env (d_internship s) s1 in
  mkDetails (d_internship s2) (d_isSaved s2) (d_hasApplied s2) (d_showApplyModal s2)
    (modal_effect (d_showApplyModal s2) (d_modal s2)) (d_deps1 s2) (d_deps2 s2).

(** The action area (lines 185-226). *)
Inductive details_action : Type :=
| ActExternal (url label : string)
| ActSubmitted
| ActApply
| ActEditPosting
| ActLogin.

Inductive details_view : Type :=
| DSpinner
| DNotFound
| DPage (title company domain : string) (badges : list string) (saved : bool) (action : details_action)
    (modal : option modal_view).

Definition details_action_of (user : option account) (i : listing) (hasApplied : bool) : details_action :=
  match user with
  | Some u =>
      match role_of u with
      | Student =>
          match redirect_url i with
          | Some url => if js_falsy url then (if hasApplied then ActSubmitted else ActApply)
                        else ActExternal url ("Apply on " ++ js_or (ltype i) "External Site")
          | None => if hasApplied then ActSubmitted else ActApply
          end
      | Recruiter => ActEditPosting
      | Admin => ActLogin
      end
  | None => ActLogin
  end.

(** The page's render (lines 32-236), the modal included. *)
Definition render_details (env : details_env) (s : details_state) : js_exn + details_view :=
  if de_loading env && negb (bool_decide (d_internship s <> None)) then inr DSpinner
  else
    match d_internship s with
    | None => inr DNotFound
    | Some i =>
        m <- render_apply_modal (d_showApplyModal s) (d_modal s) (js_or (title i) "this internship") ;;
        inr (DPage (js_or (title i) "Untitled Internship") (js_or (company i) "Unknown Company")
               (js_or (domain i) "General")
               [js_or (ltype i) "N/A"; js_or (stipend i) "Unpaid"; js_or (duration i) "Flexible"]
               (d_isSaved s)
               (details_action_of (de_user env) i (d_hasApplied s)) m)
    end.

(** What a handler does outside the page's state. *)
Inductive details_out : Type :=
| OutNavigate (path : string)
| OutAlert (msg : string)
| OutOpen (url : string).

Definition set_show_modal (s : details_state) (b : bool) : details_state :=
  mkDetails (d_internship s) (d_isSaved s) (d_hasApplied s) b (d_modal s) (d_deps1 s) (d_deps2 s).

(** [handleApplyClick] (lines 50-65). *)
Definition handleApplyClick (env : details_env) (i : listing) (s : details_state)
    : details_state * list details_out :=
  match de_user env with
  | None => (s, [OutNavigate "/login"])
  | Some u =>
      if negb (bool_decide (role_of u = Student)) then (s, [OutAlert "Only students can apply for internships"])
      else match redirect_url i with
           | Some url => if js_falsy url then (set_show_modal s true, []) else (s, [OutOpen url])
           | None => (set_show_modal s true, [])
           end
  end.

(** [handleModalSubmit] (lines 67-73): the application, then the local
    flags. *)
Definition handleModalSubmit (env : details_env) (i : listing) (today : string)
    (s : details_state) (st : react_state) : details_state * react_state :=
  (mkDetails (d_internship s) (d_isSaved s) true false (d_modal s) (d_deps1 s) (d_deps2 s),
   applyForInternship (de_user env) st (lid i) today).

(** [handleSave] (lines 75-88); [toggleSaveInternship] is among the
    provider's keys. *)
Definition handleSave (env : details_env) (i : listing) (s : details_state) (st : react_state)
    : details_state * react_state * list details_out :=
  match de_user env with
  | None => (s, st, [OutNavigate "/login"])
  | Some _ =>
      (mkDetails (d_internship s) (negb (d_isSaved s)) (d_hasApplied s) (d_showApplyModal s)
         (d_modal s) (d_deps1 s) (d_deps2 s),
       toggleSaveInternship st (lid i), [])
  end.

Definition set_modal (s : details_state) (ms : modal_state) : details_state :=
  mkDetails (d_internship s) (d_isSaved s) (d_hasApplied s) (d_showApplyModal s) ms (d_deps1 s) (d_deps2 s).

(** The events of the page, each on a rendered element; the ledger is
    rendered after each event. *)
Inductive details_step (env : details_env) : details_state * react_state -> details_state * react_state -> Prop :=
| DEffects s st v :
    render_details env s = inr v -> details_step env (s, st) (details_effects env s, st)
| DApplyClick s st t c d bs sv m :
    render_details env s = inr (DPage t c d bs sv ActApply m) ->
    forall i, d_internship s = Some i ->
    details_step env (s, st) ((handleApplyClick env i s).1, st)
| DSave s st t c d bs sv a m i :
    render_details env s = inr (DPage t c d bs sv a m) -> d_internship s = Some i ->
    details_step env (s, st) ((handleSave env i s st).1.1, render (handleSave env i s st).1.2)
| DModalInput s st t c d bs sv a title errs sub inp :
    render_details env s = inr (DPage t c d bs sv a (Some (ModalForm title errs sub))) ->
    details_step env (s, st) (set_modal s (modal_handleChange (d_modal s) inp), st)
| DModalFile s st t c d bs sv a title errs sub file :
    render_details env s = inr (DPage t c d bs sv a (Some (ModalForm title errs sub))) ->
    details_step env (s, st) (set_modal s (modal_handleFileChange (d_modal s) file), st)
| DModalClose s st t c d bs sv a mv :
    render_details env s = inr (DPage t c d bs sv a (Some mv)) ->
    details_step env (s, st) (set_show_modal s false, st)
| DModalSubmit s st t c d bs sv a title errs sub i today :
    render_details env s = inr (DPage t c d bs sv a (Some (ModalForm title errs sub))) ->
    d_internship s = Some i ->
    (modal_handleSubmit (d_modal s)).2 = true ->
    details_step env (s, st)
      (set_modal (handleModalSubmit env i today s st).1
         (modal_after_delay (modal_handleSubmit (d_modal s)).1),
       render (handleModalSubmit env i today s st).2).

(** ** The application path *)

(** The open modal's form refers to [Send] (or [Loader2] while
    submitting), which the module does not bind: its render throws a
    [ReferenceError]. *)
Lemma apply_modal_form_throws (ms : modal_state) (t : string) :
  submissionSuccess ms = false ->
  exists msg, render_apply_modal true ms t = inl (ReferenceErr msg).
Proof.
  intros Hs. unfold render_apply_modal. rewrite Hs. simpl.
  destruct (resume_file (m_form ms)), (isSubmitting ms); vm_compute; eauto.
Qed.

(** So no render of the details page shows the modal's form. *)
Lemma render_details_no_form (env : details_env) (s : details_state) t c d bs sv a title errs sub :
  render_details env s <> inr (DPage t c d bs sv a (Some (ModalForm title errs sub))).
Proof.
  unfold render_details. destruct (_ && _); [discriminate |].
  destruct (d_internship s) as [i|]; [| discriminate].
  unfold render_apply_modal. destruct (d_showApplyModal s); [| discriminate]. simpl.
  destruct (submissionSuccess (d_modal s)); [vm_compute; discriminate |].
  destruct (resume_file (m_form (d_modal s))), (isSubmitting (d_modal s)); vm_compute; discriminate.
Qed.

(** What every state the page reaches keeps: the ledger is rendered, its
    applications are those it started with, and the modal has not
    succeeded. *)
Definition details_inv (apps0 : list application) (x : details_state * react_state) : Prop :=
  pending x.2 = [] /\ applications (committed x.2) = apps0 /\
  submissionSuccess (d_modal x.1) = false.

Lemma details_step_inv (env : details_env) (apps0 : list application) (x y : details_state * react_state) :
  details_inv apps0 x -> details_step env x y -> details_inv apps0 y.
Proof.
  intros (Hp & Ha & Hm) Hstep.
  destruct Hstep as [s st v Hr|s st t c d bs sv m Hr i Hi|s st t c d bs sv a m i Hr Hi
                    |s st t c d bs sv a title errs sub inp Hr|s st t c d bs sv a title errs sub file Hr
                    |s st t c d bs sv a mv Hr|s st t c d bs sv a title errs sub i today Hr];
    simpl in *.
  - split_and!; [done | done |]. unfold details_effects, modal_effect. simpl.
    unfold status_effect, lookup_effect; repeat case_match; simpl; done.
  - split_and!; [done | done |]. unfold handleApplyClick. by repeat case_match.
  - unfold handleSave. destruct (de_user env); cbn [fst snd]; [| by rewrite render_idle].
    split_and!; [done | | done]. cbn [fst snd]. unfold toggleSaveInternship. by rewrite render_enqueue_nil.
  - split_and!; [done | done |]. destruct inp; done.
  - split_and!; [done | done |]. by destruct file.
  - done.
  - by apply render_details_no_form in Hr.
Qed.

(** C1: No sequence of actions on the details page records an application:
    the only path to [applyForInternship] goes through the modal's form,
    whose render throws. *)
Theorem details_no_application (env : details_env) (s0 s : details_state) (st0 st : react_state) :
  pending st0 = [] -> submissionSuccess (d_modal s0) = false ->
  star (details_step env) (s0, st0) (s, st) ->
  applications (committed st) = applications (committed st0).
Proof.
  intros Hp Hm Hrun.
  refine (proj1 (proj2 (star_inv _ (details_inv (applications (committed st0))) (s0, st0) (s, st)
                          (details_step_inv env _) _ Hrun))).
  by split_and!.
Qed.

Lemma render_details_action (env : details_env) (s : details_state) (i : listing) t c d bs sv a m :
  d_internship s = Some i -> render_details env s = inr (DPage t c d bs sv a m) ->
  details_action_of (de_user env) i (d_hasApplied s) = a.
Proof.
  intros Hi. unfold render_details. rewrite Hi. simpl. rewrite andb_false_r.
  destruct (render_apply_modal _ _ _); [discriminate |]. by intros [= _ _ _ _ _ <- _].
Qed.

Lemma render_details_badges (env : details_env) (s : details_state) (i : listing) t c d bs sv a m :
  d_internship s = Some i -> render_details env s = inr (DPage t c d bs sv a m) ->
  bs = [js_or (ltype i) "N/A"; js_or (stipend i) "Unpaid"; js_or (duration i) "Flexible"].
Proof.
  intros Hi. unfold render_details. rewrite Hi. simpl. rewrite andb_false_r.
  destruct (render_apply_modal _ _ _); [discriminate |]. by intros [= _ _ _ <- _ _ _].
Qed.

Lemma handleApplyClick_opens (env : details_env) (i : listing) (s : details_state) (h : bool) :
  details_action_of (de_user env) i h = ActApply -> (handleApplyClick env i s).1 = set_show_modal s true.
Proof.
  unfold details_action_of, handleApplyClick. destruct (de_user env) as [u|]; [| discriminate].
  destruct (role_of u) eqn:Hr; try discriminate. rewrite bool_decide_true by done. simpl.
  destruct (redirect_url i) as [url|]; [destruct (js_falsy url) |]; destruct h; try discriminate; done.
Qed.

(** For a student on an internal listing, "Apply Now" opens the modal,
    and the next render throws: the page is unmounted. *)
Theorem apply_click_unmounts (env : details_env) (s : details_state) (i : listing) t c d bs sv m :
  submissionSuccess (d_modal s) = false -> d_internship s = Some i ->
  render_details env s = inr (DPage t c d bs sv ActApply m) ->
  exists msg, render_details env (handleApplyClick env i s).1 = inl (ReferenceErr msg).
Proof.
  intros Hm Hi Hr. rewrite (handleApplyClick_opens env i s (d_hasApplied s))
    by exact (render_details_action env s i t c d bs sv ActApply m Hi Hr).
  destruct (apply_modal_form_throws (d_modal s) (js_or (title i) "this internship") Hm) as [msg Hmsg].
  exists msg. unfold render_details. simpl. rewrite Hi. simpl. rewrite andb_false_r. by rewrite Hmsg.
Qed.

Lemma details_step_not_applied (env : details_env) (x y : details_state * react_state) :
  de_applications env = None -> d_hasApplied x.1 = false -> details_step env x y -> d_hasApplied y.1 = false.
Proof.
  intros Hnone Hh Hstep.
  destruct Hstep as [s st v Hr|s st t c d bs sv m Hr i Hi|s st t c d bs sv a m i Hr Hi
                    |s st t c d bs sv a title errs sub inp Hr|s st t c d bs sv a title errs sub file Hr
                    |s st t c d bs sv a mv Hr|s st t c d bs sv a title errs sub i today Hr]; simpl in *.
  - unfold details_effects, status_effect, lookup_effect. rewrite Hnone. by repeat case_match.
  - unfold handleApplyClick. by repeat case_match.
  - unfold handleSave. by destruct (de_user env).
  - done.
  - done.
  - done.
  - by apply render_details_no_form in Hr.
Qed.

(** Since the provider does not expose [applications], the page never
    shows "Application Submitted", whatever the student has applied to. *)
Theorem details_never_shows_submitted (env : details_env) (s0 s : details_state) (st0 st : react_state) :
  de_applications env = None -> d_hasApplied s0 = false ->
  star (details_step env) (s0, st0) (s, st) ->
  forall t c d bs sv m, render_details env s <> inr (DPage t c d bs sv ActSubmitted m).
Proof.
  intros Hnone H0 Hrun.
  assert (Hh : d_hasApplied (s, st).1 = false)
    by exact (star_inv _ (fun x => d_hasApplied x.1 = false) (s0, st0) (s, st)
                (fun x y Hx Hxy => details_step_not_applied env x y Hnone Hx Hxy) H0 Hrun).
  simpl in Hh. intros t c d bs sv m Hr.
  destruct (d_internship s) as [i|] eqn:Hi; [| unfold render_details in Hr; rewrite Hi in Hr;
                                               destruct (de_loading env); discriminate].
  pose proof (render_details_action env s i t c d bs sv ActSubmitted m Hi Hr) as Ha. rewrite Hh in Ha.
  unfold details_action_of in Ha. destruct (de_user env) as [u|]; [| discriminate].
  destruct (role_of u); try discriminate. destruct (redirect_url i) as [url|]; [destruct (js_falsy url)|]; discriminate.
Qed.

(** ** Concrete runs *)

Definition sam_env : details_env :=
  mkDetailsEnv "10" (Some demo_student) [posting 10 (Some (JNum 1))] [] None false.

Definition sam_mounted : details_state := details_effects sam_env initial_details.

Lemma sam_run :
  star (details_step sam_env) (initial_details, demo_state)
    ((handleSave sam_env (posting 10 (Some (JNum 1))) sam_mounted demo_state).1.1,
     render (handleSave sam_env (posting 10 (Some (JNum 1))) sam_mounted demo_state).1.2).
Proof.
  eapply star_left; [eapply DEffects; reflexivity |].
  eapply star_left; [eapply DSave; reflexivity |]. apply star_refl.
Qed.

Lemma details_no_application_witness :
  applications (committed (render (handleSave sam_env (posting 10 (Some (JNum 1))) sam_mounted demo_state).1.2)) =
  applications (committed demo_state).
Proof.
  apply (details_no_application sam_env initial_details _ demo_state _ eq_refl eq_refl sam_run).
Defined.

Lemma details_never_shows_submitted_witness :
  render_details sam_env sam_mounted <>
    inr (DPage "Intern" "Acme" "Web Development" ["Remote"; "Unpaid"; "3 months"] false
      ActSubmitted None).
Proof.
  apply (details_never_shows_submitted sam_env initial_details sam_mounted demo_state demo_state);
    [reflexivity | reflexivity |].
  eapply star_left; [eapply DEffects; reflexivity | apply star_refl].
Defined.

Lemma apply_click_unmounts_witness :
  exists msg, render_details sam_env (handleApplyClick sam_env (posting 10 (Some (JNum 1))) sam_mounted).1 =
              inl (ReferenceErr msg).
Proof. eapply apply_click_unmounts; reflexivity. Defined.

End Details.
