(* ===== verification/Recruiter.v ===== *)
(** * The recruiter's pages: [PostInternship.jsx], [RecruiterDashboard.jsx],
      [RecruiterActivityStream.jsx]

    - The posting form keeps its fields as typed; its submit handler
      splits the comma-separated requirements, attaches the recruiter's
      company found by an effect, and calls [addInternship].  The browser
      submits the form only when every rendered [required] field is filled
      ([post_form_complete]); the stipend field is rendered only for a
      paid posting.
    - The dashboard waits, in an effect, for the user, the companies and
      the listings, then lists the recruiter's postings and their
      applicants.  It reads [applications] from [useData()], whose value
      has no such key: the field is [undefined] ([rd_applications = None]),
      and [applications.filter] throws a [TypeError].
    - The activity stream reads [user] from [useData()] as well; the
      generation loop of its effect is modelled with an explicit random
      source.

    The [deadline] field of the form is not a field of [listing]: no
    modelled reader uses it. *)

From S2P Require Import Prelude Auth Listings Ledger Matching Provider Details.
Import Auth Listings Ledger Matching Provider Details.
Open Scope list_scope.

Module Recruiter.

(** ** [PostInternship.jsx] *)

Record post_form : Type := mkPostForm {
  pf_title : string;
  pf_description : string;
  pf_requirements : string;
  pf_type : string;
  pf_isPaid : bool;
  pf_stipend : string;
  pf_duration : string;
  pf_location : string;
  pf_deadline : string;
  pf_domain : string
}.

Definition initial_post_form : post_form :=
  mkPostForm "" "" "" "Remote" true "" "" "" "" "".

Definition post_domains : list string :=
  ["Web Development"; "AI/ML"; "Marketing"; "Design"; "Data Science"; "Mobile Development"].

Definition post_types : list string := ["Remote"; "Onsite"; "Hybrid"].

(** The company effect (lines 26-31): [undefined] when no company has the
    recruiter's [companyId]; the state is left as it was when the effect's
    test fails. *)
Definition company_effect (user : option account) (companies : list companyRec)
    (current : option companyRec) : option companyRec :=
  match user with
  | Some u =>
      if bool_decide (role_of u = Recruiter) && bool_decide (0 < List.length companies)%nat
      then find_company companies (ucompanyId u) else current
  | None => current
  end.

(** The named inputs of [handleChange] (lines 33-39). *)
Inductive post_input : Type :=
| PTitle (v : string)
| PDescription (v : string)
| PRequirements (v : string)
| PStipend (v : string)
| PDuration (v : string)
| PLocation (v : string)
| PDeadline (v : string)
| PDomain (v : string).

Definition post_handleChange (f : post_form) (i : post_input) : post_form :=
  let 'mkPostForm t d r ty p st du lo de dom := f in
  match i with
  | PTitle v => mkPostForm v d r ty p st du lo de dom
  | PDescription v => mkPostForm t v r ty p st du lo de dom
  | PRequirements v => mkPostForm t d v ty p st du lo de dom
  | PStipend v => mkPostForm t d r ty p v du lo de dom
  | PDuration v => mkPostForm t d r ty p st v lo de dom
  | PLocation v => mkPostForm t d r ty p st du v de dom
  | PDeadline v => mkPostForm t d r ty p st du lo v dom
  | PDomain v => mkPostForm t d r ty p st du lo de v
  end.

(** The work-type buttons (line 151) and the Paid / Unpaid buttons
    (lines 172, 183). *)
Definition set_type (f : post_form) (ty : string) : post_form :=
  let 'mkPostForm t d r _ p st du lo de dom := f in mkPostForm t d r ty p st du lo de dom.

Definition set_paid (f : post_form) (p : bool) : post_form :=
  let 'mkPostForm t d r ty _ st du lo de dom := f in mkPostForm t d r ty p st du lo de dom.

(** The rendered [required] controls with their values: title and domain
    (lines 106-139). *)
Definition head_controls (f : post_form) : list (string * string) :=
  [("title", pf_title f); ("domain", pf_domain f)].

(** The stipend, rendered while the posting is paid (lines 195-214). *)
Definition stipend_controls (f : post_form) : list (string * string) :=
  if pf_isPaid f then [("stipend", pf_stipend f)] else [].

(** Duration, location and deadline (lines 216-270), description and
    requirements (lines 272-302). *)
Definition tail_controls (f : post_form) : list (string * string) :=
  [("duration", pf_duration f); ("location", pf_location f); ("deadline", pf_deadline f);
   ("description", pf_description f); ("requirements", pf_requirements f)].

(** A click on Post Internship (lines 304-311) runs the constraint
    validation of the rendered [required] controls: the browser fires
    [submit] only when none is empty. *)
Definition post_form_complete (f : post_form) : bool :=
  forallb (fun c => negb (js_falsy c.2)) (head_controls f ++ stipend_controls f ++ tail_controls f).

(** The class of a work-type or compensation button (lines 152-156,
    173-177, 184-188). *)
Definition choice_button_class (selected : bool) : string :=
  "py-3 px-4 rounded-lg border-2 font-medium transition " ++
  (if selected then "border-primary-600 bg-primary-50 text-primary-700"
   else "border-gray-200 text-gray-600 hover:border-gray-300").

(** The work-type buttons (lines 147-160) and the Paid / Unpaid buttons
    (lines 170-191): label and class. *)
Definition type_buttons (f : post_form) : list (string * string) :=
  map (fun ty => (ty, choice_button_class (String.eqb (pf_type f) ty))) post_types.

Definition paid_buttons (f : post_form) : list (string * string) :=
  [("Paid", choice_button_class (pf_isPaid f)); ("Unpaid", choice_button_class (negb (pf_isPaid f)))].

(** [formData.requirements.split(',').map(s => s.trim())] *)
Definition split_requirements (text : string) : list string :=
  map js_trim (js_split "," text).

(** The object passed to [addInternship] (lines 48-54); the fields
    [addInternship] replaces are left at placeholders. *)
Definition post_listing (f : post_form) (c : companyRec) : listing :=
  mkListing (JNum 0) (pf_title f) (cname c) (Some (JNum (cid c))) (clogo c) (pf_location f)
    (pf_type f) (pf_isPaid f) (pf_stipend f) (pf_duration f) (pf_domain f) ""
    0 (split_requirements (pf_requirements f)) (pf_description f) None.

(** [handleSubmit] (lines 41-59): the ledger, the alert shown and the
    route navigated to. *)
Definition post_handleSubmit (user : option account) (companies : list companyRec)
    (recruiterCompany : option companyRec) (f : post_form) (st : react_state) (now : Z)
    (today : string) : react_state * string * option string :=
  match recruiterCompany with
  | None => (st, "Company details not found. Cannot post internship.", None)
  | Some c =>
      ((addInternship user companies st (post_listing f c) now today).1,
       "Internship posted successfully!", Some "/recruiter/dashboard")
  end.

Inductive post_view : Type :=
| PostLoginPrompt
| PostFormView (company : option (string * string)) (type_selected : string) (paid : bool)
    (stipend_field : bool) (domain_options : list string).

(** The render (lines 63-316). *)
Definition render_post (user : option account) (recruiterCompany : option companyRec)
    (f : post_form) : post_view :=
  match user with
  | Some u =>
      if decide (role_of u = Recruiter) then
        PostFormView (option_map (fun c => (clogo c, cname c)) recruiterCompany) (pf_type f)
          (pf_isPaid f) (pf_isPaid f) ("" :: post_domains)
      else PostLoginPrompt
  | None => PostLoginPrompt
  end.

(** ** [RecruiterDashboard.jsx] *)

(** What the dashboard reads from the providers.  [rd_applications] is
    [context_field data_value_keys "applications" ...] and [rd_authLoading]
    is [context_field auth_value_keys "loading" ...]: both are [undefined]
    in the shipped providers. *)
Record dash_env : Type := mkDashEnv {
  rd_user : option account;
  rd_authLoading : option bool;
  rd_internships : list listing;
  rd_companies : list companyRec;
  rd_users : list account;
  rd_applications : option (list application)
}.

Record dash_state : Type := mkDash {
  selectedInternship : option listing;
  recruiterCompany : option companyRec;
  rd_loading : bool;
  rd_deps : option (option account * list companyRec * list listing)
}.

Definition initial_dash : dash_state := mkDash None None true None.

(** The effect (lines 16-25), run when its dependencies changed. *)
Definition dash_effect (env : dash_env) (s : dash_state) : dash_state :=
  let deps := (rd_user env, rd_companies env, rd_internships env) in
  if bool_decide (rd_deps s = Some deps) then s
  else
    let s1 :=
      match rd_user env with
      | Some u =>
          if bool_decide (0 < List.length (rd_companies env))%nat &&
             bool_decide (0 < List.length (rd_internships env))%nat
          then mkDash (selectedInternship s) (find_company (rd_companies env) (ucompanyId u))
                 false (rd_deps s)
          else s
      | None => s
      end in
    let s2 := match rd_user env with
              | None => mkDash (selectedInternship s1) (recruiterCompany s1) false (rd_deps s1)
              | Some _ => s1
              end in
    mkDash (selectedInternship s2) (recruiterCompany s2) (rd_loading s2) (Some deps).

(** [getStatusBadge] (lines 66-75). *)
Inductive status_badge : Type := BadgeShortlisted | BadgeRejected | BadgePending.

Definition getStatusBadge (status : string) : status_badge :=
  if String.eqb status "shortlisted" then BadgeShortlisted
  else if String.eqb status "rejected" then BadgeRejected
  else BadgePending.

(** One applicant card (lines 220-268): the student's name, email and
    first degree (looked up in the roster), the status badge, the
    student's skills, and the resume link. *)
Record dash_row : Type := mkDashRow {
  dr_app : application;
  dr_name : string;
  dr_email : string;
  dr_degree : string;
  dr_badge : status_badge;
  dr_skills : list string;
  dr_resume : string
}.

Definition dash_row_of (users : list account) (a : application) : dash_row :=
  let s := List.find (fun v => Z.eqb (uid v) (studentId a)) users in
  mkDashRow a (js_or (match s with Some v => name v | None => "" end) "Unknown Student")
    (js_or (match s with Some v => email v | None => "" end) "Unknown Email")
    (js_or (match s with Some v => match education v with Some (e :: _) => degree e | _ => "" end
                       | None => "" end) "No Education")
    (getStatusBadge (status a))
    (match s with Some v => default [] (skills v) | None => [] end)
    (js_or (match s with Some v => default "" (resume v) | None => "" end) "#").

(** [myInternships] (line 61). *)
Definition myInternships (u : account) (internships : list listing) : list listing :=
  List.filter (fun i => bool_decide (companyId i = option_map JNum (ucompanyId u))) internships.

(** [applicantsForMyInternships] (lines 62-64), given the array. *)
Definition applicantsFor (mine : list listing) (apps : list application) : list application :=
  List.filter (fun a => existsb (fun i => lid i === internshipId a) mine) apps.

(** [displayApplicants] (lines 81-83). *)
Definition displayApplicants (selected : option listing) (apps : list application)
    : list application :=
  match selected with
  | Some si => List.filter (fun a => internshipId a === lid si) apps
  | None => apps
  end.

Inductive dash_view : Type :=
| DashSkeleton
| DashLoginPrompt
| DashPage (welcome : string) (postings total shortlisted : nat) (company_name : string)
    (cards : list (listing * nat * bool)) (heading : string) (rows : list dash_row)
    (empty_text : option string).

(** The My Internships cards (lines 177-206): each posting with its
    number of applications ([applications.filter(...).length]) and
    whether it is the selected one. *)
Definition posting_cards (selected : option listing) (mine : list listing) (apps : list application)
    : list (listing * nat * bool) :=
  map (fun i => (i, List.length (List.filter (fun a => internshipId a === lid i) apps),
                 match selected with Some si => lid si === lid i | None => false end)) mine.

(** The heading of the applicants card (line 213). *)
Definition applicants_heading (selected : option listing) : string :=
  match selected with
  | Some si => ("Applicants for " ++ title si)%string
  | None => "Recent Applicants"
  end.

(** The text shown without applicants (lines 270-278). *)
Definition no_applicants_text (selected : option listing) (shown : list application) : option string :=
  match shown with
  | [] => Some (match selected with
                | Some si => ("No applicants for " ++ title si ++ " yet.")%string
                | None => "No applicants for your internships yet." end)
  | _ => None
  end.

(** The render (lines 27-284): a [TypeError] when [applications] is
    [undefined]. *)
Definition render_dash (env : dash_env) (s : dash_state) : js_exn + dash_view :=
  if default false (rd_authLoading env) || rd_loading s then inr DashSkeleton
  else
    match rd_user env, recruiterCompany s with
    | Some u, Some c =>
        if decide (role_of u = Recruiter) then
          let mine := myInternships u (rd_internships env) in
          match rd_applications env with
          | None => inl (TypeErr "Cannot read properties of undefined (reading 'filter')")
          | Some apps =>
              let forMine := applicantsFor mine apps in
              let shown := displayApplicants (selectedInternship s) forMine in
              inr (DashPage ("Welcome, " ++ name u ++ "!")%string (List.length mine) (List.length forMine)
                     (List.length (List.filter (fun a => String.eqb (status a) "shortlisted") forMine))
                     (cname c)
                     (posting_cards (selectedInternship s) mine apps)
                     (applicants_heading (selectedInternship s))
                     (map (dash_row_of (rd_users env)) shown)
                     (no_applicants_text (selectedInternship s) shown))
          end
        else inr DashLoginPrompt
    | _, _ => inr DashLoginPrompt
    end.

(** The statuses the Shortlist and Reject buttons send (lines 241, 248). *)
Definition status_choices : list string := ["shortlisted"; "rejected"].

Definition set_selected (s : dash_state) (i : listing) : dash_state :=
  mkDash (Some i) (recruiterCompany s) (rd_loading s) (rd_deps s).

(** The dashboard and the provider's state: effects after a commit, a
    click on a posting card, and the Shortlist / Reject buttons of a row
    ([handleStatusChange], lines 77-79), each on what was rendered. *)
Inductive dash_step (env : dash_env) : dash_state * react_state -> dash_state * react_state -> Prop :=
| DashEffects s st : dash_step env (s, st) (dash_effect env s, render st)
| DashSelect s st w p t sh cn cards h rows e i n b :
    render_dash env s = inr (DashPage w p t sh cn cards h rows e) -> (i, n, b) ∈ cards ->
    dash_step env (s, st) (set_selected s i, st)
| DashStatus s st w p t sh cn cards h rows e r newStatus :
    render_dash env s = inr (DashPage w p t sh cn cards h rows e) -> r ∈ rows ->
    newStatus ∈ status_choices ->
    dash_step env (s, st) (s, updateApplicationStatus (rd_user env) st (app_id (dr_app r)) newStatus).

(** ** [RecruiterActivityStream.jsx] *)

Inductive activity_kind : Type := NewApplication | NewInternship | ApplicationUpdate.

Record activity : Type := mkActivity {
  act_id : string;
  act_kind : activity_kind;
  act_message : string;
  act_link : string;
  act_time : Z
}.

(** [`${x}`] on an application's [id], [undefined] when it has none. *)
Definition app_id_string (k : option Z) : string :=
  match k with Some n => js_int_string n | None => "undefined" end.

(** [Math.floor(Math.random() * n)]: the index drawn, [r mod n] for a
    random natural [r]. *)
Definition pick {A : Type} (r : nat) (l : list A) : option A := l !! (r mod List.length l)%nat.

(** The four draws of one call of [generateActivity]. *)
Record draw : Type := mkDraw { d_app : nat; d_int : nat; d_upd : nat; d_pick : nat }.

Section Stream.
(** [new Date(s)] on the dates the listings and applications carry, and
    [new Date()] at the call. *)
Variable date_of : string -> Z.
Variable now : Z.

(** [generateActivity] (lines 13-72), with the fields it reads from
    [useData()]: [user], [internships], [users] and [applications], the
    last three defaulting to [[]]. *)
Definition generateActivity (user : option account) (internships : list listing)
    (users : list account) (applications : list application) (d : draw) : option activity :=
  match user with
  | Some u =>
      match ucompanyId u with
      | None => None
      | Some cid =>
          if bool_decide (internships = []) || bool_decide (applications = []) ||
             bool_decide (users = []) then None
          else
            let mine := List.filter (fun i => bool_decide (companyId i = Some (JNum cid))) internships in
            match mine with
            | [] => None
            | _ =>
                let ids := map lid mine in
                let relevant := List.filter (fun a => existsb (fun k => k === internshipId a) ids)
                                  applications in
                let find_student a := List.find (fun v => Z.eqb (uid v) (studentId a)) users in
                let find_int a := find_by_id (internshipId a) internships in
                let act1 :=
                  match pick (d_app d) relevant with
                  | Some a =>
                      match find_student a, find_int a with
                      | Some v, Some i =>
                          [mkActivity ("app-" ++ app_id_string (app_id a)) NewApplication
                             (name v ++ " applied for " ++ title i ++ ".") "/recruiter/dashboard"
                             (date_of (appliedDate a))]
                      | _, _ => []
                      end
                  | None => []
                  end in
                let act2 :=
                  match pick (d_int d) mine with
                  | Some i =>
                      [mkActivity ("new-int-" ++ js_id_string (lid i)) NewInternship
                         ("A new internship was posted: " ++ title i ++ ".")
                         ("/internship/" ++ js_id_string (lid i)) (date_of (posted i))]
                  | None => []
                  end in
                let updated := List.filter (fun a => negb (String.eqb (status a) "pending") &&
                                                     negb (String.eqb (status a) "Applied")) relevant in
                let act3 :=
                  match pick (d_upd d) updated with
                  | Some a =>
                      match find_student a, find_int a with
                      | Some v, Some i =>
                          [mkActivity ("update-" ++ app_id_string (app_id a)) ApplicationUpdate
                             ("Application for " ++ name v ++ " to " ++ title i ++
                              " was updated to '" ++ status a ++ "'.") "/recruiter/dashboard" now]
                      | _, _ => []
                      end
                  | None => []
                  end in
                pick (d_pick d) (act1 ++ act2 ++ act3)
            end
      end
  | None => None
  end%string.

(** [(a, b) => b.timestamp - a.timestamp] *)
Definition activity_cmp (a b : activity) : Z := act_time b - act_time a.

(** The [while] loop of lines 85-91: at most [limit * 5] calls, the
    [k]-th with the draws [draws k], into a [Map] keyed by [id]. *)
Fixpoint fill (gen : draw -> option activity) (limit fuel k : nat) (draws : nat -> draw)
    (m : list (string * activity)) : list (string * activity) :=
  match fuel with
  | O => m
  | S f =>
      if bool_decide (List.length m < limit)%nat then
        let m' := match gen (draws k) with
                  | Some a => if bool_decide (jsmap_get (act_id a) m = None)
                              then jsmap_set (act_id a) a m else m
                  | None => m
                  end in
        fill gen limit f (S k) draws m'
      else m
  end.

Definition initial_activities (gen : draw -> option activity) (limit : nat)
    (draws : nat -> draw) : list activity :=
  js_sort activity_cmp (map snd (fill gen limit (limit * 5) 0 draws [])).

(** One tick of the interval (lines 98-110). *)
Definition tick (gen : draw -> option activity) (limit : nat) (d : draw)
    (prev : list activity) : list activity :=
  match gen d with
  | Some a =>
      if existsb (fun b => String.eqb (act_id b) (act_id a)) prev then prev
      else take limit (js_sort activity_cmp (a :: prev))
  | None => prev
  end.

Record stream_state : Type := mkStream {
  activities : list activity;
  isLoading : bool
}.

(** The effect (lines 74-113) without its interval; [user] is the
    stream's own [useData().user]. *)
Definition stream_effect (user : option account) (internships : list listing)
    (users : list account) (applications : list application) (limit : nat)
    (draws : nat -> draw) (s : stream_state) : stream_state :=
  match user with
  | Some u =>
      if bool_decide (role_of u = Recruiter) && negb (bool_decide (internships = []))
         && negb (bool_decide (applications = []))
      then mkStream (initial_activities (generateActivity user internships users applications)
                       limit draws) false
      else mkStream (activities s) false
  | None => mkStream (activities s) false
  end.

Inductive stream_view : Type :=
| StreamNull
| StreamLoader
| StreamEmpty
| StreamList (items : list (string * string)).

(** The render (lines 115-160). *)
Definition render_stream (user : option account) (s : stream_state) : stream_view :=
  match user with
  | Some u =>
      if decide (role_of u = Recruiter) then
        if isLoading s then StreamLoader
        else match activities s with
             | [] => StreamEmpty
             | l => StreamList (map (fun a => (act_message a, js_or (act_link a) "#")) l)
             end
      else StreamNull
  | None => StreamNull
  end.

End Stream.

(** ** Postings *)

Lemma js_split_trailing (sep : ascii) (s : string) :
  exists w ws, js_split sep (s ++ String sep "") = w :: ws ++ [""].
Proof.
  induction s as [|c s IH]; simpl.
  - exists "", []. by rewrite Ascii.eqb_refl.
  - destruct IH as (w & ws & ->). destruct (Ascii.eqb c sep).
    + by exists "", (w :: ws).
    + by exists (String c w), ws.
Qed.

(** A requirements text that ends with a comma gives an empty requirement. *)
Lemma split_requirements_trailing (text : string) :
  "" ∈ split_requirements (text ++ ",").
Proof.
  unfold split_requirements. destruct (js_split_trailing "," text) as (w & ws & ->).
  apply list_elem_of_fmap. exists "". split; [done |]. apply elem_of_cons. right.
  apply elem_of_app. right. by apply list_elem_of_singleton.
Qed.

Lemma round_pct_lt_100 (m n : Z) : (0 <= m)%Z -> (m < n)%Z -> (n < 200)%Z -> (round_pct m n < 100)%Z.
Proof. intros. unfold round_pct. apply Z.div_lt_upper_bound; lia. Qed.

(** An empty requirement is matched by no non-empty skill: a student
    with distinct, non-empty skills covers fewer requirements than the
    listing has, and, below 200 requirements, gets less than 100%. *)
Lemma empty_requirement_caps_match (sk : list string) (i : listing) :
  "" ∈ requirements i -> (List.length (requirements i) < 200)%nat -> NoDup sk -> "" ∉ sk ->
  exists z, match_percentage sk i = JsNum z /\ (z < 100)%Z.
Proof.
  intros He Hlen Hnd Hsk. unfold match_percentage.
  set (reqs := map js_lower (requirements i)).
  assert (He' : "" ∈ reqs) by (apply list_elem_of_fmap; by exists "").
  set (M := List.filter (fun s => bool_decide (s ∈ reqs)) sk).
  set (R := List.filter (fun s => negb (String.eqb s "")) reqs).
  assert (HM : (List.length M <= List.length R)%nat).
  { apply submseteq_length, NoDup_submseteq; [apply NoDup_ListNoDup, List.NoDup_filter, NoDup_ListNoDup, Hnd |].
    intros x Hx. apply elem_of_list_filter_bool in Hx as [Hx Hr]. sb_bool.
    apply elem_of_list_filter_bool. split; [done |].
    destruct (String.eqb_spec x ""); [subst; contradiction | done]. }
  assert (HR : (List.length R < List.length reqs)%nat).
  { pose proof (filter_length (fun s => negb (String.eqb s "")) reqs) as Hl. fold R in Hl.
    set (E := List.filter _ reqs) in Hl.
    assert (Hin : "" ∈ E) by (apply elem_of_list_filter_bool; split; done).
    destruct E; [by apply not_elem_of_nil in Hin | simpl in Hl; lia]. }
  assert (Hr : List.length reqs = List.length (requirements i)) by apply length_map.
  rewrite bool_decide_true, js_round_pct_pos by lia. eexists. split; [reflexivity |].
  apply round_pct_lt_100; lia.
Qed.

(** The posted listing with the recruiter's company (the effect's
    [recruiterCompany]) after the next render. *)
Lemma post_commits (u : account) (companies : list companyRec) (st : react_state) (f : post_form)
    (c : companyRec) (now : Z) (today : string) :
  role_of u = Recruiter -> pending st = [] ->
  localInternships (committed (render (post_handleSubmit (Some u) companies (Some c) f st now today).1.1))
  = localInternships (committed st) ++ [new_internship u companies (post_listing f c) now today].
Proof.
  intros Hr Hp. unfold post_handleSubmit, addInternship. rewrite decide_True by done.
  cbn [fst]. by rewrite render_enqueue_nil.
Qed.

(** A posting whose requirements text ends with a comma ("React, CSS,")
    carries an empty requirement, which no student with distinct,
    non-empty skills matches: the listing is never a 100% match for them. *)
Theorem trailing_comma_never_full_match (u : account) (companies : list companyRec)
    (f : post_form) (c : companyRec) (now : Z) (today text : string) (student : option account) :
  pf_requirements f = (text ++ ",")%string ->
  (List.length (js_split "," (pf_requirements f)) < 200)%nat ->
  NoDup (student_skills student) -> "" ∉ student_skills student ->
  exists z, matchPercentage student (new_internship u companies (post_listing f c) now today) = JsNum z /\
    (z < 100)%Z.
Proof.
  intros Ht Hlen Hnd Hne. unfold matchPercentage.
  destruct (is_student student && _); [| exists 0%Z; split; [done | lia]].
  apply empty_requirement_caps_match; [| |done..]; cbn [requirements new_internship post_listing].
  - rewrite Ht. apply split_requirements_trailing.
  - unfold split_requirements. by rewrite length_map.
Qed.

(** "Unpaid" chosen after a stipend was typed: the posting keeps the
    stipend text.  Its card says "Unpaid" while the details page shows
    the stipend in its pay badge. *)
Theorem posted_pay_disagrees (u : account) (companies : list companyRec) (st : react_state)
    (f : post_form) (c : companyRec) (now : Z) (today : string) :
  role_of u = Recruiter -> pending st = [] -> pf_isPaid f = false -> pf_stipend f <> "" ->
  exists i,
    localInternships (committed (render (post_handleSubmit (Some u) companies (Some c) f st now today).1.1))
      = localInternships (committed st) ++ [i] /\
    (forall pct saved, cv_pay (render_card i pct saved) = "Unpaid") /\
    (forall env s t co d bs sv a m, d_internship s = Some i ->
       render_details env s = inr (DPage t co d bs sv a m) -> bs !! 1%nat = Some (pf_stipend f)).
Proof.
  intros Hr Hp Hpaid Hst. eexists. split; [by apply post_commits |]. split.
  - intros pct saved. unfold render_card. simpl. by rewrite Hpaid.
  - intros env s t co d bs sv a m Hi Hrd. rewrite (render_details_badges env s _ t co d bs sv a m Hi Hrd).
    simpl. unfold js_or, js_falsy. destruct (String.eqb_spec (pf_stipend f) ""); [contradiction | done].
Qed.

(** ** The activity stream's list *)

(** What the stream's list keeps: at most [limit] activities, distinct
    ids, newest first, each one a result of the generator satisfying [P]. *)
Definition stream_ok (P : activity -> Prop) (limit : nat) (l : list activity) : Prop :=
  (List.length l <= limit)%nat /\ NoDup (map act_id l) /\
  Sorted (fun a b => activity_cmp a b <= 0)%Z l /\ Forall P l.

Lemma activity_cmp_antisym (a b : activity) : (0 < activity_cmp a b)%Z -> (activity_cmp b a < 0)%Z.
Proof. unfold activity_cmp. lia. Qed.

Lemma pick_elem {A : Type} (r : nat) (l : list A) (x : A) : pick r l = Some x -> x ∈ l.
Proof. unfold pick. apply list_elem_of_lookup_2. Qed.

Section StreamLemmas.
Variable gen : draw -> option activity.
Variable P : activity -> Prop.
Hypothesis gen_P : forall d a, gen d = Some a -> P a.
Variable limit : nat.

(** The [Map] of the loop: keys are the activities' ids. *)
Definition fill_ok (m : list (string * activity)) : Prop :=
  (List.length m <= limit)%nat /\ NoDup (map fst m) /\ Forall (fun e => act_id e.2 = e.1 /\ P e.2) m.

Lemma fill_preserves (draws : nat -> draw) (fuel k : nat) (m : list (string * activity)) :
  fill_ok m -> fill_ok (fill gen limit fuel k draws m).
Proof.
  revert k m. induction fuel as [|fuel IH]; intros k m Hm; simpl; [done |].
  case_bool_decide as Hlt; [apply IH | done].
  destruct (gen (draws k)) as [a|] eqn:Hg; [|done].
  case_bool_decide as Habs; [|done]. destruct Hm as (Hlen & Hnd & Hall).
  rewrite (jsmap_set_absent _ _ _ Habs). split_and!.
  - rewrite length_app. simpl. lia.
  - pose proof (jsmap_set_keys_NoDup (act_id a) a m Hnd) as H. by rewrite (jsmap_set_absent _ _ _ Habs) in H.
  - apply Forall_app. split; [done |]. apply Forall_singleton. eauto.
Qed.

Lemma map_act_id_snd (m : list (string * activity)) :
  Forall (fun e => act_id e.2 = e.1 /\ P e.2) m -> map act_id (map snd m) = map fst m.
Proof. induction 1 as [|[k a] m [Hk _] _ IH]; simpl in *; [done |]. by rewrite Hk, IH. Qed.

Lemma initial_activities_ok (draws : nat -> draw) :
  stream_ok P limit (initial_activities gen limit draws).
Proof.
  destruct (fill_preserves draws (limit * 5) 0 [] ltac:(split_and!; [simpl; lia | constructor | done]))
    as (Hlen & Hnd & Hall).
  unfold initial_activities. set (m := fill gen limit (limit * 5) 0 draws []) in *.
  pose proof (js_sort_perm activity_cmp (map snd m)) as Hp. split_and!.
  - rewrite (Permutation_length Hp), length_map. done.
  - rewrite Hp, (map_act_id_snd m Hall). done.
  - apply js_sort_sorted, activity_cmp_antisym.
  - rewrite Hp, Forall_forall. intros x Hx. apply list_elem_of_fmap in Hx as ([k b] & -> & Hin).
    rewrite Forall_forall in Hall. by apply Hall in Hin as [_ ?].
Qed.

Lemma tick_ok (d : draw) (l : list activity) :
  stream_ok P limit l -> stream_ok P limit (tick gen limit d l).
Proof.
  intros (Hlen & Hnd & Hs & Hall). unfold tick.
  destruct (gen d) as [a|] eqn:Hg; [|by split_and!].
  destruct (existsb _ l) eqn:He; [by split_and! |].
  pose proof (js_sort_perm activity_cmp (a :: l)) as Hp.
  set (sorted := js_sort activity_cmp (a :: l)) in *.
  assert (Hnd' : NoDup (map act_id sorted)).
  { rewrite Hp. simpl. constructor; [|done]. intros Hin. apply list_elem_of_fmap in Hin as (b & Hb & Hbl).
    assert (existsb (fun b => String.eqb (act_id b) (act_id a)) l = true) as Hc; [|congruence].
    apply existsb_exists. exists b. split; [by apply list_elem_of_In |]. apply String.eqb_eq. done. }
  pose proof (js_sort_sorted activity_cmp activity_cmp_antisym (a :: l)) as Hss. fold sorted in Hss.
  split_and!.
  - rewrite length_take. lia.
  - rewrite <- firstn_map. eapply sublist_NoDup; [exact Hnd' | apply sublist_take].
  - rewrite <- (take_drop limit sorted) in Hss. by apply Sorted_app_l in Hss.
  - apply Forall_take. rewrite Hp. constructor; [eauto | done].
Qed.

(** The list after the first run of the effect and any number of ticks. *)
Lemma stream_run_ok (draws : nat -> draw) (ds : list draw) :
  stream_ok P limit (fold_left (fun l d => tick gen limit d l) ds (initial_activities gen limit draws)).
Proof.
  generalize (initial_activities_ok draws). generalize (initial_activities gen limit draws).
  induction ds as [|d ds IH]; intros l Hl; simpl; [done |]. by apply IH, tick_ok.
Qed.

End StreamLemmas.

(** The stream's list, after the first run of the effect and any number
    of ticks of the interval, whatever the generator returns: at most
    [limit] activities, distinct ids, newest first. *)
Theorem activity_stream_bounded (gen : draw -> option activity) (limit : nat)
    (draws : nat -> draw) (ds : list draw) :
  let l := fold_left (fun l d => tick gen limit d l) ds (initial_activities gen limit draws) in
  (List.length l <= limit)%nat /\ NoDup (map act_id l) /\
  Sorted (fun a b => act_time b <= act_time a)%Z l.
Proof.
  destruct (stream_run_ok gen (fun _ => True) (fun _ _ _ => I) limit draws ds) as (Hl & Hn & Hs & _).
  split_and!; [done | done |]. eapply Sorted_weaken; [|exact Hs]. unfold activity_cmp. intros; lia.
Qed.

Definition is_new_application (a : activity) : bool :=
  match act_kind a with NewApplication => true | _ => false end.

(** Every "applied" activity is named after an application's [id]. *)
Lemma generateActivity_app_id (date_of : string -> Z) (now : Z) (user : option account)
    (internships : list listing) (users : list account) (apps : list application) (d : draw)
    (a : activity) :
  generateActivity date_of now user internships users apps d = Some a -> is_new_application a = true ->
  exists x, x ∈ apps /\ act_id a = ("app-" ++ app_id_string (app_id x))%string.
Proof.
  unfold generateActivity. intros Hg Hk.
  repeat (case_match; try discriminate); apply pick_elem in Hg;
  repeat match goal with
  | H : _ ∈ _ ++ _ |- _ => apply elem_of_app in H as [H|H]
  | H : _ ∈ [] |- _ => by apply not_elem_of_nil in H
  | H : _ ∈ [_] |- _ => apply list_elem_of_singleton in H; subst
  end; try discriminate;
  match goal with
  | H : pick _ _ = Some ?x |- _ => apply pick_elem, elem_of_list_filter_bool in H as [Hx _];
                                  exists x; split; [exact Hx | reflexivity]
  end.
Qed.

Lemma NoDup_map_same {A B : Type} (f : A -> B) (p : A -> bool) (k : B) (l : list A) :
  NoDup (map f l) -> (forall x, x ∈ l -> p x = true -> f x = k) ->
  (List.length (List.filter p l) <= 1)%nat.
Proof.
  induction l as [|x l IH]; simpl; intros Hnd Hk; [lia |]. apply NoDup_cons in Hnd as [Hx Hnd].
  destruct (p x) eqn:Hp; simpl; [| apply IH; [done | intros; apply Hk; [by right | done]]].
  destruct (List.filter p l) as [|y ys] eqn:Hf; simpl; [lia |].
  assert (Hy : y ∈ List.filter p l) by (rewrite Hf; left).
  apply elem_of_list_filter_bool in Hy as [Hy Hpy]. exfalso. apply Hx.
  rewrite (Hk x ltac:(by left) Hp), <- (Hk y ltac:(by right) Hpy).
  by apply list_elem_of_fmap_2.
Qed.

(** The applications carry no [id] ([applyForInternship] gives none): every
    "applied" activity is keyed ["app-undefined"], and the stream, which
    keeps ids distinct, shows at most one of them. *)
Theorem one_application_activity (date_of : string -> Z) (now : Z) (user : option account)
    (internships : list listing) (users : list account) (apps : list application) (limit : nat)
    (draws : nat -> draw) (ds : list draw) :
  Forall (fun x => app_id x = None) apps ->
  let gen := generateActivity date_of now user internships users apps in
  (List.length (List.filter is_new_application
     (fold_left (fun l d => tick gen limit d l) ds (initial_activities gen limit draws))) <= 1)%nat.
Proof.
  intros Hids gen.
  set (P := fun a => is_new_application a = true -> act_id a = "app-undefined").
  assert (HP : forall d a, gen d = Some a -> P a).
  { intros d a Hg Hk. destruct (generateActivity_app_id _ _ _ _ _ _ _ _ Hg Hk) as (x & Hx & ->).
    rewrite Forall_forall in Hids. by rewrite (Hids x Hx). }
  destruct (stream_run_ok gen P HP limit draws ds) as (_ & Hnd & _ & Hall).
  eapply NoDup_map_same; [exact Hnd |]. rewrite Forall_forall in Hall. intros x Hx. by apply Hall.
Qed.

(** ** The dashboard's runs *)

(** The dashboard page is on screen. *)
Definition dash_page_shown (env : dash_env) (s : dash_state) : Prop :=
  exists w p t sh cn cards h rows e, render_dash env s = inr (DashPage w p t sh cn cards h rows e).

Lemma render_dash_page (env : dash_env) (s : dash_state) :
  dash_page_shown env s ->
  rd_loading s = false /\ (exists u, rd_user env = Some u /\ role_of u = Recruiter) /\
  (exists c, recruiterCompany s = Some c) /\ (exists apps, rd_applications env = Some apps).
Proof.
  intros (w & p & t & sh & cn & cards & h & rows & e & Hr). revert Hr. unfold render_dash.
  destruct (default false (rd_authLoading env) || rd_loading s) eqn:Hl; [discriminate |].
  apply orb_false_iff in Hl as [_ Hl].
  destruct (rd_user env) as [u|], (recruiterCompany s) as [c|]; try discriminate.
  case_decide; [|discriminate]. destruct (rd_applications env) as [apps|]; [|discriminate].
  intros _. eauto 10.
Qed.

Lemma dash_step_cases (env : dash_env) (x y : dash_state * react_state) :
  dash_step env x y ->
  y = (dash_effect env x.1, render x.2) \/
  (dash_page_shown env x.1 /\ ((exists i, y = (set_selected x.1 i, x.2)) \/ y.1 = x.1)).
Proof.
  intros [s st|s st w p t sh cn cards h rows e i n b Hr _|s st w p t sh cn cards h rows e r ns Hr _ _];
    [by left | right; split; [by exists w, p, t, sh, cn, cards, h, rows, e | eauto] ..].
Qed.

(** The effect on a dashboard whose listings are still empty leaves
    [loading] as it was. *)
Lemma dash_effect_no_listings (env : dash_env) (s : dash_state) (u : account) :
  rd_user env = Some u -> rd_internships env = [] -> rd_loading (dash_effect env s) = rd_loading s.
Proof.
  intros Hu Hi. unfold dash_effect. rewrite Hu, Hi.
  case_bool_decide; [done |]. simpl. by rewrite andb_false_r.
Qed.

Lemma dash_effect_company (env : dash_env) (s : dash_state) :
  recruiterCompany (dash_effect env s) = recruiterCompany s \/
  exists u, rd_user env = Some u /\
            recruiterCompany (dash_effect env s) = find_company (rd_companies env) (ucompanyId u).
Proof.
  unfold dash_effect. case_bool_decide; [by left |].
  destruct (rd_user env) as [u|] eqn:Hu; simpl; [|by left].
  destruct (_ && _); simpl; [right; eauto | by left].
Qed.

(** C2: A recruiter of a known company, once the companies and the listings
    have loaded: the first render after the effect throws, because
    [applications] is [undefined]. *)
Theorem dashboard_throws (env : dash_env) (u : account) (c : companyRec) :
  rd_applications env = None -> rd_authLoading env = None -> rd_user env = Some u ->
  role_of u = Recruiter -> find_company (rd_companies env) (ucompanyId u) = Some c ->
  rd_internships env <> [] ->
  render_dash env (dash_effect env initial_dash) =
    inl (TypeErr "Cannot read properties of undefined (reading 'filter')").
Proof.
  intros Ha Hl Hu Hr Hc Hi.
  assert (Hc' : (0 < List.length (rd_companies env))%nat)
    by (destruct (rd_companies env); [discriminate | simpl; lia]).
  assert (Hi' : (0 < List.length (rd_internships env))%nat)
    by (destruct (rd_internships env); [done | simpl; lia]).
  unfold dash_effect, initial_dash. simpl. rewrite Hu.
  rewrite (bool_decide_true _ Hc'), (bool_decide_true _ Hi'). simpl.
  unfold render_dash. rewrite Hl, Hu. simpl. rewrite Hc. rewrite decide_True by done. by rewrite Ha.
Qed.

(** With [applications] [undefined], no run of the dashboard changes the
    provider's state: the Shortlist / Reject buttons are never on screen. *)
Theorem dashboard_ledger_unchanged (env : dash_env) (s0 s : dash_state) (st0 st : react_state) :
  rd_applications env = None -> pending st0 = [] ->
  star (dash_step env) (s0, st0) (s, st) -> st = st0.
Proof.
  intros Ha Hp Hrun.
  apply (star_inv (dash_step env) (fun x => x.2 = st0) (s0, st0) (s, st)); [|done|exact Hrun].
  intros x y Hx Hstep. destruct (dash_step_cases env x y Hstep) as [->|[Hpage _]].
  - simpl. rewrite Hx. by apply render_idle.
  - destruct (render_dash_page env _ Hpage) as (_ & _ & _ & apps & Happs). congruence.
Qed.

(** C37: A signed-in user while the merged listings are empty: the dashboard
    shows its skeleton forever, since the effect only clears [loading]
    once there is a listing. *)
Theorem dashboard_stuck_loading (env : dash_env) (u : account) (s : dash_state) (st0 st : react_state) :
  rd_user env = Some u -> rd_internships env = [] ->
  star (dash_step env) (initial_dash, st0) (s, st) -> render_dash env s = inr DashSkeleton.
Proof.
  intros Hu Hi Hrun.
  assert (Hl : rd_loading s = true).
  { apply (star_inv (dash_step env) (fun x => rd_loading x.1 = true) (initial_dash, st0) (s, st));
      [|done|exact Hrun].
    intros x y Hx Hstep. destruct (dash_step_cases env x y Hstep) as [->|[Hpage _]].
    - simpl. by rewrite (dash_effect_no_listings env x.1 u Hu Hi).
    - destruct (render_dash_page env _ Hpage) as (Hf & _). congruence. }
  unfold render_dash. by rewrite Hl, orb_true_r.
Qed.

(** A recruiter whose [companyId] names no company (or who has none)
    never gets past the skeleton and the "Please log in as a recruiter"
    screen, although signed in as a recruiter. *)
Theorem dashboard_companyless (env : dash_env) (u : account) (s : dash_state) (st0 st : react_state) :
  rd_user env = Some u -> find_company (rd_companies env) (ucompanyId u) = None ->
  star (dash_step env) (initial_dash, st0) (s, st) ->
  render_dash env s = inr DashSkeleton \/ render_dash env s = inr DashLoginPrompt.
Proof.
  intros Hu Hc Hrun.
  assert (Hn : recruiterCompany s = None).
  { apply (star_inv (dash_step env) (fun x => recruiterCompany x.1 = None) (initial_dash, st0) (s, st));
      [|done|exact Hrun].
    intros x y Hx Hstep. destruct (dash_step_cases env x y Hstep) as [->|[Hpage _]].
    - cbn [fst]. destruct (dash_effect_company env x.1) as [->|(v & Hv & ->)]; [done |]. congruence.
    - destruct (render_dash_page env _ Hpage) as (_ & _ & [c Hc'] & _). congruence. }
  unfold render_dash. rewrite Hn.
  destruct (default false (rd_authLoading env) || rd_loading s); [by left | right].
  by destruct (rd_user env).
Qed.

(** With an [applications] array (the value the dashboard expects), every
    applicant row shown is an application to a listing of the recruiter's
    own company. *)
Theorem dashboard_rows_scoped (env : dash_env) (s : dash_state) (apps : list application)
    w p t sh cn cards h rows e (r : dash_row) :
  rd_applications env = Some apps ->
  render_dash env s = inr (DashPage w p t sh cn cards h rows e) -> r ∈ rows ->
  dr_app r ∈ apps /\
  exists u i, rd_user env = Some u /\ role_of u = Recruiter /\ i ∈ rd_internships env /\
    companyId i = option_map JNum (ucompanyId u) /\ (lid i === internshipId (dr_app r)) = true.
Proof.
  intros Ha. unfold render_dash.
  destruct (default false (rd_authLoading env) || rd_loading s); [discriminate |].
  destruct (rd_user env) as [u|], (recruiterCompany s) as [c|]; try discriminate.
  case_decide as Hrole; [|discriminate]. rewrite Ha. intros [= _ _ _ _ _ _ _ <- _] Hr.
  apply list_elem_of_fmap in Hr as (a & -> & Ha').
  assert (Hf : a ∈ applicantsFor (myInternships u (rd_internships env)) apps).
  { destruct (selectedInternship s); [|done]. by apply elem_of_list_filter_bool in Ha' as [? _]. }
  unfold applicantsFor in Hf. apply elem_of_list_filter_bool in Hf as [Hin Hex].
  apply existsb_exists in Hex as (i & Hi & Hid). unfold myInternships in Hi.
  apply list_elem_of_In, elem_of_list_filter_bool in Hi as [Hi Hco]. sb_bool.
  split; [done |]. exists u, i. eauto 6.
Qed.

(** ** The activity stream on screen *)

(** The stream reads [user] from [useData()], whose value has no such
    key: whatever the signed-in account, the stream renders [null] and
    its effect generates nothing. *)
Theorem activity_stream_hidden (u : account) (s : stream_state) (date_of : string -> Z) (now : Z)
    (internships : list listing) (users : list account) (apps : list application) (d : draw) :
  render_stream (context_field data_value_keys "user" u) s = StreamNull /\
  generateActivity date_of now (context_field data_value_keys "user" u) internships users apps d = None.
Proof. unfold context_field. rewrite decide_False by (vm_compute; set_solver). done. Qed.

(** ** Witnesses *)

Definition acme : companyRec := mkCompany 1 "Acme" "AC".
Definition rita : account := recruiter_of 3 (Some 1%Z).

(** The dashboard as the shipped providers feed it. *)
Definition shipped_env : dash_env :=
  mkDashEnv (Some rita) (context_field auth_value_keys "loading" false)
    [posting 10 (Some (JNum 1))] [acme] [demo_student]
    (context_field data_value_keys "applications" [one_application 10]).

(** The same with an [applications] array. *)
Definition fixed_env : dash_env :=
  mkDashEnv (Some rita) None [posting 10 (Some (JNum 1))] [acme] [demo_student]
    (Some [one_application 10]).

Lemma dashboard_throws_witness :
  render_dash shipped_env (dash_effect shipped_env initial_dash) =
    inl (TypeErr "Cannot read properties of undefined (reading 'filter')").
Proof. apply (dashboard_throws shipped_env rita acme); [reflexivity .. | discriminate]. Defined.

Lemma dashboard_ledger_unchanged_witness : render demo_state = demo_state.
Proof.
  apply (dashboard_ledger_unchanged shipped_env initial_dash (dash_effect shipped_env initial_dash));
    [reflexivity | reflexivity |].
  eapply star_left; [apply DashEffects | apply star_refl].
Defined.

Lemma dashboard_stuck_loading_witness :
  let env := mkDashEnv (Some rita) None [] [acme] [] None in
  render_dash env (dash_effect env initial_dash) = inr DashSkeleton.
Proof.
  intros env. apply (dashboard_stuck_loading env rita _ demo_state (render demo_state));
    [reflexivity | reflexivity |].
  eapply star_left; [apply DashEffects | apply star_refl].
Defined.

Lemma dashboard_companyless_witness :
  let env := mkDashEnv (Some (recruiter_of 4 None)) None [posting 10 (Some (JNum 1))] [acme] [] None in
  render_dash env (dash_effect env initial_dash) = inr DashSkeleton \/
  render_dash env (dash_effect env initial_dash) = inr DashLoginPrompt.
Proof.
  intros env. apply (dashboard_companyless env (recruiter_of 4 None) _ demo_state (render demo_state));
    [reflexivity | reflexivity |].
  eapply star_left; [apply DashEffects | apply star_refl].
Defined.

Lemma dashboard_rows_scoped_witness :
  dr_app (dash_row_of [demo_student] (one_application 10)) ∈ [one_application 10] /\
  exists u i, rd_user fixed_env = Some u /\ role_of u = Recruiter /\ i ∈ rd_internships fixed_env /\
    companyId i = option_map JNum (ucompanyId u) /\
    (lid i === internshipId (dr_app (dash_row_of [demo_student] (one_application 10)))) = true.
Proof.
  eapply (dashboard_rows_scoped fixed_env (dash_effect fixed_env initial_dash) [one_application 10]);
    [reflexivity | reflexivity | by left].
Defined.

(** A posting typed as Paid with a stipend, then switched to Unpaid, with
    "React," as its requirements. *)
Definition unpaid_post : post_form :=
  set_paid (fold_left post_handleChange
    [PTitle "Intern"; PDomain "Design"; PStipend "500/month"; PDuration "3 months";
     PLocation "Remote"; PDeadline "2024-06-01"; PDescription "Help"; PRequirements "React,"]
    initial_post_form) false.

Lemma trailing_comma_never_full_match_witness :
  exists z, matchPercentage (Some demo_student)
    (new_internship rita [acme] (post_listing unpaid_post acme) 5 "2024-05-03") = JsNum z /\ (z < 100)%Z.
Proof.
  apply (trailing_comma_never_full_match rita [acme] unpaid_post acme 5 "2024-05-03" "React");
    [reflexivity | vm_compute; lia | apply NoDup_singleton | vm_compute; set_solver].
Defined.

Lemma posted_pay_disagrees_witness :
  post_form_complete unpaid_post = true /\
  exists i,
    localInternships (committed (render (post_handleSubmit (Some rita) [acme] (Some acme) unpaid_post
                                          demo_state 5 "2024-05-03").1.1))
      = localInternships (committed demo_state) ++ [i] /\
    (forall pct saved, cv_pay (render_card i pct saved) = "Unpaid") /\
    (forall env s t co d bs sv a m, d_internship s = Some i ->
       render_details env s = inr (DPage t co d bs sv a m) -> bs !! 1%nat = Some "500/month").
Proof.
  split; [reflexivity |].
  apply (posted_pay_disagrees rita [acme] demo_state unpaid_post acme 5 "2024-05-03");
    [reflexivity | reflexivity | reflexivity | discriminate].
Defined.

Lemma one_application_activity_witness :
  let gen := generateActivity (fun _ => 0%Z) 0 (Some rita) [posting 10 (Some (JNum 1))]
               [demo_student] [one_application 10] in
  (List.length (List.filter is_new_application
     (fold_left (fun l d => tick gen 10 d l) [mkDraw 0 0 0 1]
        (initial_activities gen 10 (fun k => mkDraw 0 0 0 k)))) <= 1)%nat.
Proof. apply one_application_activity. repeat constructor. Defined.

End Recruiter.
