(* ===== verification/Student.v ===== *)
(** * The student's pages: [StudentProfile.jsx] and [StudentDashboard.jsx]

    - [Module Profile]: the profile page keeps a copy of the signed-in
      account ([profile]), a skills list, the two inline editors
      (education and projects, each with the index being edited), the
      resume tip and the photo ([profileImage]).  Its handlers edit the
      copy; a chosen photo is read by a [FileReader] whose data URL
      becomes [profileImage] ([set_image]; the file's bytes are the
      environment's); "Save Profile" sends [{ ...profile, skills,
      profileImage }] to [updateUser], and the effect on [user] copies
      the saved account back.  The render reads [Linkedin], which the
      file does not import.
    - [Module Dashboard]: the dashboard loads the student's profile and
      applications in an effect, recommends up to three listings sharing
      a skill, and shows each application with a status pill. *)

From S2P Require Import Prelude Keywords Store Auth Listings Ledger Matching Provider Details Recruiter.
Import Store Auth Listings Ledger Matching Provider Details.
Open Scope list_scope.

Module Profile.

Definition empty_edu : edu_entry := mkEdu "" "" "".
Definition empty_project : project_entry := mkProject "" "" "".

(** The tips of [generateResumeTip] (lines 50-59). *)
Definition tips : list string :=
  ["Add quantifiable achievements to your education (e.g., 'GPA: 3.8/4.0')";
   "Include links to live projects or demos in your portfolio";
   "Highlight relevant coursework related to your target internships";
   "Mention any leadership roles in clubs or organizations";
   "Add technical tools and frameworks you're familiar with"].

Record profile_page : Type := mkProfilePage {
  profile : option account;
  pp_skills : list string;
  inputSkill : string;
  aiTip : string;
  isEditingEducation : option nat;
  newEducation : edu_entry;
  isEditingProject : option nat;
  newProject : project_entry;
  isModalOpen : bool;
  pp_deps : option (option account);
  pp_image : string
}.

(** The initial states of lines 13-22; [profileImage] is
    [user?.profileImage || ''] (line 21). *)
Definition initial_profile_page (user : option account) : profile_page :=
  mkProfilePage user (default [] (user ≫= skills)) "" "" None empty_edu None empty_project false None
    (default "" (user ≫= profileImage)).

(** The effect on [user] (lines 24-29): the copy, the skills and the
    photo are re-read from the account. *)
Definition profile_effect (user : option account) (s : profile_page) : profile_page :=
  if bool_decide (pp_deps s = Some user) then s
  else mkProfilePage user (default [] (user ≫= skills)) (inputSkill s) (aiTip s)
         (isEditingEducation s) (newEducation s) (isEditingProject s) (newProject s)
         (isModalOpen s) (Some user) (default "" (user ≫= profileImage)).

Definition set_profile (s : profile_page) (p : option account) : profile_page :=
  mkProfilePage p (pp_skills s) (inputSkill s) (aiTip s) (isEditingEducation s) (newEducation s)
    (isEditingProject s) (newProject s) (isModalOpen s) (pp_deps s) (pp_image s).
Definition set_skills (s : profile_page) (sk : list string) (input : string) : profile_page :=
  mkProfilePage (profile s) sk input (aiTip s) (isEditingEducation s) (newEducation s)
    (isEditingProject s) (newProject s) (isModalOpen s) (pp_deps s) (pp_image s).
Definition set_education_editor (s : profile_page) (i : option nat) (e : edu_entry) : profile_page :=
  mkProfilePage (profile s) (pp_skills s) (inputSkill s) (aiTip s) i e
    (isEditingProject s) (newProject s) (isModalOpen s) (pp_deps s) (pp_image s).
Definition set_project_editor (s : profile_page) (i : option nat) (p : project_entry) : profile_page :=
  mkProfilePage (profile s) (pp_skills s) (inputSkill s) (aiTip s) (isEditingEducation s)
    (newEducation s) i p (isModalOpen s) (pp_deps s) (pp_image s).

(** [setProfile(prev => ({ ...prev, education }))] and the same for
    [projects] and [resume]. *)
Definition with_education (u : account) (es : list edu_entry) : account :=
  apply_patch u (mkPatch None None None None (Some es) None None None None None None None None None).
Definition with_projects (u : account) (ps : list project_entry) : account :=
  apply_patch u (mkPatch None None None None None None None None None None None None (Some ps) None).
Definition with_resume (u : account) (r : string) : account :=
  apply_patch u (mkPatch None None None None None None (Some r) None None None None None None None).

(** [generateResumeTip] *)
Definition generateResumeTip (r : nat) (s : profile_page) : profile_page :=
  mkProfilePage (profile s) (pp_skills s) (inputSkill s) (default "" (tips !! (r mod 5)%nat))
    (isEditingEducation s) (newEducation s) (isEditingProject s) (newProject s) (isModalOpen s)
    (pp_deps s) (pp_image s).

(** [handleAddSkill] (lines 61-68): a non-empty input not already in the
    list ([includes], exact match) is appended. *)
Definition handleAddSkill (s : profile_page) : profile_page :=
  if negb (js_falsy (inputSkill s)) && negb (bool_decide (inputSkill s ∈ pp_skills s))
  then set_skills s (pp_skills s ++ [inputSkill s]) ""
  else s.

(** [handleRemoveSkill] (lines 70-73) *)
Definition handleRemoveSkill (s : profile_page) (skill : string) : profile_page :=
  set_skills s (List.filter (fun x => negb (String.eqb x skill)) (pp_skills s)) (inputSkill s).

(** [{ ...profile, skills, profileImage }]: every key the copy has
    overrides the account's ([id] and [role] are the account's own). *)
Definition profile_patch (p : option account) (sk : list string) (img : string) : patch :=
  match p with
  | Some u => mkPatch (Some (name u)) (Some (email u)) (Some (password u)) (ucompanyId u)
                (education u) (Some sk) (resume u) (phone u) (ulocation u) (links u)
                (about u) (bio u) (projects u) (Some img)
  | None => mkPatch None None None None None (Some sk) None None None None None None None (Some img)
  end.

Section Save.
Context {S : Type} `{Storage S}.
Context (enc : account -> json) (stringify : json -> string).

(** [handleSave] (lines 75-78); the error of a failed write escapes the
    handler, and the alert is not shown. *)
Definition handleSave (st : auth_state) (s : profile_page) : auth_state * (auth_error + unit) :=
  updateUser enc stringify st (profile_patch (profile s) (pp_skills s) (pp_image s)).
End Save.

(** [entry.degree && entry.school && entry.year] *)
Definition edu_complete (e : edu_entry) : bool :=
  negb (js_falsy (degree e)) && negb (js_falsy (school e)) && negb (js_falsy (year e)).
Definition project_complete (p : project_entry) : bool :=
  negb (js_falsy (proj_name p)) && negb (js_falsy (proj_description p)).

(** [handleAddEducation] (lines 94-100): [profile.education] is read,
    so a [null] profile throws. *)
Definition handleAddEducation (s : profile_page) : js_exn + profile_page :=
  match profile s with
  | None => inl (TypeErr "Cannot read properties of null (reading 'education')")
  | Some u =>
      if edu_complete (newEducation s)
      then inr (set_education_editor (set_profile s (Some (with_education u
                 (default [] (education u) ++ [newEducation s])))) (isEditingEducation s) empty_edu)
      else inr s
  end.

(** [handleEditEducation] (lines 102-105), from the Edit button of the
    [index]-th rendered entry. *)
Definition handleEditEducation (s : profile_page) (index : nat) (e : edu_entry) : profile_page :=
  set_education_editor s (Some index) e.

(** [handleUpdateEducation] (lines 107-115).  [updatedEducation[i] = e]
    replaces an entry for an index inside the array; the index is the
    one of an Edit button, and stays inside the array
    ([editing_index_in_range]). *)
Definition handleUpdateEducation (s : profile_page) : js_exn + profile_page :=
  match isEditingEducation s with
  | Some i =>
      if edu_complete (newEducation s) then
        match profile s with
        | Some u =>
            match education u with
            | Some es => inr (set_education_editor
                              (set_profile s (Some (with_education u (<[i := newEducation s]> es))))
                              None empty_edu)
            | None => inl (TypeErr "undefined is not iterable")
            end
        | None => inl (TypeErr "Cannot read properties of null (reading 'education')")
        end
      else inr s
  | None => inr s
  end.

Definition handleAddProject (s : profile_page) : js_exn + profile_page :=
  match profile s with
  | None => inl (TypeErr "Cannot read properties of null (reading 'projects')")
  | Some u =>
      if project_complete (newProject s)
      then inr (set_project_editor (set_profile s (Some (with_projects u
                 (default [] (projects u) ++ [newProject s])))) (isEditingProject s) empty_project)
      else inr s
  end.

Definition handleEditProject (s : profile_page) (index : nat) (p : project_entry) : profile_page :=
  set_project_editor s (Some index) p.

Definition handleUpdateProject (s : profile_page) : js_exn + profile_page :=
  match isEditingProject s with
  | Some i =>
      if project_complete (newProject s) then
        match profile s with
        | Some u =>
            match projects u with
            | Some ps => inr (set_project_editor
                              (set_profile s (Some (with_projects u (<[i := newProject s]> ps))))
                              None empty_project)
            | None => inl (TypeErr "undefined is not iterable")
            end
        | None => inl (TypeErr "Cannot read properties of null (reading 'projects')")
        end
      else inr s
  | None => inr s
  end.

(** [handleResumeUpload] (lines 150-158): the chosen file's name. *)
Definition handleResumeUpload (s : profile_page) (file : option string) : profile_page :=
  match file, profile s with
  | Some f, Some u => set_profile s (Some (with_resume u ("/uploads/" ++ f)))
  | _, _ => s
  end.

(** [setNewEducation(prev => ({ ...prev, [field]: value }))] *)
Inductive edu_field : Type := EDegree | ESchool | EYear.
Inductive project_field : Type := PName | PDescription | PLink.

Definition set_edu_field (e : edu_entry) (f : edu_field) (v : string) : edu_entry :=
  match f with
  | EDegree => mkEdu v (school e) (year e)
  | ESchool => mkEdu (degree e) v (year e)
  | EYear => mkEdu (degree e) (school e) v
  end.

Definition set_project_field (p : project_entry) (f : project_field) (v : string) : project_entry :=
  match f with
  | PName => mkProject v (proj_description p) (proj_link p)
  | PDescription => mkProject (proj_name p) v (proj_link p)
  | PLink => mkProject (proj_name p) (proj_description p) v
  end.

(** ** The render (lines 31-557) *)

(** [profile?.links?.k] *)
Definition link_of (p : account) (k : string) : string :=
  default "" (jsmap_get k (default [] (links p))).

(** The identifiers [StudentProfile.jsx] imports from [lucide-react]
    (line 4): [Linkedin] is not among them. *)
Definition profile_icons : list string :=
  ["User"; "Mail"; "Phone"; "MapPin"; "GraduationCap"; "Briefcase"; "Github"; "Globe"; "Upload";
   "Save"; "Lightbulb"; "FileText"; "LinkIcon"].

(** The photo circle (lines 215-221): the image, or the initial of the
    name ([profile?.name?.charAt(0) || 'U']). *)
Inductive photo_view : Type :=
| PhotoImage (src : string)
| PhotoInitial (initial : string).

Definition photo_of (p : option account) (img : string) : photo_view :=
  if js_falsy img then PhotoInitial (js_or (match p with Some v => js_char_at0 (name v) | None => "" end) "U")
  else PhotoImage img.

(** What the page shows of the profile (lines 160-557). *)
Record profile_content : Type := mkProfileContent {
  pc_photo : photo_view;
  pc_name : string;
  pc_email : string;
  pc_phone : option string;
  pc_location : option string;
  pc_links : list (string * string);
  pc_about : string;
  pc_education : list edu_entry;
  pc_edu_editor : option edu_entry;
  pc_projects : list project_entry;
  pc_project_editor : option project_entry;
  pc_skills : list string;
  pc_suggestions : list string;
  pc_resume : option (string * string);
  pc_tip : string
}.

Inductive profile_view : Type :=
| ProfileSkeleton
| ProfilePrompt
| ProfilePage (c : profile_content).

(** [cond && value] on a string field. *)
Definition shown (v : option string) : option string :=
  match v with Some x => if js_falsy x then None else Some x | None => None end.

(** The tip card (lines 186-209): the tip, or the invitation to get one. *)
Definition tip_text (s : profile_page) : string :=
  if js_falsy (aiTip s) then "Get personalized tips to improve your resume and profile" else aiTip s.

(** The contact card (lines 239-264): the email, and the phone and
    location when truthy. *)
Definition contact_section (p : option account) : string * option string * option string :=
  (match p with Some v => email v | None => "" end, shown (p ≫= phone), shown (p ≫= ulocation)).

(** The links card (lines 265-293): the truthy links, in order. *)
Definition links_section (p : option account) : list (string * string) :=
  let lk k := match p with Some v => link_of v k | None => "" end in
  List.filter (fun kv => negb (js_falsy kv.2))
    [("github", lk "github"); ("portfolio", lk "portfolio"); ("linkedin", lk "linkedin")].

(** The education card (lines 302-396): the entries and the editor. *)
Definition education_section (p : option account) (s : profile_page) : list edu_entry * option edu_entry :=
  (default [] (p ≫= education), match isEditingEducation s with Some _ => Some (newEducation s) | None => None end).

(** The skills card (lines 397-430): the page's skills and the suggestions. *)
Definition skills_section (s : profile_page) (suggestions : list string) : list string * list string :=
  (pp_skills s, suggestions).

(** The projects card (lines 431-523): the entries and the editor. *)
Definition projects_section (p : option account) (s : profile_page) : list project_entry * option project_entry :=
  (default [] (p ≫= projects), match isEditingProject s with Some _ => Some (newProject s) | None => None end).

(** The resume card (lines 524-557): the file name (the text after the
    last [/]) and the link, when a resume is set. *)
Definition resume_section (p : option account) : option (string * string) :=
  match shown (p ≫= resume) with
  | Some r => Some (default "" (last (js_split "/" r)), r)
  | None => None
  end.

Definition render_profile (loading : option bool) (user : option account) (suggestions : list string)
    (s : profile_page) : js_exn + profile_view :=
  if default false loading then inr ProfileSkeleton
  else
    match user with
    | Some u =>
        if decide (role_of u = Student) then
          let p := profile s in
          let lk k := match p with Some v => link_of v k | None => "" end in
          _ <- (if js_falsy (lk "github") then inr tt else resolve profile_icons "Github") ;;
          _ <- (if js_falsy (lk "portfolio") then inr tt else resolve profile_icons "Globe") ;;
          _ <- (if js_falsy (lk "linkedin") then inr tt else resolve profile_icons "Linkedin") ;;
          let '(e, ph, lo) := contact_section p in
          let '(ed, ee) := education_section p s in
          let '(sk, sg) := skills_section s suggestions in
          let '(pr, pe) := projects_section p s in
          inr (ProfilePage (mkProfileContent (photo_of p (pp_image s)) (match p with Some v => name v | None => "" end) e ph lo
                 (links_section p)
                 (match shown (p ≫= about) with Some a => a | None => "No description provided." end)
                 ed ee pr pe sk sg (resume_section p) (tip_text s)))
        else inr ProfilePrompt
    | None => inr ProfilePrompt
    end.

(** ** The page's runs *)

(** [reader.onloadend] of a chosen file (lines 80-91): the data URL
    [reader.result] becomes [profileImage]. *)
Definition set_image (s : profile_page) (url : string) : profile_page :=
  mkProfilePage (profile s) (pp_skills s) (inputSkill s) (aiTip s) (isEditingEducation s)
    (newEducation s) (isEditingProject s) (newProject s) (isModalOpen s) (pp_deps s) url.

Definition open_modal (s : profile_page) : profile_page :=
  mkProfilePage (profile s) (pp_skills s) (inputSkill s) (aiTip s) (isEditingEducation s)
    (newEducation s) (isEditingProject s) (newProject s) true (pp_deps s) (pp_image s).

Section Runs.
Context {S : Type} `{Storage S}.
Context (enc : account -> json) (stringify : json -> string).
(** [useAuth().loading] and [skillSuggestions] *)
Variable loading : option bool.
Variable suggestions : list string.

(** The page is on screen, its effects flushed. *)
Definition page_ready (s : profile_page) (st : auth_state (S := S)) : Prop :=
  pp_deps s = Some (user st) /\
  exists c, render_profile loading (user st) suggestions s = inr (ProfilePage c).

(** The effect after a commit, and the page's controls, each on a
    rendered page.  A handler that throws leaves the state as it was
    (React does not unmount on an event handler's error). *)
Inductive profile_step : profile_page * auth_state (S := S) -> profile_page * auth_state (S := S) -> Prop :=
| PEffect s st : profile_step (s, st) (profile_effect (user st) s, st)
| PTip s st r : page_ready s st -> profile_step (s, st) (generateResumeTip r s, st)
| PInputSkill s st v : page_ready s st -> profile_step (s, st) (set_skills s (pp_skills s) v, st)
| PAddSkill s st : page_ready s st -> profile_step (s, st) (handleAddSkill s, st)
| PRemoveSkill s st k : page_ready s st -> k ∈ pp_skills s -> profile_step (s, st) (handleRemoveSkill s k, st)
| PSave s st : page_ready s st -> profile_step (s, st) (s, (handleSave enc stringify st s).1)
| PEditEducation s st u es i e : page_ready s st -> profile s = Some u -> education u = Some es ->
    es !! i = Some e -> profile_step (s, st) (handleEditEducation s i e, st)
| PEducationField s st f v : page_ready s st ->
    profile_step (s, st) (set_education_editor s (isEditingEducation s) (set_edu_field (newEducation s) f v), st)
| PUpdateEducation s st s' : page_ready s st -> isEditingEducation s <> None ->
    handleUpdateEducation s = inr s' -> profile_step (s, st) (s', st)
| PResetEducation s st : page_ready s st -> profile_step (s, st) (set_education_editor s None empty_edu, st)
| PAddEducation s st s' : page_ready s st -> isEditingEducation s = None ->
    handleAddEducation s = inr s' -> profile_step (s, st) (s', st)
| PEditProject s st u ps i p : page_ready s st -> profile s = Some u -> projects u = Some ps ->
    ps !! i = Some p -> profile_step (s, st) (handleEditProject s i p, st)
| PProjectField s st f v : page_ready s st ->
    profile_step (s, st) (set_project_editor s (isEditingProject s) (set_project_field (newProject s) f v), st)
| PUpdateProject s st s' : page_ready s st -> isEditingProject s <> None ->
    handleUpdateProject s = inr s' -> profile_step (s, st) (s', st)
| PResetProject s st : page_ready s st -> profile_step (s, st) (set_project_editor s None empty_project, st)
| PAddProject s st s' : page_ready s st -> isEditingProject s = None ->
    handleAddProject s = inr s' -> profile_step (s, st) (s', st)
| PResume s st f : page_ready s st -> profile_step (s, st) (handleResumeUpload s f, st)
| POpenModal s st : page_ready s st -> profile_step (s, st) (open_modal s, st)
(** A file chosen in the photo input and read: choosing no file does
    nothing, and each read that completes sets the image. *)
| PPhoto s st url : page_ready s st -> profile_step (s, st) (set_image s url, st).

End Runs.

(** ** Invariants of the page's runs *)

(** The education entries of the page's copy. *)
Definition edus (s : profile_page) : option (list edu_entry) := profile s ≫= education.

(** [s'] leaves the education editor, the copy's entries and the effect's
    record as in [s]. *)
Definition keeps_education (s s' : profile_page) : Prop :=
  isEditingEducation s' = isEditingEducation s /\ edus s' = edus s /\ pp_deps s' = pp_deps s.

Local Ltac keeps_tac :=
  repeat match goal with
  | H : inl _ = inr _ |- _ => discriminate H
  | H : inr _ = inr _ |- _ => injection H as <-
  | _ => progress case_match
  end; try (by right); try (by left); try split_and!; try reflexivity;
  unfold edus; cbn;
  repeat match goal with H : profile ?s = _ |- context [profile ?s] => rewrite H end; reflexivity.

Lemma handleAddSkill_keeps (s : profile_page) : keeps_education s (handleAddSkill s).
Proof. unfold handleAddSkill. keeps_tac. Qed.

Lemma handleAddProject_keeps (s s' : profile_page) : handleAddProject s = inr s' -> keeps_education s s'.
Proof. unfold handleAddProject. intros. keeps_tac. Qed.

Lemma handleUpdateProject_keeps (s s' : profile_page) : handleUpdateProject s = inr s' -> keeps_education s s'.
Proof. unfold handleUpdateProject. intros. keeps_tac. Qed.

Lemma handleResumeUpload_keeps (s : profile_page) (f : option string) :
  keeps_education s (handleResumeUpload s f).
Proof. unfold handleResumeUpload. keeps_tac. Qed.

Lemma handleUpdateEducation_closes (s s' : profile_page) :
  handleUpdateEducation s = inr s' -> s' = s \/ isEditingEducation s' = None.
Proof. unfold handleUpdateEducation. intros. keeps_tac. Qed.

Lemma handleAddEducation_editor (s s' : profile_page) :
  handleAddEducation s = inr s' -> isEditingEducation s' = isEditingEducation s.
Proof. unfold handleAddEducation. intros. keeps_tac. Qed.

Lemma render_profile_student (loading : option bool) (user : option account) (sg : list string)
    (s : profile_page) (c : profile_content) :
  render_profile loading user sg s = inr (ProfilePage c) ->
  exists u, user = Some u /\ role_of u = Student.
Proof. unfold render_profile. repeat case_match; intros; simplify_eq; eauto. Qed.

Section RunLemmas.
Context {S : Type} `{Storage S}.
Context (enc : account -> json) (stringify : json -> string).
Variable loading : option bool.
Variable suggestions : list string.

Lemma page_ready_user (s : profile_page) (st : auth_state (S := S)) :
  page_ready loading suggestions s st -> exists u, user st = Some u /\ role_of u = Student.
Proof. intros [_ (c & Hr)]. by eapply render_profile_student. Qed.

(** The edited entry's index is inside the copy's entries; until the
    effect has run after a save, the session holds the same entries. *)
Definition edu_inv (x : profile_page * auth_state (S := S)) : Prop :=
  forall i, isEditingEducation x.1 = Some i ->
    (exists es, edus x.1 = Some es /\ (i < List.length es)%nat) /\
    (pp_deps x.1 = Some (user x.2) \/ user x.2 ≫= education = edus x.1).

Lemma edu_inv_keeps (s s' : profile_page) (st : auth_state) :
  keeps_education s s' -> edu_inv (s, st) -> edu_inv (s', st).
Proof. intros (He & Hd & Hp) Hinv i Hi. simpl in *. rewrite Hd, Hp. apply Hinv. simpl. by rewrite <- He. Qed.

Lemma edu_inv_step (x y : profile_page * auth_state) :
  edu_inv x -> profile_step enc stringify loading suggestions x y -> edu_inv y.
Proof.
  intros Hinv Hstep. destruct Hstep as [s st|s st r Hr|s st v Hr|s st Hr|s st k Hr _|s st Hr
    |s st u es i e [Hd _] Hu He Hi|s st f v Hr|s st s' Hr _ Hh|s st Hr|s st s' Hr Hn Hh
    |s st u ps i p Hr _ _ _|s st f v Hr|s st s' Hr _ Hh|s st Hr|s st s' Hr _ Hh|s st f Hr|s st Hr
    |s st url Hr].
  - unfold profile_effect. case_bool_decide as Hd; [done |]. intros i Hi.
    destruct (Hinv i Hi) as [(es & Hes & Hlt) [Hd' | Hu]]; [done |]. simpl in *.
    split; [exists es; unfold edus; simpl; by rewrite Hu | by left].
  - by apply (edu_inv_keeps s).
  - by apply (edu_inv_keeps s).
  - apply (edu_inv_keeps s); [by apply handleAddSkill_keeps | done].
  - by apply (edu_inv_keeps s).
  - destruct (page_ready_user s st Hr) as (u & Hu & _). intros i Hi.
    destruct (Hinv i Hi) as [(es & Hes & Hlt) _]. split; [by exists es | right]. simpl in *.
    unfold handleSave. rewrite (updateUser_user enc stringify st u _ Hu). simpl.
    unfold edus in *. destruct (profile s) as [p|]; [|discriminate]. simpl in *. by rewrite Hes.
  - intros j Hj. simpl in Hj. injection Hj as <-. split; [|by left].
    exists es. unfold edus. simpl. rewrite Hu. simpl. rewrite He. split; [done |].
    by apply lookup_lt_Some in Hi.
  - by apply (edu_inv_keeps s).
  - destruct (handleUpdateEducation_closes s s' Hh) as [->|Hn]; [done | intros i; simpl; congruence].
  - intros i. simpl. discriminate.
  - intros i. simpl. rewrite (handleAddEducation_editor s s' Hh), Hn. discriminate.
  - by apply (edu_inv_keeps s).
  - by apply (edu_inv_keeps s).
  - apply (edu_inv_keeps s); [by apply handleUpdateProject_keeps | done].
  - by apply (edu_inv_keeps s).
  - apply (edu_inv_keeps s); [by apply handleAddProject_keeps | done].
  - apply (edu_inv_keeps s); [by apply handleResumeUpload_keeps | done].
  - by apply (edu_inv_keeps s).
  - by apply (edu_inv_keeps s).
Qed.

Lemma edu_inv_reachable (st0 : auth_state) (x : profile_page * auth_state) :
  star (profile_step enc stringify loading suggestions) (initial_profile_page (user st0), st0) x -> edu_inv x.
Proof. apply star_inv; [apply edu_inv_step | intros i; discriminate]. Qed.

(** The steps that change the skills list or the session. *)
Lemma profile_step_skills (s s' : profile_page) (st st' : auth_state) :
  profile_step enc stringify loading suggestions (s, st) (s', st') ->
  (pp_skills s' = pp_skills s /\ st' = st) \/ (s' = handleAddSkill s /\ st' = st) \/
  (exists k, s' = handleRemoveSkill s k /\ st' = st) \/ (s' = profile_effect (user st) s /\ st' = st) \/
  (s' = s /\ page_ready loading suggestions s st /\ st' = (handleSave enc stringify st s).1).
Proof.
  intros Hstep. inversion Hstep; subst;
    repeat match goal with
    | H : handleUpdateEducation _ = inr _ |- _ => unfold handleUpdateEducation in H
    | H : handleAddEducation _ = inr _ |- _ => unfold handleAddEducation in H
    | H : handleUpdateProject _ = inr _ |- _ => unfold handleUpdateProject in H
    | H : handleAddProject _ = inr _ |- _ => unfold handleAddProject in H
    end;
    repeat match goal with
    | H : inr _ = inr _ |- _ => injection H as <-
    | H : context [match ?m with _ => _ end] |- _ => destruct m; try discriminate
    end;
    try (by do 4 right); try (by do 3 right; left); try (by right; right; left; eauto);
    try (by right; left); left; split; try done; unfold handleResumeUpload; by repeat case_match.
Qed.

End RunLemmas.

Section Properties.
Context {S : Type} `{Storage S}.
Context (enc : account -> json) (stringify : json -> string).
Variable loading : option bool.
Variable suggestions : list string.

(** "Update" on the education entry being edited replaces exactly that
    entry of the page's copy: the index of the Edit button is always
    inside the entries, so the assignment [updatedEducation[i] = e]
    neither grows the array nor misses. *)
Theorem update_education_in_place (st0 st : auth_state (S := S)) (s : profile_page) (i : nat) :
  star (profile_step enc stringify loading suggestions) (initial_profile_page (user st0), st0) (s, st) ->
  isEditingEducation s = Some i -> edu_complete (newEducation s) = true ->
  exists es es' s', edus s = Some es /\ handleUpdateEducation s = inr s' /\ edus s' = Some es' /\
    List.length es' = List.length es /\ es' !! i = Some (newEducation s) /\
    (forall j, j <> i -> es' !! j = es !! j) /\ isEditingEducation s' = None.
Proof.
  intros Hrun Hi Hc.
  destruct (edu_inv_reachable enc stringify loading suggestions st0 _ Hrun i Hi) as [(es & Hes & Hlt) _].
  cbn [fst] in Hes. unfold edus in Hes.
  destruct (profile s) as [p|] eqn:Hp; [|discriminate]. simpl in Hes.
  exists es, (<[i := newEducation s]> es). eexists. split; [unfold edus; by rewrite Hp |].
  split; [unfold handleUpdateEducation; by rewrite Hi, Hc, Hp, Hes |]. split_and!.
  - reflexivity.
  - by rewrite length_insert.
  - by apply list_lookup_insert_eq.
  - intros j Hj. by apply list_lookup_insert_ne.
  - reflexivity.
Qed.

(** Add refuses an exact duplicate, and Save writes the list: if the
    stored skills had no duplicate, neither the page's list nor the
    session's ever gets one.  (Case variants such as "React" and
    "react" are different strings and both get in.) *)
Theorem skills_no_exact_duplicates (st0 st : auth_state (S := S)) (s : profile_page) :
  NoDup (default [] (user st0 ≫= skills)) ->
  star (profile_step enc stringify loading suggestions) (initial_profile_page (user st0), st0) (s, st) ->
  NoDup (pp_skills s) /\ NoDup (default [] (user st ≫= skills)).
Proof.
  intros H0 Hrun.
  apply (star_inv (profile_step enc stringify loading suggestions)
           (fun x => NoDup (pp_skills x.1) /\ NoDup (default [] (user x.2 ≫= skills)))
           (initial_profile_page (user st0), st0) (s, st)); [|exact (conj H0 H0) | exact Hrun].
  intros [s1 st1] [s2 st2] [Hs Hu] Hstep. simpl in *.
  destruct (profile_step_skills enc stringify loading suggestions _ _ _ _ Hstep)
    as [[-> ->]|[[-> ->]|[(k & -> & ->)|[[-> ->]|(-> & Hr & ->)]]]].
  - done.
  - split; [|done]. unfold handleAddSkill. destruct (_ && _) eqn:Hc; [|done].
    apply andb_true_iff in Hc as [_ Hn]. apply negb_true_iff, bool_decide_eq_false in Hn. simpl.
    apply NoDup_app. split_and!; [done | | apply NoDup_singleton].
    intros x Hx ->%list_elem_of_singleton. by apply Hn.
  - split; [|done]. simpl. apply NoDup_ListNoDup, List.NoDup_filter, NoDup_ListNoDup, Hs.
  - split; [|done]. unfold profile_effect. by case_bool_decide.
  - destruct (page_ready_user loading suggestions s1 st1 Hr) as (u & Hu' & _).
    split; [done |]. unfold handleSave. rewrite (updateUser_user enc stringify st1 u _ Hu').
    simpl. by destruct (profile s1).
Qed.

(** A photo read and saved is the session's [profileImage], and the page
    shows it after the effect re-reads the account: the data URL goes
    into the session object (and, when the writes succeed, into both
    storage keys). *)
Lemma photo_save_round_trip (st : auth_state (S := S)) (s : profile_page) (u : account) (url : string) :
  user st = Some u -> js_falsy url = false ->
  user (handleSave enc stringify st (set_image s url)).1 =
    Some (apply_patch u (profile_patch (profile s) (pp_skills s) url)) /\
  profileImage (apply_patch u (profile_patch (profile s) (pp_skills s) url)) = Some url /\
  pp_image (profile_effect (user (handleSave enc stringify st (set_image s url)).1) (set_image s url)) = url /\
  photo_of (profile s) url = PhotoImage url.
Proof.
  intros Hu Hurl. unfold handleSave. rewrite (updateUser_user enc stringify st u _ Hu).
  split_and!; [done | by destruct (profile s) | | by unfold photo_of; rewrite Hurl].
  unfold profile_effect. case_bool_decide; [done |]. simpl. by destruct (profile s).
Qed.

End Properties.

(** The Edit Profile button only sets [isModalOpen]: the page imports
    [EditProfileModal] but never renders it, so the render is the same
    before and after the click. *)
Lemma edit_profile_no_effect (loading : option bool) (user : option account) (sg : list string)
    (s : profile_page) :
  render_profile loading user sg (open_modal s) = render_profile loading user sg s.
Proof. reflexivity. Qed.

(** C35: A profile copy with a LinkedIn link cannot be rendered: [Linkedin]
    is not imported, the render throws a [ReferenceError] and the page is
    unmounted. *)
Theorem linkedin_link_throws (loading : option bool) (u p : account) (sg : list string)
    (s : profile_page) :
  default false loading = false -> role_of u = Student -> profile s = Some p ->
  link_of p "linkedin" <> "" ->
  render_profile loading (Some u) sg s = inl (ReferenceErr "Linkedin is not defined").
Proof.
  intros Hl Hr Hp Hk. unfold render_profile. rewrite Hl, decide_True by done. rewrite Hp.
  assert (Hf : js_falsy (link_of p "linkedin") = false)
    by (unfold js_falsy; by apply String.eqb_neq).
  assert (Hg : resolve profile_icons "Github" = inr tt) by reflexivity.
  assert (Hgl : resolve profile_icons "Globe" = inr tt) by reflexivity.
  destruct (js_falsy (link_of p "github")), (js_falsy (link_of p "portfolio"));
    rewrite ?Hg, ?Hgl, Hf; reflexivity.
Qed.

(** ** A run *)

Definition sam : account :=
  mkAccount 7 "Sam" "sam@x.com" "secret1" Student None (Some []) (Some []) (Some "") (Some "")
    (Some "") (Some []) (Some "") None (Some []) None.

Definition sam_session : auth_state (S := gmap string string) := mkAuthState [sam] (Some sam) ∅.

Local Ltac ready := split; [reflexivity | do 12 eexists; reflexivity].

(** Through the page alone: type "React", Add, type "react", Add, Save.
    Both strings are kept, and a listing requiring "react" becomes a
    200% match for the saved account. *)
Theorem case_variant_skills_double_match :
  exists s st,
    star (profile_step demo_enc demo_str None []) (initial_profile_page (user sam_session), sam_session) (s, st) /\
    pp_skills s = ["React"; "react"] /\
    matchPercentage (user st) (posting 10 (Some (JNum 1))) = JsNum 200.
Proof.
  do 2 eexists. split; [|split].
  - eapply star_left; [apply PEffect |].
    eapply star_left; [apply (PInputSkill _ _ _ _ _ _ "React"); ready |].
    eapply star_left; [apply PAddSkill; ready |].
    eapply star_left; [apply (PInputSkill _ _ _ _ _ _ "react"); ready |].
    eapply star_left; [apply PAddSkill; ready |].
    eapply star_left; [apply PSave; ready |].
    apply star_refl.
  - reflexivity.
  - vm_compute. reflexivity.
Qed.

(** ** Witnesses *)

Definition sam_linked : account :=
  apply_patch sam (mkPatch None None None None None None None None None
                     (Some [("linkedin", "https://linkedin.com/in/sam")]) None None None None).

Lemma linkedin_link_throws_witness :
  render_profile None (Some sam) [] (initial_profile_page (Some sam_linked)) =
    inl (ReferenceErr "Linkedin is not defined").
Proof. apply (linkedin_link_throws None sam sam_linked); [reflexivity | reflexivity | reflexivity | discriminate]. Defined.

Definition typed_react : profile_page :=
  let s1 := profile_effect (user sam_session) (initial_profile_page (user sam_session)) in
  set_skills s1 (pp_skills s1) "React".

Lemma skills_no_exact_duplicates_witness :
  NoDup (pp_skills (handleAddSkill typed_react)) /\ NoDup (default [] (user sam_session ≫= skills)).
Proof.
  apply (skills_no_exact_duplicates demo_enc demo_str None [] sam_session); [constructor |].
  eapply star_left; [apply PEffect |].
  eapply star_left; [apply (PInputSkill _ _ _ _ _ _ "React"); ready |].
  eapply star_left; [apply PAddSkill; ready | apply star_refl].
Defined.

(** Add "BSc, MIT, 2025", click its Edit button, change the year. *)
Definition edu_added : profile_page :=
  let s1 := profile_effect (user sam_session) (initial_profile_page (user sam_session)) in
  let s2 := fold_left (fun s fv => set_education_editor s (isEditingEducation s)
                                     (set_edu_field (newEducation s) fv.1 fv.2))
              [(EDegree, "BSc"); (ESchool, "MIT"); (EYear, "2025")] s1 in
  match handleAddEducation s2 with inr s3 => s3 | inl _ => s2 end.

Definition edu_editing : profile_page :=
  let s4 := handleEditEducation edu_added 0 (mkEdu "BSc" "MIT" "2025") in
  set_education_editor s4 (isEditingEducation s4) (set_edu_field (newEducation s4) EYear "2026").

Lemma update_education_in_place_witness :
  exists es es' s', edus edu_editing = Some es /\ handleUpdateEducation edu_editing = inr s' /\
    edus s' = Some es' /\ List.length es' = List.length es /\ es' !! 0%nat = Some (newEducation edu_editing) /\
    (forall j, j <> 0%nat -> es' !! j = es !! j) /\ isEditingEducation s' = None.
Proof.
  apply (update_education_in_place demo_enc demo_str None [] sam_session sam_session edu_editing 0);
    [| reflexivity | reflexivity].
  eapply star_left; [apply PEffect |].
  eapply star_left; [apply (PEducationField _ _ _ _ _ _ EDegree "BSc"); ready |].
  eapply star_left; [apply (PEducationField _ _ _ _ _ _ ESchool "MIT"); ready |].
  eapply star_left; [apply (PEducationField _ _ _ _ _ _ EYear "2025"); ready |].
  eapply star_left; [eapply PAddEducation; [ready | reflexivity | reflexivity] |].
  eapply star_left; [eapply (PEditEducation _ _ _ _ _ _ _ _ 0); [ready | reflexivity | reflexivity | reflexivity] |].
  eapply star_left; [apply (PEducationField _ _ _ _ _ _ EYear "2026"); ready |].
  apply star_refl.
Defined.

End Profile.

Module Dashboard.

(** What the dashboard reads from the providers; [sd_apps] is the
    provider's [applications], which [getStudentProfile] and
    [getStudentApplications] read. *)
Record sdash_env : Type := mkSDashEnv {
  sd_user : option account;
  sd_authLoading : option bool;
  sd_internships : list listing;
  sd_apps : list application;
  sd_notifications : option (list bool);   (** the [read] flags *)
  sd_isLoadingExternal : bool;
  sd_saved : list jsid;
  sd_completion : Z
}.

Record sdash_state : Type := mkSDash {
  sd_profile : option student_profile;
  sd_applications : list (application * option listing);
  sd_loading : bool;
  sd_deps : option (option account * list listing * list application)
}.

Definition initial_sdash : sdash_state := mkSDash None [] true None.

(** The effect (lines 20-28); [getStudentProfile] and
    [getStudentApplications] are callbacks over [user], [applications]
    and [internships], so the effect reruns when any of them changes. *)
Definition sdash_effect (env : sdash_env) (s : sdash_state) : sdash_state :=
  let deps := (sd_user env, sd_internships env, sd_apps env) in
  if bool_decide (sd_deps s = Some deps) then s
  else
    match sd_user env with
    | Some _ =>
        mkSDash (getStudentProfile (sd_user env) (sd_apps env) (sd_internships env))
          (getStudentApplications (sd_user env) (sd_apps env) (sd_internships env)) false (Some deps)
    | None => mkSDash (sd_profile s) (sd_applications s) (sd_loading s) (Some deps)
    end.

(** [recommendedInternships] (lines 30-45): listings neither applied to
    nor saved that share a skill with the profile (exact strings), the
    first three. *)
Definition recommendedInternships (env : sdash_env) (s : sdash_state) : list listing :=
  match sd_user env, sd_profile s with
  | Some _, Some p =>
      let appliedIds := map (fun a => internshipId a.1) (sd_applications s) in
      take 3 (List.filter (fun i =>
        negb (existsb (fun k => k === lid i) appliedIds) &&
        negb (existsb (fun k => k === lid i) (sd_saved env)) &&
        bool_decide (0 < List.length (List.filter (fun sk => bool_decide (sk ∈ requirements i))
                                        (js_set_of (sp_skills p))))%nat)
        (sd_internships env))
  | _, _ => []
  end.

(** [isDashboardTrulyEmpty] (lines 47-53) *)
Definition isDashboardTrulyEmpty (env : sdash_env) (s : sdash_state) : bool :=
  bool_decide (sd_applications s = []) && bool_decide (sd_saved env = []) &&
  bool_decide (recommendedInternships env s = []).

(** [getStatusPill] of [ApplicationItem] (lines 272-279). *)
Inductive pill : Type := PillGreen | PillRed | PillYellow.

Definition getStatusPill (status : string) : pill :=
  if String.eqb status "Shortlisted" then PillGreen
  else if String.eqb status "Rejected" then PillRed
  else PillYellow.

(** The "Shortlisted" stat card (line 151). *)
Definition shortlisted_count (apps : list (application * option listing)) : nat :=
  List.length (List.filter (fun a => String.eqb (status a.1) "Shortlisted") apps).

Record app_item : Type := mkAppItem {
  item_link : string;
  item_logo : string;
  item_title : string;
  item_company : string;
  item_status : string;
  item_pill : pill
}.

(** [ApplicationItem] (lines 269-297): [null] ([None]) for an
    application whose listing is missing (line 270). *)
Definition render_item (a : application * option listing) : option app_item :=
  match a.2 with
  | Some i => Some (mkAppItem ("/internship/" ++ js_id_string (lid i)) (logo i) (title i) (company i)
                      (status a.1) (getStatusPill (status a.1)))
  | None => None
  end.

(** The list of lines 180-188: React renders nothing for a [null]. *)
Definition render_items (l : list (application * option listing)) : list app_item :=
  omap render_item l.

Inductive sdash_view : Type :=
| SDSkeleton
| SDNoProfile
| SDPage (welcome : string) (getting_started : bool) (stats : list nat) (nudge : option Z)
    (items : list app_item) (recommended : list listing) (update_skills : option string)
    (quick_actions : list (string * string)).

(** The sidebar's [QuickActionLink]s (lines 231-235, 300-305): target and
    label. *)
Definition quickActions : list (string * string) :=
  [("/browse", "Browse Internships"); ("/messages", "View Messages");
   ("/student/profile#skills", "Update Skills")].

(** [StatCard]'s [colors] object (lines 248-253). *)
Definition statcard_colors : list (string * string) := [
  ("blue", "bg-blue-50 text-primary-600"); ("green", "bg-green-50 text-green-600");
  ("purple", "bg-purple-50 text-accent-600"); ("orange", "bg-orange-50 text-orange-600")].

(** [`${colors[color]}`]: an own property, the text of an
    [Object.prototype] method or of the prototype itself, or [undefined]. *)
Definition color_text (color : string) : string :=
  match List.find (fun kv => String.eqb kv.1 color) statcard_colors with
  | Some kv => kv.2
  | None =>
      if bool_decide (color ∈ Keywords.object_prototype_methods)
      then "function " ++ color ++ "() { [native code] }"
      else if String.eqb color "__proto__" then "[object Object]" else "undefined"
  end%string.

(** The class of a card's icon box (line 257). *)
Definition statcard_icon_class (color : string) : string :=
  "w-12 h-12 " ++ color_text color ++ " rounded-lg flex items-center justify-center".

(** The four stat cards of the render (lines 150-153): label and colour. *)
Definition stat_cards : list (string * string) :=
  [("Applications", "blue"); ("Shortlisted", "green"); ("Saved", "purple"); ("New Messages", "orange")].

Record stat_card_view : Type := mkStatCardView {
  sc_value : nat;
  sc_label : string;
  sc_icon_class : string
}.

(** [StatCard] (lines 247-267): the value, the label and the icon box. *)
Definition StatCard (value : nat) (card : string * string) : stat_card_view :=
  mkStatCardView value card.1 (statcard_icon_class card.2).

Definition render_stat_cards (values : list nat) : list stat_card_view :=
  zip_with StatCard values stat_cards.

(** The recommendations card (lines 200-223): the cards, or the link to
    the skills section when there are none. *)
Definition recommended_section (recommended : list listing) : list listing * option string :=
  (recommended, match recommended with [] => Some "/student/profile#skills" | _ => None end).

(** The render (lines 56-244). *)
Definition render_sdash (env : sdash_env) (s : sdash_state) : sdash_view :=
  if default false (sd_authLoading env) || sd_loading s || sd_isLoadingExternal env then SDSkeleton
  else
    match sd_profile s with
    | None => SDNoProfile
    | Some p =>
        SDPage ("Welcome, " ++ sp_name p ++ "!") (isDashboardTrulyEmpty env s)
          [List.length (sd_applications s); shortlisted_count (sd_applications s);
           List.length (sd_saved env);
           match sd_notifications env with
           | Some ns => List.length (List.filter negb ns) | None => 0 end]
          (if (sd_completion env <? 100)%Z then Some (sd_completion env) else None)
          (render_items (take 5 (sd_applications s)))
          (recommended_section (recommendedInternships env s)).1
          (recommended_section (recommendedInternships env s)).2 quickActions
    end%string.

(** [ProfileImpactMeter] (lines 7-12): [user] read from [useData()]. *)
Inductive meter_view : Type :=
| MeterNull
| MeterCard (percentage : Z) (checklist : list (string * bool)).

Definition render_impact_meter (user : option account) (pct : Z) (checklist : list (string * bool))
    : meter_view :=
  match user with
  | Some u => if decide (role_of u = Student) then MeterCard pct checklist else MeterNull
  | None => MeterNull
  end.

(** ** Statuses across the two dashboards *)

(** The provider's mutations the pages can trigger: a status update
    carries one of the recruiter dashboard's values. *)
Definition ui_event (e : event) : Prop :=
  match e with EvStatus _ _ ns => ns ∈ Recruiter.status_choices | _ => True end.

Inductive ui_ledger_step : react_state -> react_state -> Prop :=
| UiStep st e : ui_event e -> pending st = [] -> ui_ledger_step st (render (run_event st e)).

Definition pending_pill (a : application) : Prop := getStatusPill (status a) = PillYellow.

Lemma run_event_pills (st : react_state) (e : event) :
  pending st = [] -> ui_event e -> Forall pending_pill (applications (committed st)) ->
  Forall pending_pill (applications (committed (render (run_event st e)))).
Proof.
  intros Hp He Hall. destruct e as [user iid today|user aid ns|iid|user cs data now today];
    cbn [run_event ui_event] in *.
  - unfold applyForInternship. destruct user as [u|]; [|by rewrite render_idle].
    case_decide; [|by rewrite render_idle]. destruct has_applied; [by rewrite render_idle |].
    rewrite render_enqueue_nil by done. simpl. apply Forall_app. split; [done |].
    by apply Forall_singleton.
  - unfold updateApplicationStatus. destruct is_role; [|by rewrite render_idle].
    rewrite render_enqueue_nil by done. simpl. apply Forall_fmap. eapply Forall_impl; [exact Hall |].
    intros a Ha. simpl. unfold pending_pill in *. destruct app_id_eqb; [|done]. simpl.
    unfold Recruiter.status_choices in He. by repeat (apply elem_of_cons in He as [->|He]; [done |]);
      apply not_elem_of_nil in He.
  - unfold toggleSaveInternship. by rewrite render_enqueue_nil.
  - unfold addInternship. destruct user as [u|]; [|by rewrite render_idle].
    case_decide; [|by rewrite render_idle]. cbv zeta. cbn [fst]. by rewrite render_enqueue_nil.
Qed.

Lemma shortlisted_count_pending (l : list (application * option listing)) :
  Forall (fun a => getStatusPill (status a.1) = PillYellow) l -> shortlisted_count l = 0%nat.
Proof.
  induction 1 as [|a l Ha _ IH]; [done |]. unfold shortlisted_count in *. simpl.
  unfold getStatusPill in Ha. destruct (String.eqb (status a.1) "Shortlisted"); [discriminate | done].
Qed.

(** C3: The recruiter dashboard sends "shortlisted" and "rejected"; the
    student dashboard looks for "Shortlisted" and "Rejected".  From a
    state where no application is marked in the student's spelling, no
    sequence of the pages' mutations ever makes the student's dashboard
    count a shortlisting or show a green or red status pill. *)
Theorem student_never_sees_shortlisted (st0 st : react_state) (user : option account)
    (internships : list listing) :
  pending st0 = [] -> Forall pending_pill (applications (committed st0)) ->
  star ui_ledger_step st0 st ->
  shortlisted_count (getStudentApplications user (applications (committed st)) internships) = 0%nat /\
  Forall (fun a => getStatusPill (status a.1) = PillYellow)
    (getStudentApplications user (applications (committed st)) internships).
Proof.
  intros Hp H0 Hrun.
  assert (Hall : Forall pending_pill (applications (committed st))).
  { apply (star_inv ui_ledger_step
             (fun x => pending x = [] /\ Forall pending_pill (applications (committed x)))
             st0 st); [| by split | exact Hrun].
    intros x y [Hpx Hx] Hs. destruct Hs as [x' e He Hpx'].
    split; [apply render_pending | apply run_event_pills; assumption]. }
  assert (Hf : Forall (fun a => getStatusPill (status a.1) = PillYellow)
                 (getStudentApplications user (applications (committed st)) internships)).
  { unfold getStudentApplications. destruct user as [u|]; [|constructor].
    case_decide; [|constructor]. apply Forall_fmap, Forall_forall. intros a Ha. simpl.
    apply elem_of_list_filter_bool in Ha as [Ha _]. rewrite Forall_forall in Hall. by apply Hall. }
  split; [by apply shortlisted_count_pending | done].
Qed.

(** The dashboard's recommendations: at most three listings of the
    merged list, none applied to or saved, each sharing a skill (as the
    exact string) with the profile. *)
Theorem recommended_spec (env : sdash_env) (s : sdash_state) :
  (List.length (recommendedInternships env s) <= 3)%nat /\
  forall i, i ∈ recommendedInternships env s ->
    i ∈ sd_internships env /\
    (forall a, a ∈ sd_applications s -> (internshipId a.1 === lid i) = false) /\
    (forall k, k ∈ sd_saved env -> (k === lid i) = false) /\
    exists p sk, sd_profile s = Some p /\ sk ∈ sp_skills p /\ sk ∈ requirements i.
Proof.
  unfold recommendedInternships.
  destruct (sd_user env), (sd_profile s) as [p|]; [|split; [simpl; lia | intros ? Hi; by apply not_elem_of_nil in Hi] ..].
  split; [rewrite length_take; lia |]. intros i Hi.
  apply elem_of_take in Hi as (n & Hn & _). apply list_elem_of_lookup_2 in Hn.
  apply elem_of_list_filter_bool in Hn as [Hin Hc].
  apply andb_true_iff in Hc as [Hc Hk]. apply andb_true_iff in Hc as [Ha Hs].
  apply negb_true_iff in Ha, Hs. apply bool_decide_eq_true in Hk.
  split_and!; [done | | |].
  - intros ap Hav. destruct (internshipId ap.1 === lid i) eqn:E; [|done]. exfalso.
    apply (proj2 (not_true_iff_false _) Ha), existsb_exists. exists (internshipId ap.1).
    split; [apply list_elem_of_In, list_elem_of_fmap; by exists ap | done].
  - intros k Hkv. destruct (k === lid i) eqn:E; [|done]. exfalso.
    apply (proj2 (not_true_iff_false _) Hs), existsb_exists. exists k. by rewrite <- list_elem_of_In.
  - destruct (List.filter _ _) as [|sk l] eqn:Hf; simpl in Hk; [lia |].
    assert (Hsk : sk ∈ List.filter (fun sk => bool_decide (sk ∈ requirements i)) (js_set_of (sp_skills p)))
      by (rewrite Hf; left).
    apply elem_of_list_filter_bool in Hsk as [Hsk Hr]. apply bool_decide_eq_true in Hr.
    exists p, sk. split_and!; [done | by apply elem_of_js_set_of | done].
Qed.

(** [ProfileImpactMeter], the dashboard's hero section, reads [user] from
    [useData()], whose value has no such key: it renders nothing for any
    account. *)
Theorem impact_meter_hidden (u : account) (pct : Z) (checklist : list (string * bool)) :
  render_impact_meter (context_field data_value_keys "user" u) pct checklist = MeterNull.
Proof. unfold context_field. rewrite decide_False by (vm_compute; set_solver). done. Qed.

(** A signed-out visitor of [/student/dashboard] (the route is not
    guarded) sees the skeleton forever: the effect only clears [loading]
    for a signed-in user. *)
Theorem signed_out_dashboard_skeleton (env : sdash_env) (n : nat) :
  sd_user env = None -> render_sdash env (Nat.iter n (sdash_effect env) initial_sdash) = SDSkeleton.
Proof.
  intros Hu. assert (Hl : sd_loading (Nat.iter n (sdash_effect env) initial_sdash) = true).
  { induction n as [|n IH]; [done |]. simpl. unfold sdash_effect at 1. rewrite Hu.
    by case_bool_decide. }
  unfold render_sdash. by rewrite Hl, orb_true_r.
Qed.

(** A listing requiring "React". *)
Definition react_listing : listing :=
  mkListing (JNum 11) "Frontend Intern" "Acme" (Some (JNum 1)) "AC" "Remote" "Remote" true
    "500 / month" "3 months" "Web Development" "2024-05-01" 0 ["React"] "" None.

Definition case_env : sdash_env :=
  mkSDashEnv (Some demo_student) None [react_listing] [] None false [] 80.

(** A listing requiring "React" and a student with the skill "react":
    the browse page's match percentage is 100, but the dashboard, which
    compares the exact strings, recommends nothing. *)
Theorem recommendations_case_sensitive :
  matchPercentage (Some demo_student) react_listing = JsNum 100 /\
  recommendedInternships case_env (sdash_effect case_env initial_sdash) = [].
Proof. split; vm_compute; reflexivity. Qed.

(** ** Witnesses *)

Lemma student_never_sees_shortlisted_witness :
  let st := render (run_event demo_state (EvApply (Some demo_student) (JNum 10) "2024-05-02")) in
  shortlisted_count (getStudentApplications (Some demo_student) (applications (committed st))
                       [posting 10 (Some (JNum 1))]) = 0%nat /\
  Forall (fun a => getStatusPill (status a.1) = PillYellow)
    (getStudentApplications (Some demo_student) (applications (committed st)) [posting 10 (Some (JNum 1))]).
Proof.
  intros st. apply (student_never_sees_shortlisted demo_state); [reflexivity | constructor |].
  eapply star_left; [apply (UiStep demo_state (EvApply (Some demo_student) (JNum 10) "2024-05-02")); [exact I | reflexivity] | apply star_refl].
Defined.

Lemma signed_out_dashboard_skeleton_witness :
  render_sdash (mkSDashEnv None None [] [] None false [] 0)
    (Nat.iter 3 (sdash_effect (mkSDashEnv None None [] [] None false [] 0)) initial_sdash) = SDSkeleton.
Proof. apply signed_out_dashboard_skeleton. reflexivity. Defined.

End Dashboard.
