(* ===== verification/Admin.v ===== *)
(** * The admin panel

    Models [src/src/pages/admin/AdminPanel.jsx].  The panel keeps its own
    state: the active tab, a company table seeded with four literal rows,
    and a copy of [mockInternships] (the seed of [mockData.js], a Section
    variable here as in [Provider]).  Its four handlers
    ([handleApproveCompany], [handleRejectCompany],
    [handleFeatureInternship], [handleDeleteInternship]) only call the
    panel's own [setCompanies] and [setInternships]: nothing reaches the
    data layer of [DataContext.jsx].  [render_admin] is the render, with
    its access guard on [user.role]; [admin_step] fires the handlers from
    the buttons the render shows, so a handler runs only on a row that is
    on the screen. *)

From S2P Require Import Prelude.
From S2P Require Import Store.
From S2P Require Import Auth.
From S2P Require Import Listings.
From S2P Require Import Forms.

Module Admin.
Import Store Auth Listings SignIn.

(** A row of the [companies] state (lines 10-15). *)
Record company_row : Type := mkCompanyRow {
  crid : Z;
  crname : string;
  cremail : string;
  crstatus : string;
  crinternships : Z
}.

#[export] Instance company_row_eq_dec : EqDecision company_row.
Proof. solve_decision. Defined.

Definition initial_companies : list company_row := [
  mkCompanyRow 1 "TechCorp" "contact@techcorp.com" "approved" 5;
  mkCompanyRow 2 "DataMind AI" "info@datamind.com" "approved" 3;
  mkCompanyRow 3 "StartupXYZ" "hello@startupxyz.com" "pending" 0;
  mkCompanyRow 4 "GrowthHub" "team@growthhub.com" "approved" 2].

(** An entry of the [internships] state: a listing of [mockInternships]
    and the truthiness of its [featured] field, which
    [{ ...i, featured: !i.featured }] adds or flips. *)
Record admin_listing : Type := mkAdminListing {
  al_listing : listing;
  featured : bool
}.

#[export] Instance admin_listing_eq_dec : EqDecision admin_listing.
Proof. solve_decision. Defined.

(** [mockAdminStats], read by the dashboard tab. *)
Record admin_stats : Type := mkAdminStats {
  totalStudents : Z;
  totalCompanies : Z;
  totalInternships : Z;
  totalApplications : Z;
  pendingCompanies : Z;
  flaggedPosts : Z
}.

Record admin_state : Type := mkAdmin {
  activeTab : string;
  companies : list company_row;
  a_internships : list admin_listing
}.

(** [{ ...c, status: 'approved' }] *)
Definition approve (c : company_row) : company_row :=
  mkCompanyRow (crid c) (crname c) (cremail c) "approved" (crinternships c).

(** [handleApproveCompany] (lines 18-22). *)
Definition handleApproveCompany (s : admin_state) (id : Z) : admin_state :=
  mkAdmin (activeTab s)
    (map (fun c => if Z.eqb (crid c) id then approve c else c) (companies s))
    (a_internships s).

(** [handleRejectCompany] (lines 24-26). *)
Definition handleRejectCompany (s : admin_state) (id : Z) : admin_state :=
  mkAdmin (activeTab s) (List.filter (fun c => negb (Z.eqb (crid c) id)) (companies s))
    (a_internships s).

Definition toggle_featured (id : jsid) (i : admin_listing) : admin_listing :=
  if lid (al_listing i) === id then mkAdminListing (al_listing i) (negb (featured i)) else i.

(** [handleFeatureInternship] (lines 28-32). *)
Definition handleFeatureInternship (s : admin_state) (id : jsid) : admin_state :=
  mkAdmin (activeTab s) (companies s) (map (toggle_featured id) (a_internships s)).

(** [handleDeleteInternship] (lines 34-38); [confirmed] is the answer to
    [confirm('Delete this internship?')]. *)
Definition handleDeleteInternship (s : admin_state) (confirmed : bool) (id : jsid) : admin_state :=
  if confirmed then
    mkAdmin (activeTab s) (companies s)
      (List.filter (fun i => negb (lid (al_listing i) === id)) (a_internships s))
  else s.

Definition set_tab (s : admin_state) (t : string) : admin_state :=
  mkAdmin t (companies s) (a_internships s).

(** The tab bar (lines 68-73): id and label. *)
Definition admin_tabs : list (string * string) :=
  [("dashboard", "Dashboard"); ("companies", "Companies");
   ("internships", "Internships"); ("users", "Users")].

(** ** The render *)

Inductive company_action : Type := ApproveBtn | RejectBtn | ViewBtn.

#[export] Instance company_action_eq_dec : EqDecision company_action.
Proof. solve_decision. Defined.

(** A row of the company table (lines 223-259). *)
Record company_view : Type := mkCompanyView {
  cv_row : company_row;
  cv_label : string;
  cv_actions : list company_action
}.

#[export] Instance company_view_eq_dec : EqDecision company_view.
Proof. solve_decision. Defined.

Definition company_view_of (c : company_row) : company_view :=
  mkCompanyView c
    (if String.eqb (crstatus c) "approved" then "Approved" else "Pending")
    (if String.eqb (crstatus c) "pending" then [ApproveBtn; RejectBtn] else [ViewBtn]).

(** A card of the internship list (lines 278-317): the listing shown,
    whether its star is filled and the Featured badge shown. *)
Definition internship_card : Type := listing * bool.

Inductive tab_view : Type :=
| TabDashboard (stats : list (Z * string)) (recent : list (string * string * string))
| TabCompanies (rows : list company_view)
| TabNoCompanies
| TabInternships (cards : list internship_card)
| TabNoInternships
| TabUsers (rows : list (string * string * string * string))
| TabNone.

Inductive admin_view : Type :=
| AccessDenied
| AdminPage (tabs : list (string * string * bool)) (content : tab_view).

Section Render.
Variable mockAdminStats : admin_stats.

(** The dashboard tab (lines 90-204): six figures of [mockAdminStats] and
    three literal activity entries. *)
Definition dashboard_tab : tab_view :=
  TabDashboard
    [(totalStudents mockAdminStats, "Students"); (totalCompanies mockAdminStats, "Companies");
     (totalInternships mockAdminStats, "Internships"); (totalApplications mockAdminStats, "Applications");
     (pendingCompanies mockAdminStats, "Pending"); (flaggedPosts mockAdminStats, "Flagged")]
    [("New student registered", "John Doe joined the platform", "2 minutes ago");
     ("Internship approved", "Frontend Developer at TechCorp", "15 minutes ago");
     ("New internship posted", "Data Science Intern at AnalyticsPro", "1 hour ago")].

(** The companies tab (lines 206-271): a row per company, or the empty
    message. *)
Definition companies_tab (s : admin_state) : tab_view :=
  match companies s with
  | [] => TabNoCompanies
  | cs => TabCompanies (map company_view_of cs)
  end.

(** The internships tab (lines 272-326): a card per entry of the copy of
    [mockInternships], or the empty message. *)
Definition internships_tab (s : admin_state) : tab_view :=
  match a_internships s with
  | [] => TabNoInternships
  | ls => TabInternships (map (fun i => (al_listing i, featured i)) ls)
  end.

(** The users tab (lines 327-377): two literal rows, whatever the roster. *)
Definition users_tab : tab_view :=
  TabUsers [("Alex Johnson", "alex@example.com", "Student", "Active");
            ("Sarah Williams", "sarah@techcorp.com", "Recruiter", "Active")].

(** The tab content: each of the four [activeTab === ...] blocks. *)
Definition admin_content (s : admin_state) : tab_view :=
  if String.eqb (activeTab s) "dashboard" then dashboard_tab
  else if String.eqb (activeTab s) "companies" then companies_tab s
  else if String.eqb (activeTab s) "internships" then internships_tab s
  else if String.eqb (activeTab s) "users" then users_tab
  else TabNone.

(** The render (lines 40-381), behind the guard of lines 40-48. *)
Definition render_admin (user : option account) (s : admin_state) : admin_view :=
  match user with
  | Some u =>
      if decide (role_of u = Admin) then
        AdminPage (map (fun t => (t.1, t.2, String.eqb (activeTab s) t.1)) admin_tabs)
          (admin_content s)
      else AccessDenied
  | None => AccessDenied
  end.

(** The panel's events, each on a button of the last render: a tab, the
    approve and reject buttons of a pending company, the star and the
    trash can of an internship card. *)
Inductive admin_step (user : option account) : admin_state -> admin_state -> Prop :=
| ATab s tabs c t l b :
    render_admin user s = AdminPage tabs c -> (t, l, b) ∈ tabs ->
    admin_step user s (set_tab s t)
| AApprove s tabs rows r :
    render_admin user s = AdminPage tabs (TabCompanies rows) -> r ∈ rows ->
    ApproveBtn ∈ cv_actions r -> admin_step user s (handleApproveCompany s (crid (cv_row r)))
| AReject s tabs rows r :
    render_admin user s = AdminPage tabs (TabCompanies rows) -> r ∈ rows ->
    RejectBtn ∈ cv_actions r -> admin_step user s (handleRejectCompany s (crid (cv_row r)))
| AFeature s tabs cards c :
    render_admin user s = AdminPage tabs (TabInternships cards) -> c ∈ cards ->
    admin_step user s (handleFeatureInternship s (lid c.1))
| ADelete s tabs cards c confirmed :
    render_admin user s = AdminPage tabs (TabInternships cards) -> c ∈ cards ->
    admin_step user s (handleDeleteInternship s confirmed (lid c.1)).

End Render.

Section Panel.
Variable mockInternships : list admin_listing.

(** The initial state (lines 9-16). *)
Definition initial_admin : admin_state :=
  mkAdmin "dashboard" initial_companies mockInternships.

End Panel.

(** ** Lemmas on the render and the handlers *)

Section Lemmas.
Variable mockAdminStats : admin_stats.
Local Abbreviation render := (render_admin mockAdminStats).
Local Abbreviation step := (admin_step mockAdminStats).

Lemma render_admin_page (user : option account) (s : admin_state) tabs c :
  render user s = AdminPage tabs c ->
  exists u, user = Some u /\ role_of u = Admin /\ c = admin_content mockAdminStats s.
Proof.
  unfold render_admin. destruct user as [u|]; [|discriminate].
  case_decide; [|discriminate]. intros [= _ <-]. by exists u.
Qed.

(** The company table lists the [companies] state, row by row. *)
Lemma render_admin_companies (user : option account) (s : admin_state) tabs rows :
  render user s = AdminPage tabs (TabCompanies rows) -> rows = map company_view_of (companies s).
Proof.
  intros (u & _ & _ & Hc)%render_admin_page.
  unfold admin_content, dashboard_tab, companies_tab, internships_tab, users_tab in Hc.
  repeat destruct (String.eqb _ _); destruct (companies s), (a_internships s); congruence.
Qed.

(** The internship cards list the [internships] state. *)
Lemma render_admin_cards (user : option account) (s : admin_state) tabs cards :
  render user s = AdminPage tabs (TabInternships cards) ->
  cards = map (fun i => (al_listing i, featured i)) (a_internships s).
Proof.
  intros (u & _ & _ & Hc)%render_admin_page.
  unfold admin_content, dashboard_tab, companies_tab, internships_tab, users_tab in Hc.
  repeat destruct (String.eqb _ _); destruct (companies s), (a_internships s); congruence.
Qed.

(** The reject button is on the pending rows only. *)
Lemma reject_pending (c : company_row) :
  RejectBtn ∈ cv_actions (company_view_of c) -> crstatus c = "pending".
Proof.
  unfold company_view_of; simpl. destruct (String.eqb_spec (crstatus c) "pending"); [done |].
  intros ?%list_elem_of_singleton. discriminate.
Qed.

Lemma approve_approved (c : company_row) : crstatus c = "approved" -> approve c = c.
Proof. destruct c; simpl. by intros ->. Qed.

(** Every step is one of the five handlers, on a page that was rendered. *)
Lemma admin_step_page (user : option account) (s s' : admin_state) :
  step user s s' -> exists tabs c, render user s = AdminPage tabs c.
Proof. by destruct 1; do 2 eexists. Qed.

Lemma toggle_featured_twice (id : jsid) (i : admin_listing) :
  toggle_featured id (toggle_featured id i) = i.
Proof.
  unfold toggle_featured. destruct (lid (al_listing i) === id) eqn:He; simpl; rewrite ?He; [|done].
  destruct i; simpl. by rewrite negb_involutive.
Qed.

(** The handlers keep the listing of every entry, or drop entries. *)
Lemma admin_step_listings (user : option account) (s s' : admin_state) :
  step user s s' -> map al_listing (a_internships s') `sublist_of` map al_listing (a_internships s).
Proof.
  destruct 1; simpl; try done.
  - rewrite (map_keys_map al_listing (toggle_featured _)); [done |].
    intros i. unfold toggle_featured. by destruct (_ === _).
  - unfold handleDeleteInternship. destruct confirmed; [apply map_filter_sublist | done].
Qed.

(** The company ids stay distinct. *)
Lemma admin_step_ids (user : option account) (s s' : admin_state) :
  step user s s' -> NoDup (map crid (companies s)) -> NoDup (map crid (companies s')).
Proof.
  destruct 1; try destruct confirmed; simpl; try done.
  - by rewrite (map_keys_map crid (fun c => if Z.eqb (crid c) _ then approve c else c))
      by (intros c; by destruct (Z.eqb _ _)).
  - apply NoDup_map_filter.
Qed.

(** Without an admin session the panel renders the guard's message. *)
Lemma render_admin_denied (user : option account) (s : admin_state) :
  (forall u, user = Some u -> role_of u <> Admin) -> render user s = AccessDenied.
Proof.
  intros Hu. unfold render_admin. destruct user as [u|]; [|done].
  case_decide; [by destruct (Hu u) | done].
Qed.

(** An approved company survives every handler: the reject button, the
    only one that removes a row, is on pending rows, and ids are unique. *)
Lemma admin_step_keeps_approved (user : option account) (s s' : admin_state) (c : company_row) :
  step user s s' -> NoDup (map crid (companies s)) -> c ∈ companies s ->
  crstatus c = "approved" -> c ∈ companies s'.
Proof.
  intros Hstep Hnd Hc Hst. destruct Hstep as [| |s tabs rows r Hr Hin Hbtn| |s tabs cards k confirmed];
    try destruct confirmed; simpl; try done.
  - apply list_elem_of_In, in_map_iff. exists c. split; [|by apply list_elem_of_In].
    destruct (Z.eqb _ _); [by apply approve_approved | done].
  - apply render_admin_companies in Hr as ->.
    apply list_elem_of_fmap in Hin as (r0 & -> & Hr0). apply reject_pending in Hbtn.
    apply elem_of_list_filter_bool. split; [done |]. apply negb_true_iff, Z.eqb_neq. simpl.
    intros Hid. rewrite (NoDup_map_inj crid (companies s) c r0) in Hst; [congruence | done..].
Qed.

End Lemmas.

(** ** Properties *)

Section Properties.
Variable mockAdminStats : admin_stats.
Local Abbreviation render := (render_admin mockAdminStats).
Local Abbreviation step := (admin_step mockAdminStats).

(** Without an admin session the panel is inert: it shows the access
    message, and no handler can run, whatever the user clicks. *)
Theorem non_admin_panel_inert (user : option account) (s0 s : admin_state) :
  (forall u, user = Some u -> role_of u <> Admin) ->
  star (step user) s0 s -> s = s0 /\ render user s = AccessDenied.
Proof.
  intros Hu Hrun. assert (s = s0) as ->; [|split; [done | by apply render_admin_denied]].
  apply (star_inv (step user) (fun x => x = s0) s0 s); [|done | exact Hrun].
  intros x y -> Hstep. destruct (admin_step_page _ _ _ _ Hstep) as (tabs & c & Hr).
  by rewrite render_admin_denied in Hr.
Qed.

(** C19: An approved company stays in the table, unchanged, through every run
    of the panel: only a pending company can be rejected. *)
Theorem approved_companies_kept (user : option account) (s0 s : admin_state) (c : company_row) :
  NoDup (map crid (companies s0)) -> c ∈ companies s0 -> crstatus c = "approved" ->
  star (step user) s0 s -> c ∈ companies s.
Proof.
  intros Hnd Hc Hst Hrun.
  refine (proj2 (star_inv (step user) (fun x => NoDup (map crid (companies x)) /\ c ∈ companies x)
                   s0 s _ (conj Hnd Hc) Hrun)).
  intros x y [Hx Hcx] Hstep. split; [by eapply admin_step_ids | by eapply admin_step_keeps_approved].
Qed.

(** C24: The panel only ever shows listings of [mockInternships], in their
    order: neither a recruiter's posting nor an external listing reaches
    it, and a deleted entry never comes back. *)
Theorem admin_listings_from_seed (user : option account) (mockInternships : list admin_listing)
    (s : admin_state) :
  star (step user) (initial_admin mockInternships) s ->
  map al_listing (a_internships s) `sublist_of` map al_listing mockInternships.
Proof.
  apply (star_inv (step user)
    (fun x => map al_listing (a_internships x) `sublist_of` map al_listing mockInternships)); [|done].
  intros x y Hx Hstep. etrans; [|exact Hx]. by eapply admin_step_listings.
Qed.

(** Featuring an internship twice restores the panel's state. *)
Theorem feature_twice_restores (s : admin_state) (id : jsid) :
  handleFeatureInternship (handleFeatureInternship s id) id = s.
Proof.
  destruct s as [t cs ls]. unfold handleFeatureInternship; simpl. f_equal.
  rewrite map_map. rewrite <- (map_id ls) at 2. apply map_ext, toggle_featured_twice.
Qed.

End Properties.

(** ** With the sign-up page *)

Section WithSignup.
Context {S : Type} `{Storage S}.
Context (enc : account -> json) (stringify : json -> string) (quota_message : string).
Variable mockAdminStats : admin_stats.

(** C23: No account created through the sign-up page opens the admin panel:
    the page offers the student and recruiter roles only, so every new
    account sees the access message. *)
Theorem signup_accounts_denied_admin (st0 st : auth_state (S := S)) (p : signup_page)
    (s : admin_state) (u : account) :
  star (signup_step enc stringify quota_message) (initial_page, st0) (p, st) ->
  u ∈ users st -> u ∉ users st0 -> render_admin mockAdminStats (Some u) s = AccessDenied.
Proof.
  intros Hrun Hu Hnew.
  assert (Hinv : signup_page_inv p /\ (forall u, u ∈ users st -> u ∈ users st0 \/ valid_account u)).
  { refine (star_inv _ _ (initial_page, st0) (p, st) (signup_step_inv enc stringify quota_message st0) _ Hrun).
    split; [split; [done | discriminate] | by left]. }
  destruct (proj2 Hinv u Hu) as [|(_ & _ & _ & Hrole)]; [done |].
  apply render_admin_denied. by intros ? [= <-].
Qed.

End WithSignup.

(** ** Witnesses *)

Definition demo_stats : admin_stats := mkAdminStats 120 15 40 300 1 2.

Definition ada : account :=
  mkAccount 9 "Ada" "ada@x.io" "secret" Admin None None None None None None None None None None None.

Definition seed : list admin_listing :=
  [mkAdminListing (demo_listing (JNum 1) "Frontend Intern") false;
   mkAdminListing (demo_listing (JNum 2) "Data Intern") true].

Definition startup_row : company_row :=
  mkCompanyRow 3 "StartupXYZ" "hello@startupxyz.com" "pending" 0.

Lemma non_admin_panel_inert_witness :
  initial_admin seed = initial_admin seed /\
  render_admin demo_stats (Some demo_student) (initial_admin seed) = AccessDenied.
Proof.
  apply (non_admin_panel_inert demo_stats (Some demo_student) (initial_admin seed) (initial_admin seed));
    [intros u [= <-]; discriminate | apply star_refl].
Defined.

(** The admin opens the companies tab and rejects the pending StartupXYZ:
    TechCorp is still listed. *)
Lemma approved_companies_kept_witness :
  mkCompanyRow 1 "TechCorp" "contact@techcorp.com" "approved" 5 ∈
    companies (handleRejectCompany (set_tab (initial_admin seed) "companies") 3).
Proof.
  apply (approved_companies_kept demo_stats (Some ada) (initial_admin seed)); [decide_goal | by left | reflexivity |].
  eapply star_left; [eapply (ATab _ _ _ _ _ "companies" "Companies" false); [reflexivity | decide_goal] |].
  eapply star_left; [eapply (AReject _ _ _ _ _ (company_view_of startup_row)); [reflexivity | decide_goal | decide_goal] |].
  apply star_refl.
Defined.

(** The admin opens the internships tab and deletes the first card. *)
Lemma admin_listings_from_seed_witness :
  map al_listing (a_internships (handleDeleteInternship (set_tab (initial_admin seed) "internships") true (JNum 1)))
    `sublist_of` map al_listing seed.
Proof.
  apply (admin_listings_from_seed demo_stats (Some ada)).
  eapply star_left; [eapply (ATab _ _ _ _ _ "internships" "Internships" false); [reflexivity | decide_goal] |].
  eapply star_left;
    [eapply (ADelete _ _ _ _ _ (demo_listing (JNum 1) "Frontend Intern", false) true); [reflexivity | decide_goal] |].
  apply star_refl.
Defined.

Lemma signup_accounts_denied_admin_witness :
  render_admin demo_stats (Some bo_account) (initial_admin seed) = AccessDenied.
Proof.
  apply (signup_accounts_denied_admin demo_enc demo_str "quota" demo_stats demo_auth bo_submit.1.2
           (settle bo_submit.1.1) (initial_admin seed) bo_account bo_run); [| decide_goal].
  change (users bo_submit.1.2) with (users demo_auth ++ [bo_account]). apply elem_of_app. right. by left.
Defined.

End Admin.
