(* ===== verification/Messages.v ===== *)
(** * The messages page

    Models [src/src/pages/Messages.jsx].  The page keeps its own state, a
    copy of [mockMessages] (the seed of [mockData.js], a Section variable),
    the selected message and the inbox filter; nothing of it reaches the
    data layer.  [filteredMessages], [handleMarkAsRead] and [handleDelete]
    are translated line by line; [render_messages] is the render behind its
    sign-in guard, and [messages_step] fires the handlers from what the
    render shows: a filter button, a row of the inbox (which selects the
    message and marks it read) and the trash button of the open message,
    after [confirm]. *)

From S2P Require Import Prelude.
From S2P Require Import Store.
From S2P Require Import Auth.

Module Messages.
Import Store Auth.

(** A message of [mockMessages]; [read] is the truthiness of its field. *)
Record message : Type := mkMessage {
  mid : jsid;
  from : string;
  subject : string;
  content : string;
  date : string;
  read : bool
}.

#[export] Instance message_eq_dec : EqDecision message.
Proof. solve_decision. Defined.

Record messages_state : Type := mkMessages {
  messages : list message;
  selectedMessage : option message;
  filter : string
}.

(** [filteredMessages] (lines 12-16). *)
Definition filteredMessages (s : messages_state) : list message :=
  List.filter (fun msg =>
    if String.eqb (filter s) "unread" then negb (read msg)
    else if String.eqb (filter s) "read" then read msg
    else true) (messages s).

Definition mark_read (id : jsid) (m : message) : message :=
  if mid m === id then mkMessage (mid m) (from m) (subject m) (content m) (date m) true else m.

(** [handleMarkAsRead] (lines 18-22). *)
Definition handleMarkAsRead (s : messages_state) (id : jsid) : messages_state :=
  mkMessages (map (mark_read id) (messages s)) (selectedMessage s) (filter s).

(** [selectedMessage?.id === id] *)
Definition selected_is (s : messages_state) (id : jsid) : bool :=
  match selectedMessage s with Some m => mid m === id | None => false end.

(** [handleDelete] (lines 24-31); [confirmed] is the answer to
    [confirm('Delete this message?')]. *)
Definition handleDelete (s : messages_state) (confirmed : bool) (id : jsid) : messages_state :=
  if confirmed then
    let msgs := List.filter (fun m => negb (mid m === id)) (messages s) in
    mkMessages msgs (if selected_is s id then None else selectedMessage s) (filter s)
  else s.

(** The click on an inbox row (line 101): [setSelectedMessage(msg)] then
    [handleMarkAsRead(msg.id)], both on the state of the render. *)
Definition select_message (s : messages_state) (msg : message) : messages_state :=
  let s1 := handleMarkAsRead s (mid msg) in
  mkMessages (messages s1) (Some msg) (filter s1).

Definition set_filter (s : messages_state) (f : string) : messages_state :=
  mkMessages (messages s) (selectedMessage s) f.

(** The two filter buttons (lines 66-81). *)
Definition filter_buttons : list string := ["all"; "unread"].

(** ** The render *)

(** A row of the inbox (lines 98-121): the message, whether it is the
    selected one, and the unread dot. *)
Definition inbox_row : Type := message * bool * bool.

Inductive detail_view : Type :=
| SelectPrompt
| OpenMessage (subject from date content : string).

Inductive messages_view : Type :=
| MessagesLogin
| MessagesPage (buttons : list (string * bool)) (count : nat) (rows : list inbox_row)
    (empty : bool) (detail : detail_view).

(** The render (lines 33-192), behind the guard of lines 33-41. *)
Definition render_messages (user : option account) (s : messages_state) : messages_view :=
  match user with
  | None => MessagesLogin
  | Some _ =>
      let fm := filteredMessages s in
      MessagesPage (map (fun f => (f, String.eqb (filter s) f)) filter_buttons)
        (List.length fm)
        (map (fun msg => (msg, selected_is s (mid msg), negb (read msg))) fm)
        (match fm with [] => true | _ => false end)
        (match selectedMessage s with
         | Some m => OpenMessage (subject m) (from m) (date m) (content m)
         | None => SelectPrompt
         end)
  end.

(** The page's events on its last render: a filter button, an inbox row,
    the trash button of the open message.  The archive, reply and draft
    buttons only [alert]. *)
Inductive messages_step (user : option account) : messages_state -> messages_state -> Prop :=
| MFilter s bs n rows e d f b :
    render_messages user s = MessagesPage bs n rows e d -> (f, b) ∈ bs ->
    messages_step user s (set_filter s f)
| MSelect s bs n rows e d msg sel dot :
    render_messages user s = MessagesPage bs n rows e d -> (msg, sel, dot) ∈ rows ->
    messages_step user s (select_message s msg)
| MDelete s bs n rows e sj fr dt ct m confirmed :
    render_messages user s = MessagesPage bs n rows e (OpenMessage sj fr dt ct) ->
    selectedMessage s = Some m ->
    messages_step user s (handleDelete s confirmed (mid m)).

Section Page.
Variable mockMessages : list message.

(** The initial state (lines 8-10). *)
Definition initial_messages : messages_state := mkMessages mockMessages None "all".

End Page.

(** ** Lemmas on the render and the handlers *)

Section Lemmas.

Lemma render_messages_rows (user : option account) (s : messages_state) bs n rows e d :
  render_messages user s = MessagesPage bs n rows e d ->
  bs = map (fun f => (f, String.eqb (filter s) f)) filter_buttons /\
  rows = map (fun msg => (msg, selected_is s (mid msg), negb (read msg))) (filteredMessages s).
Proof. destruct user; [intros [= <- _ <- _ _]; done | discriminate]. Qed.

(** A row of the inbox is a message of the state. *)
Lemma inbox_row_message (user : option account) (s : messages_state) bs n rows e d msg sel dot :
  render_messages user s = MessagesPage bs n rows e d -> (msg, sel, dot) ∈ rows -> msg ∈ messages s.
Proof.
  intros [_ ->]%render_messages_rows (m & [= -> _ _] & Hm)%list_elem_of_fmap.
  by apply elem_of_list_filter_bool in Hm as [? _].
Qed.

(** The filter is one the buttons set. *)
Lemma filter_button_value (user : option account) (s : messages_state) bs n rows e d f b :
  render_messages user s = MessagesPage bs n rows e d -> (f, b) ∈ bs -> f ∈ filter_buttons.
Proof.
  intros [-> _]%render_messages_rows (f' & [= -> _] & Hf)%list_elem_of_fmap. done.
Qed.

Lemma mark_read_mid (id : jsid) (m : message) : mid (mark_read id m) = mid m.
Proof. unfold mark_read. by destruct (_ === _). Qed.

Lemma mark_read_read (id : jsid) (m : message) : mid m = id -> read (mark_read id m) = true.
Proof. intros <-. unfold mark_read, id_eqb. by rewrite bool_decide_true. Qed.

(** Marking read never turns a message unread. *)
Lemma mark_read_unread (id : jsid) (m : message) : negb (read (mark_read id m)) = true -> negb (read m) = true.
Proof. unfold mark_read. destruct (_ === _); simpl; [discriminate | done]. Qed.

Lemma unread_map_mark (id : jsid) (l : list message) :
  List.length (List.filter (fun m => negb (read m)) (map (mark_read id) l)) <=
  List.length (List.filter (fun m => negb (read m)) l).
Proof.
  induction l as [|m l IH]; simpl; [done |].
  destruct (negb (read (mark_read id m))) eqn:Hm.
  - rewrite (mark_read_unread id m Hm). simpl. lia.
  - destruct (negb (read m)); simpl; lia.
Qed.

Lemma unread_filter (p : message -> bool) (l : list message) :
  List.length (List.filter (fun m => negb (read m)) (List.filter p l)) <=
  List.length (List.filter (fun m => negb (read m)) l).
Proof.
  induction l as [|m l IH]; simpl; [done |].
  destruct (p m); simpl; destruct (read m); simpl; lia.
Qed.

Definition unread_count (s : messages_state) : nat :=
  List.length (List.filter (fun m => negb (read m)) (messages s)).

(** The message the detail pane shows has a row of that id in the inbox. *)
Definition selection_present (s : messages_state) : Prop :=
  forall m, selectedMessage s = Some m -> exists m', m' ∈ messages s /\ mid m' = mid m.

Lemma messages_step_selection (user : option account) (s s' : messages_state) :
  messages_step user s s' -> selection_present s -> selection_present s'.
Proof.
  unfold selection_present.
  destruct 1 as [s bs n rows e d f b Hr Hf|s bs n rows e d msg sel dot Hr Hrow|s bs n rows e sj fr dt ct m confirmed Hr Hsel];
    intros Hp; simpl; [done | |].
  - intros m [= <-]. exists (mark_read (mid msg) msg). rewrite mark_read_mid. split; [|done].
    apply list_elem_of_fmap_2. by eapply inbox_row_message.
  - unfold handleDelete. destruct confirmed; [|done]. simpl. unfold selected_is. rewrite Hsel.
    unfold id_eqb. by rewrite bool_decide_true.
Qed.

End Lemmas.

(** ** Properties *)

Section Properties.
Variable mockMessages : list message.

(** C20: The detail pane never shows a message deleted from the inbox: while a
    message is open, a message of its id is in the page's state. *)
Theorem selected_message_present (user : option account) (s : messages_state) (m : message) :
  star (messages_step user) (initial_messages mockMessages) s ->
  selectedMessage s = Some m -> exists m', m' ∈ messages s /\ mid m' = mid m.
Proof.
  intros Hrun. revert m.
  apply (star_inv (messages_step user) selection_present (initial_messages mockMessages) s); [| |exact Hrun].
  - intros x y Hx Hstep. by eapply messages_step_selection.
  - by intros m.
Qed.

(** The inbox filter is always ["all"] or ["unread"]: the [filter === 'read']
    branch of [filteredMessages] is never taken. *)
Theorem read_filter_unreachable (user : option account) (s : messages_state) :
  star (messages_step user) (initial_messages mockMessages) s -> filter s ∈ filter_buttons.
Proof.
  apply (star_inv (messages_step user) (fun x => filter x ∈ filter_buttons) (initial_messages mockMessages) s);
    [|by left].
  intros x y Hx Hstep. destruct Hstep as [s1 bs n rows e d f b Hr Hf| |s1 bs n rows e sj fr dt ct m1 confirmed Hr Hsel];
    [by eapply filter_button_value | done |]. unfold handleDelete. by destruct confirmed.
Qed.

(** The number of unread messages never grows on the page. *)
Theorem unread_count_monotone (user : option account) (s0 s : messages_state) :
  star (messages_step user) s0 s -> unread_count s <= unread_count s0.
Proof.
  intros Hrun. induction Hrun as [|a b c Hrun IH Hstep]; [done |]. etrans; [|exact IH].
  destruct Hstep as [| |s1 bs n rows e sj fr dt ct m1 confirmed Hr Hsel]; unfold unread_count; simpl;
    [done | apply unread_map_mark |]. unfold handleDelete. destruct confirmed; [apply unread_filter | done].
Qed.

(** Under the Unread filter, opening a message takes it out of the inbox
    list while the detail pane keeps showing it. *)
Theorem opened_message_leaves_unread_inbox (user : option account) (s : messages_state)
    bs n rows e d (msg : message) sel dot :
  filter s = "unread" -> render_messages user s = MessagesPage bs n rows e d -> (msg, sel, dot) ∈ rows ->
  selectedMessage (select_message s msg) = Some msg /\
  Forall (fun m => mid m <> mid msg) (filteredMessages (select_message s msg)).
Proof.
  intros Hf _ _. split; [done |]. apply Forall_forall. intros m.
  unfold filteredMessages, select_message, handleMarkAsRead; simpl. rewrite Hf; simpl.
  rewrite elem_of_list_filter_bool. intros [(m0 & -> & _)%list_elem_of_fmap Hu] Hid.
  rewrite mark_read_mid in Hid. by rewrite mark_read_read in Hu.
Qed.

End Properties.

(** ** Witnesses *)

Definition msg1 : message := mkMessage (JNum 1) "TechCorp" "Interview invite" "Hello" "2024-05-01" false.
Definition msg2 : message := mkMessage (JNum 2) "DataMind" "Application received" "Thanks" "2024-05-02" true.
Definition inbox : list message := [msg1; msg2].

(** The student opens the first message and deletes it. *)
Definition opened : messages_state := select_message (initial_messages inbox) msg1.

Lemma selected_message_present_witness :
  exists m', m' ∈ messages opened /\ mid m' = mid msg1.
Proof.
  apply (selected_message_present inbox (Some demo_student) opened msg1); [|reflexivity].
  eapply star_left; [eapply (MSelect _ _ _ _ _ _ _ msg1 false true); [reflexivity | decide_goal] |].
  apply star_refl.
Defined.

Lemma read_filter_unreachable_witness :
  filter (set_filter (initial_messages inbox) "unread") ∈ filter_buttons.
Proof.
  apply (read_filter_unreachable inbox (Some demo_student)).
  eapply star_left; [eapply (MFilter _ _ _ _ _ _ _ "unread" false); [reflexivity | decide_goal] |].
  apply star_refl.
Defined.

Lemma unread_count_monotone_witness :
  unread_count (handleDelete opened true (JNum 1)) <= unread_count (initial_messages inbox).
Proof.
  apply (unread_count_monotone (Some demo_student)).
  eapply star_left; [eapply (MSelect _ _ _ _ _ _ _ msg1 false true); [reflexivity | decide_goal] |].
  eapply star_left; [eapply (MDelete _ _ _ _ _ _ _ _ _ _ msg1 true); reflexivity |].
  apply star_refl.
Defined.

Lemma opened_message_leaves_unread_inbox_witness :
  selectedMessage (select_message (set_filter (initial_messages inbox) "unread") msg1) = Some msg1 /\
  Forall (fun m => mid m <> mid msg1)
    (filteredMessages (select_message (set_filter (initial_messages inbox) "unread") msg1)).
Proof.
  eapply (opened_message_leaves_unread_inbox (Some demo_student) _ _ _ _ _ _ msg1 false true);
    [reflexivity | reflexivity | decide_goal].
Defined.

End Messages.
