(* ===== verification/Navigation.v ===== *)
(** * Routes and the navigation bar

    Models the route table of [src/src/App.jsx] ([AppContent], lines
    33-70) and the navigation bar of [src/src/components/Navbar.jsx].
    - [routes] is the table of [<Routes>]; [route_matches] is how
      react-router (a library, not code of this repository) matches a
      pathname against a path: a case-insensitive comparison of the static
      segments, a non-empty segment without [/] for a [:param], trailing
      slashes allowed.  Percent-escapes in a parameter are not decoded.
      [match_routes] takes the first route that matches; [routes_unambiguous]
      shows no two routes match the same pathname, so react-router's
      ranking of routes picks the same one.
    - [desktop_links] and [mobile_links] are the two menus of the bar, by
      session; [nav_step] is the bar's events: a link (which navigates), the
      menu button, the close button and the two logout buttons, on the
      router's location, the menu state and the session of [AuthContext]. *)

From S2P Require Import Prelude.
From S2P Require Import Store.
From S2P Require Import Auth.
From S2P Require Import Listings.
From S2P Require Import Forms.
From S2P Require Import Details.

Module Navigation.
Import Store Auth Listings SignIn Details.

(** The pages of the route table. *)
Inductive page : Type :=
| HomePage | BrowsePage | DetailsPage | StudentDashboardPage | StudentProfilePage
| RecruiterDashboardPage | PostInternshipPage | MessagesPage | AboutPage | ContactPage
| LoginPage | SignupPage | AdminPage.

#[export] Instance page_eq_dec : EqDecision page.
Proof. solve_decision. Defined.

Inductive segment : Type := Lit (s : string) | Param (name : string).

#[export] Instance segment_eq_dec : EqDecision segment.
Proof. solve_decision. Defined.

(** The [<Route>]s of [AppContent] (lines 51-63), as segments of their path. *)
Definition routes : list (list segment * page) := [
  ([], HomePage);
  ([Lit "browse"], BrowsePage);
  ([Lit "internship"; Param "id"], DetailsPage);
  ([Lit "student"; Lit "dashboard"], StudentDashboardPage);
  ([Lit "student"; Lit "profile"], StudentProfilePage);
  ([Lit "recruiter"; Lit "dashboard"], RecruiterDashboardPage);
  ([Lit "recruiter"; Lit "post"], PostInternshipPage);
  ([Lit "messages"], MessagesPage);
  ([Lit "about"], AboutPage);
  ([Lit "contact"], ContactPage);
  ([Lit "login"], LoginPage);
  ([Lit "signup"], SignupPage);
  ([Lit "admin"], AdminPage)].

(** ** Matching a pathname *)

Fixpoint all_slashes (s : string) : bool :=
  match s with
  | EmptyString => true
  | String c s' => Ascii.eqb c "/" && all_slashes s'
  end.

(** The segment up to the next [/], and the rest. *)
Fixpoint take_segment (s : string) : string * string :=
  match s with
  | EmptyString => (EmptyString, EmptyString)
  | String c s' =>
      if Ascii.eqb c "/" then (EmptyString, s)
      else let '(v, r) := take_segment s' in (String c v, r)
  end.

(** [/seg/seg.../*]: each segment after a [/], then only slashes. *)
Fixpoint match_segments (segs : list segment) (s : string) : option (list (string * string)) :=
  match segs with
  | [] => if all_slashes s then Some [] else None
  | seg :: rest =>
      match s with
      | String c s' =>
          if Ascii.eqb c "/" then
            let '(v, r) := take_segment s' in
            match seg with
            | Lit l => if String.eqb (js_lower v) (js_lower l) then match_segments rest r else None
            | Param k =>
                if String.eqb v "" then None
                else option_map (cons (k, v)) (match_segments rest r)
            end
          else None
      | EmptyString => None
      end
  end.

(** A path against a pathname: [/] matches one or more slashes. *)
Definition route_matches (segs : list segment) (s : string) : option (list (string * string)) :=
  match segs with
  | [] => match s with
          | String c s' => if Ascii.eqb c "/" && all_slashes s' then Some [] else None
          | EmptyString => None
          end
  | _ => match_segments segs s
  end.

(** The page [<Routes>] renders at a pathname, with its parameters;
    [None] renders nothing in [<main>]. *)
Fixpoint first_match (rs : list (list segment * page)) (s : string)
    : option (page * list (string * string)) :=
  match rs with
  | [] => None
  | (segs, pg) :: rs' =>
      match route_matches segs s with
      | Some ps => Some (pg, ps)
      | None => first_match rs' s
      end
  end.

Definition match_routes (s : string) : option (page * list (string * string)) :=
  first_match routes s.

(** [AppContent] (lines 33-70): a loader while [initialAuthLoading], else
    the shell with the page of the location. *)
Inductive app_view : Type :=
| AppLoading
| AppShell (main : option (page * list (string * string))).

Definition render_app (initialAuthLoading : bool) (pathname : string) : app_view :=
  if initialAuthLoading then AppLoading else AppShell (match_routes pathname).

(** ** The navigation bar *)

(** A [<Link>]: its target, its text, and whether the desktop menu styles
    it with [isActive] (the mobile menu styles no link by location). *)
Record nav_link : Type := mkNavLink { nl_to : string; nl_label : string; nl_styled : bool }.

#[export] Instance nav_link_eq_dec : EqDecision nav_link.
Proof. solve_decision. Defined.

(** The four links of both menus (lines 25-36, 118-145). *)
Definition main_links : list nav_link :=
  [mkNavLink "/" "Home" true; mkNavLink "/browse" "Browse" true; mkNavLink "/about" "About" true;
   mkNavLink "/contact" "Contact" true].

(** The links that depend on the session (lines 38-86, 147-202). *)
Definition session_links (user : option account) : list nav_link :=
  match user with
  | Some u =>
      match role_of u with
      | Student => [mkNavLink "/student/dashboard" "Dashboard" true]
      | Recruiter => [mkNavLink "/recruiter/dashboard" "Dashboard" true]
      | Admin => [mkNavLink "/admin" "Admin" false]
      end
  | None => [mkNavLink "/login" "Login" false; mkNavLink "/signup" "Sign Up" false]
  end.

(** The logo link (line 18), then the desktop menu. *)
Definition desktop_links (user : option account) : list nav_link :=
  mkNavLink "/" "SkillBridge" false :: main_links ++ session_links user.

Definition mobile_links (user : option account) : list nav_link :=
  main_links ++ session_links user.

(** [isActive(path)] (line 11). *)
Definition isActive (pathname path : string) : bool := String.eqb pathname path.

Definition bold_link (pathname : string) (l : nav_link) : bool :=
  nl_styled l && isActive pathname (nl_to l).

Record navbar_view : Type := mkNavbarView {
  nv_desktop : list (nav_link * bool);
  nv_logout : bool;
  nv_menu_open : bool;
  nv_mobile : list nav_link
}.

(** The render (lines 13-208). *)
Definition render_navbar (user : option account) (pathname : string) (isOpen : bool) : navbar_view :=
  mkNavbarView (map (fun l => (l, bold_link pathname l)) (desktop_links user))
    (bool_decide (user <> None)) isOpen (mobile_links user).

Record nav_state : Type := mkNav { location : string; isOpen : bool }.

Section Bar.
Context {S : Type} `{Storage S}.

(** The bar's events: a desktop link, the menu button ([setIsOpen(!isOpen)]),
    the close button, a link of the open mobile menu (which also closes
    it), the desktop logout and the mobile logout (which also closes the
    menu).  [logout] does not navigate. *)
Inductive nav_step : nav_state * auth_state (S := S) -> nav_state * auth_state (S := S) -> Prop :=
| NDesktopLink n st l :
    l ∈ desktop_links (user st) -> nav_step (n, st) (mkNav (nl_to l) (isOpen n), st)
| NToggle n st : nav_step (n, st) (mkNav (location n) (negb (isOpen n)), st)
| NClose n st : nav_step (n, st) (mkNav (location n) false, st)
| NMobileLink n st l :
    isOpen n = true -> l ∈ mobile_links (user st) -> nav_step (n, st) (mkNav (nl_to l) false, st)
| NLogout n st : user st <> None -> nav_step (n, st) (n, logout st)
| NMobileLogout n st :
    isOpen n = true -> user st <> None -> nav_step (n, st) (mkNav (location n) false, logout st).

End Bar.

(** ** Lemmas on matching *)

(** A parameter value a [<Link to>] carries through unchanged: non-empty,
    and without the characters that end a segment ([/]), start the query
    or the hash ([?], [#]) or an escape ([%]). *)
Definition url_char_ok (c : ascii) : bool :=
  negb (existsb (Ascii.eqb c) ["/"; "?"; "#"; "%"]%char).

Definition plain_segment (v : string) : bool :=
  negb (String.eqb v "") && forallb url_char_ok (list_ascii_of_string v).

(** The static segments of the table are not empty. *)
Definition lits_nonempty (p : list segment) : Prop :=
  Forall (fun seg => match seg with Lit l => js_lower l <> "" | Param _ => True end) p.

(** Two paths no pathname matches both: they differ in length, or in the
    text of a static segment at the same place. *)
Fixpoint disjoint (p1 p2 : list segment) : bool :=
  match p1, p2 with
  | [], [] => false
  | [], _ :: _ | _ :: _, [] => true
  | Lit a :: r1, Lit b :: r2 => negb (String.eqb (js_lower a) (js_lower b)) || disjoint r1 r2
  | _ :: r1, _ :: r2 => disjoint r1 r2
  end.

Lemma take_segment_plain (v : string) :
  forallb url_char_ok (list_ascii_of_string v) = true -> take_segment v = (v, EmptyString).
Proof.
  induction v as [|c v IH]; simpl; [done |]. intros [Hc Hv]%andb_true_iff.
  unfold url_char_ok in Hc; simpl in Hc. destruct (Ascii.eqb c "/"); [discriminate |].
  by rewrite IH.
Qed.

Lemma take_segment_slashes (s : string) : all_slashes s = true -> take_segment s = (EmptyString, s).
Proof. destruct s as [|c s]; simpl; [done |]. by intros [-> _]%andb_true_iff. Qed.

Lemma js_lower_empty (v : string) : js_lower v = "" -> v = "".
Proof. by destruct v. Qed.

(** After a slash and only slashes, no segment of a path matches. *)
Lemma match_segments_slashes (seg : segment) (rest : list segment) (s : string) :
  lits_nonempty (seg :: rest) -> all_slashes s = true -> match_segments (seg :: rest) s = None.
Proof.
  intros Hl. destruct s as [|c s']; simpl; [done |]. intros [Hc Hs]%andb_true_iff. rewrite Hc.
  rewrite take_segment_slashes by done. apply Forall_cons in Hl as [Hseg _].
  destruct seg as [l|k]; simpl; [|done]. by destruct (js_lower l).
Qed.

Lemma disjoint_sound (p1 p2 : list segment) (s : string) a b :
  lits_nonempty p1 -> lits_nonempty p2 -> disjoint p1 p2 = true ->
  match_segments p1 s = Some a -> match_segments p2 s = Some b -> False.
Proof.
  revert p2 s a b. induction p1 as [|seg1 r1 IH]; intros p2 s a b H1 H2 Hd Hm1 Hm2.
  - destruct p2 as [|seg2 r2]; [discriminate |]. simpl in Hm1.
    destruct (all_slashes s) eqn:Hs; [|discriminate]. by rewrite match_segments_slashes in Hm2.
  - destruct p2 as [|seg2 r2].
    + simpl in Hm2. destruct (all_slashes s) eqn:Hs; [|discriminate]. by rewrite match_segments_slashes in Hm1.
    + apply Forall_cons in H1 as [Hs1 H1]. apply Forall_cons in H2 as [Hs2 H2].
      destruct s as [|c s']; [discriminate |]. simpl in Hm1, Hm2.
      destruct (Ascii.eqb c "/"); [|discriminate].
      destruct (take_segment s') as [v r].
      destruct seg1 as [l1|k1], seg2 as [l2|k2]; simpl in Hd;
        repeat match goal with
        | H : (if ?b then _ else _) = Some _ |- _ => destruct b eqn:?; simpl in H; try discriminate
        | H : option_map _ ?o = Some _ |- _ => destruct o eqn:?; simpl in H; try discriminate
        end; sb_bool; try (eapply IH; [exact H1 | exact H2 | done | eassumption | eassumption]).
      destruct Hd as [Hd|Hd]; [|eapply IH; [exact H1 | exact H2 | done | eassumption | eassumption]].
      apply negb_true_iff, String.eqb_neq in Hd. congruence.
Qed.

(** Routes are matched through [match_segments], the root included. *)
Lemma route_matches_segments (p : list segment) (s : string) a :
  route_matches p s = Some a -> match_segments p s = Some a.
Proof.
  destruct p as [|seg p]; [|done]. simpl. destruct s as [|c s']; [discriminate |].
  destruct (Ascii.eqb c "/" && all_slashes s') eqn:Hs; [|discriminate]. intros [= <-]. simpl. by rewrite Hs.
Qed.

Lemma routes_lits (r : list segment * page) : r ∈ routes -> lits_nonempty r.1.
Proof.
  intros Hr. apply list_elem_of_In in Hr. unfold lits_nonempty.
  repeat destruct Hr as [<-|Hr]; try contradiction; repeat constructor; simpl; discriminate.
Qed.

(** Any two routes of the table are the same route or disjoint. *)
Lemma routes_pairwise :
  forallb (fun r1 => forallb (fun r2 => bool_decide (r1 = r2) || disjoint r1.1 r2.1) routes) routes = true.
Proof. vm_compute. reflexivity. Qed.

(** A digit of [js_int_string] and its sign are plain characters. *)
Lemma js_digit_char_ok (d : Z) : (0 <= d < 10)%Z -> url_char_ok (js_digit_char d) = true.
Proof.
  intros Hd. assert (d = 0 \/ d = 1 \/ d = 2 \/ d = 3 \/ d = 4 \/ d = 5 \/ d = 6 \/ d = 7 \/ d = 8 \/ d = 9)%Z as H by lia.
  repeat destruct H as [->|H]; try reflexivity. subst. reflexivity.
Qed.

(** The decimal text of an integer is a plain segment. *)
Lemma js_int_string_plain (n : Z) : plain_segment (js_int_string n) = true.
Proof.
  destruct (dec_digits_spec (Z.to_nat (Z.log2 (Z.abs n))) (Z.abs n)) as (Hne & Hall & _).
  { apply dec_digits_enough. lia. }
  assert (Hds : forallb url_char_ok (map js_digit_char (dec_digits (Z.to_nat (Z.log2 (Z.abs n))) (Z.abs n))) = true).
  { apply forallb_forall. intros c (d & <- & Hd)%in_map_iff.
    apply js_digit_char_ok. rewrite Forall_forall in Hall. apply Hall. by apply list_elem_of_In. }
  unfold js_int_string, plain_segment. destruct (Z.ltb n 0); simpl;
    rewrite ?list_ascii_of_string_of_list_ascii, ?Hds; [done |].
  destruct (dec_digits _ _); [done | reflexivity].
Qed.

(** A desktop or mobile link of the bar, for any session. *)
Lemma navbar_links_route (user : option account) (l : nav_link) :
  l ∈ desktop_links user \/ l ∈ mobile_links user -> is_Some (match_routes (nl_to l)).
Proof.
  intros Hl. assert (Hd : l ∈ desktop_links user) by (destruct Hl; [done | by right]). clear Hl.
  revert Hd. unfold desktop_links, session_links, main_links. destruct user as [u|]; [destruct (role_of u)|];
    intros Hd; apply list_elem_of_In in Hd; repeat destruct Hd as [<-|Hd]; try contradiction; by eexists.
Qed.

(** A plain parameter after [/internship/] matches the details route. *)
Lemma match_internship_path (v : string) :
  plain_segment v = true -> match_routes ("/internship/" ++ v) = Some (DetailsPage, [("id", v)]).
Proof.
  intros [Hne Hv]%andb_true_iff. apply negb_true_iff in Hne.
  unfold match_routes. simpl. rewrite take_segment_plain by done. simpl.
  change ("" ++ v)%string with v. by rewrite Hne.
Qed.

(** ** Properties *)

(** C21: No pathname matches two routes of the table: taking the first route
    that matches, as [match_routes] does, is taking the only one, the
    route react-router's ranking selects. *)
Theorem routes_unambiguous (s : string) (r1 r2 : list segment * page) ps1 ps2 :
  r1 ∈ routes -> r2 ∈ routes -> route_matches r1.1 s = Some ps1 -> route_matches r2.1 s = Some ps2 ->
  r1 = r2.
Proof.
  intros H1 H2 Hm1 Hm2. destruct (decide (r1 = r2)) as [|Hne]; [done | exfalso].
  pose proof routes_pairwise as Htab. rewrite forallb_forall in Htab.
  specialize (Htab r1 (proj1 (list_elem_of_In _ _) H1)). rewrite forallb_forall in Htab.
  specialize (Htab r2 (proj1 (list_elem_of_In _ _) H2)).
  apply orb_true_iff in Htab as [Heq%bool_decide_eq_true|Hd]; [done |].
  eapply (disjoint_sound r1.1 r2.1 s); [by apply routes_lits | by apply routes_lits | exact Hd
    | by apply route_matches_segments | by apply route_matches_segments].
Qed.

(** The card of a listing with a numeric id links to the details route,
    whose [:id] parameter is the decimal text of the id. *)
Theorem numeric_card_link_routes (i : listing) (n : Z) :
  lid i = JNum n -> match_routes (card_link i) = Some (DetailsPage, [("id", js_int_string n)]).
Proof. intros Hid. unfold card_link, js_id_string. rewrite Hid. apply match_internship_path, js_int_string_plain. Qed.

(** The pages the sign-in and sign-up forms navigate to are routes of the
    table: a session lands on its role's page. *)
Theorem auth_redirects_routed (u : account) :
  match_routes (login_route u) =
    Some (match role_of u with
          | Student => StudentDashboardPage | Recruiter => RecruiterDashboardPage | Admin => AdminPage
          end, []) /\
  match_routes (signup_route u) =
    Some (if decide (role_of u = Student) then StudentProfilePage else RecruiterDashboardPage, []).
Proof. unfold login_route, signup_route. by destruct (role_of u). Qed.

Section Runs.
Context {S : Type} `{Storage S}.

(** C22: Every link of the bar leads to a route: from a location that renders a
    page, no sequence of clicks on the bar reaches a pathname that renders
    nothing. *)
Theorem navbar_keeps_location_routed (n0 n : nav_state) (st0 st : auth_state (S := S)) :
  is_Some (match_routes (location n0)) -> star nav_step (n0, st0) (n, st) ->
  is_Some (match_routes (location n)).
Proof.
  intros H0 Hrun.
  apply (star_inv nav_step (fun x => is_Some (match_routes (location x.1))) (n0, st0) (n, st)); [|done|done].
  intros x y Hx Hstep. destruct Hstep; simpl in *; try done;
    eapply navbar_links_route; [by left | by right].
Qed.

End Runs.

(** Routing ignores case but [isActive] does not: at [/Browse] the browse
    page renders and no link of the bar is shown as the current one. *)
Example browse_case_unstyled :
  match_routes "/Browse" = Some (BrowsePage, []) /\
  Forall (fun lb => lb.2 = false) (nv_desktop (render_navbar None "/Browse" false)).
Proof. split; [reflexivity | repeat constructor]. Qed.

(** ** Witnesses *)

Lemma routes_unambiguous_witness :
  ([Lit "browse"], BrowsePage) = ([Lit "browse"], BrowsePage).
Proof.
  apply (routes_unambiguous "/browse/" _ _ [] []); [by right; left | by right; left | reflexivity | reflexivity].
Defined.

Lemma numeric_card_link_routes_witness :
  match_routes (card_link (demo_listing (JNum 7) "Frontend Intern")) = Some (DetailsPage, [("id", "7")]).
Proof. apply (numeric_card_link_routes _ 7). reflexivity. Defined.

(** A visitor opens the mobile menu and follows its Browse link. *)
Lemma navbar_keeps_location_routed_witness : is_Some (match_routes (location (mkNav "/browse" false))).
Proof.
  apply (navbar_keeps_location_routed (mkNav "/" false) _ demo_auth demo_auth); [by eexists |].
  eapply star_left; [apply NToggle |].
  eapply star_left; [apply (NMobileLink _ _ (mkNavLink "/browse" "Browse" true)); [reflexivity | decide_goal] |].
  apply star_refl.
Defined.

End Navigation.
