(* ===== verification/Stats.v ===== *)
(** * The home page's live figures: [DynamicStats.jsx]

    [DynamicStats] reads [internships], [companies] and [applications]
    from [useData()], each with the default [[]], and an effect on the
    three computes three figures ([calculateStats], lines 13-46) that it
    stores with [setStats].
    - The provider's value has no [applications] key
      ([Provider.data_value_keys]), so the default [[]] is a new array at
      every render: the effect's dependencies always changed, it runs
      after every commit and stores a new object, hence another render.
      [stats_cycle] is one render and the effect after it, with array and
      object references as in [Browse] (an allocation counter).
    - Listing objects have no [postedDate] nor [applicationDeadline]
      ([Listings.listing]), applications have [appliedDate] and not
      [applicationDate] ([Ledger.application]): [new Date(undefined)] is
      an invalid date, with which every comparison is false.
    Dates are day numbers; [parse_date] (the host's [Date] parser) and the
    values of [Math.random] are parameters. *)

From S2P Require Import Prelude.
From S2P Require Import Auth.
From S2P Require Import Listings.
From S2P Require Import Ledger.
From S2P Require Import Provider.

Module Stats.
Import Listings Ledger Provider.

Record stats : Type := mkStats {
  activeInternshipsThisWeek : Z;
  newCompaniesJoinedLastMonth : Z;
  applicationsSubmittedToday : Z
}.

#[export] Instance stats_eq_dec : EqDecision stats.
Proof. solve_decision. Defined.

(** The initial [useState] (lines 6-10). *)
Definition initial_stats : stats := mkStats 0 0 0.

(** [internship[k]] for the date fields: a listing object has [posted]. *)
Definition listing_date_field (i : listing) (k : string) : option string :=
  if String.eqb k "posted" then Some (posted i) else None.

(** [app[k]] for the date fields: an application object has [appliedDate]. *)
Definition application_date_field (a : application) (k : string) : option string :=
  if String.eqb k "appliedDate" then Some (appliedDate a) else None.

Section Calculate.
(** [new Date(s)] of a string, as a day number, [None] for an invalid date. *)
Variable parse_date : string -> option Z.

(** [new Date(v)]: [undefined] gives an invalid date. *)
Definition js_new_date (v : option string) : option Z :=
  match v with Some s => parse_date s | None => None end.

(** [a >= b] and [a > b] on dates: false when either is invalid ([NaN]). *)
Definition date_ge (a b : option Z) : bool :=
  match a, b with Some x, Some y => Z.geb x y | _, _ => false end.
Definition date_gt (a b : option Z) : bool :=
  match a, b with Some x, Some y => Z.gtb x y | _, _ => false end.

(** [appDate.toDateString() === today.toDateString()]. *)
Definition same_day (a : option Z) (today : Z) : bool :=
  match a with Some d => Z.eqb d today | None => false end.

(** [calculateStats] (lines 13-46); [r] is [Math.floor(Math.random() * 10)],
    drawn only when no application is dated today. *)
Definition calculateStats (today r : Z) (internships : list listing) (companies : list companyRec)
    (applications : list application) : stats :=
  let oneWeekAgo := (today - 7)%Z in
  let activeInternships :=
    List.length (List.filter (fun i =>
      date_ge (js_new_date (listing_date_field i "postedDate")) (Some oneWeekAgo) &&
      date_gt (js_new_date (listing_date_field i "applicationDeadline")) (Some today)) internships) in
  let simulatedNewCompanies := (Z.of_nat (List.length companies) / 20)%Z in
  let applicationsToday :=
    List.length (List.filter (fun a =>
      same_day (js_new_date (application_date_field a "applicationDate")) today) applications) in
  mkStats (Z.of_nat activeInternships)
    (if Z.gtb simulatedNewCompanies 0 then simulatedNewCompanies else 3)
    (if Nat.ltb 0 applicationsToday then Z.of_nat applicationsToday else (r + 5)%Z).

End Calculate.

(** What the component reads from [useData()]: each array with the
    reference React compares; [None] is a key the value lacks. *)
Record stats_env : Type := mkStatsEnv {
  se_internships : option (list listing * nat);
  se_companies : option (list companyRec * nat);
  se_applications : option (list application * nat)
}.

(** [useData()] of the provider ([DataContext.jsx], lines 438-465). *)
Definition provider_env (internships : list listing) (iref : nat) (companies : list companyRec) (cref : nat)
    (applications : list application) (aref : nat) : stats_env :=
  mkStatsEnv (context_field data_value_keys "internships" (internships, iref))
    (context_field data_value_keys "companies" (companies, cref))
    (context_field data_value_keys "applications" (applications, aref)).

(** The component's state: the figures, the reference of the stats object,
    the dependencies of the effect's last run, the next fresh reference,
    and the number of runs of the effect so far. *)
Record stats_state : Type := mkStatsState {
  ds_stats : stats;
  stats_ref : nat;
  ds_deps : option (nat * nat * nat);
  next_ref : nat;
  runs : nat
}.

Definition initial_stats_state : stats_state := mkStatsState initial_stats 0 None 1 0.

(** [const { k = [] } = useData()]: the value's array, or a new [[]]. *)
Definition with_default {A : Type} (v : option (list A * nat)) (fresh : nat) : list A * nat * nat :=
  match v with Some (l, r) => (l, r, fresh) | None => ([], fresh, S fresh) end.

Section Cycle.
Variable parse_date : string -> option Z.
(** [Math.floor(Math.random() * 10)] at the [k]-th run of the effect. *)
Variable rand : nat -> Z.
Variable today : Z.

(** One render and the effect after it (lines 5-49): the state after it,
    and whether a state changed, so that React renders again. *)
Definition stats_cycle (env : stats_env) (s : stats_state) : stats_state * bool :=
  let '(ints, iref, n1) := with_default (se_internships env) (next_ref s) in
  let '(comps, cref, n2) := with_default (se_companies env) n1 in
  let '(apps, aref, n3) := with_default (se_applications env) n2 in
  let deps := (iref, cref, aref) in
  if bool_decide (ds_deps s = Some deps)
  then (mkStatsState (ds_stats s) (stats_ref s) (ds_deps s) n3 (runs s), false)
  else
    let st := calculateStats parse_date today (rand (runs s)) ints comps apps in
    (mkStatsState st n3 (Some deps) (S n3) (S (runs s)), true).

(** React re-renders until a render changes no state; [None] when the fuel
    runs out first. *)
Fixpoint stats_settle (fuel : nat) (env : stats_env) (s : stats_state) : option stats_state :=
  match fuel with
  | O => None
  | S n => let '(s', again) := stats_cycle env s in if again then stats_settle n env s' else Some s'
  end.

End Cycle.

(** A card of the grid: label, value and icon ([statItems], lines 51-55). *)
Record stat_item : Type := mkStatItem { si_label : string; si_value : Z; si_icon : string }.

Definition statItems (st : stats) : list stat_item := [
  mkStatItem "Active Internships This Week" (activeInternshipsThisWeek st) "🚀";
  mkStatItem "New Companies Joined Last Month" (newCompaniesJoinedLastMonth st) "🏢";
  mkStatItem "Applications Submitted Today" (applicationsSubmittedToday st) "✉️"
].

(** The render (lines 57-77): each card shows [{item.value}+] under its
    icon, above its label. *)
Definition render_stats (st : stats) : list (string * string * string) :=
  map (fun it => (si_icon it, (js_int_string (si_value it) ++ "+")%string, si_label it)) (statItems st).

(** ** Lemmas *)

(** The provider's value has [internships] and [companies], and no
    [applications]. *)
Lemma provider_env_keys (ints : list listing) iref (comps : list companyRec) cref (apps : list application) aref :
  provider_env ints iref comps cref apps aref = mkStatsEnv (Some (ints, iref)) (Some (comps, cref)) None.
Proof. reflexivity. Qed.

(** Every reference the state holds was allocated before [next_ref]. *)
Definition refs_fresh (s : stats_state) : Prop :=
  (stats_ref s < next_ref s)%nat /\ (forall a b c, ds_deps s = Some (a, b, c) -> (c < next_ref s)%nat).

Lemma with_default_fresh {A : Type} (v : option (list A * nat)) (n : nat) :
  (n <= (with_default v n).2)%nat.
Proof. destruct v as [[l r]|]; simpl; lia. Qed.

(** No listing passes the test of line 24: listings have no [postedDate]. *)
Lemma no_listing_active (parse_date : string -> option Z) (today : Z) (ints : list listing) :
  List.filter (fun i =>
      date_ge (js_new_date parse_date (listing_date_field i "postedDate")) (Some (today - 7)%Z) &&
      date_gt (js_new_date parse_date (listing_date_field i "applicationDeadline")) (Some today)) ints = [].
Proof. by induction ints. Qed.

(** No application passes the test of line 38: applications have no
    [applicationDate]. *)
Lemma no_application_today (parse_date : string -> option Z) (today : Z) (apps : list application) :
  List.filter (fun a => same_day (js_new_date parse_date (application_date_field a "applicationDate")) today) apps = [].
Proof. by induction apps. Qed.

Section CycleLemmas.
Variable parse_date : string -> option Z.
Variable rand : nat -> Z.
Variable today : Z.

(** Without an [applications] key, each render allocates a new [[]], so
    the effect runs and stores a new object: a state change, hence
    another render. *)
Lemma stats_cycle_fresh (env : stats_env) (s : stats_state) :
  se_applications env = None -> refs_fresh s ->
  refs_fresh (stats_cycle parse_date rand today env s).1 /\ (stats_cycle parse_date rand today env s).2 = true.
Proof.
  intros Happs [Hs Hd]. unfold stats_cycle. rewrite Happs.
  pose proof (with_default_fresh (se_internships env) (next_ref s)) as H1.
  destruct (with_default (se_internships env) (next_ref s)) as [[ints iref] n1]. simpl in H1.
  pose proof (with_default_fresh (se_companies env) n1) as H2.
  destruct (with_default (se_companies env) n1) as [[comps cref] n2]. simpl in H2. simpl.
  rewrite bool_decide_false by (intros Heq; specialize (Hd _ _ _ Heq); lia).
  split; [split; simpl; [lia | intros a b c [= _ _ <-]; lia] | done].
Qed.

End CycleLemmas.

(** ** Properties *)

(** C17: The home page never settles: from any state whose references are
    fresh (the first render's among them), every render of
    [DynamicStats] under the provider schedules another one, whatever
    the fuel. *)
Theorem home_stats_never_settle (parse_date : string -> option Z) (rand : nat -> Z) (today : Z)
    (fuel : nat) (ints : list listing) iref (comps : list companyRec) cref (apps : list application) aref
    (s : stats_state) :
  refs_fresh s -> stats_settle parse_date rand today fuel (provider_env ints iref comps cref apps aref) s = None.
Proof.
  revert s. induction fuel as [|n IH]; intros s Hf; [done |]. simpl.
  destruct (stats_cycle_fresh parse_date rand today (provider_env ints iref comps cref apps aref) s)
    as [Hf' Hagain]; [done | done |].
  destruct (stats_cycle _ _ _ _ s) as [s' again]. simpl in *. subst again. by apply IH.
Qed.

(** C18: The three figures are made up: no listing counts as active (listings
    have no [postedDate]), so the first figure is 0; no application as
    submitted today (applications have no [applicationDate]), so the last
    figure is the random draw plus 5, whatever the listings and
    applications; the middle one is [Math.floor(5% of the companies)]
    when that is positive and 3 otherwise. *)
Theorem pulse_figures_fabricated (parse_date : string -> option Z) (today r : Z)
    (ints : list listing) (comps : list companyRec) (apps : list application) :
  calculateStats parse_date today r ints comps apps =
  mkStats 0 (let k := (Z.of_nat (List.length comps) / 20)%Z in if Z.gtb k 0 then k else 3) (r + 5).
Proof.
  unfold calculateStats. by rewrite no_listing_active, no_application_today.
Qed.

(** "Ensure at least 3" (line 44) does not hold: with 20 to 59 companies
    the middle figure is 1 or 2. *)
Lemma new_companies_below_3 (parse_date : string -> option Z) (today r : Z)
    (ints : list listing) (comps : list companyRec) (apps : list application) :
  (20 <= List.length comps < 60)%nat ->
  (newCompaniesJoinedLastMonth (calculateStats parse_date today r ints comps apps) < 3)%Z.
Proof.
  intros Hn. unfold calculateStats. cbn [newCompaniesJoinedLastMonth].
  pose proof (Z.div_mod (Z.of_nat (List.length comps)) 20 ltac:(lia)).
  pose proof (Z.mod_pos_bound (Z.of_nat (List.length comps)) 20 ltac:(lia)).
  destruct (Z.gtb_spec (Z.of_nat (List.length comps) / 20) 0); lia.
Qed.

(** What the section shows once the effect has run: [0+] active
    internships and the random draw plus 5 as today's applications. *)
Lemma render_stats_after_effect (parse_date : string -> option Z) (today r : Z)
    (ints : list listing) (comps : list companyRec) (apps : list application) :
  map (fun c => c.1.2) (render_stats (calculateStats parse_date today r ints comps apps)) =
  ["0+"; (js_int_string (let k := (Z.of_nat (List.length comps) / 20)%Z in if Z.gtb k 0 then k else 3) ++ "+")%string;
   (js_int_string (r + 5) ++ "+")%string].
Proof.
  unfold render_stats, calculateStats. by rewrite no_listing_active, no_application_today.
Qed.

(** ** Witnesses *)

Lemma initial_stats_fresh : refs_fresh initial_stats_state.
Proof. split; [simpl; lia | discriminate]. Qed.

Lemma home_stats_never_settle_witness :
  stats_settle (fun _ => Some 0%Z) (fun _ => 3%Z) 100 1000 (provider_env [] 1 [] 2 [] 3) initial_stats_state = None.
Proof. apply home_stats_never_settle. split; [simpl; lia | discriminate]. Defined.

End Stats.
