(* ===== verification/Home.v ===== *)
(** * The home page: [Home.jsx]

    The page renders a hero with two sign-up links that carry the role in
    the query ([/signup?role=student], [/signup?role=recruiter]), a quick
    search box without state whose button links to [/browse], the
    featured internships ([mockInternships.filter(i => i.featured)], the
    seed of [mockData.js] as in [Admin]) as cards linking to their details
    page, [DynamicStats] ([Stats]) and a last sign-up link.
    - [split_to] and [search_param] are how react-router's [<Link to>]
      splits a target into pathname and query, and how [URLSearchParams]
      reads a key (libraries; escapes are not decoded);
    - [home_card] reads the fields of a listing object as the JSX does: it
      reads [internship.paid], a property listing objects do not have
      (they have [isPaid]). *)

From S2P Require Import Prelude.
From S2P Require Import Store.
From S2P Require Import Auth.
From S2P Require Import Listings.
From S2P Require Import Forms.
From S2P Require Import Details.
From S2P Require Import Admin.
From S2P Require Import Navigation.

Module Home.
Import Auth Listings SignIn Details Admin Navigation.

(** [internship[k]] for the flags the card reads: a listing object has
    [isPaid]. *)
Definition listing_flag (i : listing) (k : string) : option bool :=
  if String.eqb k "isPaid" then Some (isPaid i) else None.

(** A featured card (lines 111-155). *)
Record home_card : Type := mkHomeCard {
  hc_logo : string;
  hc_company : string;
  hc_domain : string;
  hc_paid_badge : bool;
  hc_title : string;
  hc_description : string;
  hc_type : string;
  hc_stipend : string;
  hc_duration : string;
  hc_link : string
}.

Definition home_card_of (i : listing) : home_card :=
  mkHomeCard (logo i) (company i) (domain i) (default false (listing_flag i "paid")) (title i)
    (description i) (ltype i) (stipend i) (duration i) ("/internship/" ++ js_id_string (lid i)).

(** [featuredInternships] (line 7). *)
Definition featuredInternships (mockInternships : list admin_listing) : list listing :=
  map al_listing (List.filter featured mockInternships).

Record home_view : Type := mkHomeView {
  hero_links : list string;
  featured_cards : list home_card;
  section_links : list string;
  cta_link : string
}.

(** The render (lines 9-187). *)
Definition render_home (mockInternships : list admin_listing) : home_view :=
  mkHomeView ["/signup?role=student"; "/signup?role=recruiter"; "/browse"]
    (map home_card_of (featuredInternships mockInternships))
    ["/browse"; "/browse"] "/signup".

(** ** Targets of a [<Link to>] *)

(** The pathname and the query of a target: up to the first [?], and from it. *)
Fixpoint split_to (s : string) : string * string :=
  match s with
  | EmptyString => (EmptyString, EmptyString)
  | String c s' =>
      if Ascii.eqb c "?" then (EmptyString, s)
      else let '(p, q) := split_to s' in (String c p, q)
  end.

(** [new URLSearchParams(search).get(k)]: the value of the first [k=v]
    pair of the query. *)
Definition search_param (search k : string) : option string :=
  let body := match search with String "?" r => r | _ => search end in
  let pairs := map (fun kv => match js_split "=" kv with
                              | key :: rest => (key, js_join "=" rest)
                              | [] => (EmptyString, EmptyString)
                              end) (js_split "&" body) in
  option_map snd (List.find (fun kv => String.eqb kv.1 k) pairs).

(** Every target the page links to. *)
Definition home_links (mockInternships : list admin_listing) : list string :=
  let v := render_home mockInternships in
  hero_links v ++ map hc_link (featured_cards v) ++ section_links v ++ [cta_link v].

(** ** Lemmas *)

(** A text without [?]. *)
Definition no_query (s : string) : bool := forallb (fun c => negb (Ascii.eqb c "?")) (list_ascii_of_string s).

Lemma split_to_no_query (s : string) : no_query s = true -> split_to s = (s, EmptyString).
Proof.
  unfold no_query. induction s as [|c s IH]; simpl; [done |]. intros [Hc Hs]%andb_true_iff.
  destruct (Ascii.eqb c "?"); [discriminate |]. by rewrite IH.
Qed.

Lemma plain_no_query (s : string) : forallb url_char_ok (list_ascii_of_string s) = true -> no_query s = true.
Proof.
  unfold no_query. rewrite !forallb_forall. intros H c Hc. specialize (H c Hc).
  unfold url_char_ok in H; simpl in H. by destruct (Ascii.eqb c "?"); rewrite ?orb_true_r in H.
Qed.

Lemma split_to_app (s1 s2 : string) :
  no_query s1 = true ->
  split_to (s1 ++ s2) = ((s1 ++ (split_to s2).1)%string, (split_to s2).2).
Proof.
  unfold no_query. induction s1 as [|c s1 IH]; simpl.
  { intros _. change ("" ++ s2)%string with s2. destruct (split_to s2); reflexivity. }
  intros [Hc Hs]%andb_true_iff. destruct (Ascii.eqb c "?"); [discriminate |]. by rewrite IH.
Qed.

(** The link of a card of a listing with a numeric id. *)
Lemma card_target_routes (i : listing) (n : Z) :
  lid i = JNum n -> match_routes (split_to (hc_link (home_card_of i))).1 = Some (DetailsPage, [("id", js_int_string n)]).
Proof.
  intros Hid. pose proof (js_int_string_plain n) as Hp. apply andb_true_iff in Hp as [_ Hv].
  change (hc_link (home_card_of i)) with ("/internship/" ++ js_id_string (lid i))%string.
  unfold js_id_string. rewrite Hid.
  assert (E : split_to ("/internship/" ++ js_int_string n) = ("/internship/" ++ js_int_string n, "")%string).
  { rewrite split_to_app by reflexivity. rewrite (split_to_no_query _ (plain_no_query _ Hv)). cbn [fst snd].
    reflexivity. }
  rewrite E. apply match_internship_path, js_int_string_plain.
Qed.

(** ** Properties *)

(** Every link of the home page leads to a route of the table, when the
    seed's ids are numbers. *)
Theorem home_links_routed (mockInternships : list admin_listing) :
  (forall a, a ∈ mockInternships -> exists n, lid (al_listing a) = JNum n) ->
  forall t, t ∈ home_links mockInternships -> is_Some (match_routes (split_to t).1).
Proof.
  intros Hids t Ht. unfold home_links in Ht. simpl in Ht.
  do 3 (apply elem_of_cons in Ht as [->|Ht]; [by eexists |]).
  apply elem_of_app in Ht as [Ht|Ht].
  - apply list_elem_of_fmap in Ht as (c & -> & Hc). apply list_elem_of_fmap in Hc as (i & -> & Hi).
    apply list_elem_of_fmap in Hi as (a & -> & Ha). apply elem_of_list_filter_bool in Ha as [Ha _].
    destruct (Hids a Ha) as [n Hn]. eexists. by apply (card_target_routes _ n).
  - repeat (apply elem_of_cons in Ht as [->|Ht]; [by eexists |]). by apply not_elem_of_nil in Ht.
Qed.

(** The two sign-up links of the hero open the sign-up page with the
    student and the recruiter role preselected: the query they carry is
    the one the page's effect reads. *)
Theorem hero_links_preselect_role (mockInternships : list admin_listing) (fd : signup_form) :
  Forall2 (fun t r => match_routes (split_to t).1 = Some (SignupPage, []) /\
                      f_role (role_param_effect (search_param (split_to t).2 "role") fd) = r)
    (take 2 (hero_links (render_home mockInternships))) [Student; Recruiter].
Proof. repeat constructor. Qed.

(** No featured card shows the Paid badge: the card tests
    [internship.paid], which listing objects do not have. *)
Theorem paid_badge_never_shown (mockInternships : list admin_listing) :
  Forall (fun c => hc_paid_badge c = false) (featured_cards (render_home mockInternships)).
Proof. apply Forall_forall. intros c (i & -> & _)%list_elem_of_fmap. reflexivity. Qed.

(** ** Witnesses *)

Lemma home_links_routed_witness :
  is_Some (match_routes (split_to (hc_link (home_card_of (demo_listing (JNum 2) "Data Intern")))).1).
Proof.
  apply (home_links_routed seed); [|decide_goal].
  intros a Ha. apply list_elem_of_In in Ha. destruct Ha as [<-|[<-|[]]]; by eexists.
Defined.

End Home.
