(* ===== verification/Persist.v ===== *)
(** * The provider's arrays and the browser store: [DataContext.jsx]

    [DataProvider] keeps five arrays in [useState], each initialised from
    the store by [getStorage] (lines 126-132, in this order: internships,
    companies, applications, notifications, saved internships), and five
    effects (lines 206-210, in the same order) write each array back with
    [setStorage] whenever its reference changed.
    - [hydrate] and [mount] are the five initialisers; [fallback] names
      the seeds of [mockData.js] they fall back to;
    - [set_array] is a setter called by a handler: the provider's setters
      always receive a new array ([map], [filter] or a spread), so the
      array gets a fresh reference from an allocation counter;
    - [commit] is a commit and the effects after it: an effect runs when
      the reference of its array differs from the one of its last run,
      and every effect runs after the first commit;
    - [provider_step] is the lifecycle, any interleaving of setters and
      commits.
    The store is any [Storage] with its laws ([Store]); [parse] and
    [stringify] are [JSON.parse] and [JSON.stringify]. *)

From S2P Require Import Prelude.
From S2P Require Import Store.

Module Persist.
Import Store.

Inductive pkey : Type :=
| KInternships | KCompanies | KApplications | KNotifications | KSaved.

#[export] Instance pkey_eq_dec : EqDecision pkey.
Proof. solve_decision. Defined.

(** The store key of each array. *)
Definition key_name (k : pkey) : string :=
  match k with
  | KInternships => "internships"
  | KCompanies => "companies"
  | KApplications => "applications"
  | KNotifications => "notifications"
  | KSaved => "savedInternships"
  end.

(** The order of the initialisers (lines 126-132) and of the effects
    (lines 206-210). *)
Definition pkeys : list pkey := [KInternships; KCompanies; KApplications; KNotifications; KSaved].

(** An array of the provider's state and its reference. *)
Record cell : Type := mkCell { cval : json; cref : nat }.

Definition arrays : Type := pkey -> cell.

Definition upd (m : arrays) (k : pkey) (c : cell) : arrays :=
  fun k' => if decide (k' = k) then c else m k'.

Section Lifecycle.
Context {St : Type} `{StorageLaws St}.
Context (parse : string -> option json) (stringify : json -> string).
(** The seeds of [mockData.js]. *)
Context (mockInternships mockCompanies mockApplicants mockMessages : json).

(** The fallback of each initialiser. *)
Definition fallback (k : pkey) : json :=
  match k with
  | KInternships => mockInternships
  | KCompanies => mockCompanies
  | KApplications => mockApplicants
  | KNotifications => mockMessages
  | KSaved => JSArray []
  end.

(** The provider's state: its arrays, the references the effects saw at
    their last run ([None] before the first commit), the next fresh
    reference, and the store. *)
Record pstate : Type := mkPState {
  p_arrays : arrays;
  p_deps : option (pkey -> nat);
  p_next : nat;
  p_store : St
}.

(** The initialisers, in order, each reading (and maybe seeding) the store. *)
Fixpoint hydrate (ks : list pkey) (s : St) (m : arrays) (n : nat) : arrays * nat * St :=
  match ks with
  | [] => (m, n, s)
  | k :: ks' =>
      let '(v, s') := getStorage parse stringify s (key_name k) (fallback k) in
      hydrate ks' s' (upd m k (mkCell v n)) (S n)
  end.

(** The first render of the provider on the store [s]. *)
Definition mount (s : St) : pstate :=
  let h := hydrate pkeys s (fun _ => mkCell (JSArray []) 0) 0 in
  mkPState h.1.1 None h.1.2 h.2.

(** Whether the effect of [k] runs: its dependency changed. *)
Definition changed (p : pstate) (k : pkey) : bool :=
  match p_deps p with
  | None => true
  | Some d => negb (Nat.eqb (d k) (cref (p_arrays p k)))
  end.

(** The effects of lines 206-210, in order. *)
Fixpoint persist (p : pstate) (ks : list pkey) (s : St) : St :=
  match ks with
  | [] => s
  | k :: ks' =>
      persist p ks' (if changed p k then setStorage stringify s (key_name k) (cval (p_arrays p k)) else s)
  end.

(** A commit and the effects after it. *)
Definition commit (p : pstate) : pstate :=
  mkPState (p_arrays p) (Some (fun k => cref (p_arrays p k))) (p_next p) (persist p pkeys (p_store p)).

(** A setter called with a new array. *)
Definition set_array (p : pstate) (k : pkey) (v : json) : pstate :=
  mkPState (upd (p_arrays p) k (mkCell v (p_next p))) (p_deps p) (S (p_next p)) (p_store p).

Inductive provider_step : pstate -> pstate -> Prop :=
| PSet p k v : provider_step p (set_array p k v)
| PCommit p : provider_step p (commit p).

End Lifecycle.

Arguments pstate St : clear implicits.

(** The effects that run before the one of [k] in a commit. *)
Fixpoint effects_before (k : pkey) (ks : list pkey) : list pkey :=
  match ks with
  | [] => []
  | k' :: ks' => if decide (k' = k) then [] else k' :: effects_before k ks'
  end.

(** What every reachable state satisfies: references are below the
    counter, and an array whose reference is the one its effect last saw
    is the parsed text of its item. *)
Definition persist_inv {St : Type} `{Storage St} (stringify : json -> string) (p : pstate St) : Prop :=
  (forall k, (cref (p_arrays p k) < p_next p)%nat) /\
  (forall d, p_deps p = Some d -> forall k, (d k < p_next p)%nat /\
     (d k = cref (p_arrays p k) -> getItem (p_store p) (key_name k) = Some (stringify (cval (p_arrays p k))))).

(** ** Lemmas *)

Lemma key_name_inj (k k' : pkey) : key_name k = key_name k' -> k = k'.
Proof. destruct k, k'; simpl; congruence. Qed.

Lemma key_name_ne (k k' : pkey) : k <> k' -> key_name k <> key_name k'.
Proof. intros Hne Heq. by apply Hne, key_name_inj. Qed.

Lemma upd_eq (m : arrays) (k : pkey) (c : cell) : upd m k c k = c.
Proof. unfold upd. by rewrite decide_True. Qed.

Lemma upd_ne (m : arrays) (k k' : pkey) (c : cell) : k' <> k -> upd m k c k' = m k'.
Proof. unfold upd. intros. by rewrite decide_False. Qed.

Lemma NoDup_pkeys : NoDup pkeys.
Proof. decide_goal. Qed.

Lemma elem_of_pkeys (k : pkey) : k ∈ pkeys.
Proof. destruct k; decide_goal. Qed.

Lemma pkeys_split (k : pkey) :
  pkeys = app (effects_before k pkeys) (k :: drop (S (List.length (effects_before k pkeys))) pkeys) /\
  (k ∉ effects_before k pkeys) /\ (k ∉ drop (S (List.length (effects_before k pkeys))) pkeys).
Proof. destruct k; (split; [reflexivity | split; decide_goal]). Qed.

#[export] Hint Resolve NoDup_pkeys elem_of_pkeys key_name_ne : sb.
#[export] Hint Rewrite upd_eq : sb_rw.

Section Proofs.
Context {St : Type} `{StorageLaws St}.
Context (parse : string -> option json) (stringify : json -> string).
Context (mockInternships mockCompanies mockApplicants mockMessages : json).
Local Abbreviation fb := (fallback mockInternships mockCompanies mockApplicants mockMessages).
Local Abbreviation getS := (getStorage parse stringify).
Local Abbreviation hyd := (hydrate parse stringify mockInternships mockCompanies mockApplicants mockMessages).
Local Abbreviation mnt := (mount parse stringify mockInternships mockCompanies mockApplicants mockMessages).

(** What [getStorage] returns depends on the store only through the item
    it reads. *)
Lemma getStorage_fst_item (s s' : St) (key : string) (f : json) :
  getItem s key = getItem s' key -> (getS s key f).1 = (getS s' key f).1.
Proof.
  intros E. unfold getStorage. rewrite E.
  destruct (getItem s' key) as [t|]; [|done].
  destruct (String.eqb t ""); [done |]. destruct (parse t); [|done].
  by destruct (invalid_shape f j).
Qed.

(** The text a commit wrote is read back as the value it printed. *)
Lemma getStorage_stored (s : St) (key : string) (f v : json) :
  getItem s key = Some (stringify v) -> stringify v <> "" -> parse (stringify v) = Some v ->
  invalid_shape f v = false -> getS s key f = (v, s).
Proof.
  intros Hget Hne Hp Hinv. unfold getStorage. rewrite Hget, Hp, Hinv.
  by rewrite (proj2 (String.eqb_neq _ _) Hne).
Qed.

Lemma hydrate_other (ks : list pkey) (s : St) (m : arrays) (n : nat) (k : pkey) :
  k ∉ ks -> (hyd ks s m n).1.1 k = m k.
Proof.
  revert s m n. induction ks as [|k0 ks IH]; intros s m n Hk; [done |]. cbn [hydrate].
  apply not_elem_of_cons in Hk as [Hne Hk].
  destruct (getS s (key_name k0) (fb k0)) as [v s']. rewrite IH by done. by apply upd_ne.
Qed.

Lemma hydrate_item (ks : list pkey) (s : St) (m : arrays) (n : nat) (k : pkey) :
  k ∉ ks -> getItem (hyd ks s m n).2 (key_name k) = getItem s (key_name k).
Proof.
  revert s m n. induction ks as [|k0 ks IH]; intros s m n Hk; [done |]. cbn [hydrate].
  apply not_elem_of_cons in Hk as [Hne Hk].
  pose proof (proj1 (getStorage_frame parse stringify s (key_name k0) (key_name k) (fb k0)
    (key_name_ne _ _ (not_eq_sym Hne)))) as Hf.
  destruct (getS s (key_name k0) (fb k0)) as [v s']. rewrite IH by done. exact Hf.
Qed.

(** Each initialiser's array is what [getStorage] reads of the store
    hydration started from. *)
Lemma hydrate_value (ks : list pkey) (s : St) (m : arrays) (n : nat) (k : pkey) :
  NoDup ks -> k ∈ ks -> cval ((hyd ks s m n).1.1 k) = (getS s (key_name k) (fb k)).1.
Proof.
  revert s m n. induction ks as [|k0 ks IH]; intros s m n Hnd Hk; [by apply not_elem_of_nil in Hk |].
  apply NoDup_cons in Hnd as [Hk0 Hnd]. cbn [hydrate].
  destruct (decide (k = k0)) as [->|Hne].
  - destruct (getS s (key_name k0) (fb k0)) as [v s']. by rewrite hydrate_other, upd_eq.
  - apply elem_of_cons in Hk as [->|Hk]; [done |].
    pose proof (proj1 (getStorage_frame parse stringify s (key_name k0) (key_name k) (fb k0)
      (key_name_ne _ _ (not_eq_sym Hne)))) as Hf.
    destruct (getS s (key_name k0) (fb k0)) as [v s']. rewrite IH by done.
    by apply getStorage_fst_item.
Qed.

Lemma hydrate_store (ks : list pkey) (s : St) (m : arrays) (n : nat) :
  (forall k, k ∈ ks -> (getS s (key_name k) (fb k)).2 = s) -> (hyd ks s m n).2 = s.
Proof.
  revert m n. induction ks as [|k0 ks IH]; intros m n Hs; [done |]. cbn [hydrate].
  pose proof (Hs k0 ltac:(set_solver)) as E.
  destruct (getS s (key_name k0) (fb k0)) as [v s']. simpl in E. subst s'.
  apply IH. intros k Hk. apply Hs. set_solver.
Qed.

Lemma hydrate_refs (ks : list pkey) (s : St) (m : arrays) (n : nat) :
  (forall k, k ∉ ks -> (cref (m k) < n)%nat) ->
  forall k, (cref ((hyd ks s m n).1.1 k) < (hyd ks s m n).1.2)%nat.
Proof.
  revert s m n. induction ks as [|k0 ks IH]; intros s m n Hm; [intros k; apply Hm, not_elem_of_nil |].
  cbn [hydrate]. destruct (getS s (key_name k0) (fb k0)) as [v s']. apply IH.
  intros k Hk. destruct (decide (k = k0)) as [->|Hne]; [rewrite upd_eq; simpl; lia |].
  rewrite upd_ne by done. enough (cref (m k) < n)%nat by lia. apply Hm. by apply not_elem_of_cons.
Qed.

Lemma mount_value (s : St) (k : pkey) :
  cval (p_arrays (mnt s) k) = (getS s (key_name k) (fb k)).1.
Proof. apply hydrate_value; auto with sb. Qed.

Lemma persist_app (p : pstate St) (ks1 ks2 : list pkey) (s : St) :
  persist stringify p (app ks1 ks2) s = persist stringify p ks2 (persist stringify p ks1 s).
Proof. revert s. induction ks1 as [|k ks1 IH]; intros s; [done |]. apply IH. Qed.

(** An item the effects do not write keeps its text. *)
Lemma persist_keeps (p : pstate St) (ks : list pkey) (s : St) (k : pkey) :
  changed p k = false \/ k ∉ ks ->
  getItem (persist stringify p ks s) (key_name k) = getItem s (key_name k).
Proof.
  revert s. induction ks as [|k0 ks IH]; intros s Hk; [done |]. cbn [persist].
  rewrite IH by (destruct Hk as [?|Hk]; [by left | right; set_solver]).
  destruct (changed p k0) eqn:Hc; [|done].
  destruct (decide (k0 = k)) as [->|Hne]; [destruct Hk as [Hk|Hk]; [congruence | set_solver] |].
  by apply setStorage_other, key_name_ne.
Qed.

Section Writable.
(** Every write succeeds (no quota, as in [mem_storage]). *)
Hypothesis writes_succeed : forall (s : St) key text, is_Some (setItem s key text).

(** An effect that runs leaves its array's text in its item. *)
Lemma persist_written (p : pstate St) (ks : list pkey) (s : St) (k : pkey) :
  NoDup ks -> k ∈ ks -> changed p k = true ->
  getItem (persist stringify p ks s) (key_name k) = Some (stringify (cval (p_arrays p k))).
Proof.
  revert s. induction ks as [|k0 ks IH]; intros s Hnd Hk Hc; [by apply not_elem_of_nil in Hk |].
  apply NoDup_cons in Hnd as [Hk0 Hnd]. cbn [persist].
  destruct (decide (k = k0)) as [->|Hne].
  - rewrite persist_keeps by (by right). rewrite Hc.
    destruct (writes_succeed s (key_name k0) (stringify (cval (p_arrays p k0)))) as [s' Hs'].
    by destruct (setStorage_same _ _ _ _ _ Hs') as [-> ->].
  - apply elem_of_cons in Hk as [->|Hk]; [done |]. by apply IH.
Qed.

Lemma set_array_inv (p : pstate St) (k : pkey) (v : json) :
  persist_inv stringify p -> persist_inv stringify (set_array p k v).
Proof.
  intros [Hr Hd]. split.
  - intros k'. simpl. destruct (decide (k' = k)) as [->|Hne]; [rewrite upd_eq; simpl; lia |].
    rewrite upd_ne by done. specialize (Hr k'). lia.
  - intros d Hdeps k'. simpl in *. destruct (Hd d Hdeps k') as [Hlt Hm]. split; [lia |].
    destruct (decide (k' = k)) as [->|Hne]; [rewrite upd_eq; simpl; lia |].
    rewrite upd_ne by done. exact Hm.
Qed.

Lemma commit_inv (p : pstate St) :
  persist_inv stringify p -> persist_inv stringify (commit stringify p).
Proof.
  intros [Hr Hd]. split; [exact Hr |]. intros d [= <-] k. split; [apply Hr |]. intros _.
  unfold commit; cbn [p_store p_arrays].
  destruct (changed p k) eqn:Hc; [by apply persist_written; auto with sb |].
  rewrite persist_keeps by (by left).
  unfold changed in Hc. destruct (p_deps p) as [d0|] eqn:Hdeps; [|done].
  apply negb_false_iff, Nat.eqb_eq in Hc. by apply (Hd d0 eq_refl k).
Qed.

Lemma mount_inv (s : St) : persist_inv stringify (mnt s).
Proof.
  split; [|done]. intros k. apply hydrate_refs. intros k' Hk'. by pose proof (elem_of_pkeys k').
Qed.

Lemma reachable_inv (s : St) (p : pstate St) :
  star (provider_step stringify) (mnt s) p -> persist_inv stringify p.
Proof.
  apply (star_inv _ (persist_inv stringify)); [|apply mount_inv].
  intros x y Hx Hstep. destruct Hstep; [by apply set_array_inv | by apply commit_inv].
Qed.

End Writable.

(** A write that fails leaves the item as the store had it before the
    commit. *)
Lemma persist_failed (p : pstate St) (l1 l2 : list pkey) (s : St) (k : pkey) :
  k ∉ l1 -> k ∉ l2 ->
  setItem (persist stringify p l1 s) (key_name k) (stringify (cval (p_arrays p k))) = None ->
  getItem (persist stringify p (app l1 (k :: l2)) s) (key_name k) = getItem s (key_name k).
Proof.
  intros H1 H2 Hfail. rewrite persist_app. cbn [persist].
  rewrite persist_keeps by (by right).
  destruct (changed p k); [unfold setStorage; rewrite Hfail |]; apply persist_keeps; by right.
Qed.

End Proofs.

(** ** Properties *)

Section Properties.
Context {St : Type} `{StorageLaws St}.
Context (parse : string -> option json) (stringify : json -> string).
Context (mockInternships mockCompanies mockApplicants mockMessages : json).
Local Abbreviation fb := (fallback mockInternships mockCompanies mockApplicants mockMessages).
Local Abbreviation getS := (getStorage parse stringify).
Local Abbreviation mnt := (mount parse stringify mockInternships mockCompanies mockApplicants mockMessages).
Local Abbreviation step := (provider_step stringify).

(** C25: After every commit of a run of the provider, each of the five
    items of the store holds the text of its array, when writes succeed:
    the effects keep the store in step with the state. *)
Theorem store_mirrors_after_commit (writes_succeed : forall (s : St) key text, is_Some (setItem s key text))
    (s : St) (p : pstate St) :
  star step (mnt s) p ->
  forall k, getItem (p_store (commit stringify p)) (key_name k) = Some (stringify (cval (p_arrays p k))).
Proof.
  intros Hreach k.
  destruct (commit_inv stringify writes_succeed p (reachable_inv parse stringify _ _ _ _ writes_succeed s p Hreach)) as [_ Hd].
  exact (proj2 (Hd _ eq_refl k) eq_refl).
Qed.

(** C27: Reloading the page after a commit gives back the provider's
    arrays and leaves the store as it is, when writes succeed and
    [JSON.parse] inverts [JSON.stringify] on the arrays (a non-empty text
    of the fallback's shape). *)
Theorem reload_restores_memory (writes_succeed : forall (s : St) key text, is_Some (setItem s key text))
    (s : St) (p : pstate St) :
  star step (mnt s) p ->
  (forall k, parse (stringify (cval (p_arrays p k))) = Some (cval (p_arrays p k)) /\
             stringify (cval (p_arrays p k)) <> "" /\ invalid_shape (fb k) (cval (p_arrays p k)) = false) ->
  (forall k, cval (p_arrays (mnt (p_store (commit stringify p))) k) = cval (p_arrays p k)) /\
  p_store (mnt (p_store (commit stringify p))) = p_store (commit stringify p).
Proof.
  intros Hreach Hcodec.
  destruct (commit_inv stringify writes_succeed p (reachable_inv parse stringify _ _ _ _ writes_succeed s p Hreach)) as [_ Hd].
  assert (Hread : forall k, getS (p_store (commit stringify p)) (key_name k) (fb k) =
                            (cval (p_arrays p k), p_store (commit stringify p))).
  { intros k. destruct (Hcodec k) as (Hp & Hne & Hinv).
    by apply getStorage_stored; [exact (proj2 (Hd _ eq_refl k) eq_refl) | ..]. }
  split; [intros k; by rewrite mount_value, Hread |].
  apply hydrate_store. intros k _. by rewrite Hread.
Qed.

(** C26: The first commit overwrites an item the initialiser could not
    parse with the fallback's text, when writes succeed: [getStorage]
    leaves unparseable text in place "to prevent data loss", but the
    effect of the array it initialised writes the fallback over it. *)
Theorem first_commit_overwrites_unparseable
    (writes_succeed : forall (s : St) key text, is_Some (setItem s key text))
    (s : St) (k : pkey) (stored : string) :
  getItem s (key_name k) = Some stored -> stored <> "" -> parse stored = None ->
  getItem (p_store (commit stringify (mnt s))) (key_name k) = Some (stringify (fb k)).
Proof.
  intros Hget Hne Hp. unfold commit; cbn [p_store p_arrays].
  rewrite persist_written by auto with sb. rewrite mount_value. unfold getStorage.
  by rewrite Hget, Hp, (proj2 (String.eqb_neq _ _) Hne).
Qed.

(** C28: When the write of an array's effect fails (the quota is
    exceeded), its item keeps the text it had before the commit, and a
    reload reads that stale text instead of the array the page showed. *)
Theorem failed_write_reloads_stale (p : pstate St) (k : pkey) :
  setItem (persist stringify p (effects_before k pkeys) (p_store p)) (key_name k)
    (stringify (cval (p_arrays p k))) = None ->
  getItem (p_store (commit stringify p)) (key_name k) = getItem (p_store p) (key_name k) /\
  cval (p_arrays (mnt (p_store (commit stringify p))) k) = (getS (p_store p) (key_name k) (fb k)).1.
Proof.
  intros Hfail. destruct (pkeys_split k) as (Hs & Hb & Ha).
  assert (E : getItem (p_store (commit stringify p)) (key_name k) = getItem (p_store p) (key_name k)).
  { unfold commit; cbn [p_store]. rewrite Hs. by apply persist_failed. }
  split; [exact E |]. rewrite mount_value. by apply getStorage_fst_item.
Qed.

End Properties.

(** ** Witnesses *)

(** The five items as [JSON.stringify([])] writes them, in a store whose
    quota they fill exactly. *)
Definition full_store : web_storage :=
  mkWebStorage (list_to_map (map (fun k => (key_name k, "[]")) pkeys)) 71.

Local Abbreviation demo_mount := (mount demo_parse demo_stringify (JSArray []) (JSArray []) (JSArray []) (JSArray [])).

(** A run: mount on an empty store, commit, unsave the last saved listing. *)
Definition demo_run : pstate (gmap string string) :=
  set_array (commit demo_stringify (demo_mount ∅)) KSaved (JSArray []).

Lemma demo_run_reachable : star (provider_step demo_stringify) (demo_mount ∅) demo_run.
Proof. eapply star_step; [eapply star_step; [apply star_refl | apply PCommit] | apply PSet]. Qed.

Lemma store_mirrors_after_commit_witness :
  getItem (p_store (commit demo_stringify demo_run)) "savedInternships" = Some "[]".
Proof.
  exact (store_mirrors_after_commit demo_parse demo_stringify (JSArray []) (JSArray []) (JSArray []) (JSArray [])
    mem_setItem_some ∅ demo_run demo_run_reachable KSaved).
Defined.

Lemma reload_restores_memory_witness :
  p_store (demo_mount (p_store (commit demo_stringify demo_run))) = p_store (commit demo_stringify demo_run).
Proof.
  apply (reload_restores_memory demo_parse demo_stringify _ _ _ _ mem_setItem_some ∅ demo_run
    demo_run_reachable).
  intros []; (split; [reflexivity | split; [discriminate | reflexivity]]).
Defined.

Lemma first_commit_overwrites_unparseable_witness :
  getItem (p_store (commit demo_stringify (demo_mount {["internships" := "{oops"]}))) "internships" = Some "[]".
Proof.
  apply (first_commit_overwrites_unparseable demo_parse demo_stringify (JSArray []) (JSArray []) (JSArray []) (JSArray [])
    mem_setItem_some _ KInternships "{oops");
    [reflexivity | discriminate | reflexivity].
Defined.

(** On the full store: mount, commit, then the listings become [null]. *)
Definition stale_run : pstate web_storage :=
  set_array (commit demo_stringify (demo_mount full_store)) KInternships JSNull.

(** The page shows [null] for the listings, the reload reads [[]]. *)
Lemma failed_write_reloads_stale_witness :
  cval (p_arrays stale_run KInternships) = JSNull /\
  cval (p_arrays (demo_mount (p_store (commit demo_stringify stale_run))) KInternships) = JSArray [].
Proof.
  split; [reflexivity |].
  assert (Hfail : setItem (persist demo_stringify stale_run (effects_before KInternships pkeys) (p_store stale_run))
                    (key_name KInternships) (demo_stringify (cval (p_arrays stale_run KInternships))) = None)
    by (vm_compute; reflexivity).
  rewrite (proj2 (failed_write_reloads_stale demo_parse demo_stringify (JSArray []) (JSArray []) (JSArray [])
    (JSArray []) stale_run KInternships Hfail)).
  vm_compute. reflexivity.
Defined.

End Persist.
