(* ===== verification/EditProfile.v ===== *)
(** * The edit-profile form, its modal and the status badge

    [EditProfileForm.jsx] keeps a copy of the session account's editable
    fields ([formData]), re-initialised by an effect whenever the [user]
    object changes; its inputs set one field each ([handleChange] by the
    input's [name], [handleLinkChange] by site), and its submit calls
    [updateUser(formData)] ([Auth.updateUser]), then [alert]s and closes
    the modal, or shows the error's message.
    - [edit_world] is the form with what it acts on: the identity store,
      the reference of the [user] object (a counter bumped by every
      [setUser]), whether [onClose] was called, and the alerts shown;
    - [edit_step] is the form's events, each followed by the effect; the
      [required] name input blocks submission of an empty name, as the
      browser's constraint validation does; [world_step] adds a change of
      the session by another component.
    [EditProfileModal.jsx] is a render and the click path of its three
    elements with [stopPropagation]; [StatusBadge.jsx] is a style lookup
    on an object literal, which falls through to [Object.prototype].
    No page renders the form or the badge, and [StudentProfile.jsx] only
    imports the modal ([Student.edit_profile_no_effect]). *)

From S2P Require Import Prelude.
From S2P Require Import Store.
From S2P Require Import Keywords.
From S2P Require Import Auth.

Module EditProfile.
Import Store Keywords Auth.

(** [formData] (lines 7-17). *)
Record form_data : Type := mkForm {
  f_name : string;
  f_phone : string;
  f_location : string;
  f_about : string;
  f_github : string;
  f_portfolio : string;
  f_linkedin : string
}.

#[export] Instance form_data_eq_dec : EqDecision form_data.
Proof. solve_decision. Defined.

(** [user?.links?.[site] || '']: the object's property, as the
    association list's entry. *)
Definition link_of (u : account) (site : string) : string :=
  match links u with
  | Some l => match List.find (fun kv => String.eqb kv.1 site) l with Some kv => kv.2 | None => "" end
  | None => ""
  end.

(** The initial state and the effect's value (lines 8-16 and 24-32). *)
Definition form_of_user (u : option account) : form_data :=
  match u with
  | None => mkForm "" "" "" "" "" "" ""
  | Some u =>
      mkForm (name u) (default "" (phone u)) (default "" (ulocation u)) (default "" (about u))
        (link_of u "github") (link_of u "portfolio") (link_of u "linkedin")
  end.

(** The [name] attributes of the inputs [handleChange] serves. *)
Inductive text_field : Type := FName | FAbout | FPhone | FLocation.

(** [setFormData(prev => ({ ...prev, [name]: value }))] (lines 36-39). *)
Definition handleChange (f : form_data) (fld : text_field) (value : string) : form_data :=
  match fld with
  | FName => mkForm value (f_phone f) (f_location f) (f_about f) (f_github f) (f_portfolio f) (f_linkedin f)
  | FAbout => mkForm (f_name f) (f_phone f) (f_location f) value (f_github f) (f_portfolio f) (f_linkedin f)
  | FPhone => mkForm (f_name f) value (f_location f) (f_about f) (f_github f) (f_portfolio f) (f_linkedin f)
  | FLocation => mkForm (f_name f) (f_phone f) value (f_about f) (f_github f) (f_portfolio f) (f_linkedin f)
  end.

Inductive site : Type := Github | Portfolio | Linkedin.

(** [handleLinkChange(site, value)] (lines 41-49). *)
Definition handleLinkChange (f : form_data) (s : site) (value : string) : form_data :=
  match s with
  | Github => mkForm (f_name f) (f_phone f) (f_location f) (f_about f) value (f_portfolio f) (f_linkedin f)
  | Portfolio => mkForm (f_name f) (f_phone f) (f_location f) (f_about f) (f_github f) value (f_linkedin f)
  | Linkedin => mkForm (f_name f) (f_phone f) (f_location f) (f_about f) (f_github f) (f_portfolio f) value
  end.

(** The object [updateUser] receives: the keys of [formData]. *)
Definition patch_of_form (f : form_data) : patch :=
  mkPatch (Some (f_name f)) None None None None None None (Some (f_phone f)) (Some (f_location f))
    (Some [("github", f_github f); ("portfolio", f_portfolio f); ("linkedin", f_linkedin f)])
    (Some (f_about f)) None None None.

(** The form's own state (lines 7-19) and the [user] reference its effect
    last saw. *)
Record edit_state : Type := mkEdit {
  formData : form_data;
  isSaving : bool;
  saveError : string;
  ep_deps : option nat
}.

Section Form.
Context {St : Type} `{Storage St}.
Context (enc : account -> json) (stringify : json -> string).
(** [err.message] of the [QuotaExceededError] the browser throws. *)
Context (quota_message : string).

Record edit_world : Type := mkWorld {
  auth : @auth_state St;
  user_ref : nat;
  form : edit_state;
  closed : bool;
  alerts : list string
}.

(** The effect of lines 22-34, after a commit. *)
Definition edit_effect (w : edit_world) : edit_world :=
  if bool_decide (ep_deps (form w) = Some (user_ref w)) then w
  else mkWorld (auth w) (user_ref w)
         (mkEdit (form_of_user (user (auth w))) (isSaving (form w)) (saveError (form w)) (Some (user_ref w)))
         (closed w) (alerts w).

(** The first render and the effect after it. *)
Definition mount_form (st : @auth_state St) (ref : nat) : edit_world :=
  edit_effect (mkWorld st ref (mkEdit (form_of_user (user st)) false "" None) false []).

Definition set_form (w : edit_world) (f : form_data) : edit_world :=
  mkWorld (auth w) (user_ref w) (mkEdit f (isSaving (form w)) (saveError (form w)) (ep_deps (form w)))
    (closed w) (alerts w).

(** [handleSubmit] (lines 51-65): [updateUser] sets the session (a new
    object) when there is one, then writes the store; a write that throws
    is caught and its message shown ([|| 'Failed to save profile.']);
    otherwise the alert and [onClose()]; [isSaving] ends [false]. *)
Definition handleSubmit (w : edit_world) : edit_world :=
  let f := formData (form w) in
  let '(st', r) := updateUser enc stringify (auth w) (patch_of_form f) in
  let ref' := match user (auth w) with Some _ => S (user_ref w) | None => user_ref w end in
  match r with
  | inl _ =>
      mkWorld st' ref'
        (mkEdit f false (if String.eqb quota_message "" then "Failed to save profile." else quota_message)
           (ep_deps (form w)))
        (closed w) (alerts w)
  | inr _ =>
      mkWorld st' ref' (mkEdit f false "" (ep_deps (form w))) true (alerts w ++ ["Profile updated successfully!"])
  end.

(** The Cancel button: [onClose]. *)
Definition handleCancel (w : edit_world) : edit_world :=
  mkWorld (auth w) (user_ref w) (form w) true (alerts w).

(** The form's events while it is open; a submit needs a non-empty name
    (the [required] input). *)
Inductive edit_step : edit_world -> edit_world -> Prop :=
| EChange w fld v : closed w = false ->
    edit_step w (edit_effect (set_form w (handleChange (formData (form w)) fld v)))
| ELink w s v : closed w = false ->
    edit_step w (edit_effect (set_form w (handleLinkChange (formData (form w)) s v)))
| ESubmit w : closed w = false -> f_name (formData (form w)) <> "" ->
    edit_step w (edit_effect (handleSubmit w))
| ECancel w : closed w = false -> isSaving (form w) = false ->
    edit_step w (handleCancel w).

(** With another component setting the session (a new [user] object). *)
Inductive world_step : edit_world -> edit_world -> Prop :=
| WForm w w' : edit_step w w' -> world_step w w'
| WAuth w (st' : @auth_state St) : closed w = false ->
    world_step w (edit_effect (mkWorld st' (S (user_ref w)) (form w) (closed w) (alerts w))).

End Form.

Arguments edit_world St : clear implicits.

(** ** [EditProfileModal.jsx] *)

(** The elements a click can land on, innermost first on its path. *)
Inductive modal_target : Type := CloseButton | Inner | Backdrop.

(** The render: nothing when closed (line 4), else the title and the
    children. *)
Definition render_modal {A : Type} (isOpen : bool) (title : string) (children : A) : option (string * A) :=
  if isOpen then Some (title, children) else None.

(** The handler of each element: whether it calls [onClose], and whether
    it stops the propagation (lines 9, 13, 18). *)
Definition modal_handler (t : modal_target) : bool * bool :=
  match t with
  | CloseButton => (true, false)
  | Inner => (false, true)
  | Backdrop => (true, false)
  end.

(** The elements from the target up to the backdrop. *)
Definition modal_path (t : modal_target) : list modal_target :=
  match t with
  | CloseButton => [CloseButton; Inner; Backdrop]
  | Inner => [Inner; Backdrop]
  | Backdrop => [Backdrop]
  end.

(** Bubbling: the handlers run from the target outwards until one stops
    the propagation; the number of [onClose] calls. *)
Fixpoint bubble (path : list modal_target) : nat :=
  match path with
  | [] => 0
  | t :: rest =>
      let '(closes, stop) := modal_handler t in
      (if closes then 1 else 0) + (if stop then 0 else bubble rest)
  end.

Definition modal_click (t : modal_target) : nat := bubble (modal_path t).

(** ** [StatusBadge.jsx] *)

(** [statusStyles] (lines 2-10). *)
Definition statusStyles : list (string * string) := [
  ("Applied", "bg-blue-100 text-blue-700");
  ("Shortlisted", "bg-green-100 text-green-700");
  ("Rejected", "bg-red-100 text-red-700");
  ("pending", "bg-yellow-100 text-yellow-700");
  ("shortlisted", "bg-green-100 text-green-700");
  ("rejected", "bg-red-100 text-red-700");
  ("hired", "bg-purple-100 text-purple-700")
].

(** [statusStyles[status] || 'bg-gray-100 text-gray-700'] (line 12): an
    own property, or an [Object.prototype] method (a function, truthy,
    whose text the template interpolates), or the default. *)
Inductive badge_style : Type :=
| StyleClass (cls : string)
| StyleFunctionText (method : string).

Definition badge_style_of (status : string) : badge_style :=
  match List.find (fun kv => String.eqb kv.1 status) statusStyles with
  | Some kv => StyleClass kv.2
  | None =>
      if bool_decide (status ∈ object_prototype_methods) then StyleFunctionText status
      else StyleClass "bg-gray-100 text-gray-700"
  end.

(** The account fields the form cannot change. *)
Definition creds (u : account) : Z * string * string * role := (uid u, email u, password u, role_of u).

(** The session and the roster keep the credentials they had in [st0];
    roster entries with the session's id have its credentials; the
    session's name is not empty. *)
Definition creds_inv {St : Type} (st0 st : @auth_state St) : Prop :=
  option_map creds (user st) = option_map creds (user st0) /\
  map creds (users st) = map creds (users st0) /\
  (forall u v, user st = Some u -> v ∈ users st -> uid v = uid u -> creds v = creds u) /\
  (forall u, user st = Some u -> name u <> "").

(** ** Lemmas *)

(** The form read back from the account its data patched is the data. *)
Lemma form_of_patch (u : account) (f : form_data) :
  form_of_user (Some (apply_patch u (patch_of_form f))) = f.
Proof. by destruct f. Qed.

Lemma creds_patch (u : account) (f : form_data) : creds (apply_patch u (patch_of_form f)) = creds u.
Proof. reflexivity. Qed.

Section FormLemmas.
Context {St : Type} `{StorageLaws St}.
Context (enc : account -> json) (stringify : json -> string) (quota_message : string).
Local Abbreviation upd := (updateUser enc stringify).

Lemma edit_effect_auth (w : edit_world St) : auth (edit_effect w) = auth w.
Proof. unfold edit_effect. by case_bool_decide. Qed.

Lemma edit_effect_closed (w : edit_world St) : closed (edit_effect w) = closed w.
Proof. unfold edit_effect. by case_bool_decide. Qed.

(** The effect leaves the form's data as it is, or resets it from the
    session. *)
Lemma edit_effect_error (w : edit_world St) :
  saveError (form (edit_effect w)) = saveError (form w) /\ alerts (edit_effect w) = alerts w.
Proof. unfold edit_effect. by case_bool_decide. Qed.

Lemma edit_effect_form (w : edit_world St) :
  formData (form (edit_effect w)) = formData (form w) \/
  formData (form (edit_effect w)) = form_of_user (user (auth w)).
Proof. unfold edit_effect. case_bool_decide; [by left | by right]. Qed.

Lemma handleSubmit_auth (w : edit_world St) :
  auth (handleSubmit enc stringify quota_message w) = (upd (auth w) (patch_of_form (formData (form w)))).1.
Proof. unfold handleSubmit. destruct (upd _ _) as [st' [e|u]]; reflexivity. Qed.

Lemma handleSubmit_form (w : edit_world St) :
  formData (form (handleSubmit enc stringify quota_message w)) = formData (form w).
Proof. unfold handleSubmit. destruct (upd _ _) as [st' [e|u]]; reflexivity. Qed.

(** What [updateUser] does to the session and the roster. *)
Lemma updateUser_cases (st : @auth_state St) (p : patch) :
  (user st = None /\ (upd st p).1 = st) \/
  (exists u, user st = Some u /\ user (upd st p).1 = Some (apply_patch u p) /\
     (users (upd st p).1 = users st \/ users (upd st p).1 = replace_by_id u (apply_patch u p) (users st))).
Proof.
  unfold updateUser. destruct (user st) as [u|]; [right; exists u | by left]. split; [done |].
  destruct (setItem _ _ _) as [s1|]; [|by split; [|left]].
  destruct (setItem s1 _ _); (split; [done | by right]).
Qed.

Lemma creds_replace (u uu : account) (l : list account) :
  creds uu = creds u -> (forall v, v ∈ l -> uid v = uid u -> creds v = creds u) ->
  map creds (replace_by_id u uu l) = map creds l.
Proof.
  intros Hc Hl. unfold replace_by_id. rewrite map_map. apply map_ext_in. intros v Hv.
  destruct (Z.eqb_spec (uid v) (uid u)) as [E|]; [|done].
  rewrite Hc. symmetry. apply Hl; [by apply list_elem_of_In | done].
Qed.

(** A save through the form keeps the invariant. *)
Lemma creds_inv_submit (st0 st : @auth_state St) (f : form_data) :
  f_name f <> "" -> creds_inv st0 st -> creds_inv st0 (upd st (patch_of_form f)).1.
Proof.
  intros Hn (Hu & Hus & Hid & Hname).
  destruct (updateUser_cases st (patch_of_form f)) as [[_ ->]|(u & Hsu & Hsu' & Hus')]; [done |].
  unfold creds_inv. rewrite Hsu'. split; [by rewrite <- Hu, Hsu | split; [|split]].
  - rewrite <- Hus. destruct Hus' as [->| ->]; [done |].
    apply creds_replace; [done | intros v Hv Hvu; exact (Hid u v Hsu Hv Hvu)].
  - intros u' v [= <-] Hv Hvu. rewrite creds_patch. destruct Hus' as [Hl|Hl]; rewrite Hl in Hv.
    + exact (Hid u v Hsu Hv Hvu).
    + unfold replace_by_id in Hv. apply list_elem_of_In, in_map_iff in Hv as (v0 & <- & Hv0).
      destruct (Z.eqb_spec (uid v0) (uid u)) as [E|Hne]; [done |]. by exfalso; apply Hne.
  - by intros u' [= <-].
Qed.

Lemma edit_step_creds (st0 : @auth_state St) (w w' : edit_world St) :
  edit_step enc stringify quota_message w w' -> creds_inv st0 (auth w) -> creds_inv st0 (auth w').
Proof.
  intros Hs Hi. destruct Hs as [w fld v _|w s v _|w _ Hn|w _ _]; rewrite ?edit_effect_auth; try done.
  rewrite handleSubmit_auth. by apply creds_inv_submit.
Qed.

End FormLemmas.

(** ** Properties *)

Section Properties.
Context {St : Type} `{StorageLaws St}.
Context (enc : account -> json) (stringify : json -> string) (quota_message : string).
Local Abbreviation submit := (handleSubmit enc stringify quota_message).

(** C31: Saving the form, when the store takes the writes, closes it with
    the success alert and patches the session with the form's data; the
    form read back from the saved account, and the form after the effect
    that follows, are the data that was submitted. *)
Theorem saved_form_round_trip (Hw : writes_succeed (S := St)) (w : edit_world St) (u : account) :
  user (auth w) = Some u ->
  closed (edit_effect (submit w)) = true /\
  alerts (edit_effect (submit w)) = alerts w ++ ["Profile updated successfully!"] /\
  user (auth (edit_effect (submit w))) = Some (apply_patch u (patch_of_form (formData (form w)))) /\
  form_of_user (user (auth (edit_effect (submit w)))) = formData (form w) /\
  formData (form (edit_effect (submit w))) = formData (form w).
Proof.
  intros Hu. rewrite edit_effect_closed, (proj2 (edit_effect_error _)), edit_effect_auth.
  assert (Hsave : exists st', updateUser enc stringify (auth w) (patch_of_form (formData (form w))) = (st', inr tt) /\
                              user st' = Some (apply_patch u (patch_of_form (formData (form w))))).
  { unfold updateUser. rewrite Hu. cbv zeta.
    destruct (Hw (store (auth w)) "skillbridge_user" (user_json enc stringify (apply_patch u (patch_of_form (formData (form w))))))
      as [s1 ->].
    destruct (Hw s1 "skillbridge_users" (users_json enc stringify (replace_by_id u (apply_patch u (patch_of_form (formData (form w)))) (users (auth w)))))
      as [s2 ->].
    by eexists. }
  destruct Hsave as (st' & Hupd & Hst').
  assert (Hauth : auth (submit w) = st') by (by rewrite handleSubmit_auth, Hupd).
  rewrite Hauth, Hst', form_of_patch.
  unfold handleSubmit; rewrite Hupd. split_and!; try done.
  destruct (edit_effect_form (mkWorld st' (match user (auth w) with Some _ => S (user_ref w) | None => user_ref w end)
    (mkEdit (formData (form w)) false "" (ep_deps (form w))) true (alerts w ++ ["Profile updated successfully!"])))
    as [->| ->]; [done |]. cbn [auth]. by rewrite Hst', form_of_patch.
Qed.

(** C39: When the first write of the save throws (quota), the form stays
    open with the error's message, while the session already holds the
    edited account and the store still has the old one: a reload loses
    edits the page shows as current. *)
Theorem form_quota_error_keeps_session_edits (w : edit_world St) (u : account) :
  user (auth w) = Some u -> closed w = false ->
  setItem (store (auth w)) "skillbridge_user" (user_json enc stringify (apply_patch u (patch_of_form (formData (form w))))) = None ->
  closed (edit_effect (submit w)) = false /\
  saveError (form (edit_effect (submit w))) =
    (if String.eqb quota_message "" then "Failed to save profile." else quota_message) /\
  alerts (edit_effect (submit w)) = alerts w /\
  user (auth (edit_effect (submit w))) = Some (apply_patch u (patch_of_form (formData (form w)))) /\
  store (auth (edit_effect (submit w))) = store (auth w).
Proof.
  intros Hu Hc Hfail. rewrite edit_effect_closed, (proj1 (edit_effect_error _)), (proj2 (edit_effect_error _)), edit_effect_auth.
  assert (Hupd : updateUser enc stringify (auth w) (patch_of_form (formData (form w))) =
                 (mkAuthState (users (auth w)) (Some (apply_patch u (patch_of_form (formData (form w))))) (store (auth w)),
                  inl QuotaExceeded)).
  { unfold updateUser. rewrite Hu. cbv zeta. by rewrite Hfail. }
  unfold handleSubmit. rewrite Hupd. by split_and!.
Qed.

(** C34: The form cannot change credentials: over any run of its events,
    from a session whose name is set and whose roster entries with its id
    share its credentials, the session and every roster entry keep their
    id, email, password and role, and the session's name stays non-empty
    (the [required] name input). *)
Theorem edit_form_keeps_credentials (w0 w : edit_world St) :
  creds_inv (auth w0) (auth w0) ->
  star (edit_step enc stringify quota_message) w0 w -> creds_inv (auth w0) (auth w).
Proof.
  intros Hinit. apply (star_inv _ (fun x => creds_inv (auth w0) (auth x))); [|done].
  intros x y Hx Hs. by apply (edit_step_creds enc stringify quota_message (auth w0) x y).
Qed.

(** Without a session, [updateUser] returns at once and the form still
    reports success and closes: nothing was saved. *)
Lemma signed_out_save_reports_success (w : edit_world St) :
  user (auth w) = None ->
  auth (edit_effect (submit w)) = auth w /\ closed (edit_effect (submit w)) = true /\
  alerts (edit_effect (submit w)) = alerts w ++ ["Profile updated successfully!"].
Proof.
  intros Hu. rewrite edit_effect_closed, (proj2 (edit_effect_error _)), edit_effect_auth.
  unfold handleSubmit, updateUser. by rewrite Hu.
Qed.

End Properties.

(** ** The modal and the badge *)

(** A click on the close button calls [onClose] once (the inner box stops
    the propagation before the backdrop), inside the box never, on the
    backdrop once. *)
Lemma modal_click_closes (t : modal_target) :
  modal_click t = match t with Inner => 0 | _ => 1 end%nat.
Proof. by destruct t. Qed.

(** Every status the application writes has a colour of its own; the
    name of an [Object.prototype] method gets the method's text in its
    class. *)
Lemma badge_styles :
  Forall (fun st => badge_style_of st <> StyleClass "bg-gray-100 text-gray-700")
    ["Applied"; "Shortlisted"; "Rejected"; "pending"; "shortlisted"; "rejected"] /\
  badge_style_of "constructor" = StyleFunctionText "constructor".
Proof. split; [repeat constructor; discriminate | reflexivity]. Qed.

(** ** Witnesses *)

Local Abbreviation demo_form := (mount_form (St := gmap string string) (mkAuthState [demo_student] (Some demo_student) ∅) 0).

Lemma saved_form_round_trip_witness :
  form_of_user (user (auth (edit_effect (handleSubmit demo_enc demo_str "" demo_form)))) =
  formData (form demo_form).
Proof. exact (proj1 (proj2 (proj2 (proj2 (saved_form_round_trip demo_enc demo_str "" mem_writes_succeed demo_form demo_student eq_refl))))). Defined.

Lemma form_quota_error_keeps_session_edits_witness :
  saveError (form (edit_effect (handleSubmit demo_enc demo_str "" (mount_form (St := web_storage) (mkAuthState [demo_student] (Some demo_student) full_store) 0)))) =
  "Failed to save profile.".
Proof.
  assert (Hfail : setItem full_store "skillbridge_user" "ali@x.com" = None) by (vm_compute; reflexivity).
  exact (proj1 (proj2 (form_quota_error_keeps_session_edits (St := web_storage) demo_enc demo_str ""
    (mount_form (mkAuthState [demo_student] (Some demo_student) full_store) 0) demo_student eq_refl eq_refl
    Hfail))).
Defined.

Lemma edit_form_keeps_credentials_witness :
  creds_inv (auth demo_form)
    (auth (edit_effect (handleSubmit demo_enc demo_str "" (edit_effect (set_form demo_form
      (handleChange (formData (form demo_form)) FName "Alia")))))).
Proof.
  apply (edit_form_keeps_credentials demo_enc demo_str "" demo_form).
  - split_and!; [done | done | | ].
    + intros u v [= <-] Hv _. apply list_elem_of_In in Hv as [<-|[]]. done.
    + by intros u [= <-].
  - eapply star_step; [eapply star_step; [apply star_refl | by apply EChange] |].
    apply ESubmit; [reflexivity | discriminate].
Defined.

End EditProfile.
