(* ===== verification/Static.v ===== *)
(** * The footer, the contact page and the About page: [Footer.jsx],
      [Contact.jsx], [About.jsx]

    These components have no React state, but they are not inert:
    - Their links are plain [<a href>] anchors, not react-router [<Link>]s:
      - an internal one loads the whole document again, and the providers
        mount anew from the store;
      - six are the fragment ["#"];
      - those with [target="_blank"] open a new tab and leave the page as
        it is;
      - the [mailto:] one hands its address to the mail client.
    - The contact form has neither an [onSubmit] handler nor an [action],
      and none of its controls has a [name].  Its submit button makes the
      browser submit the form by GET to the document's own address, with
      an empty form data set.
    - The FAQ entries are [<details>] elements, which the browser opens
      and closes on a click on their summary.

    The contact page's state is what the browser keeps in its controls and
    [<details>] elements ([contact_page]); [contact_step] is one user
    action on it.  The browser's check of the [type="email"] input is an
    argument ([email_ok]).  The rest of [About.jsx] is text. *)

From S2P Require Import Prelude.
From S2P Require Import Navigation.
From S2P Require Import Home.

Module Static.
Import Navigation Home.

(** ** Anchors *)

(** An anchor: its [href], whether it has [target="_blank"], its label. *)
Record anchor : Type := mkAnchor {
  a_href : string;
  a_blank : bool;
  a_label : string
}.

(** What following an anchor does. *)
Inductive anchor_target : Type :=
| DocumentLoad (path : string)     (** a new document at a path of the site *)
| SameDocumentFragment             (** ["#"]: scroll to the top, no load *)
| NewTab (url : string)            (** [target="_blank"]: this page stays *)
| MailClient (url : string)        (** [mailto:]: this page stays *)
| LeaveSite (url : string).

Definition follow_anchor (a : anchor) : anchor_target :=
  if a_blank a then NewTab (a_href a)
  else if String.prefix "/" (a_href a) then DocumentLoad (a_href a)
  else if String.eqb (a_href a) "#" then SameDocumentFragment
  else if String.prefix "mailto:" (a_href a) then MailClient (a_href a)
  else LeaveSite (a_href a).

(** Whether following the anchor unloads the page it is on. *)
Definition unloads (t : anchor_target) : bool :=
  match t with DocumentLoad _ | LeaveSite _ => true | _ => false end.

(** ** [Footer.jsx] *)

(** The anchors of the footer (lines 20-23, 31-33, 41-43, 54-63). *)
Definition footer_links : list anchor := [
  mkAnchor "/" false "Home"; mkAnchor "/browse" false "Browse Internships";
  mkAnchor "/about" false "About Us"; mkAnchor "/contact" false "Contact";
  mkAnchor "#" false "Create Profile"; mkAnchor "#" false "Find Internships";
  mkAnchor "#" false "Career Tips"; mkAnchor "#" false "Post Internship";
  mkAnchor "#" false "Find Talent"; mkAnchor "#" false "Pricing";
  mkAnchor "https://github.com" true "GitHub"; mkAnchor "https://linkedin.com" true "LinkedIn";
  mkAnchor "https://facebook.com" true "Facebook";
  mkAnchor "mailto:contact@skillbridge.com" false "Email"].

(** ** [About.jsx] *)

(** The call to action of lines 124-129, the page's only anchor. *)
Definition about_cta : anchor := mkAnchor "/contact" false "Contact Us".

(** ** [Contact.jsx] *)

(** A control of a form: its [name] attribute and its value. *)
Record control : Type := mkControl { ctl_name : option string; ctl_value : string }.

(** The class of every control of the form (lines 20, 28, 38, 45, 58). *)
Definition field_class : string :=
  "w-full px-4 py-3 rounded-lg border border-gray-200 focus:outline-none focus:ring-2 focus:ring-primary-500".

(** The options of the subject [<select>] (lines 46-50); the first is
    selected at first. *)
Definition subject_options : list string :=
  ["General Inquiry"; "Partnership"; "Technical Support"; "Feedback"; "Other"].

(** The five controls of lines 18-60: none has a [name]. *)
Definition contact_controls (first last email subject message : string) : list control :=
  [mkControl None first; mkControl None last; mkControl None email; mkControl None subject;
   mkControl None message].

(** The query of a GET submission: the [name=value] pairs of the named
    controls (the values here need no escaping). *)
Definition form_query (cs : list control) : string :=
  js_join "&" (omap (fun c => match ctl_name c with
                              | Some n => Some (n ++ "=" ++ ctl_value c)%string
                              | None => None
                              end) cs).

(** A click on Send Message (lines 63-68) on the page at [here]: the
    browser blocks an email it does not accept, and otherwise loads
    [here] with the form's query. *)
Definition contact_submit (email_ok : string -> bool) (here first last email subject message : string)
    : option string :=
  if email_ok email then Some (here ++ "?" ++ form_query (contact_controls first last email subject message))%string
  else None.

(** The Contact Information card (lines 74-96): heading and lines. *)
Definition contact_info : list (string * list string) := [
  ("Email", ["contact@skillbridge.com"]);
  ("Address", ["123 Innovation Street"; "San Francisco, CA 94102"]);
  ("Hours", ["Monday - Friday: 9:00 AM - 6:00 PM"; "Saturday - Sunday: Closed"])].

(** The Follow Us anchors (lines 102-141). *)
Definition social_links : list anchor := [
  mkAnchor "https://twitter.com" true "Twitter"; mkAnchor "https://linkedin.com" true "LinkedIn";
  mkAnchor "https://github.com" true "GitHub"; mkAnchor "https://facebook.com" true "Facebook"].

(** The FAQ's [<details>] elements (lines 149-175): summary and answer. *)
Definition faq : list (string * string) := [
  ("How do I find internships?",
   "Browse our internships page and use filters to find opportunities that match your skills and interests.");
  ("Is SkillBridge free for students?", "Yes! SkillBridge is completely free for students to use.");
  ("How can companies post internships?",
   "Companies can sign up as recruiters and post internships through their dashboard.")].

(** What the browser keeps on the page: the controls' values and whether
    each [<details>] is open. *)
Record contact_page : Type := mkContactPage {
  cp_first : string;
  cp_last : string;
  cp_email : string;
  cp_subject : string;
  cp_message : string;
  cp_open : list bool
}.

Definition initial_contact : contact_page :=
  mkContactPage "" "" "" "General Inquiry" "" (map (fun _ => false) faq).

(** A user action on the page. *)
Inductive contact_field : Type := FFirst | FLast | FEmail | FMessage.

Inductive contact_event : Type :=
| CType (f : contact_field) (v : string)
| CSelect (v : string)
| CToggle (i : nat)
| CFollow (a : anchor)
| CSubmit.

(** The page after the action, or where the tab goes. *)
Inductive contact_outcome : Type :=
| CStay (p : contact_page)
| CGo (t : anchor_target).

Definition contact_step (email_ok : string -> bool) (here : string) (p : contact_page)
    (e : contact_event) : contact_outcome :=
  let 'mkContactPage fi la em su me op := p in
  match e with
  | CType FFirst v => CStay (mkContactPage v la em su me op)
  | CType FLast v => CStay (mkContactPage fi v em su me op)
  | CType FEmail v => CStay (mkContactPage fi la v su me op)
  | CType FMessage v => CStay (mkContactPage fi la em su v op)
  | CSelect v => CStay (if bool_decide (v ∈ subject_options) then mkContactPage fi la em v me op else p)
  | CToggle i => CStay (mkContactPage fi la em su me (alter negb i op))
  | CFollow a => if unloads (follow_anchor a) then CGo (follow_anchor a) else CStay p
  | CSubmit =>
      match contact_submit email_ok here fi la em su me with
      | Some url => CGo (DocumentLoad url)
      | None => CStay p
      end
  end.

(** A sequence of actions, and the page it ends on when none of them
    leaves it. *)
Fixpoint contact_run (email_ok : string -> bool) (here : string) (p : contact_page)
    (es : list contact_event) : contact_outcome :=
  match es with
  | [] => CStay p
  | e :: es' =>
      match contact_step email_ok here p e with
      | CStay p' => contact_run email_ok here p' es'
      | CGo t => CGo t
      end
  end.

(** ** Properties *)

(** Every footer anchor to a path of the site lands on a route of
    [App.jsx], through a full document load; six anchors go nowhere. *)
Lemma footer_links_routed :
  Forall (fun l => match follow_anchor l with
                   | DocumentLoad p => is_Some (match_routes (split_to p).1)
                   | _ => True
                   end) footer_links /\
  List.length (List.filter (fun l => String.eqb (a_href l) "#") footer_links) = 6%nat.
Proof. split; [repeat constructor; by eexists | reflexivity]. Qed.

(** Whatever is typed, sending the contact form reloads the page it is on
    with an empty query, or does nothing: the message goes nowhere. *)
Lemma contact_message_dropped (email_ok : string -> bool) (here first last email subject message : string) :
  contact_submit email_ok here first last email subject message = None \/
  contact_submit email_ok here first last email subject message = Some (here ++ "?")%string.
Proof. unfold contact_submit. destruct (email_ok email); [right | left]; reflexivity. Qed.

(** From the contact route, the reload lands on the contact page again. *)
Lemma contact_reload_route (here : string) :
  match_routes here = Some (ContactPage, []) -> no_query here = true ->
  match_routes (split_to (here ++ "?")%string).1 = Some (ContactPage, []).
Proof.
  intros Hr Hq. rewrite split_to_app by done. change (split_to "?") with ("", "?"). cbn [fst].
  by rewrite js_append_nil_r.
Qed.

(** The About page's call to action reloads the document on the contact
    page. *)
Lemma about_cta_contact :
  follow_anchor about_cta = DocumentLoad "/contact" /\
  match_routes (split_to "/contact").1 = Some (ContactPage, []).
Proof. split; reflexivity. Qed.

(** The Follow Us anchors keep the page: what the visitor has typed into
    the contact form survives them. *)
Lemma social_links_keep_page (email_ok : string -> bool) (here : string) (p : contact_page) :
  Forall (fun a => contact_step email_ok here p (CFollow a) = CStay p) social_links.
Proof. destruct p. repeat constructor. Qed.

(** Typing, choosing a subject and opening FAQ entries never leave the
    page, and keep one open flag per entry. *)
Lemma contact_local_actions_stay (email_ok : string -> bool) (here : string) (p : contact_page)
    (es : list contact_event) :
  Forall (fun e => match e with CType _ _ | CSelect _ | CToggle _ => True | _ => False end) es ->
  exists p', contact_run email_ok here p es = CStay p' /\ List.length (cp_open p') = List.length (cp_open p).
Proof.
  intros Hes. revert p. induction Hes as [| e es He _ IH]; intros p; [by exists p |].
  destruct p as [fi la em su me op].
  destruct e as [[] v | v | i | a |]; try contradiction; cbn [contact_run contact_step];
    try case_bool_decide; edestruct IH as (p' & Hrun & Hlen); exists p'; (split; [exact Hrun |]);
    rewrite Hlen; cbn [cp_open]; rewrite ?length_alter; reflexivity.
Qed.

End Static.
