(* ===== verification/Theme.v ===== *)
(** * The Tailwind configuration: [tailwind.config.js]

    The configuration only extends Tailwind's default theme
    ([theme.extend]): a spacing scale, border radii, font sizes with their
    line heights, and five colours.  Two of these colours, [primary] and
    [accent], are objects of shades with the single shade [600].

    Tailwind merges [theme.extend.colors] into its default palette key by
    key: two objects of shades are merged shade by shade, and any other
    extension value replaces the default one.  It then flattens the
    palette to names such as [primary-600] ([DEFAULT] naming the colour
    itself).  A colour utility such as [ring-primary-500] produces CSS
    only when its colour name is a key of the flattened palette.  This
    file models these rules of the library from its documentation:
    - [merge_colors] is the merge;
    - [flatten_palette] is the flattening;
    - [class_color] resolves a class once its variant prefixes such as
      [focus:] are removed.

    The default palette is an argument ([defaults]).  The theorems need
    of it only what Tailwind's palette has: no name starting with
    [primary-], and none of the configuration's colour names.

    The theorems apply the resolution to class names of the pages:
    - the contact form's controls ([Static.field_class]);
    - the selected choice buttons of the posting form
      ([Recruiter.choice_button_class]);
    - the student dashboard's stat cards ([Dashboard.render_stat_cards]).
    A class such as [ring-2] shares its prefix with the colour utilities
    and is not a colour: [class_color] says only which colour a class
    gives. *)

From S2P Require Import Prelude.
From S2P Require Import Recruiter.
From S2P Require Import Student.
From S2P Require Import Static.

Module Theme.

(** ** [tailwind.config.js] *)

(** The files scanned for class names (lines 3-6). *)
Definition content : list string := ["./index.html"; "./src/**/*.{js,ts,jsx,tsx}"].

(** [theme.extend.spacing] (lines 9-34). *)
Definition spacing : list (string * string) := [
  ("1/2", "0.125rem"); ("1", "0.25rem"); ("1.5", "0.375rem"); ("2", "0.5rem");
  ("2.5", "0.625rem"); ("3", "0.75rem"); ("3.5", "0.875rem"); ("4", "1rem");
  ("5", "1.25rem"); ("6", "1.5rem"); ("8", "2rem"); ("10", "2.5rem"); ("12", "3rem");
  ("16", "4rem"); ("20", "5rem"); ("24", "6rem"); ("32", "8rem"); ("40", "10rem");
  ("48", "12rem"); ("56", "14rem"); ("64", "16rem"); ("72", "18rem"); ("80", "20rem");
  ("96", "24rem")].

(** [theme.extend.borderRadius] (lines 35-44). *)
Definition borderRadius : list (string * string) := [
  ("none", "0"); ("sm", "0.125rem"); ("md", "0.375rem"); ("lg", "0.5rem");
  ("xl", "0.75rem"); ("2xl", "1rem"); ("3xl", "1.5rem"); ("full", "9999px")].

(** [theme.extend.fontSize] (lines 45-69): the size and the
    [lineHeight]. *)
Definition fontSize : list (string * (string * string)) := [
  ("xs", ("0.75rem", "1rem")); ("sm", ("0.875rem", "1.25rem")); ("base", ("1rem", "1.5rem"));
  ("lg", ("1.125rem", "1.75rem")); ("xl", ("1.25rem", "1.75rem")); ("2xl", ("1.5rem", "2rem"));
  ("3xl", ("1.875rem", "2.25rem")); ("4xl", ("2.25rem", "2.5rem")); ("5xl", ("3rem", "1"));
  ("6xl", ("3.75rem", "1")); ("7xl", ("4.5rem", "1")); ("8xl", ("6rem", "1"));
  ("9xl", ("8rem", "1"));
  ("h1", ("3rem", "1")); ("h2", ("2.25rem", "2.5rem")); ("h3", ("1.875rem", "2.25rem"));
  ("h4", ("1.5rem", "2rem")); ("h5", ("1.25rem", "1.75rem")); ("h6", ("1.125rem", "1.75rem"));
  ("body-sm", ("0.875rem", "1.25rem")); ("body-base", ("1rem", "1.5rem"));
  ("body-lg", ("1.125rem", "1.75rem"))].

(** A value of a colour palette: a colour, or an object of shades. *)
Inductive color_value : Type :=
| Flat (v : string)
| Shades (s : list (string * string)).

(** [theme.extend.colors] (lines 70-80). *)
Definition colors : list (string * color_value) := [
  ("primary", Shades [("600", "#2C7BE5")]);
  ("accent", Shades [("600", "#1A2A3A")]);
  ("deep-navy", Flat "#1A2A3A");
  ("slate-grey", Flat "#4A5E75");
  ("action-blue", Flat "#2C7BE5")].

Record theme_extension : Type := mkThemeExtension {
  ext_spacing : list (string * string);
  ext_borderRadius : list (string * string);
  ext_fontSize : list (string * (string * string));
  ext_colors : list (string * color_value)
}.

(** [theme.extend] (lines 7-82); [plugins] is empty. *)
Definition extend : theme_extension := mkThemeExtension spacing borderRadius fontSize colors.

(** ** Tailwind's resolution of colour utilities *)

(** A property of an object given as its entries: the last entry of the
    key, as for [Object.assign]. *)
Definition js_prop {A : Type} (l : list (string * A)) (k : string) : option A :=
  (list_to_map (reverse l) : gmap string A) !! k.

(** [{...base, ...ext}] with [f] combining the values of a key present on
    both sides: the keys of [base] in place, then the new keys of [ext]. *)
Definition assign_with {A : Type} (f : A -> A -> A) (base ext : list (string * A))
    : list (string * A) :=
  ((fun kv => match js_prop ext kv.1 with Some e => (kv.1, f kv.2 e) | None => kv end) <$> base) ++
  filter (fun kv => kv.1 ∉ base.*1) ext.

(** The merge of a default colour and its extension. *)
Definition merge_color (d e : color_value) : color_value :=
  match d, e with
  | Shades ds, Shades es => Shades (assign_with (fun _ y => y) ds es)
  | _, _ => e
  end.

Definition merge_colors (defaults ext : list (string * color_value)) : list (string * color_value) :=
  assign_with merge_color defaults ext.

(** The names one entry of a palette gives. *)
Definition flatten_entry (k : string) (v : color_value) : list (string * string) :=
  match v with
  | Flat s => [(k, s)]
  | Shades ss => (fun nh => (if String.eqb nh.1 "DEFAULT" then k else k ++ "-" ++ nh.1, nh.2)%string) <$> ss
  end.

Definition flatten_palette (c : list (string * color_value)) : list (string * string) :=
  flat_map (fun kv => flatten_entry kv.1 kv.2) c.

(** The utilities of the sources that take a colour. *)
Definition color_utilities : list string :=
  ["text"; "bg"; "border"; "ring"; "from"; "via"; "to"; "divide"; "placeholder"].

Fixpoint strip_prefix (p s : string) : option string :=
  match p, s with
  | EmptyString, _ => Some s
  | String c p', String d s' => if Ascii.eqb c d then strip_prefix p' s' else None
  | String _ _, EmptyString => None
  end.

(** The class without its variants ([focus:], [hover:], ...). *)
Definition strip_variants (cls : string) : string := List.last (js_split ":" cls) "".

(** The first colour utility the class starts with, and the colour name. *)
Definition utility_split (b : string) : option (string * string) :=
  head (omap (fun u => (fun r => (u, r)) <$> strip_prefix (u ++ "-") b) color_utilities).

(** The colour a class gives, under the configuration's palette. *)
Definition class_color (defaults : list (string * color_value)) (cls : string) : option string :=
  '(_, name) ← utility_split (strip_variants cls);
  js_prop (flatten_palette (merge_colors defaults colors)) name.

(** ** Lemmas on objects, the merge and the flattening *)

Section Props.
Context {A : Type}.
Implicit Types (l base ext : list (string * A)) (f : A -> A -> A).

Lemma js_prop_In l k v : js_prop l k = Some v -> (k, v) ∈ l.
Proof. unfold js_prop. intros H%elem_of_list_to_map_2. by apply elem_of_reverse. Qed.

Lemma js_prop_None l k : js_prop l k = None <-> k ∉ l.*1.
Proof.
  unfold js_prop. rewrite <- not_elem_of_list_to_map, fmap_reverse.
  by rewrite elem_of_reverse.
Qed.

(** A key whose entries all hold [v] has the property [v]. *)
Lemma js_prop_single l k v : (k, v) ∈ l -> (forall w, (k, w) ∈ l -> w = v) -> js_prop l k = Some v.
Proof.
  intros Hin Hall. unfold js_prop. apply elem_of_list_to_map_1'.
  - intros w Hw. rewrite elem_of_reverse in Hw. symmetry. by apply Hall.
  - by apply elem_of_reverse.
Qed.

Lemma js_prop_NoDup l k v : NoDup l.*1 -> (k, v) ∈ l -> js_prop l k = Some v.
Proof.
  intros Hnd Hin. unfold js_prop. apply elem_of_list_to_map_1.
  - by rewrite fmap_reverse, reverse_Permutation.
  - by apply elem_of_reverse.
Qed.

Lemma elem_of_assign_with f base ext kv :
  kv ∈ assign_with f base ext <->
  (exists kb, kb ∈ base /\ kv = match js_prop ext kb.1 with Some e => (kb.1, f kb.2 e) | None => kb end) \/
  (kv ∈ ext /\ kv.1 ∉ base.*1).
Proof.
  unfold assign_with. rewrite elem_of_app, list_elem_of_fmap, list_elem_of_filter.
  split; (intros [(kb & H1 & H2) | [H1 H2]]; [left; by exists kb | by right]).
Qed.

(** Every key of either side is a key of the result. *)
Lemma assign_with_keys f base ext k : k ∈ base.*1 \/ k ∈ ext.*1 -> k ∈ (assign_with f base ext).*1.
Proof.
  intros Hk. destruct (decide (k ∈ base.*1)) as [Hb|Hb].
  - apply list_elem_of_fmap in Hb as ([k' a] & -> & Hb). apply list_elem_of_fmap.
    exists (match js_prop ext k' with Some e => (k', f a e) | None => (k', a) end).
    split; [by destruct (js_prop ext k') |].
    apply elem_of_assign_with. left. by exists (k', a).
  - destruct Hk as [? | Hk]; [done |].
    apply list_elem_of_fmap in Hk as ([k' a] & -> & He). apply list_elem_of_fmap.
    exists (k', a). split; [done |]. apply elem_of_assign_with. by right.
Qed.

End Props.

Lemma elem_of_flatten_palette (c : list (string * color_value)) (k v : string) :
  (k, v) ∈ flatten_palette c <-> exists k0 cv, (k0, cv) ∈ c /\ (k, v) ∈ flatten_entry k0 cv.
Proof.
  unfold flatten_palette. rewrite list_elem_of_In, in_flat_map. split.
  - intros ([k0 cv] & Hin & Hk). exists k0, cv. by rewrite !list_elem_of_In.
  - intros (k0 & cv & Hin & Hk). exists (k0, cv). by rewrite <- !list_elem_of_In.
Qed.

(** The names of an entry depend on its shade keys only. *)
Lemma flatten_entry_keys (k0 k : string) (cv : color_value) :
  k ∈ (flatten_entry k0 cv).*1 <->
  match cv with
  | Flat _ => k = k0
  | Shades ss => exists n, n ∈ ss.*1 /\ k = (if String.eqb n "DEFAULT" then k0 else k0 ++ "-" ++ n)%string
  end.
Proof.
  destruct cv as [s | ss]; cbn [flatten_entry].
  - by rewrite list_fmap_singleton, list_elem_of_singleton.
  - rewrite <- list_fmap_compose. rewrite !list_elem_of_fmap. split.
    + intros ([n h] & -> & Hin). exists n. split; [| done]. apply list_elem_of_fmap. by exists (n, h).
    + intros (n & ([n' h] & -> & Hin)%list_elem_of_fmap & ->). by exists (n', h).
Qed.

Lemma flatten_palette_keys (c : list (string * color_value)) (k0 k : string) (cv : color_value) :
  (k0, cv) ∈ c -> k ∈ (flatten_entry k0 cv).*1 -> k ∈ (flatten_palette c).*1.
Proof.
  intros Hin ([k' v] & -> & Hk)%list_elem_of_fmap. apply list_elem_of_fmap.
  exists (k', v). split; [done |]. apply elem_of_flatten_palette. eauto.
Qed.

(** A name of the merged palette is a name of the default palette, or an
    entry of the extension's. *)
Lemma flatten_merge_from (d e : list (string * color_value)) (k v : string) :
  (k, v) ∈ flatten_palette (merge_colors d e) ->
  k ∈ (flatten_palette d).*1 \/ (k, v) ∈ flatten_palette e.
Proof.
  intros (k0 & cv & Hin & Hk)%elem_of_flatten_palette.
  apply elem_of_assign_with in Hin as [([kb db] & Hb & Heq) | [He _]].
  - cbn [fst snd] in Heq. destruct (js_prop e kb) as [ev|] eqn:Hp; simplify_eq.
    + apply js_prop_In in Hp.
      destruct db as [s | ds], ev as [s' | es]; cbn [merge_color] in Hk;
        try (right; apply elem_of_flatten_palette; by eauto).
      cbn [flatten_entry] in Hk. apply list_elem_of_fmap in Hk as ([n h] & Heq & Hn).
      simplify_eq. apply elem_of_assign_with in Hn as [([nb hb] & Hnb & Heq) | [Hes _]].
      * left. apply (flatten_palette_keys _ kb _ (Shades ds) Hb), flatten_entry_keys.
        exists nb. split; [apply list_elem_of_fmap; by exists (nb, hb) |].
        cbn [fst] in Heq. by destruct (js_prop es nb); simplify_eq.
      * right. apply elem_of_flatten_palette. exists kb, (Shades es). split; [done |].
        apply list_elem_of_fmap. by exists (n, h).
    + left. eapply flatten_palette_keys; [exact Hb |].
      apply list_elem_of_fmap. by exists (k, v).
  - right. apply elem_of_flatten_palette. eauto.
Qed.

(** Every name of the extension's palette is a name of the merged one. *)
Lemma flatten_merge_ext_keys (d e : list (string * color_value)) (k : string) :
  NoDup e.*1 -> k ∈ (flatten_palette e).*1 -> k ∈ (flatten_palette (merge_colors d e)).*1.
Proof.
  intros Hnd ([k' v] & -> & (k0 & ev & He & Hk)%elem_of_flatten_palette)%list_elem_of_fmap.
  assert (Hk' : k' ∈ (flatten_entry k0 ev).*1) by (apply list_elem_of_fmap; by exists (k', v)).
  destruct (decide (k0 ∈ d.*1)) as [Hd | Hd].
  - apply list_elem_of_fmap in Hd as ([k1 dv] & Heq & Hd). cbn [fst] in Heq; subst k1.
    apply (flatten_palette_keys _ k0 _ (merge_color dv ev)).
    + apply elem_of_assign_with. left. exists (k0, dv). split; [done |].
      cbn [fst snd]. by rewrite (js_prop_NoDup e k0 ev Hnd He).
    + apply flatten_entry_keys in Hk'. apply flatten_entry_keys.
      destruct dv as [s | ds], ev as [s' | es]; cbn [merge_color]; try done.
      destruct Hk' as (n & Hn & ->). exists n. split; [| done].
      apply assign_with_keys. by right.
  - apply (flatten_palette_keys _ k0 _ ev); [| done].
    apply elem_of_assign_with. by right.
Qed.

(** When no default colour has an extension's name, the merge appends the
    extension. *)
Lemma merge_colors_disjoint (d e : list (string * color_value)) :
  Forall (fun kv => kv.1 ∉ e.*1) d -> Forall (fun kv => kv.1 ∉ d.*1) e -> merge_colors d e = (d ++ e)%list.
Proof.
  intros Hd He. unfold merge_colors, assign_with. f_equal.
  - rewrite <- (list_fmap_id d) at 2. apply list_fmap_ext. intros i [k a] Hi.
    apply list_elem_of_lookup_2 in Hi. rewrite Forall_forall in Hd.
    cbn [fst]. by rewrite (proj2 (js_prop_None e k) (Hd _ Hi)).
  - clear Hd. induction He as [| kv e Hkv _ IH]; [done |].
    rewrite filter_cons, decide_True by exact Hkv. by f_equal.
Qed.

Lemma js_prop_app {B : Type} (l1 l2 : list (string * B)) (k : string) :
  js_prop (l1 ++ l2)%list k = match js_prop l2 k with Some v => Some v | None => js_prop l1 k end.
Proof.
  unfold js_prop. rewrite reverse_app, list_to_map_app.
  destruct ((list_to_map (reverse l2) : gmap string B) !! k) eqn:H.
  - by erewrite lookup_union_Some_l.
  - by rewrite lookup_union_r.
Qed.

Lemma js_prop_is_Some {B : Type} (l : list (string * B)) (k : string) : is_Some (js_prop l k) <-> k ∈ l.*1.
Proof. rewrite <- not_eq_None_Some, js_prop_None. split; [apply dec_stable | tauto]. Qed.

Lemma flatten_palette_app (c1 c2 : list (string * color_value)) :
  flatten_palette (c1 ++ c2)%list = (flatten_palette c1 ++ flatten_palette c2)%list.
Proof. apply flat_map_app. Qed.

(** Every colour utility splits off its own name, whatever follows it. *)
Lemma utility_split_color (u name : string) :
  u ∈ color_utilities -> utility_split (u ++ "-" ++ name)%string = Some (u, name).
Proof.
  intros Hu. repeat (apply elem_of_cons in Hu as [-> | Hu]; [reflexivity |]).
  by apply elem_of_nil in Hu.
Qed.

(** The configuration's palette is merged into a default palette that has
    none of its colours by appending it. *)
Lemma merge_colors_defaults (defaults : list (string * color_value)) :
  Forall (fun kv => kv.1 ∉ colors.*1) defaults -> merge_colors defaults colors = (defaults ++ colors)%list.
Proof.
  intros Hd. apply merge_colors_disjoint; [done |].
  apply Forall_forall. intros [k cv] Hin ([k' dv] & Heq & Hk')%list_elem_of_fmap.
  cbn [fst] in *. subst k'. rewrite Forall_forall in Hd. apply (Hd _ Hk').
  apply list_elem_of_fmap. by exists (k, cv).
Qed.

(** The only names of the configuration's palette starting with
    [primary-] are [primary-600]. *)
Lemma primary_names (defaults : list (string * color_value)) (k v : string) :
  Forall (fun n => String.prefix "primary-" n = false) (flatten_palette defaults).*1 ->
  (k, v) ∈ flatten_palette (merge_colors defaults colors) -> String.prefix "primary-" k = true ->
  k = "primary-600" /\ v = "#2C7BE5".
Proof.
  intros Hd Hin Hp. apply flatten_merge_from in Hin as [Hk | Hin].
  - rewrite Forall_forall in Hd. by rewrite (Hd _ Hk) in Hp.
  - apply list_elem_of_In in Hin. cbn in Hin.
    repeat destruct Hin as [Heq | Hin]; simplify_eq; done.
Qed.

(** A class resolves exactly when its name is one of the palette's. *)
Lemma class_color_is_Some (defaults : list (string * color_value)) (tok u name : string) :
  Forall (fun kv => kv.1 ∉ colors.*1) defaults ->
  utility_split (strip_variants tok) = Some (u, name) ->
  name ∈ (flatten_palette defaults).*1 \/ name ∈ (flatten_palette colors).*1 ->
  is_Some (class_color defaults tok).
Proof.
  intros Hd Hs Hn. unfold class_color. rewrite Hs. cbn [mbind option_bind].
  rewrite merge_colors_defaults, flatten_palette_app by done.
  apply js_prop_is_Some. rewrite fmap_app, elem_of_app. done.
Qed.

Lemma elem_of_zip_with_r {X Y Z : Type} (f : X -> Y -> Z) (xs : list X) (ys : list Y) (z : Z) :
  z ∈ zip_with f xs ys -> exists x y, y ∈ ys /\ z = f x y.
Proof.
  revert ys. induction xs as [| x xs IH]; intros [| y ys] Hz; cbn in Hz;
    try by apply elem_of_nil in Hz.
  apply elem_of_cons in Hz as [-> | Hz]; [exists x, y; split; [left | done] |].
  destruct (IH ys Hz) as (x' & y' & Hy & ->). exists x', y'. split; [by right | done].
Qed.

(** The palette names [primary-<shade>]: the configured colour for
    [600], nothing for any other shade. *)
Lemma primary_lookup (defaults : list (string * color_value)) (shade : string) :
  Forall (fun n => String.prefix "primary-" n = false) (flatten_palette defaults).*1 ->
  js_prop (flatten_palette (merge_colors defaults colors)) ("primary-" ++ shade)%string =
  if String.eqb shade "600" then Some "#2C7BE5" else None.
Proof.
  intros Hd.
  assert (Hpre : String.prefix "primary-" ("primary-" ++ shade) = true)
    by (apply prefix_spec; by eexists).
  destruct (String.eqb_spec shade "600") as [-> | Hne].
  - assert (Hk : "primary-600" ∈ (flatten_palette (merge_colors defaults colors)).*1).
    { apply flatten_merge_ext_keys; decide_goal. }
    apply list_elem_of_fmap in Hk as ([k v] & Heq & Hin). cbn [fst] in Heq. subst k.
    apply js_prop_single.
    + by destruct (primary_names defaults _ v Hd Hin Hpre) as [_ ->].
    + intros w Hw. by destruct (primary_names defaults _ w Hd Hw Hpre).
  - apply js_prop_None. intros ([k v] & Heq & Hin)%list_elem_of_fmap. cbn [fst] in Heq. subst k.
    destruct (primary_names defaults _ v Hd Hin Hpre) as [Hk _].
    apply Hne, (js_append_inj_l "primary-"). exact Hk.
Qed.

Lemma class_color_split (defaults : list (string * color_value)) (cls u name : string) :
  utility_split (strip_variants cls) = Some (u, name) ->
  class_color defaults cls = js_prop (flatten_palette (merge_colors defaults colors)) name.
Proof. intros Hs. unfold class_color. by rewrite Hs. Qed.

(** ** Properties *)

(** C30: The configuration defines the single shade [600] of [primary]: under a
    default palette with no name starting with [primary-], a colour
    utility with any variants resolves [primary-600] to the configured
    colour and every other shade to nothing. *)
Theorem primary_shades_unstyled (defaults : list (string * color_value)) (cls u shade : string) :
  Forall (fun n => String.prefix "primary-" n = false) (flatten_palette defaults).*1 ->
  u ∈ color_utilities ->
  strip_variants cls = (u ++ "-primary-" ++ shade)%string ->
  class_color defaults cls = if String.eqb shade "600" then Some "#2C7BE5" else None.
Proof.
  intros Hd Hu Hcls. rewrite <- (primary_lookup defaults shade Hd).
  apply (class_color_split _ _ u). rewrite Hcls. exact (utility_split_color u _ Hu).
Qed.

(** The selected work-type or compensation button of the posting form is
    told apart by its border only: of its three [primary] classes,
    [bg-primary-50] and [text-primary-700] give no colour. *)
Lemma selected_choice_border_only (defaults : list (string * color_value)) :
  Forall (fun n => String.prefix "primary-" n = false) (flatten_palette defaults).*1 ->
  map (class_color defaults)
    (List.filter (fun tok => match utility_split (strip_variants tok) with
                             | Some (_, n) => String.prefix "primary-" n
                             | None => false
                             end) (js_split " " (Recruiter.choice_button_class true))) =
  [Some "#2C7BE5"; None; None].
Proof.
  intros Hd.
  match goal with |- map _ ?l = _ =>
    assert (Ht : l = ["border-primary-600"; "bg-primary-50"; "text-primary-700"]) by reflexivity end.
  rewrite Ht. cbn [map].
  rewrite (class_color_split defaults "border-primary-600" "border" ("primary-" ++ "600")) by reflexivity.
  rewrite (class_color_split defaults "bg-primary-50" "bg" ("primary-" ++ "50")) by reflexivity.
  rewrite (class_color_split defaults "text-primary-700" "text" ("primary-" ++ "700")) by reflexivity.
  rewrite !primary_lookup by done. reflexivity.
Qed.

(** The icon boxes of the student dashboard's stat cards are styled: every
    colour class they hold resolves, given a default palette without the
    configuration's colour names that has the four families' shades. *)
Theorem stat_cards_styled (defaults : list (string * color_value)) (values : list nat) :
  Forall (fun kv => kv.1 ∉ colors.*1) defaults ->
  Forall (fun n => n ∈ (flatten_palette defaults).*1)
    ["blue-50"; "green-50"; "green-600"; "purple-50"; "orange-50"; "orange-600"] ->
  forall c, c ∈ Dashboard.render_stat_cards values ->
  forall tok, tok ∈ js_split " " (Dashboard.sc_icon_class c) ->
  utility_split (strip_variants tok) = None \/ is_Some (class_color defaults tok).
Proof.
  intros Hd Hn c Hc tok Htok. rewrite Forall_forall in Hn.
  apply elem_of_zip_with_r in Hc as (v & card & Hcard & ->).
  repeat (apply elem_of_cons in Hcard as [-> | Hcard]); [.. | by apply elem_of_nil in Hcard];
    vm_compute in Htok; repeat (apply elem_of_cons in Htok as [-> | Htok]);
    try (by apply elem_of_nil in Htok); try (left; reflexivity);
    right; (eapply class_color_is_Some; [exact Hd | reflexivity |]);
    first [left; apply Hn; decide_goal | right; decide_goal].
Qed.

(** ** Witnesses *)

(** A part of Tailwind's default palette: the families the student
    dashboard's stat cards use. *)
Definition sample_defaults : list (string * color_value) := [
  ("blue", Shades [("50", "#eff6ff"); ("500", "#3b82f6"); ("600", "#2563eb")]);
  ("green", Shades [("50", "#f0fdf4"); ("600", "#16a34a")]);
  ("purple", Shades [("50", "#faf5ff"); ("600", "#9333ea")]);
  ("orange", Shades [("50", "#fff7ed"); ("600", "#ea580c")]);
  ("gray", Shades [("200", "#e5e7eb"); ("500", "#6b7280")])].

(** The focus ring of the contact form's fields ([focus:ring-primary-500],
    the last class of [field_class]) has no colour, while
    [hover:text-primary-600] has the configured one. *)
Lemma primary_shades_unstyled_witness :
  class_color sample_defaults (List.last (js_split " " Static.field_class) "") = None /\
  class_color sample_defaults "hover:text-primary-600" = Some "#2C7BE5".
Proof.
  split.
  - exact (primary_shades_unstyled sample_defaults (List.last (js_split " " Static.field_class) "")
             "ring" "500" ltac:(decide_goal) ltac:(decide_goal) ltac:(vm_compute; reflexivity)).
  - exact (primary_shades_unstyled sample_defaults "hover:text-primary-600" "text" "600"
             ltac:(decide_goal) ltac:(decide_goal) eq_refl).
Defined.

Lemma stat_cards_styled_witness :
  is_Some (class_color sample_defaults "bg-purple-50") /\ is_Some (class_color sample_defaults "text-accent-600").
Proof.
  assert (Hd : Forall (fun kv => kv.1 ∉ colors.*1) sample_defaults) by decide_goal.
  assert (Hn : Forall (fun n => n ∈ (flatten_palette sample_defaults).*1)
                 ["blue-50"; "green-50"; "green-600"; "purple-50"; "orange-50"; "orange-600"]) by decide_goal.
  assert (Hc : Dashboard.StatCard 0 ("Saved", "purple") ∈ Dashboard.render_stat_cards [1; 0; 0; 2]%nat)
    by (apply list_elem_of_In; right; right; left; reflexivity).
  split.
  - destruct (stat_cards_styled sample_defaults [1; 0; 0; 2]%nat Hd Hn _ Hc "bg-purple-50")
      as [H | H]; [decide_goal | discriminate | exact H].
  - destruct (stat_cards_styled sample_defaults [1; 0; 0; 2]%nat Hd Hn _ Hc "text-accent-600")
      as [H | H]; [decide_goal | discriminate | exact H].
Defined.

End Theme.
