(* ===== verification/Adzuna.v ===== *)
(** * The request to the external job API and its loading effect:
      [DataContext.jsx] lines 19-22, 61-119, 186-195

    [fetchAdzunaInternships] does four things:
    - it tests the two credentials against their placeholders;
    - it builds the query of its request with [URLSearchParams] (lines
      68-86);
    - it fetches the URL of line 88;
    - it maps the [results] of the answer with [Provider.adzuna_listing],
      and any exception on the way (a failed request, a status that is not
      [ok], a body that is not JSON, a missing [results], a record without
      [company], [location] or [category]) makes it return [[]].

    The network is an argument ([fetch]: what a request to a URL gives).
    [URLSearchParams] is a library.  Its serialisation is written here from
    the WHATWG URL standard
    ([application/x-www-form-urlencoded]):
    - ASCII alphanumerics and [*-._] are kept;
    - the space becomes [+];
    - every other byte of the UTF-8 encoding becomes [%XX].
    Its parser undoes this.  The credentials are arguments of [fetch_with];
    [fetchAdzunaInternships] applies it to the constants the file ships.

    The provider's effect runs once, on mount (deps [[]]).  It sets
    [isLoadingExternal], awaits the fetch, then stores the listings and
    clears the flag ([ext_step]). *)

From S2P Require Import Prelude Listings Provider.
Import Listings Provider.

Module Adzuna.

(** ** The request *)

(** Lines 20-22. *)
Definition ADZUNA_BASE_URL : string := "https://api.adzuna.com/v1/api/jobs".
Definition ADZUNA_API_VERSION : string := "1.0".
Definition ADZUNA_COUNTRY : string := "gb".

(** The entries given to [new URLSearchParams] (lines 68-86), in order;
    numbers become their decimal text. *)
Definition adzuna_params (app_id app_key query location : string) (page : Z) : list (string * string) := [
  ("app_id", app_id); ("app_key", app_key); ("results_per_page", js_int_string 50);
  ("what", query); ("where", location); ("content_type", "application/json");
  ("sort_by", "date"); ("distance", "100"); ("full_time", "0"); ("part_time", "0");
  ("contract", "0"); ("permanent", "0"); ("temp", "0"); ("page", js_int_string page)].

(** Upper-case hexadecimal digit. *)
Definition hex_digit (n : nat) : ascii := ascii_of_nat (if (n <? 10)%nat then 48 + n else 55 + n)%nat.

Definition pct (n : nat) : string :=
  String "%" (String (hex_digit (n / 16)%nat) (String (hex_digit (n mod 16)%nat) "")).

(** The byte kept as it is by the urlencoded serialiser. *)
Definition url_safe (c : ascii) : bool :=
  let n := nat_of_ascii c in
  ((48 <=? n) && (n <=? 57))%nat || ((65 <=? n) && (n <=? 90))%nat ||
  ((97 <=? n) && (n <=? 122))%nat || (n =? 42)%nat || (n =? 45)%nat || (n =? 46)%nat ||
  (n =? 95)%nat.

(** One character: kept, [+] for the space, or the percent-encoded bytes
    of its UTF-8 encoding (one byte below 128, two above). *)
Definition enc_char (c : ascii) : string :=
  let n := nat_of_ascii c in
  if url_safe c then String c ""
  else if (n =? 32)%nat then "+"
  else if (n <? 128)%nat then pct n
  else pct (192 + n / 64)%nat ++ pct (128 + n mod 64)%nat.

Fixpoint url_encode (s : string) : string :=
  match s with
  | EmptyString => EmptyString
  | String c s' => enc_char c ++ url_encode s'
  end.

(** One entry of the serialised query. *)
Definition piece_of (kv : string * string) : string := url_encode kv.1 ++ "=" ++ url_encode kv.2.

(** [params.toString()] *)
Definition params_toString (ps : list (string * string)) : string :=
  js_join "&" (map piece_of ps).

(** The URL of line 88. *)
Definition adzuna_url (app_id app_key query location : string) (page : Z) : string :=
  ADZUNA_BASE_URL ++ "/" ++ ADZUNA_API_VERSION ++ "/" ++ ADZUNA_COUNTRY ++ "/search?" ++
  params_toString (adzuna_params app_id app_key query location page).

(** ** The urlencoded parser *)

Definition hex_value (c : ascii) : option nat :=
  let n := nat_of_ascii c in
  if ((48 <=? n) && (n <=? 57))%nat then Some (n - 48)%nat
  else if ((65 <=? n) && (n <=? 70))%nat then Some (n - 55)%nat
  else if ((97 <=? n) && (n <=? 102))%nat then Some (n - 87)%nat
  else None.

(** [+] is a space; [%] and two hexadecimal digits is a byte; any other
    [%] is itself. *)
Fixpoint url_decode (s : string) : string :=
  match s with
  | EmptyString => EmptyString
  | String c s' =>
      if Ascii.eqb c "+" then String " " (url_decode s')
      else if Ascii.eqb c "%" then
        match s' with
        | String h1 (String h2 s'') =>
            match hex_value h1, hex_value h2 with
            | Some a, Some b => String (ascii_of_nat (16 * a + b)%nat) (url_decode s'')
            | _, _ => String c (url_decode s')
            end
        | _ => String c (url_decode s')
        end
      else String c (url_decode s')
  end.

(** The text before the first [c], and the text after it if there is one. *)
Fixpoint split_first (c : ascii) (s : string) : string * option string :=
  match s with
  | EmptyString => (EmptyString, None)
  | String d s' =>
      if Ascii.eqb d c then (EmptyString, Some s')
      else let '(a, b) := split_first c s' in (String d a, b)
  end.

(** A piece of a query, split at its first [=]; an empty piece is
    skipped. *)
Definition parse_piece (seq : string) : option (string * string) :=
  if js_falsy seq then None
  else let '(n, v) := split_first "=" seq in Some (url_decode n, url_decode (default "" v)).

(** [new URLSearchParams(query)]: the pieces between [&]. *)
Definition parse_params (q : string) : list (string * string) := omap parse_piece (js_split "&" q).

(** The query of a URL: what follows its first [?]. *)
Definition url_query (url : string) : string := default "" (split_first "?" url).2.

(** ** The fetch *)

(** What [await fetch(url)] and [await response.json()] give: the
    request fails, or the response has its [ok] flag and a body; the
    body is not JSON ([None]), has no [results] array ([Some None]), or
    has records, each with the nested fields the mapping reads or not
    ([None] for a record whose [company], [location] or [category] is
    missing). *)
Inductive http_result : Type :=
| NetworkError
| Response (ok : bool) (body : option (option (list (option adzuna_job)))).

(** The records of [data.results.map(...)], if none throws. *)
Fixpoint all_records (rs : list (option adzuna_job)) : option (list adzuna_job) :=
  match rs with
  | [] => Some []
  | None :: _ => None
  | Some j :: rs' => (fun js => j :: js) <$> all_records rs'
  end.

Section Fetch.
Context (toISODate : string -> string) (random_applicants : adzuna_job -> Z).

(** [fetchAdzunaInternships(query, location, page)] with the credentials
    [app_id] and [app_key] (lines 62-119). *)
Definition fetch_with (app_id app_key : string) (fetch : string -> http_result)
    (query location : string) (page : Z) : list listing :=
  if String.eqb app_id "YOUR_ADZUNA_APP_ID" || String.eqb app_key "YOUR_ADZUNA_APP_KEY" then []
  else
    match fetch (adzuna_url app_id app_key query location page) with
    | Response true (Some (Some rs)) =>
        match all_records rs with
        | Some jobs => map (adzuna_listing toISODate random_applicants) jobs
        | None => []
        end
    | _ => []
    end.

(** The call of the effect (line 190): the defaults [internship], [''],
    [1] and the shipped credentials. *)
Definition fetchAdzunaInternships_call (fetch : string -> http_result) : list listing :=
  fetch_with ADZUNA_APP_ID ADZUNA_APP_KEY fetch "internship" "" 1.

(** The provider's external state: the listings, the flag, and whether
    the awaited fetch is still pending. *)
Record ext_state : Type := mkExtState {
  externalInternships : list listing;
  isLoadingExternal : bool;
  ext_pending : bool
}.

Definition initial_ext : ext_state := mkExtState [] false false.

(** The effect of lines 187-195, on mount, and the resumption after the
    [await]. *)
Inductive ext_step (fetch : string -> http_result) : ext_state -> ext_state -> Prop :=
| ExtMount : ext_step fetch initial_ext (mkExtState [] true true)
| ExtResolve (l : list listing) :
    ext_step fetch (mkExtState l true true)
      (mkExtState (fetchAdzunaInternships_call fetch) false false).

End Fetch.

Definition ext_inv (s : ext_state) : Prop :=
  isLoadingExternal s = ext_pending s /\ externalInternships s = [].

#[export] Instance adzuna_job_eq_dec : EqDecision adzuna_job.
Proof. solve_decision. Defined.

(** ** Lemmas on the codec *)

(** Every 7-bit character is decoded back from its encoding, whatever
    follows. *)
Lemma url_decode_enc_char (c : ascii) (rest : string) :
  (nat_of_ascii c < 128)%nat -> url_decode (enc_char c ++ rest) = String c (url_decode rest).
Proof.
  intros Hc. destruct c as [[] [] [] [] [] [] [] []];
    first [reflexivity | exfalso; vm_compute in Hc; lia].
Qed.

Lemma enc_char_no_sep (c : ascii) :
  js_has_char "&" (enc_char c) = false /\ js_has_char "=" (enc_char c) = false /\
  js_has_char "?" (enc_char c) = false.
Proof. destruct c as [[] [] [] [] [] [] [] []]; split_and!; reflexivity. Qed.

Lemma url_encode_no_sep (s : string) (sep : ascii) :
  sep ∈ ["&"; "="; "?"]%char -> js_has_char sep (url_encode s) = false.
Proof.
  intros Hsep. induction s as [|c s IH]; [done |]. cbn [url_encode].
  rewrite js_has_char_app, IH, orb_false_r.
  destruct (enc_char_no_sep c) as (H1 & H2 & H3).
  repeat (apply elem_of_cons in Hsep as [-> | Hsep]; [done |]). by apply elem_of_nil in Hsep.
Qed.

(** [decodeURIComponent]-style decoding undoes the urlencoded encoding of
    a 7-bit string. *)
Lemma url_decode_encode (s : string) : js_ascii7 s = true -> url_decode (url_encode s) = s.
Proof.
  induction s as [|c s IH]; [done |]. cbn [js_ascii7 url_encode].
  intros [Hc Hs]%andb_true_iff. apply Nat.ltb_lt in Hc.
  by rewrite url_decode_enc_char, IH.
Qed.

Lemma split_first_app (c : ascii) (a b : string) :
  js_has_char c a = false -> split_first c (a ++ String c b) = (a, Some b).
Proof.
  induction a as [|d a IH]; cbn [js_has_char].
  - intros _. rewrite js_append_nil_l. cbn. by rewrite Ascii.eqb_refl.
  - intros [Hd Ha]%orb_false_iff. rewrite js_append_cons. cbn [split_first].
    by rewrite Hd, IH.
Qed.

Lemma parse_piece_of (kv : string * string) :
  js_ascii7 kv.1 = true -> js_ascii7 kv.2 = true -> parse_piece (piece_of kv) = Some kv.
Proof.
  destruct kv as [k v]. cbn [fst snd]. intros Hk Hv. unfold parse_piece, piece_of. cbn [fst snd].
  change ("=" ++ url_encode v)%string with (String "=" (url_encode v)).
  replace (js_falsy (url_encode k ++ String "=" (url_encode v))) with false
    by (by destruct (url_encode k)).
  rewrite split_first_app by (apply url_encode_no_sep; repeat constructor).
  cbn [default id]. by rewrite !url_decode_encode.
Qed.

(** [new URLSearchParams(params.toString())] gives back the entries, when
    they are 7-bit text. *)
Lemma parse_params_toString (ps : list (string * string)) :
  Forall (fun kv => js_ascii7 kv.1 = true /\ js_ascii7 kv.2 = true) ps ->
  parse_params (params_toString ps) = ps.
Proof.
  intros Hps. unfold parse_params, params_toString.
  destruct ps as [| kv ps]; [reflexivity |].
  rewrite js_split_join.
  - revert Hps. generalize (kv :: ps). intros l Hl.
    induction Hl as [| kv' l [Hk Hv] _ IH]; [done |].
    cbn [map]. pose proof (parse_piece_of kv' Hk Hv) as Hp.
    change (omap parse_piece (piece_of kv' :: map piece_of l)) with
      (match parse_piece (piece_of kv') with
       | Some y => y :: omap parse_piece (map piece_of l)
       | None => omap parse_piece (map piece_of l)
       end).
    rewrite Hp. by f_equal.
  - by destruct ps.
  - apply Forall_forall. intros w ([k v] & <- & _)%list_elem_of_In%in_map_iff.
    unfold piece_of. rewrite !js_has_char_app. cbn [fst snd js_has_char].
    rewrite !url_encode_no_sep by (repeat constructor). reflexivity.
Qed.

Lemma all_records_None (rs : list (option adzuna_job)) : None ∈ rs -> all_records rs = None.
Proof.
  induction rs as [| [j|] rs IH]; cbn [all_records]; intros Hin.
  - by apply elem_of_nil in Hin.
  - apply elem_of_cons in Hin as [Hin | Hin]; [discriminate |]. by rewrite IH.
  - reflexivity.
Qed.

Lemma all_records_Some (jobs : list adzuna_job) : all_records (Some <$> jobs) = Some jobs.
Proof. induction jobs as [| j jobs IH]; [done |]. cbn. by rewrite IH. Qed.

(** ** Properties *)

(** Whatever the visitor's query and location, the request carries
    exactly the fourteen parameters of lines 68-86, in order, with [what]
    and [where] the query and the location: no text of theirs can add,
    drop or change a parameter. *)
Theorem adzuna_request_query (app_id app_key query location : string) (page : Z) :
  js_ascii7 app_id = true -> js_ascii7 app_key = true ->
  js_ascii7 query = true -> js_ascii7 location = true ->
  parse_params (url_query (adzuna_url app_id app_key query location page)) =
  adzuna_params app_id app_key query location page.
Proof.
  intros Hid Hkey Hq Hl. unfold url_query.
  change (adzuna_url app_id app_key query location page) with
    ("https://api.adzuna.com/v1/api/jobs/1.0/gb/search" ++
     String "?" (params_toString (adzuna_params app_id app_key query location page)))%string.
  rewrite split_first_app by reflexivity. cbn [snd default id].
  apply parse_params_toString.
  repeat constructor; cbn [fst snd]; first [done | apply js_int_string_ascii7].
Qed.

(** With the credentials the file ships, the call of the effect returns
    [[]] without consulting the network. *)
Lemma shipped_call_empty (toISO : string -> string) (rnd : adzuna_job -> Z) (fetch : string -> http_result) :
  fetchAdzunaInternships_call toISO rnd fetch = [].
Proof. reflexivity. Qed.

(** With real credentials, one record without the nested fields the
    mapping reads makes the whole answer count for nothing: the
    [TypeError] of [data.results.map] is caught and [[]] returned. *)
Theorem malformed_record_drops_answer (toISO : string -> string) (rnd : adzuna_job -> Z)
    (app_id app_key query location : string) (page : Z) (fetch : string -> http_result)
    (rs : list (option adzuna_job)) :
  String.eqb app_id "YOUR_ADZUNA_APP_ID" = false -> String.eqb app_key "YOUR_ADZUNA_APP_KEY" = false ->
  fetch (adzuna_url app_id app_key query location page) = Response true (Some (Some rs)) ->
  fetch_with toISO rnd app_id app_key fetch query location page =
  if bool_decide (None ∈ rs) then []
  else map (adzuna_listing toISO rnd) (omap id rs).
Proof.
  intros Hid Hkey Hf. unfold fetch_with. rewrite Hid, Hkey, Hf. cbn [orb].
  case_bool_decide as Hn; [by rewrite all_records_None |].
  assert (Hrs : rs = Some <$> omap id rs).
  { clear Hf. induction rs as [| [j|] rs IH]; [done | |].
    - cbn. f_equal. apply IH. intros Hin. apply Hn. by right.
    - destruct Hn. by left. }
  rewrite Hrs at 1. by rewrite all_records_Some.
Qed.

(** The loading flag is set exactly while the fetch is pending, and with
    the shipped credentials the external listings stay empty. *)
Lemma ext_reachable_inv (toISO : string -> string) (rnd : adzuna_job -> Z) (fetch : string -> http_result)
    (s : ext_state) :
  star (ext_step toISO rnd fetch) initial_ext s -> ext_inv s.
Proof.
  apply star_inv; [| split; reflexivity].
  intros x y _ Hs. destruct Hs; split; reflexivity.
Qed.

(** ** Witnesses *)

(** A query that looks like a second parameter stays the value of
    [what]. *)
Lemma adzuna_request_query_witness :
  parse_params (url_query (adzuna_url "id1" "key1" "ai&where=london" "" 1)) =
  adzuna_params "id1" "key1" "ai&where=london" "" 1 /\
  url_query (adzuna_url "id1" "key1" "ai&where=london" "" 1) =
  "app_id=id1&app_key=key1&results_per_page=50&what=ai%26where%3Dlondon&where=&content_type=application%2Fjson&sort_by=date&distance=100&full_time=0&part_time=0&contract=0&permanent=0&temp=0&page=1".
Proof.
  split; [apply adzuna_request_query; reflexivity | vm_compute; reflexivity].
Defined.

Definition demo_job : adzuna_job :=
  mkJob "9" "Data intern" "Acme Ltd" "London" 0 false "IT Jobs" "2024-05-01T00:00:00Z" "SQL and Python" "https://adzuna.example/9".

Lemma malformed_record_drops_answer_witness :
  fetch_with id (fun _ => 0%Z) "id1" "key1" (fun _ => Response true (Some (Some [Some demo_job; None])))
    "internship" "" 1 = [].
Proof.
  rewrite (malformed_record_drops_answer id (fun _ => 0%Z) "id1" "key1" "internship" "" 1
             (fun _ => Response true (Some (Some [Some demo_job; None]))) [Some demo_job; None])
    by reflexivity.
  reflexivity.
Defined.

End Adzuna.
